(** * VIN decoder: a shallow embedding of [VinApi_Query.py] and
    [Vin_Decoder_QueryApi_Test.py], and the properties of their
    validation, structural decoding, retry, standardization and
    comparison logic.

    The file has four parts: a model of the Python runtime pieces the
    two scripts rely on (text, exceptions, values, floats, the remote
    service), the two scripts themselves, one module each, the notions
    the statements use, and the lemmas. *)

From Stdlib Require Import ZArith NArith Lia String Ascii.
From Stdlib Require Import Floats.PrimFloat Floats.SpecFloat Floats.FloatOps.
From stdpp Require Import base option list gmap.

Set Warnings "-inexact-float".
Local Open Scope N_scope.

(** ** Python text

    A Python [str] is a sequence of Unicode code points: [list N].
    The character predicates and case mappings below are those of
    CPython 3.11's [str] methods and of the [re] classes [\w], [\s] and
    [\d], over every code point; their tables (Unicode 14.0.0) are in
    [UnicodeData]. *)
Abbreviation pystr := (list N).

Fixpoint utf8_decode (bs : list N) : pystr :=
  match bs with
  | [] => []
  | b :: r =>
      if b <? 0x80 then b :: utf8_decode r
      else if b <? 0xE0 then
        match r with
        | c1 :: r' => ((b - 0xC0) * 64 + (c1 - 0x80)) :: utf8_decode r'
        | _ => []
        end
      else if b <? 0xF0 then
        match r with
        | c1 :: c2 :: r' =>
            ((b - 0xE0) * 4096 + (c1 - 0x80) * 64 + (c2 - 0x80)) :: utf8_decode r'
        | _ => []
        end
      else
        match r with
        | c1 :: c2 :: c3 :: r' =>
            ((b - 0xF0) * 262144 + (c1 - 0x80) * 4096 + (c2 - 0x80) * 64 + (c3 - 0x80))
              :: utf8_decode r'
        | _ => []
        end
  end.

(** A literal of the source, written as in the source. *)
Definition u (s : string) : pystr :=
  utf8_decode (map N_of_ascii (list_ascii_of_string s)).

Definition in_range (lo hi c : N) : bool := (lo <=? c) && (c <=? hi).

(** Membership in a table of ranges. *)
Definition in_ranges (table : list (N * N)) (c : N) : bool :=
  existsb (fun r => in_range r.1 r.2 c) table.

(** The entry of a code point in a mapping table. *)
Fixpoint char_get {V} (table : list (N * V)) (c : N) : option V :=
  match table with
  | [] => None
  | (c', v) :: r => if c' =? c then Some v else char_get r c
  end.

Module UnicodeData.

(** Ranges of the code points [str.isalnum] accepts. *)
Definition alnum : list (N * N) :=
  [
    (0x30, 0x39); (0x41, 0x5A); (0x61, 0x7A); (0xAA, 0xAA); (0xB2, 0xB3);
    (0xB5, 0xB5); (0xB9, 0xBA); (0xBC, 0xBE); (0xC0, 0xD6); (0xD8, 0xF6);
    (0xF8, 0x2C1); (0x2C6, 0x2D1); (0x2E0, 0x2E4); (0x2EC, 0x2EC);
    (0x2EE, 0x2EE); (0x370, 0x374); (0x376, 0x377); (0x37A, 0x37D);
    (0x37F, 0x37F); (0x386, 0x386); (0x388, 0x38A); (0x38C, 0x38C);
    (0x38E, 0x3A1); (0x3A3, 0x3F5); (0x3F7, 0x481); (0x48A, 0x52F);
    (0x531, 0x556); (0x559, 0x559); (0x560, 0x588); (0x5D0, 0x5EA);
    (0x5EF, 0x5F2); (0x620, 0x64A); (0x660, 0x669); (0x66E, 0x66F);
    (0x671, 0x6D3); (0x6D5, 0x6D5); (0x6E5, 0x6E6); (0x6EE, 0x6FC);
    (0x6FF, 0x6FF); (0x710, 0x710); (0x712, 0x72F); (0x74D, 0x7A5);
    (0x7B1, 0x7B1); (0x7C0, 0x7EA); (0x7F4, 0x7F5); (0x7FA, 0x7FA);
    (0x800, 0x815); (0x81A, 0x81A); (0x824, 0x824); (0x828, 0x828);
    (0x840, 0x858); (0x860, 0x86A); (0x870, 0x887); (0x889, 0x88E);
    (0x8A0, 0x8C9); (0x904, 0x939); (0x93D, 0x93D); (0x950, 0x950);
    (0x958, 0x961); (0x966, 0x96F); (0x971, 0x980); (0x985, 0x98C);
    (0x98F, 0x990); (0x993, 0x9A8); (0x9AA, 0x9B0); (0x9B2, 0x9B2);
    (0x9B6, 0x9B9); (0x9BD, 0x9BD); (0x9CE, 0x9CE); (0x9DC, 0x9DD);
    (0x9DF, 0x9E1); (0x9E6, 0x9F1); (0x9F4, 0x9F9); (0x9FC, 0x9FC);
    (0xA05, 0xA0A); (0xA0F, 0xA10); (0xA13, 0xA28); (0xA2A, 0xA30);
    (0xA32, 0xA33); (0xA35, 0xA36); (0xA38, 0xA39); (0xA59, 0xA5C);
    (0xA5E, 0xA5E); (0xA66, 0xA6F); (0xA72, 0xA74); (0xA85, 0xA8D);
    (0xA8F, 0xA91); (0xA93, 0xAA8); (0xAAA, 0xAB0); (0xAB2, 0xAB3);
    (0xAB5, 0xAB9); (0xABD, 0xABD); (0xAD0, 0xAD0); (0xAE0, 0xAE1);
    (0xAE6, 0xAEF); (0xAF9, 0xAF9); (0xB05, 0xB0C); (0xB0F, 0xB10);
    (0xB13, 0xB28); (0xB2A, 0xB30); (0xB32, 0xB33); (0xB35, 0xB39);
    (0xB3D, 0xB3D); (0xB5C, 0xB5D); (0xB5F, 0xB61); (0xB66, 0xB6F);
    (0xB71, 0xB77); (0xB83, 0xB83); (0xB85, 0xB8A); (0xB8E, 0xB90);
    (0xB92, 0xB95); (0xB99, 0xB9A); (0xB9C, 0xB9C); (0xB9E, 0xB9F);
    (0xBA3, 0xBA4); (0xBA8, 0xBAA); (0xBAE, 0xBB9); (0xBD0, 0xBD0);
    (0xBE6, 0xBF2); (0xC05, 0xC0C); (0xC0E, 0xC10); (0xC12, 0xC28);
    (0xC2A, 0xC39); (0xC3D, 0xC3D); (0xC58, 0xC5A); (0xC5D, 0xC5D);
    (0xC60, 0xC61); (0xC66, 0xC6F); (0xC78, 0xC7E); (0xC80, 0xC80);
    (0xC85, 0xC8C); (0xC8E, 0xC90); (0xC92, 0xCA8); (0xCAA, 0xCB3);
    (0xCB5, 0xCB9); (0xCBD, 0xCBD); (0xCDD, 0xCDE); (0xCE0, 0xCE1);
    (0xCE6, 0xCEF); (0xCF1, 0xCF2); (0xD04, 0xD0C); (0xD0E, 0xD10);
    (0xD12, 0xD3A); (0xD3D, 0xD3D); (0xD4E, 0xD4E); (0xD54, 0xD56);
    (0xD58, 0xD61); (0xD66, 0xD78); (0xD7A, 0xD7F); (0xD85, 0xD96);
    (0xD9A, 0xDB1); (0xDB3, 0xDBB); (0xDBD, 0xDBD); (0xDC0, 0xDC6);
    (0xDE6, 0xDEF); (0xE01, 0xE30); (0xE32, 0xE33); (0xE40, 0xE46);
    (0xE50, 0xE59); (0xE81, 0xE82); (0xE84, 0xE84); (0xE86, 0xE8A);
    (0xE8C, 0xEA3); (0xEA5, 0xEA5); (0xEA7, 0xEB0); (0xEB2, 0xEB3);
    (0xEBD, 0xEBD); (0xEC0, 0xEC4); (0xEC6, 0xEC6); (0xED0, 0xED9);
    (0xEDC, 0xEDF); (0xF00, 0xF00); (0xF20, 0xF33); (0xF40, 0xF47);
    (0xF49, 0xF6C); (0xF88, 0xF8C); (0x1000, 0x102A); (0x103F, 0x1049);
    (0x1050, 0x1055); (0x105A, 0x105D); (0x1061, 0x1061); (0x1065, 0x1066);
    (0x106E, 0x1070); (0x1075, 0x1081); (0x108E, 0x108E); (0x1090, 0x1099);
    (0x10A0, 0x10C5); (0x10C7, 0x10C7); (0x10CD, 0x10CD); (0x10D0, 0x10FA);
    (0x10FC, 0x1248); (0x124A, 0x124D); (0x1250, 0x1256); (0x1258, 0x1258);
    (0x125A, 0x125D); (0x1260, 0x1288); (0x128A, 0x128D); (0x1290, 0x12B0);
    (0x12B2, 0x12B5); (0x12B8, 0x12BE); (0x12C0, 0x12C0); (0x12C2, 0x12C5);
    (0x12C8, 0x12D6); (0x12D8, 0x1310); (0x1312, 0x1315); (0x1318, 0x135A);
    (0x1369, 0x137C); (0x1380, 0x138F); (0x13A0, 0x13F5); (0x13F8, 0x13FD);
    (0x1401, 0x166C); (0x166F, 0x167F); (0x1681, 0x169A); (0x16A0, 0x16EA);
    (0x16EE, 0x16F8); (0x1700, 0x1711); (0x171F, 0x1731); (0x1740, 0x1751);
    (0x1760, 0x176C); (0x176E, 0x1770); (0x1780, 0x17B3); (0x17D7, 0x17D7);
    (0x17DC, 0x17DC); (0x17E0, 0x17E9); (0x17F0, 0x17F9); (0x1810, 0x1819);
    (0x1820, 0x1878); (0x1880, 0x1884); (0x1887, 0x18A8); (0x18AA, 0x18AA);
    (0x18B0, 0x18F5); (0x1900, 0x191E); (0x1946, 0x196D); (0x1970, 0x1974);
    (0x1980, 0x19AB); (0x19B0, 0x19C9); (0x19D0, 0x19DA); (0x1A00, 0x1A16);
    (0x1A20, 0x1A54); (0x1A80, 0x1A89); (0x1A90, 0x1A99); (0x1AA7, 0x1AA7);
    (0x1B05, 0x1B33); (0x1B45, 0x1B4C); (0x1B50, 0x1B59); (0x1B83, 0x1BA0);
    (0x1BAE, 0x1BE5); (0x1C00, 0x1C23); (0x1C40, 0x1C49); (0x1C4D, 0x1C7D);
    (0x1C80, 0x1C88); (0x1C90, 0x1CBA); (0x1CBD, 0x1CBF); (0x1CE9, 0x1CEC);
    (0x1CEE, 0x1CF3); (0x1CF5, 0x1CF6); (0x1CFA, 0x1CFA); (0x1D00, 0x1DBF);
    (0x1E00, 0x1F15); (0x1F18, 0x1F1D); (0x1F20, 0x1F45); (0x1F48, 0x1F4D);
    (0x1F50, 0x1F57); (0x1F59, 0x1F59); (0x1F5B, 0x1F5B); (0x1F5D, 0x1F5D);
    (0x1F5F, 0x1F7D); (0x1F80, 0x1FB4); (0x1FB6, 0x1FBC); (0x1FBE, 0x1FBE);
    (0x1FC2, 0x1FC4); (0x1FC6, 0x1FCC); (0x1FD0, 0x1FD3); (0x1FD6, 0x1FDB);
    (0x1FE0, 0x1FEC); (0x1FF2, 0x1FF4); (0x1FF6, 0x1FFC); (0x2070, 0x2071);
    (0x2074, 0x2079); (0x207F, 0x2089); (0x2090, 0x209C); (0x2102, 0x2102);
    (0x2107, 0x2107); (0x210A, 0x2113); (0x2115, 0x2115); (0x2119, 0x211D);
    (0x2124, 0x2124); (0x2126, 0x2126); (0x2128, 0x2128); (0x212A, 0x212D);
    (0x212F, 0x2139); (0x213C, 0x213F); (0x2145, 0x2149); (0x214E, 0x214E);
    (0x2150, 0x2189); (0x2460, 0x249B); (0x24EA, 0x24FF); (0x2776, 0x2793);
    (0x2C00, 0x2CE4); (0x2CEB, 0x2CEE); (0x2CF2, 0x2CF3); (0x2CFD, 0x2CFD);
    (0x2D00, 0x2D25); (0x2D27, 0x2D27); (0x2D2D, 0x2D2D); (0x2D30, 0x2D67);
    (0x2D6F, 0x2D6F); (0x2D80, 0x2D96); (0x2DA0, 0x2DA6); (0x2DA8, 0x2DAE);
    (0x2DB0, 0x2DB6); (0x2DB8, 0x2DBE); (0x2DC0, 0x2DC6); (0x2DC8, 0x2DCE);
    (0x2DD0, 0x2DD6); (0x2DD8, 0x2DDE); (0x2E2F, 0x2E2F); (0x3005, 0x3007);
    (0x3021, 0x3029); (0x3031, 0x3035); (0x3038, 0x303C); (0x3041, 0x3096);
    (0x309D, 0x309F); (0x30A1, 0x30FA); (0x30FC, 0x30FF); (0x3105, 0x312F);
    (0x3131, 0x318E); (0x3192, 0x3195); (0x31A0, 0x31BF); (0x31F0, 0x31FF);
    (0x3220, 0x3229); (0x3248, 0x324F); (0x3251, 0x325F); (0x3280, 0x3289);
    (0x32B1, 0x32BF); (0x3400, 0x4DBF); (0x4E00, 0xA48C); (0xA4D0, 0xA4FD);
    (0xA500, 0xA60C); (0xA610, 0xA62B); (0xA640, 0xA66E); (0xA67F, 0xA69D);
    (0xA6A0, 0xA6EF); (0xA717, 0xA71F); (0xA722, 0xA788); (0xA78B, 0xA7CA);
    (0xA7D0, 0xA7D1); (0xA7D3, 0xA7D3); (0xA7D5, 0xA7D9); (0xA7F2, 0xA801);
    (0xA803, 0xA805); (0xA807, 0xA80A); (0xA80C, 0xA822); (0xA830, 0xA835);
    (0xA840, 0xA873); (0xA882, 0xA8B3); (0xA8D0, 0xA8D9); (0xA8F2, 0xA8F7);
    (0xA8FB, 0xA8FB); (0xA8FD, 0xA8FE); (0xA900, 0xA925); (0xA930, 0xA946);
    (0xA960, 0xA97C); (0xA984, 0xA9B2); (0xA9CF, 0xA9D9); (0xA9E0, 0xA9E4);
    (0xA9E6, 0xA9FE); (0xAA00, 0xAA28); (0xAA40, 0xAA42); (0xAA44, 0xAA4B);
    (0xAA50, 0xAA59); (0xAA60, 0xAA76); (0xAA7A, 0xAA7A); (0xAA7E, 0xAAAF);
    (0xAAB1, 0xAAB1); (0xAAB5, 0xAAB6); (0xAAB9, 0xAABD); (0xAAC0, 0xAAC0);
    (0xAAC2, 0xAAC2); (0xAADB, 0xAADD); (0xAAE0, 0xAAEA); (0xAAF2, 0xAAF4);
    (0xAB01, 0xAB06); (0xAB09, 0xAB0E); (0xAB11, 0xAB16); (0xAB20, 0xAB26);
    (0xAB28, 0xAB2E); (0xAB30, 0xAB5A); (0xAB5C, 0xAB69); (0xAB70, 0xABE2);
    (0xABF0, 0xABF9); (0xAC00, 0xD7A3); (0xD7B0, 0xD7C6); (0xD7CB, 0xD7FB);
    (0xF900, 0xFA6D); (0xFA70, 0xFAD9); (0xFB00, 0xFB06); (0xFB13, 0xFB17);
    (0xFB1D, 0xFB1D); (0xFB1F, 0xFB28); (0xFB2A, 0xFB36); (0xFB38, 0xFB3C);
    (0xFB3E, 0xFB3E); (0xFB40, 0xFB41); (0xFB43, 0xFB44); (0xFB46, 0xFBB1);
    (0xFBD3, 0xFD3D); (0xFD50, 0xFD8F); (0xFD92, 0xFDC7); (0xFDF0, 0xFDFB);
    (0xFE70, 0xFE74); (0xFE76, 0xFEFC); (0xFF10, 0xFF19); (0xFF21, 0xFF3A);
    (0xFF41, 0xFF5A); (0xFF66, 0xFFBE); (0xFFC2, 0xFFC7); (0xFFCA, 0xFFCF);
    (0xFFD2, 0xFFD7); (0xFFDA, 0xFFDC); (0x10000, 0x1000B);
    (0x1000D, 0x10026); (0x10028, 0x1003A); (0x1003C, 0x1003D);
    (0x1003F, 0x1004D); (0x10050, 0x1005D); (0x10080, 0x100FA);
    (0x10107, 0x10133); (0x10140, 0x10178); (0x1018A, 0x1018B);
    (0x10280, 0x1029C); (0x102A0, 0x102D0); (0x102E1, 0x102FB);
    (0x10300, 0x10323); (0x1032D, 0x1034A); (0x10350, 0x10375);
    (0x10380, 0x1039D); (0x103A0, 0x103C3); (0x103C8, 0x103CF);
    (0x103D1, 0x103D5); (0x10400, 0x1049D); (0x104A0, 0x104A9);
    (0x104B0, 0x104D3); (0x104D8, 0x104FB); (0x10500, 0x10527);
    (0x10530, 0x10563); (0x10570, 0x1057A); (0x1057C, 0x1058A);
    (0x1058C, 0x10592); (0x10594, 0x10595); (0x10597, 0x105A1);
    (0x105A3, 0x105B1); (0x105B3, 0x105B9); (0x105BB, 0x105BC);
    (0x10600, 0x10736); (0x10740, 0x10755); (0x10760, 0x10767);
    (0x10780, 0x10785); (0x10787, 0x107B0); (0x107B2, 0x107BA);
    (0x10800, 0x10805); (0x10808, 0x10808); (0x1080A, 0x10835);
    (0x10837, 0x10838); (0x1083C, 0x1083C); (0x1083F, 0x10855);
    (0x10858, 0x10876); (0x10879, 0x1089E); (0x108A7, 0x108AF);
    (0x108E0, 0x108F2); (0x108F4, 0x108F5); (0x108FB, 0x1091B);
    (0x10920, 0x10939); (0x10980, 0x109B7); (0x109BC, 0x109CF);
    (0x109D2, 0x10A00); (0x10A10, 0x10A13); (0x10A15, 0x10A17);
    (0x10A19, 0x10A35); (0x10A40, 0x10A48); (0x10A60, 0x10A7E);
    (0x10A80, 0x10A9F); (0x10AC0, 0x10AC7); (0x10AC9, 0x10AE4);
    (0x10AEB, 0x10AEF); (0x10B00, 0x10B35); (0x10B40, 0x10B55);
    (0x10B58, 0x10B72); (0x10B78, 0x10B91); (0x10BA9, 0x10BAF);
    (0x10C00, 0x10C48); (0x10C80, 0x10CB2); (0x10CC0, 0x10CF2);
    (0x10CFA, 0x10D23); (0x10D30, 0x10D39); (0x10E60, 0x10E7E);
    (0x10E80, 0x10EA9); (0x10EB0, 0x10EB1); (0x10F00, 0x10F27);
    (0x10F30, 0x10F45); (0x10F51, 0x10F54); (0x10F70, 0x10F81);
    (0x10FB0, 0x10FCB); (0x10FE0, 0x10FF6); (0x11003, 0x11037);
    (0x11052, 0x1106F); (0x11071, 0x11072); (0x11075, 0x11075);
    (0x11083, 0x110AF); (0x110D0, 0x110E8); (0x110F0, 0x110F9);
    (0x11103, 0x11126); (0x11136, 0x1113F); (0x11144, 0x11144);
    (0x11147, 0x11147); (0x11150, 0x11172); (0x11176, 0x11176);
    (0x11183, 0x111B2); (0x111C1, 0x111C4); (0x111D0, 0x111DA);
    (0x111DC, 0x111DC); (0x111E1, 0x111F4); (0x11200, 0x11211);
    (0x11213, 0x1122B); (0x11280, 0x11286); (0x11288, 0x11288);
    (0x1128A, 0x1128D); (0x1128F, 0x1129D); (0x1129F, 0x112A8);
    (0x112B0, 0x112DE); (0x112F0, 0x112F9); (0x11305, 0x1130C);
    (0x1130F, 0x11310); (0x11313, 0x11328); (0x1132A, 0x11330);
    (0x11332, 0x11333); (0x11335, 0x11339); (0x1133D, 0x1133D);
    (0x11350, 0x11350); (0x1135D, 0x11361); (0x11400, 0x11434);
    (0x11447, 0x1144A); (0x11450, 0x11459); (0x1145F, 0x11461);
    (0x11480, 0x114AF); (0x114C4, 0x114C5); (0x114C7, 0x114C7);
    (0x114D0, 0x114D9); (0x11580, 0x115AE); (0x115D8, 0x115DB);
    (0x11600, 0x1162F); (0x11644, 0x11644); (0x11650, 0x11659);
    (0x11680, 0x116AA); (0x116B8, 0x116B8); (0x116C0, 0x116C9);
    (0x11700, 0x1171A); (0x11730, 0x1173B); (0x11740, 0x11746);
    (0x11800, 0x1182B); (0x118A0, 0x118F2); (0x118FF, 0x11906);
    (0x11909, 0x11909); (0x1190C, 0x11913); (0x11915, 0x11916);
    (0x11918, 0x1192F); (0x1193F, 0x1193F); (0x11941, 0x11941);
    (0x11950, 0x11959); (0x119A0, 0x119A7); (0x119AA, 0x119D0);
    (0x119E1, 0x119E1); (0x119E3, 0x119E3); (0x11A00, 0x11A00);
    (0x11A0B, 0x11A32); (0x11A3A, 0x11A3A); (0x11A50, 0x11A50);
    (0x11A5C, 0x11A89); (0x11A9D, 0x11A9D); (0x11AB0, 0x11AF8);
    (0x11C00, 0x11C08); (0x11C0A, 0x11C2E); (0x11C40, 0x11C40);
    (0x11C50, 0x11C6C); (0x11C72, 0x11C8F); (0x11D00, 0x11D06);
    (0x11D08, 0x11D09); (0x11D0B, 0x11D30); (0x11D46, 0x11D46);
    (0x11D50, 0x11D59); (0x11D60, 0x11D65); (0x11D67, 0x11D68);
    (0x11D6A, 0x11D89); (0x11D98, 0x11D98); (0x11DA0, 0x11DA9);
    (0x11EE0, 0x11EF2); (0x11FB0, 0x11FB0); (0x11FC0, 0x11FD4);
    (0x12000, 0x12399); (0x12400, 0x1246E); (0x12480, 0x12543);
    (0x12F90, 0x12FF0); (0x13000, 0x1342E); (0x14400, 0x14646);
    (0x16800, 0x16A38); (0x16A40, 0x16A5E); (0x16A60, 0x16A69);
    (0x16A70, 0x16ABE); (0x16AC0, 0x16AC9); (0x16AD0, 0x16AED);
    (0x16B00, 0x16B2F); (0x16B40, 0x16B43); (0x16B50, 0x16B59);
    (0x16B5B, 0x16B61); (0x16B63, 0x16B77); (0x16B7D, 0x16B8F);
    (0x16E40, 0x16E96); (0x16F00, 0x16F4A); (0x16F50, 0x16F50);
    (0x16F93, 0x16F9F); (0x16FE0, 0x16FE1); (0x16FE3, 0x16FE3);
    (0x17000, 0x187F7); (0x18800, 0x18CD5); (0x18D00, 0x18D08);
    (0x1AFF0, 0x1AFF3); (0x1AFF5, 0x1AFFB); (0x1AFFD, 0x1AFFE);
    (0x1B000, 0x1B122); (0x1B150, 0x1B152); (0x1B164, 0x1B167);
    (0x1B170, 0x1B2FB); (0x1BC00, 0x1BC6A); (0x1BC70, 0x1BC7C);
    (0x1BC80, 0x1BC88); (0x1BC90, 0x1BC99); (0x1D2E0, 0x1D2F3);
    (0x1D360, 0x1D378); (0x1D400, 0x1D454); (0x1D456, 0x1D49C);
    (0x1D49E, 0x1D49F); (0x1D4A2, 0x1D4A2); (0x1D4A5, 0x1D4A6);
    (0x1D4A9, 0x1D4AC); (0x1D4AE, 0x1D4B9); (0x1D4BB, 0x1D4BB);
    (0x1D4BD, 0x1D4C3); (0x1D4C5, 0x1D505); (0x1D507, 0x1D50A);
    (0x1D50D, 0x1D514); (0x1D516, 0x1D51C); (0x1D51E, 0x1D539);
    (0x1D53B, 0x1D53E); (0x1D540, 0x1D544); (0x1D546, 0x1D546);
    (0x1D54A, 0x1D550); (0x1D552, 0x1D6A5); (0x1D6A8, 0x1D6C0);
    (0x1D6C2, 0x1D6DA); (0x1D6DC, 0x1D6FA); (0x1D6FC, 0x1D714);
    (0x1D716, 0x1D734); (0x1D736, 0x1D74E); (0x1D750, 0x1D76E);
    (0x1D770, 0x1D788); (0x1D78A, 0x1D7A8); (0x1D7AA, 0x1D7C2);
    (0x1D7C4, 0x1D7CB); (0x1D7CE, 0x1D7FF); (0x1DF00, 0x1DF1E);
    (0x1E100, 0x1E12C); (0x1E137, 0x1E13D); (0x1E140, 0x1E149);
    (0x1E14E, 0x1E14E); (0x1E290, 0x1E2AD); (0x1E2C0, 0x1E2EB);
    (0x1E2F0, 0x1E2F9); (0x1E7E0, 0x1E7E6); (0x1E7E8, 0x1E7EB);
    (0x1E7ED, 0x1E7EE); (0x1E7F0, 0x1E7FE); (0x1E800, 0x1E8C4);
    (0x1E8C7, 0x1E8CF); (0x1E900, 0x1E943); (0x1E94B, 0x1E94B);
    (0x1E950, 0x1E959); (0x1EC71, 0x1ECAB); (0x1ECAD, 0x1ECAF);
    (0x1ECB1, 0x1ECB4); (0x1ED01, 0x1ED2D); (0x1ED2F, 0x1ED3D);
    (0x1EE00, 0x1EE03); (0x1EE05, 0x1EE1F); (0x1EE21, 0x1EE22);
    (0x1EE24, 0x1EE24); (0x1EE27, 0x1EE27); (0x1EE29, 0x1EE32);
    (0x1EE34, 0x1EE37); (0x1EE39, 0x1EE39); (0x1EE3B, 0x1EE3B);
    (0x1EE42, 0x1EE42); (0x1EE47, 0x1EE47); (0x1EE49, 0x1EE49);
    (0x1EE4B, 0x1EE4B); (0x1EE4D, 0x1EE4F); (0x1EE51, 0x1EE52);
    (0x1EE54, 0x1EE54); (0x1EE57, 0x1EE57); (0x1EE59, 0x1EE59);
    (0x1EE5B, 0x1EE5B); (0x1EE5D, 0x1EE5D); (0x1EE5F, 0x1EE5F);
    (0x1EE61, 0x1EE62); (0x1EE64, 0x1EE64); (0x1EE67, 0x1EE6A);
    (0x1EE6C, 0x1EE72); (0x1EE74, 0x1EE77); (0x1EE79, 0x1EE7C);
    (0x1EE7E, 0x1EE7E); (0x1EE80, 0x1EE89); (0x1EE8B, 0x1EE9B);
    (0x1EEA1, 0x1EEA3); (0x1EEA5, 0x1EEA9); (0x1EEAB, 0x1EEBB);
    (0x1F100, 0x1F10C); (0x1FBF0, 0x1FBF9); (0x20000, 0x2A6DF);
    (0x2A700, 0x2B738); (0x2B740, 0x2B81D); (0x2B820, 0x2CEA1);
    (0x2CEB0, 0x2EBE0); (0x2F800, 0x2FA1D); (0x30000, 0x3134A) ].

(** The zero of every run of ten decimal digits: the code points
    [str.isdecimal] and [\d] accept are a zero and the nine after it. *)
Definition decimal_zeros : list N :=
  [
    0x30; 0x660; 0x6F0; 0x7C0; 0x966; 0x9E6; 0xA66; 0xAE6; 0xB66; 0xBE6;
    0xC66; 0xCE6; 0xD66; 0xDE6; 0xE50; 0xED0; 0xF20; 0x1040; 0x1090; 0x17E0;
    0x1810; 0x1946; 0x19D0; 0x1A80; 0x1A90; 0x1B50; 0x1BB0; 0x1C40; 0x1C50;
    0xA620; 0xA8D0; 0xA900; 0xA9D0; 0xA9F0; 0xAA50; 0xABF0; 0xFF10; 0x104A0;
    0x10D30; 0x11066; 0x110F0; 0x11136; 0x111D0; 0x112F0; 0x11450; 0x114D0;
    0x11650; 0x116C0; 0x11730; 0x118E0; 0x11950; 0x11C50; 0x11D50; 0x11DA0;
    0x16A60; 0x16AC0; 0x16B50; 0x1D7CE; 0x1D7D8; 0x1D7E2; 0x1D7EC; 0x1D7F6;
    0x1E140; 0x1E2F0; 0x1E950; 0x1FBF0 ].

(** Ranges of the cased code points. *)
Definition cased : list (N * N) :=
  [
    (0x41, 0x5A); (0x61, 0x7A); (0xAA, 0xAA); (0xB5, 0xB5); (0xBA, 0xBA);
    (0xC0, 0xD6); (0xD8, 0xF6); (0xF8, 0x1BA); (0x1BC, 0x1BF);
    (0x1C4, 0x293); (0x295, 0x2B8); (0x2C0, 0x2C1); (0x2E0, 0x2E4);
    (0x345, 0x345); (0x370, 0x373); (0x376, 0x377); (0x37A, 0x37D);
    (0x37F, 0x37F); (0x386, 0x386); (0x388, 0x38A); (0x38C, 0x38C);
    (0x38E, 0x3A1); (0x3A3, 0x3F5); (0x3F7, 0x481); (0x48A, 0x52F);
    (0x531, 0x556); (0x560, 0x588); (0x10A0, 0x10C5); (0x10C7, 0x10C7);
    (0x10CD, 0x10CD); (0x10D0, 0x10FA); (0x10FD, 0x10FF); (0x13A0, 0x13F5);
    (0x13F8, 0x13FD); (0x1C80, 0x1C88); (0x1C90, 0x1CBA); (0x1CBD, 0x1CBF);
    (0x1D00, 0x1DBF); (0x1E00, 0x1F15); (0x1F18, 0x1F1D); (0x1F20, 0x1F45);
    (0x1F48, 0x1F4D); (0x1F50, 0x1F57); (0x1F59, 0x1F59); (0x1F5B, 0x1F5B);
    (0x1F5D, 0x1F5D); (0x1F5F, 0x1F7D); (0x1F80, 0x1FB4); (0x1FB6, 0x1FBC);
    (0x1FBE, 0x1FBE); (0x1FC2, 0x1FC4); (0x1FC6, 0x1FCC); (0x1FD0, 0x1FD3);
    (0x1FD6, 0x1FDB); (0x1FE0, 0x1FEC); (0x1FF2, 0x1FF4); (0x1FF6, 0x1FFC);
    (0x2071, 0x2071); (0x207F, 0x207F); (0x2090, 0x209C); (0x2102, 0x2102);
    (0x2107, 0x2107); (0x210A, 0x2113); (0x2115, 0x2115); (0x2119, 0x211D);
    (0x2124, 0x2124); (0x2126, 0x2126); (0x2128, 0x2128); (0x212A, 0x212D);
    (0x212F, 0x2134); (0x2139, 0x2139); (0x213C, 0x213F); (0x2145, 0x2149);
    (0x214E, 0x214E); (0x2160, 0x217F); (0x2183, 0x2184); (0x24B6, 0x24E9);
    (0x2C00, 0x2CE4); (0x2CEB, 0x2CEE); (0x2CF2, 0x2CF3); (0x2D00, 0x2D25);
    (0x2D27, 0x2D27); (0x2D2D, 0x2D2D); (0xA640, 0xA66D); (0xA680, 0xA69D);
    (0xA722, 0xA787); (0xA78B, 0xA78E); (0xA790, 0xA7CA); (0xA7D0, 0xA7D1);
    (0xA7D3, 0xA7D3); (0xA7D5, 0xA7D9); (0xA7F5, 0xA7F6); (0xA7F8, 0xA7FA);
    (0xAB30, 0xAB5A); (0xAB5C, 0xAB68); (0xAB70, 0xABBF); (0xFB00, 0xFB06);
    (0xFB13, 0xFB17); (0xFF21, 0xFF3A); (0xFF41, 0xFF5A); (0x10400, 0x1044F);
    (0x104B0, 0x104D3); (0x104D8, 0x104FB); (0x10570, 0x1057A);
    (0x1057C, 0x1058A); (0x1058C, 0x10592); (0x10594, 0x10595);
    (0x10597, 0x105A1); (0x105A3, 0x105B1); (0x105B3, 0x105B9);
    (0x105BB, 0x105BC); (0x10780, 0x10780); (0x10783, 0x10785);
    (0x10787, 0x107B0); (0x107B2, 0x107BA); (0x10C80, 0x10CB2);
    (0x10CC0, 0x10CF2); (0x118A0, 0x118DF); (0x16E40, 0x16E7F);
    (0x1D400, 0x1D454); (0x1D456, 0x1D49C); (0x1D49E, 0x1D49F);
    (0x1D4A2, 0x1D4A2); (0x1D4A5, 0x1D4A6); (0x1D4A9, 0x1D4AC);
    (0x1D4AE, 0x1D4B9); (0x1D4BB, 0x1D4BB); (0x1D4BD, 0x1D4C3);
    (0x1D4C5, 0x1D505); (0x1D507, 0x1D50A); (0x1D50D, 0x1D514);
    (0x1D516, 0x1D51C); (0x1D51E, 0x1D539); (0x1D53B, 0x1D53E);
    (0x1D540, 0x1D544); (0x1D546, 0x1D546); (0x1D54A, 0x1D550);
    (0x1D552, 0x1D6A5); (0x1D6A8, 0x1D6C0); (0x1D6C2, 0x1D6DA);
    (0x1D6DC, 0x1D6FA); (0x1D6FC, 0x1D714); (0x1D716, 0x1D734);
    (0x1D736, 0x1D74E); (0x1D750, 0x1D76E); (0x1D770, 0x1D788);
    (0x1D78A, 0x1D7A8); (0x1D7AA, 0x1D7C2); (0x1D7C4, 0x1D7CB);
    (0x1DF00, 0x1DF09); (0x1DF0B, 0x1DF1E); (0x1E900, 0x1E943);
    (0x1F130, 0x1F149); (0x1F150, 0x1F169); (0x1F170, 0x1F189) ].

(** Ranges of the case-ignorable code points. *)
Definition case_ignorable : list (N * N) :=
  [
    (0x27, 0x27); (0x2E, 0x2E); (0x3A, 0x3A); (0x5E, 0x5E); (0x60, 0x60);
    (0xA8, 0xA8); (0xAD, 0xAD); (0xAF, 0xAF); (0xB4, 0xB4); (0xB7, 0xB8);
    (0x2B0, 0x36F); (0x374, 0x375); (0x37A, 0x37A); (0x384, 0x385);
    (0x387, 0x387); (0x483, 0x489); (0x559, 0x559); (0x55F, 0x55F);
    (0x591, 0x5BD); (0x5BF, 0x5BF); (0x5C1, 0x5C2); (0x5C4, 0x5C5);
    (0x5C7, 0x5C7); (0x5F4, 0x5F4); (0x600, 0x605); (0x610, 0x61A);
    (0x61C, 0x61C); (0x640, 0x640); (0x64B, 0x65F); (0x670, 0x670);
    (0x6D6, 0x6DD); (0x6DF, 0x6E8); (0x6EA, 0x6ED); (0x70F, 0x70F);
    (0x711, 0x711); (0x730, 0x74A); (0x7A6, 0x7B0); (0x7EB, 0x7F5);
    (0x7FA, 0x7FA); (0x7FD, 0x7FD); (0x816, 0x82D); (0x859, 0x85B);
    (0x888, 0x888); (0x890, 0x891); (0x898, 0x89F); (0x8C9, 0x902);
    (0x93A, 0x93A); (0x93C, 0x93C); (0x941, 0x948); (0x94D, 0x94D);
    (0x951, 0x957); (0x962, 0x963); (0x971, 0x971); (0x981, 0x981);
    (0x9BC, 0x9BC); (0x9C1, 0x9C4); (0x9CD, 0x9CD); (0x9E2, 0x9E3);
    (0x9FE, 0x9FE); (0xA01, 0xA02); (0xA3C, 0xA3C); (0xA41, 0xA42);
    (0xA47, 0xA48); (0xA4B, 0xA4D); (0xA51, 0xA51); (0xA70, 0xA71);
    (0xA75, 0xA75); (0xA81, 0xA82); (0xABC, 0xABC); (0xAC1, 0xAC5);
    (0xAC7, 0xAC8); (0xACD, 0xACD); (0xAE2, 0xAE3); (0xAFA, 0xAFF);
    (0xB01, 0xB01); (0xB3C, 0xB3C); (0xB3F, 0xB3F); (0xB41, 0xB44);
    (0xB4D, 0xB4D); (0xB55, 0xB56); (0xB62, 0xB63); (0xB82, 0xB82);
    (0xBC0, 0xBC0); (0xBCD, 0xBCD); (0xC00, 0xC00); (0xC04, 0xC04);
    (0xC3C, 0xC3C); (0xC3E, 0xC40); (0xC46, 0xC48); (0xC4A, 0xC4D);
    (0xC55, 0xC56); (0xC62, 0xC63); (0xC81, 0xC81); (0xCBC, 0xCBC);
    (0xCBF, 0xCBF); (0xCC6, 0xCC6); (0xCCC, 0xCCD); (0xCE2, 0xCE3);
    (0xD00, 0xD01); (0xD3B, 0xD3C); (0xD41, 0xD44); (0xD4D, 0xD4D);
    (0xD62, 0xD63); (0xD81, 0xD81); (0xDCA, 0xDCA); (0xDD2, 0xDD4);
    (0xDD6, 0xDD6); (0xE31, 0xE31); (0xE34, 0xE3A); (0xE46, 0xE4E);
    (0xEB1, 0xEB1); (0xEB4, 0xEBC); (0xEC6, 0xEC6); (0xEC8, 0xECD);
    (0xF18, 0xF19); (0xF35, 0xF35); (0xF37, 0xF37); (0xF39, 0xF39);
    (0xF71, 0xF7E); (0xF80, 0xF84); (0xF86, 0xF87); (0xF8D, 0xF97);
    (0xF99, 0xFBC); (0xFC6, 0xFC6); (0x102D, 0x1030); (0x1032, 0x1037);
    (0x1039, 0x103A); (0x103D, 0x103E); (0x1058, 0x1059); (0x105E, 0x1060);
    (0x1071, 0x1074); (0x1082, 0x1082); (0x1085, 0x1086); (0x108D, 0x108D);
    (0x109D, 0x109D); (0x10FC, 0x10FC); (0x135D, 0x135F); (0x1712, 0x1714);
    (0x1732, 0x1733); (0x1752, 0x1753); (0x1772, 0x1773); (0x17B4, 0x17B5);
    (0x17B7, 0x17BD); (0x17C6, 0x17C6); (0x17C9, 0x17D3); (0x17D7, 0x17D7);
    (0x17DD, 0x17DD); (0x180B, 0x180F); (0x1843, 0x1843); (0x1885, 0x1886);
    (0x18A9, 0x18A9); (0x1920, 0x1922); (0x1927, 0x1928); (0x1932, 0x1932);
    (0x1939, 0x193B); (0x1A17, 0x1A18); (0x1A1B, 0x1A1B); (0x1A56, 0x1A56);
    (0x1A58, 0x1A5E); (0x1A60, 0x1A60); (0x1A62, 0x1A62); (0x1A65, 0x1A6C);
    (0x1A73, 0x1A7C); (0x1A7F, 0x1A7F); (0x1AA7, 0x1AA7); (0x1AB0, 0x1ACE);
    (0x1B00, 0x1B03); (0x1B34, 0x1B34); (0x1B36, 0x1B3A); (0x1B3C, 0x1B3C);
    (0x1B42, 0x1B42); (0x1B6B, 0x1B73); (0x1B80, 0x1B81); (0x1BA2, 0x1BA5);
    (0x1BA8, 0x1BA9); (0x1BAB, 0x1BAD); (0x1BE6, 0x1BE6); (0x1BE8, 0x1BE9);
    (0x1BED, 0x1BED); (0x1BEF, 0x1BF1); (0x1C2C, 0x1C33); (0x1C36, 0x1C37);
    (0x1C78, 0x1C7D); (0x1CD0, 0x1CD2); (0x1CD4, 0x1CE0); (0x1CE2, 0x1CE8);
    (0x1CED, 0x1CED); (0x1CF4, 0x1CF4); (0x1CF8, 0x1CF9); (0x1D2C, 0x1D6A);
    (0x1D78, 0x1D78); (0x1D9B, 0x1DFF); (0x1FBD, 0x1FBD); (0x1FBF, 0x1FC1);
    (0x1FCD, 0x1FCF); (0x1FDD, 0x1FDF); (0x1FED, 0x1FEF); (0x1FFD, 0x1FFE);
    (0x200B, 0x200F); (0x2018, 0x2019); (0x2024, 0x2024); (0x2027, 0x2027);
    (0x202A, 0x202E); (0x2060, 0x2064); (0x2066, 0x206F); (0x2071, 0x2071);
    (0x207F, 0x207F); (0x2090, 0x209C); (0x20D0, 0x20F0); (0x2C7C, 0x2C7D);
    (0x2CEF, 0x2CF1); (0x2D6F, 0x2D6F); (0x2D7F, 0x2D7F); (0x2DE0, 0x2DFF);
    (0x2E2F, 0x2E2F); (0x3005, 0x3005); (0x302A, 0x302D); (0x3031, 0x3035);
    (0x303B, 0x303B); (0x3099, 0x309E); (0x30FC, 0x30FE); (0xA015, 0xA015);
    (0xA4F8, 0xA4FD); (0xA60C, 0xA60C); (0xA66F, 0xA672); (0xA674, 0xA67D);
    (0xA67F, 0xA67F); (0xA69C, 0xA69F); (0xA6F0, 0xA6F1); (0xA700, 0xA721);
    (0xA770, 0xA770); (0xA788, 0xA78A); (0xA7F2, 0xA7F4); (0xA7F8, 0xA7F9);
    (0xA802, 0xA802); (0xA806, 0xA806); (0xA80B, 0xA80B); (0xA825, 0xA826);
    (0xA82C, 0xA82C); (0xA8C4, 0xA8C5); (0xA8E0, 0xA8F1); (0xA8FF, 0xA8FF);
    (0xA926, 0xA92D); (0xA947, 0xA951); (0xA980, 0xA982); (0xA9B3, 0xA9B3);
    (0xA9B6, 0xA9B9); (0xA9BC, 0xA9BD); (0xA9CF, 0xA9CF); (0xA9E5, 0xA9E6);
    (0xAA29, 0xAA2E); (0xAA31, 0xAA32); (0xAA35, 0xAA36); (0xAA43, 0xAA43);
    (0xAA4C, 0xAA4C); (0xAA70, 0xAA70); (0xAA7C, 0xAA7C); (0xAAB0, 0xAAB0);
    (0xAAB2, 0xAAB4); (0xAAB7, 0xAAB8); (0xAABE, 0xAABF); (0xAAC1, 0xAAC1);
    (0xAADD, 0xAADD); (0xAAEC, 0xAAED); (0xAAF3, 0xAAF4); (0xAAF6, 0xAAF6);
    (0xAB5B, 0xAB5F); (0xAB69, 0xAB6B); (0xABE5, 0xABE5); (0xABE8, 0xABE8);
    (0xABED, 0xABED); (0xFB1E, 0xFB1E); (0xFBB2, 0xFBC2); (0xFE00, 0xFE0F);
    (0xFE13, 0xFE13); (0xFE20, 0xFE2F); (0xFE52, 0xFE52); (0xFE55, 0xFE55);
    (0xFEFF, 0xFEFF); (0xFF07, 0xFF07); (0xFF0E, 0xFF0E); (0xFF1A, 0xFF1A);
    (0xFF3E, 0xFF3E); (0xFF40, 0xFF40); (0xFF70, 0xFF70); (0xFF9E, 0xFF9F);
    (0xFFE3, 0xFFE3); (0xFFF9, 0xFFFB); (0x101FD, 0x101FD);
    (0x102E0, 0x102E0); (0x10376, 0x1037A); (0x10780, 0x10785);
    (0x10787, 0x107B0); (0x107B2, 0x107BA); (0x10A01, 0x10A03);
    (0x10A05, 0x10A06); (0x10A0C, 0x10A0F); (0x10A38, 0x10A3A);
    (0x10A3F, 0x10A3F); (0x10AE5, 0x10AE6); (0x10D24, 0x10D27);
    (0x10EAB, 0x10EAC); (0x10F46, 0x10F50); (0x10F82, 0x10F85);
    (0x11001, 0x11001); (0x11038, 0x11046); (0x11070, 0x11070);
    (0x11073, 0x11074); (0x1107F, 0x11081); (0x110B3, 0x110B6);
    (0x110B9, 0x110BA); (0x110BD, 0x110BD); (0x110C2, 0x110C2);
    (0x110CD, 0x110CD); (0x11100, 0x11102); (0x11127, 0x1112B);
    (0x1112D, 0x11134); (0x11173, 0x11173); (0x11180, 0x11181);
    (0x111B6, 0x111BE); (0x111C9, 0x111CC); (0x111CF, 0x111CF);
    (0x1122F, 0x11231); (0x11234, 0x11234); (0x11236, 0x11237);
    (0x1123E, 0x1123E); (0x112DF, 0x112DF); (0x112E3, 0x112EA);
    (0x11300, 0x11301); (0x1133B, 0x1133C); (0x11340, 0x11340);
    (0x11366, 0x1136C); (0x11370, 0x11374); (0x11438, 0x1143F);
    (0x11442, 0x11444); (0x11446, 0x11446); (0x1145E, 0x1145E);
    (0x114B3, 0x114B8); (0x114BA, 0x114BA); (0x114BF, 0x114C0);
    (0x114C2, 0x114C3); (0x115B2, 0x115B5); (0x115BC, 0x115BD);
    (0x115BF, 0x115C0); (0x115DC, 0x115DD); (0x11633, 0x1163A);
    (0x1163D, 0x1163D); (0x1163F, 0x11640); (0x116AB, 0x116AB);
    (0x116AD, 0x116AD); (0x116B0, 0x116B5); (0x116B7, 0x116B7);
    (0x1171D, 0x1171F); (0x11722, 0x11725); (0x11727, 0x1172B);
    (0x1182F, 0x11837); (0x11839, 0x1183A); (0x1193B, 0x1193C);
    (0x1193E, 0x1193E); (0x11943, 0x11943); (0x119D4, 0x119D7);
    (0x119DA, 0x119DB); (0x119E0, 0x119E0); (0x11A01, 0x11A0A);
    (0x11A33, 0x11A38); (0x11A3B, 0x11A3E); (0x11A47, 0x11A47);
    (0x11A51, 0x11A56); (0x11A59, 0x11A5B); (0x11A8A, 0x11A96);
    (0x11A98, 0x11A99); (0x11C30, 0x11C36); (0x11C38, 0x11C3D);
    (0x11C3F, 0x11C3F); (0x11C92, 0x11CA7); (0x11CAA, 0x11CB0);
    (0x11CB2, 0x11CB3); (0x11CB5, 0x11CB6); (0x11D31, 0x11D36);
    (0x11D3A, 0x11D3A); (0x11D3C, 0x11D3D); (0x11D3F, 0x11D45);
    (0x11D47, 0x11D47); (0x11D90, 0x11D91); (0x11D95, 0x11D95);
    (0x11D97, 0x11D97); (0x11EF3, 0x11EF4); (0x13430, 0x13438);
    (0x16AF0, 0x16AF4); (0x16B30, 0x16B36); (0x16B40, 0x16B43);
    (0x16F4F, 0x16F4F); (0x16F8F, 0x16F9F); (0x16FE0, 0x16FE1);
    (0x16FE3, 0x16FE4); (0x1AFF0, 0x1AFF3); (0x1AFF5, 0x1AFFB);
    (0x1AFFD, 0x1AFFE); (0x1BC9D, 0x1BC9E); (0x1BCA0, 0x1BCA3);
    (0x1CF00, 0x1CF2D); (0x1CF30, 0x1CF46); (0x1D167, 0x1D169);
    (0x1D173, 0x1D182); (0x1D185, 0x1D18B); (0x1D1AA, 0x1D1AD);
    (0x1D242, 0x1D244); (0x1DA00, 0x1DA36); (0x1DA3B, 0x1DA6C);
    (0x1DA75, 0x1DA75); (0x1DA84, 0x1DA84); (0x1DA9B, 0x1DA9F);
    (0x1DAA1, 0x1DAAF); (0x1E000, 0x1E006); (0x1E008, 0x1E018);
    (0x1E01B, 0x1E021); (0x1E023, 0x1E024); (0x1E026, 0x1E02A);
    (0x1E130, 0x1E13D); (0x1E2AE, 0x1E2AE); (0x1E2EC, 0x1E2EF);
    (0x1E8D0, 0x1E8D6); (0x1E944, 0x1E94B); (0x1F3FB, 0x1F3FF);
    (0xE0001, 0xE0001); (0xE0020, 0xE007F); (0xE0100, 0xE01EF) ].

(** The code points whose lower case is another single code point. *)
Definition lowercase : list (N * N) :=
  [
    (0x41, 0x61); (0x42, 0x62); (0x43, 0x63); (0x44, 0x64); (0x45, 0x65);
    (0x46, 0x66); (0x47, 0x67); (0x48, 0x68); (0x49, 0x69); (0x4A, 0x6A);
    (0x4B, 0x6B); (0x4C, 0x6C); (0x4D, 0x6D); (0x4E, 0x6E); (0x4F, 0x6F);
    (0x50, 0x70); (0x51, 0x71); (0x52, 0x72); (0x53, 0x73); (0x54, 0x74);
    (0x55, 0x75); (0x56, 0x76); (0x57, 0x77); (0x58, 0x78); (0x59, 0x79);
    (0x5A, 0x7A); (0xC0, 0xE0); (0xC1, 0xE1); (0xC2, 0xE2); (0xC3, 0xE3);
    (0xC4, 0xE4); (0xC5, 0xE5); (0xC6, 0xE6); (0xC7, 0xE7); (0xC8, 0xE8);
    (0xC9, 0xE9); (0xCA, 0xEA); (0xCB, 0xEB); (0xCC, 0xEC); (0xCD, 0xED);
    (0xCE, 0xEE); (0xCF, 0xEF); (0xD0, 0xF0); (0xD1, 0xF1); (0xD2, 0xF2);
    (0xD3, 0xF3); (0xD4, 0xF4); (0xD5, 0xF5); (0xD6, 0xF6); (0xD8, 0xF8);
    (0xD9, 0xF9); (0xDA, 0xFA); (0xDB, 0xFB); (0xDC, 0xFC); (0xDD, 0xFD);
    (0xDE, 0xFE); (0x100, 0x101); (0x102, 0x103); (0x104, 0x105);
    (0x106, 0x107); (0x108, 0x109); (0x10A, 0x10B); (0x10C, 0x10D);
    (0x10E, 0x10F); (0x110, 0x111); (0x112, 0x113); (0x114, 0x115);
    (0x116, 0x117); (0x118, 0x119); (0x11A, 0x11B); (0x11C, 0x11D);
    (0x11E, 0x11F); (0x120, 0x121); (0x122, 0x123); (0x124, 0x125);
    (0x126, 0x127); (0x128, 0x129); (0x12A, 0x12B); (0x12C, 0x12D);
    (0x12E, 0x12F); (0x132, 0x133); (0x134, 0x135); (0x136, 0x137);
    (0x139, 0x13A); (0x13B, 0x13C); (0x13D, 0x13E); (0x13F, 0x140);
    (0x141, 0x142); (0x143, 0x144); (0x145, 0x146); (0x147, 0x148);
    (0x14A, 0x14B); (0x14C, 0x14D); (0x14E, 0x14F); (0x150, 0x151);
    (0x152, 0x153); (0x154, 0x155); (0x156, 0x157); (0x158, 0x159);
    (0x15A, 0x15B); (0x15C, 0x15D); (0x15E, 0x15F); (0x160, 0x161);
    (0x162, 0x163); (0x164, 0x165); (0x166, 0x167); (0x168, 0x169);
    (0x16A, 0x16B); (0x16C, 0x16D); (0x16E, 0x16F); (0x170, 0x171);
    (0x172, 0x173); (0x174, 0x175); (0x176, 0x177); (0x178, 0xFF);
    (0x179, 0x17A); (0x17B, 0x17C); (0x17D, 0x17E); (0x181, 0x253);
    (0x182, 0x183); (0x184, 0x185); (0x186, 0x254); (0x187, 0x188);
    (0x189, 0x256); (0x18A, 0x257); (0x18B, 0x18C); (0x18E, 0x1DD);
    (0x18F, 0x259); (0x190, 0x25B); (0x191, 0x192); (0x193, 0x260);
    (0x194, 0x263); (0x196, 0x269); (0x197, 0x268); (0x198, 0x199);
    (0x19C, 0x26F); (0x19D, 0x272); (0x19F, 0x275); (0x1A0, 0x1A1);
    (0x1A2, 0x1A3); (0x1A4, 0x1A5); (0x1A6, 0x280); (0x1A7, 0x1A8);
    (0x1A9, 0x283); (0x1AC, 0x1AD); (0x1AE, 0x288); (0x1AF, 0x1B0);
    (0x1B1, 0x28A); (0x1B2, 0x28B); (0x1B3, 0x1B4); (0x1B5, 0x1B6);
    (0x1B7, 0x292); (0x1B8, 0x1B9); (0x1BC, 0x1BD); (0x1C4, 0x1C6);
    (0x1C5, 0x1C6); (0x1C7, 0x1C9); (0x1C8, 0x1C9); (0x1CA, 0x1CC);
    (0x1CB, 0x1CC); (0x1CD, 0x1CE); (0x1CF, 0x1D0); (0x1D1, 0x1D2);
    (0x1D3, 0x1D4); (0x1D5, 0x1D6); (0x1D7, 0x1D8); (0x1D9, 0x1DA);
    (0x1DB, 0x1DC); (0x1DE, 0x1DF); (0x1E0, 0x1E1); (0x1E2, 0x1E3);
    (0x1E4, 0x1E5); (0x1E6, 0x1E7); (0x1E8, 0x1E9); (0x1EA, 0x1EB);
    (0x1EC, 0x1ED); (0x1EE, 0x1EF); (0x1F1, 0x1F3); (0x1F2, 0x1F3);
    (0x1F4, 0x1F5); (0x1F6, 0x195); (0x1F7, 0x1BF); (0x1F8, 0x1F9);
    (0x1FA, 0x1FB); (0x1FC, 0x1FD); (0x1FE, 0x1FF); (0x200, 0x201);
    (0x202, 0x203); (0x204, 0x205); (0x206, 0x207); (0x208, 0x209);
    (0x20A, 0x20B); (0x20C, 0x20D); (0x20E, 0x20F); (0x210, 0x211);
    (0x212, 0x213); (0x214, 0x215); (0x216, 0x217); (0x218, 0x219);
    (0x21A, 0x21B); (0x21C, 0x21D); (0x21E, 0x21F); (0x220, 0x19E);
    (0x222, 0x223); (0x224, 0x225); (0x226, 0x227); (0x228, 0x229);
    (0x22A, 0x22B); (0x22C, 0x22D); (0x22E, 0x22F); (0x230, 0x231);
    (0x232, 0x233); (0x23A, 0x2C65); (0x23B, 0x23C); (0x23D, 0x19A);
    (0x23E, 0x2C66); (0x241, 0x242); (0x243, 0x180); (0x244, 0x289);
    (0x245, 0x28C); (0x246, 0x247); (0x248, 0x249); (0x24A, 0x24B);
    (0x24C, 0x24D); (0x24E, 0x24F); (0x370, 0x371); (0x372, 0x373);
    (0x376, 0x377); (0x37F, 0x3F3); (0x386, 0x3AC); (0x388, 0x3AD);
    (0x389, 0x3AE); (0x38A, 0x3AF); (0x38C, 0x3CC); (0x38E, 0x3CD);
    (0x38F, 0x3CE); (0x391, 0x3B1); (0x392, 0x3B2); (0x393, 0x3B3);
    (0x394, 0x3B4); (0x395, 0x3B5); (0x396, 0x3B6); (0x397, 0x3B7);
    (0x398, 0x3B8); (0x399, 0x3B9); (0x39A, 0x3BA); (0x39B, 0x3BB);
    (0x39C, 0x3BC); (0x39D, 0x3BD); (0x39E, 0x3BE); (0x39F, 0x3BF);
    (0x3A0, 0x3C0); (0x3A1, 0x3C1); (0x3A3, 0x3C3); (0x3A4, 0x3C4);
    (0x3A5, 0x3C5); (0x3A6, 0x3C6); (0x3A7, 0x3C7); (0x3A8, 0x3C8);
    (0x3A9, 0x3C9); (0x3AA, 0x3CA); (0x3AB, 0x3CB); (0x3CF, 0x3D7);
    (0x3D8, 0x3D9); (0x3DA, 0x3DB); (0x3DC, 0x3DD); (0x3DE, 0x3DF);
    (0x3E0, 0x3E1); (0x3E2, 0x3E3); (0x3E4, 0x3E5); (0x3E6, 0x3E7);
    (0x3E8, 0x3E9); (0x3EA, 0x3EB); (0x3EC, 0x3ED); (0x3EE, 0x3EF);
    (0x3F4, 0x3B8); (0x3F7, 0x3F8); (0x3F9, 0x3F2); (0x3FA, 0x3FB);
    (0x3FD, 0x37B); (0x3FE, 0x37C); (0x3FF, 0x37D); (0x400, 0x450);
    (0x401, 0x451); (0x402, 0x452); (0x403, 0x453); (0x404, 0x454);
    (0x405, 0x455); (0x406, 0x456); (0x407, 0x457); (0x408, 0x458);
    (0x409, 0x459); (0x40A, 0x45A); (0x40B, 0x45B); (0x40C, 0x45C);
    (0x40D, 0x45D); (0x40E, 0x45E); (0x40F, 0x45F); (0x410, 0x430);
    (0x411, 0x431); (0x412, 0x432); (0x413, 0x433); (0x414, 0x434);
    (0x415, 0x435); (0x416, 0x436); (0x417, 0x437); (0x418, 0x438);
    (0x419, 0x439); (0x41A, 0x43A); (0x41B, 0x43B); (0x41C, 0x43C);
    (0x41D, 0x43D); (0x41E, 0x43E); (0x41F, 0x43F); (0x420, 0x440);
    (0x421, 0x441); (0x422, 0x442); (0x423, 0x443); (0x424, 0x444);
    (0x425, 0x445); (0x426, 0x446); (0x427, 0x447); (0x428, 0x448);
    (0x429, 0x449); (0x42A, 0x44A); (0x42B, 0x44B); (0x42C, 0x44C);
    (0x42D, 0x44D); (0x42E, 0x44E); (0x42F, 0x44F); (0x460, 0x461);
    (0x462, 0x463); (0x464, 0x465); (0x466, 0x467); (0x468, 0x469);
    (0x46A, 0x46B); (0x46C, 0x46D); (0x46E, 0x46F); (0x470, 0x471);
    (0x472, 0x473); (0x474, 0x475); (0x476, 0x477); (0x478, 0x479);
    (0x47A, 0x47B); (0x47C, 0x47D); (0x47E, 0x47F); (0x480, 0x481);
    (0x48A, 0x48B); (0x48C, 0x48D); (0x48E, 0x48F); (0x490, 0x491);
    (0x492, 0x493); (0x494, 0x495); (0x496, 0x497); (0x498, 0x499);
    (0x49A, 0x49B); (0x49C, 0x49D); (0x49E, 0x49F); (0x4A0, 0x4A1);
    (0x4A2, 0x4A3); (0x4A4, 0x4A5); (0x4A6, 0x4A7); (0x4A8, 0x4A9);
    (0x4AA, 0x4AB); (0x4AC, 0x4AD); (0x4AE, 0x4AF); (0x4B0, 0x4B1);
    (0x4B2, 0x4B3); (0x4B4, 0x4B5); (0x4B6, 0x4B7); (0x4B8, 0x4B9);
    (0x4BA, 0x4BB); (0x4BC, 0x4BD); (0x4BE, 0x4BF); (0x4C0, 0x4CF);
    (0x4C1, 0x4C2); (0x4C3, 0x4C4); (0x4C5, 0x4C6); (0x4C7, 0x4C8);
    (0x4C9, 0x4CA); (0x4CB, 0x4CC); (0x4CD, 0x4CE); (0x4D0, 0x4D1);
    (0x4D2, 0x4D3); (0x4D4, 0x4D5); (0x4D6, 0x4D7); (0x4D8, 0x4D9);
    (0x4DA, 0x4DB); (0x4DC, 0x4DD); (0x4DE, 0x4DF); (0x4E0, 0x4E1);
    (0x4E2, 0x4E3); (0x4E4, 0x4E5); (0x4E6, 0x4E7); (0x4E8, 0x4E9);
    (0x4EA, 0x4EB); (0x4EC, 0x4ED); (0x4EE, 0x4EF); (0x4F0, 0x4F1);
    (0x4F2, 0x4F3); (0x4F4, 0x4F5); (0x4F6, 0x4F7); (0x4F8, 0x4F9);
    (0x4FA, 0x4FB); (0x4FC, 0x4FD); (0x4FE, 0x4FF); (0x500, 0x501);
    (0x502, 0x503); (0x504, 0x505); (0x506, 0x507); (0x508, 0x509);
    (0x50A, 0x50B); (0x50C, 0x50D); (0x50E, 0x50F); (0x510, 0x511);
    (0x512, 0x513); (0x514, 0x515); (0x516, 0x517); (0x518, 0x519);
    (0x51A, 0x51B); (0x51C, 0x51D); (0x51E, 0x51F); (0x520, 0x521);
    (0x522, 0x523); (0x524, 0x525); (0x526, 0x527); (0x528, 0x529);
    (0x52A, 0x52B); (0x52C, 0x52D); (0x52E, 0x52F); (0x531, 0x561);
    (0x532, 0x562); (0x533, 0x563); (0x534, 0x564); (0x535, 0x565);
    (0x536, 0x566); (0x537, 0x567); (0x538, 0x568); (0x539, 0x569);
    (0x53A, 0x56A); (0x53B, 0x56B); (0x53C, 0x56C); (0x53D, 0x56D);
    (0x53E, 0x56E); (0x53F, 0x56F); (0x540, 0x570); (0x541, 0x571);
    (0x542, 0x572); (0x543, 0x573); (0x544, 0x574); (0x545, 0x575);
    (0x546, 0x576); (0x547, 0x577); (0x548, 0x578); (0x549, 0x579);
    (0x54A, 0x57A); (0x54B, 0x57B); (0x54C, 0x57C); (0x54D, 0x57D);
    (0x54E, 0x57E); (0x54F, 0x57F); (0x550, 0x580); (0x551, 0x581);
    (0x552, 0x582); (0x553, 0x583); (0x554, 0x584); (0x555, 0x585);
    (0x556, 0x586); (0x10A0, 0x2D00); (0x10A1, 0x2D01); (0x10A2, 0x2D02);
    (0x10A3, 0x2D03); (0x10A4, 0x2D04); (0x10A5, 0x2D05); (0x10A6, 0x2D06);
    (0x10A7, 0x2D07); (0x10A8, 0x2D08); (0x10A9, 0x2D09); (0x10AA, 0x2D0A);
    (0x10AB, 0x2D0B); (0x10AC, 0x2D0C); (0x10AD, 0x2D0D); (0x10AE, 0x2D0E);
    (0x10AF, 0x2D0F); (0x10B0, 0x2D10); (0x10B1, 0x2D11); (0x10B2, 0x2D12);
    (0x10B3, 0x2D13); (0x10B4, 0x2D14); (0x10B5, 0x2D15); (0x10B6, 0x2D16);
    (0x10B7, 0x2D17); (0x10B8, 0x2D18); (0x10B9, 0x2D19); (0x10BA, 0x2D1A);
    (0x10BB, 0x2D1B); (0x10BC, 0x2D1C); (0x10BD, 0x2D1D); (0x10BE, 0x2D1E);
    (0x10BF, 0x2D1F); (0x10C0, 0x2D20); (0x10C1, 0x2D21); (0x10C2, 0x2D22);
    (0x10C3, 0x2D23); (0x10C4, 0x2D24); (0x10C5, 0x2D25); (0x10C7, 0x2D27);
    (0x10CD, 0x2D2D); (0x13A0, 0xAB70); (0x13A1, 0xAB71); (0x13A2, 0xAB72);
    (0x13A3, 0xAB73); (0x13A4, 0xAB74); (0x13A5, 0xAB75); (0x13A6, 0xAB76);
    (0x13A7, 0xAB77); (0x13A8, 0xAB78); (0x13A9, 0xAB79); (0x13AA, 0xAB7A);
    (0x13AB, 0xAB7B); (0x13AC, 0xAB7C); (0x13AD, 0xAB7D); (0x13AE, 0xAB7E);
    (0x13AF, 0xAB7F); (0x13B0, 0xAB80); (0x13B1, 0xAB81); (0x13B2, 0xAB82);
    (0x13B3, 0xAB83); (0x13B4, 0xAB84); (0x13B5, 0xAB85); (0x13B6, 0xAB86);
    (0x13B7, 0xAB87); (0x13B8, 0xAB88); (0x13B9, 0xAB89); (0x13BA, 0xAB8A);
    (0x13BB, 0xAB8B); (0x13BC, 0xAB8C); (0x13BD, 0xAB8D); (0x13BE, 0xAB8E);
    (0x13BF, 0xAB8F); (0x13C0, 0xAB90); (0x13C1, 0xAB91); (0x13C2, 0xAB92);
    (0x13C3, 0xAB93); (0x13C4, 0xAB94); (0x13C5, 0xAB95); (0x13C6, 0xAB96);
    (0x13C7, 0xAB97); (0x13C8, 0xAB98); (0x13C9, 0xAB99); (0x13CA, 0xAB9A);
    (0x13CB, 0xAB9B); (0x13CC, 0xAB9C); (0x13CD, 0xAB9D); (0x13CE, 0xAB9E);
    (0x13CF, 0xAB9F); (0x13D0, 0xABA0); (0x13D1, 0xABA1); (0x13D2, 0xABA2);
    (0x13D3, 0xABA3); (0x13D4, 0xABA4); (0x13D5, 0xABA5); (0x13D6, 0xABA6);
    (0x13D7, 0xABA7); (0x13D8, 0xABA8); (0x13D9, 0xABA9); (0x13DA, 0xABAA);
    (0x13DB, 0xABAB); (0x13DC, 0xABAC); (0x13DD, 0xABAD); (0x13DE, 0xABAE);
    (0x13DF, 0xABAF); (0x13E0, 0xABB0); (0x13E1, 0xABB1); (0x13E2, 0xABB2);
    (0x13E3, 0xABB3); (0x13E4, 0xABB4); (0x13E5, 0xABB5); (0x13E6, 0xABB6);
    (0x13E7, 0xABB7); (0x13E8, 0xABB8); (0x13E9, 0xABB9); (0x13EA, 0xABBA);
    (0x13EB, 0xABBB); (0x13EC, 0xABBC); (0x13ED, 0xABBD); (0x13EE, 0xABBE);
    (0x13EF, 0xABBF); (0x13F0, 0x13F8); (0x13F1, 0x13F9); (0x13F2, 0x13FA);
    (0x13F3, 0x13FB); (0x13F4, 0x13FC); (0x13F5, 0x13FD); (0x1C90, 0x10D0);
    (0x1C91, 0x10D1); (0x1C92, 0x10D2); (0x1C93, 0x10D3); (0x1C94, 0x10D4);
    (0x1C95, 0x10D5); (0x1C96, 0x10D6); (0x1C97, 0x10D7); (0x1C98, 0x10D8);
    (0x1C99, 0x10D9); (0x1C9A, 0x10DA); (0x1C9B, 0x10DB); (0x1C9C, 0x10DC);
    (0x1C9D, 0x10DD); (0x1C9E, 0x10DE); (0x1C9F, 0x10DF); (0x1CA0, 0x10E0);
    (0x1CA1, 0x10E1); (0x1CA2, 0x10E2); (0x1CA3, 0x10E3); (0x1CA4, 0x10E4);
    (0x1CA5, 0x10E5); (0x1CA6, 0x10E6); (0x1CA7, 0x10E7); (0x1CA8, 0x10E8);
    (0x1CA9, 0x10E9); (0x1CAA, 0x10EA); (0x1CAB, 0x10EB); (0x1CAC, 0x10EC);
    (0x1CAD, 0x10ED); (0x1CAE, 0x10EE); (0x1CAF, 0x10EF); (0x1CB0, 0x10F0);
    (0x1CB1, 0x10F1); (0x1CB2, 0x10F2); (0x1CB3, 0x10F3); (0x1CB4, 0x10F4);
    (0x1CB5, 0x10F5); (0x1CB6, 0x10F6); (0x1CB7, 0x10F7); (0x1CB8, 0x10F8);
    (0x1CB9, 0x10F9); (0x1CBA, 0x10FA); (0x1CBD, 0x10FD); (0x1CBE, 0x10FE);
    (0x1CBF, 0x10FF); (0x1E00, 0x1E01); (0x1E02, 0x1E03); (0x1E04, 0x1E05);
    (0x1E06, 0x1E07); (0x1E08, 0x1E09); (0x1E0A, 0x1E0B); (0x1E0C, 0x1E0D);
    (0x1E0E, 0x1E0F); (0x1E10, 0x1E11); (0x1E12, 0x1E13); (0x1E14, 0x1E15);
    (0x1E16, 0x1E17); (0x1E18, 0x1E19); (0x1E1A, 0x1E1B); (0x1E1C, 0x1E1D);
    (0x1E1E, 0x1E1F); (0x1E20, 0x1E21); (0x1E22, 0x1E23); (0x1E24, 0x1E25);
    (0x1E26, 0x1E27); (0x1E28, 0x1E29); (0x1E2A, 0x1E2B); (0x1E2C, 0x1E2D);
    (0x1E2E, 0x1E2F); (0x1E30, 0x1E31); (0x1E32, 0x1E33); (0x1E34, 0x1E35);
    (0x1E36, 0x1E37); (0x1E38, 0x1E39); (0x1E3A, 0x1E3B); (0x1E3C, 0x1E3D);
    (0x1E3E, 0x1E3F); (0x1E40, 0x1E41); (0x1E42, 0x1E43); (0x1E44, 0x1E45);
    (0x1E46, 0x1E47); (0x1E48, 0x1E49); (0x1E4A, 0x1E4B); (0x1E4C, 0x1E4D);
    (0x1E4E, 0x1E4F); (0x1E50, 0x1E51); (0x1E52, 0x1E53); (0x1E54, 0x1E55);
    (0x1E56, 0x1E57); (0x1E58, 0x1E59); (0x1E5A, 0x1E5B); (0x1E5C, 0x1E5D);
    (0x1E5E, 0x1E5F); (0x1E60, 0x1E61); (0x1E62, 0x1E63); (0x1E64, 0x1E65);
    (0x1E66, 0x1E67); (0x1E68, 0x1E69); (0x1E6A, 0x1E6B); (0x1E6C, 0x1E6D);
    (0x1E6E, 0x1E6F); (0x1E70, 0x1E71); (0x1E72, 0x1E73); (0x1E74, 0x1E75);
    (0x1E76, 0x1E77); (0x1E78, 0x1E79); (0x1E7A, 0x1E7B); (0x1E7C, 0x1E7D);
    (0x1E7E, 0x1E7F); (0x1E80, 0x1E81); (0x1E82, 0x1E83); (0x1E84, 0x1E85);
    (0x1E86, 0x1E87); (0x1E88, 0x1E89); (0x1E8A, 0x1E8B); (0x1E8C, 0x1E8D);
    (0x1E8E, 0x1E8F); (0x1E90, 0x1E91); (0x1E92, 0x1E93); (0x1E94, 0x1E95);
    (0x1E9E, 0xDF); (0x1EA0, 0x1EA1); (0x1EA2, 0x1EA3); (0x1EA4, 0x1EA5);
    (0x1EA6, 0x1EA7); (0x1EA8, 0x1EA9); (0x1EAA, 0x1EAB); (0x1EAC, 0x1EAD);
    (0x1EAE, 0x1EAF); (0x1EB0, 0x1EB1); (0x1EB2, 0x1EB3); (0x1EB4, 0x1EB5);
    (0x1EB6, 0x1EB7); (0x1EB8, 0x1EB9); (0x1EBA, 0x1EBB); (0x1EBC, 0x1EBD);
    (0x1EBE, 0x1EBF); (0x1EC0, 0x1EC1); (0x1EC2, 0x1EC3); (0x1EC4, 0x1EC5);
    (0x1EC6, 0x1EC7); (0x1EC8, 0x1EC9); (0x1ECA, 0x1ECB); (0x1ECC, 0x1ECD);
    (0x1ECE, 0x1ECF); (0x1ED0, 0x1ED1); (0x1ED2, 0x1ED3); (0x1ED4, 0x1ED5);
    (0x1ED6, 0x1ED7); (0x1ED8, 0x1ED9); (0x1EDA, 0x1EDB); (0x1EDC, 0x1EDD);
    (0x1EDE, 0x1EDF); (0x1EE0, 0x1EE1); (0x1EE2, 0x1EE3); (0x1EE4, 0x1EE5);
    (0x1EE6, 0x1EE7); (0x1EE8, 0x1EE9); (0x1EEA, 0x1EEB); (0x1EEC, 0x1EED);
    (0x1EEE, 0x1EEF); (0x1EF0, 0x1EF1); (0x1EF2, 0x1EF3); (0x1EF4, 0x1EF5);
    (0x1EF6, 0x1EF7); (0x1EF8, 0x1EF9); (0x1EFA, 0x1EFB); (0x1EFC, 0x1EFD);
    (0x1EFE, 0x1EFF); (0x1F08, 0x1F00); (0x1F09, 0x1F01); (0x1F0A, 0x1F02);
    (0x1F0B, 0x1F03); (0x1F0C, 0x1F04); (0x1F0D, 0x1F05); (0x1F0E, 0x1F06);
    (0x1F0F, 0x1F07); (0x1F18, 0x1F10); (0x1F19, 0x1F11); (0x1F1A, 0x1F12);
    (0x1F1B, 0x1F13); (0x1F1C, 0x1F14); (0x1F1D, 0x1F15); (0x1F28, 0x1F20);
    (0x1F29, 0x1F21); (0x1F2A, 0x1F22); (0x1F2B, 0x1F23); (0x1F2C, 0x1F24);
    (0x1F2D, 0x1F25); (0x1F2E, 0x1F26); (0x1F2F, 0x1F27); (0x1F38, 0x1F30);
    (0x1F39, 0x1F31); (0x1F3A, 0x1F32); (0x1F3B, 0x1F33); (0x1F3C, 0x1F34);
    (0x1F3D, 0x1F35); (0x1F3E, 0x1F36); (0x1F3F, 0x1F37); (0x1F48, 0x1F40);
    (0x1F49, 0x1F41); (0x1F4A, 0x1F42); (0x1F4B, 0x1F43); (0x1F4C, 0x1F44);
    (0x1F4D, 0x1F45); (0x1F59, 0x1F51); (0x1F5B, 0x1F53); (0x1F5D, 0x1F55);
    (0x1F5F, 0x1F57); (0x1F68, 0x1F60); (0x1F69, 0x1F61); (0x1F6A, 0x1F62);
    (0x1F6B, 0x1F63); (0x1F6C, 0x1F64); (0x1F6D, 0x1F65); (0x1F6E, 0x1F66);
    (0x1F6F, 0x1F67); (0x1F88, 0x1F80); (0x1F89, 0x1F81); (0x1F8A, 0x1F82);
    (0x1F8B, 0x1F83); (0x1F8C, 0x1F84); (0x1F8D, 0x1F85); (0x1F8E, 0x1F86);
    (0x1F8F, 0x1F87); (0x1F98, 0x1F90); (0x1F99, 0x1F91); (0x1F9A, 0x1F92);
    (0x1F9B, 0x1F93); (0x1F9C, 0x1F94); (0x1F9D, 0x1F95); (0x1F9E, 0x1F96);
    (0x1F9F, 0x1F97); (0x1FA8, 0x1FA0); (0x1FA9, 0x1FA1); (0x1FAA, 0x1FA2);
    (0x1FAB, 0x1FA3); (0x1FAC, 0x1FA4); (0x1FAD, 0x1FA5); (0x1FAE, 0x1FA6);
    (0x1FAF, 0x1FA7); (0x1FB8, 0x1FB0); (0x1FB9, 0x1FB1); (0x1FBA, 0x1F70);
    (0x1FBB, 0x1F71); (0x1FBC, 0x1FB3); (0x1FC8, 0x1F72); (0x1FC9, 0x1F73);
    (0x1FCA, 0x1F74); (0x1FCB, 0x1F75); (0x1FCC, 0x1FC3); (0x1FD8, 0x1FD0);
    (0x1FD9, 0x1FD1); (0x1FDA, 0x1F76); (0x1FDB, 0x1F77); (0x1FE8, 0x1FE0);
    (0x1FE9, 0x1FE1); (0x1FEA, 0x1F7A); (0x1FEB, 0x1F7B); (0x1FEC, 0x1FE5);
    (0x1FF8, 0x1F78); (0x1FF9, 0x1F79); (0x1FFA, 0x1F7C); (0x1FFB, 0x1F7D);
    (0x1FFC, 0x1FF3); (0x2126, 0x3C9); (0x212A, 0x6B); (0x212B, 0xE5);
    (0x2132, 0x214E); (0x2160, 0x2170); (0x2161, 0x2171); (0x2162, 0x2172);
    (0x2163, 0x2173); (0x2164, 0x2174); (0x2165, 0x2175); (0x2166, 0x2176);
    (0x2167, 0x2177); (0x2168, 0x2178); (0x2169, 0x2179); (0x216A, 0x217A);
    (0x216B, 0x217B); (0x216C, 0x217C); (0x216D, 0x217D); (0x216E, 0x217E);
    (0x216F, 0x217F); (0x2183, 0x2184); (0x24B6, 0x24D0); (0x24B7, 0x24D1);
    (0x24B8, 0x24D2); (0x24B9, 0x24D3); (0x24BA, 0x24D4); (0x24BB, 0x24D5);
    (0x24BC, 0x24D6); (0x24BD, 0x24D7); (0x24BE, 0x24D8); (0x24BF, 0x24D9);
    (0x24C0, 0x24DA); (0x24C1, 0x24DB); (0x24C2, 0x24DC); (0x24C3, 0x24DD);
    (0x24C4, 0x24DE); (0x24C5, 0x24DF); (0x24C6, 0x24E0); (0x24C7, 0x24E1);
    (0x24C8, 0x24E2); (0x24C9, 0x24E3); (0x24CA, 0x24E4); (0x24CB, 0x24E5);
    (0x24CC, 0x24E6); (0x24CD, 0x24E7); (0x24CE, 0x24E8); (0x24CF, 0x24E9);
    (0x2C00, 0x2C30); (0x2C01, 0x2C31); (0x2C02, 0x2C32); (0x2C03, 0x2C33);
    (0x2C04, 0x2C34); (0x2C05, 0x2C35); (0x2C06, 0x2C36); (0x2C07, 0x2C37);
    (0x2C08, 0x2C38); (0x2C09, 0x2C39); (0x2C0A, 0x2C3A); (0x2C0B, 0x2C3B);
    (0x2C0C, 0x2C3C); (0x2C0D, 0x2C3D); (0x2C0E, 0x2C3E); (0x2C0F, 0x2C3F);
    (0x2C10, 0x2C40); (0x2C11, 0x2C41); (0x2C12, 0x2C42); (0x2C13, 0x2C43);
    (0x2C14, 0x2C44); (0x2C15, 0x2C45); (0x2C16, 0x2C46); (0x2C17, 0x2C47);
    (0x2C18, 0x2C48); (0x2C19, 0x2C49); (0x2C1A, 0x2C4A); (0x2C1B, 0x2C4B);
    (0x2C1C, 0x2C4C); (0x2C1D, 0x2C4D); (0x2C1E, 0x2C4E); (0x2C1F, 0x2C4F);
    (0x2C20, 0x2C50); (0x2C21, 0x2C51); (0x2C22, 0x2C52); (0x2C23, 0x2C53);
    (0x2C24, 0x2C54); (0x2C25, 0x2C55); (0x2C26, 0x2C56); (0x2C27, 0x2C57);
    (0x2C28, 0x2C58); (0x2C29, 0x2C59); (0x2C2A, 0x2C5A); (0x2C2B, 0x2C5B);
    (0x2C2C, 0x2C5C); (0x2C2D, 0x2C5D); (0x2C2E, 0x2C5E); (0x2C2F, 0x2C5F);
    (0x2C60, 0x2C61); (0x2C62, 0x26B); (0x2C63, 0x1D7D); (0x2C64, 0x27D);
    (0x2C67, 0x2C68); (0x2C69, 0x2C6A); (0x2C6B, 0x2C6C); (0x2C6D, 0x251);
    (0x2C6E, 0x271); (0x2C6F, 0x250); (0x2C70, 0x252); (0x2C72, 0x2C73);
    (0x2C75, 0x2C76); (0x2C7E, 0x23F); (0x2C7F, 0x240); (0x2C80, 0x2C81);
    (0x2C82, 0x2C83); (0x2C84, 0x2C85); (0x2C86, 0x2C87); (0x2C88, 0x2C89);
    (0x2C8A, 0x2C8B); (0x2C8C, 0x2C8D); (0x2C8E, 0x2C8F); (0x2C90, 0x2C91);
    (0x2C92, 0x2C93); (0x2C94, 0x2C95); (0x2C96, 0x2C97); (0x2C98, 0x2C99);
    (0x2C9A, 0x2C9B); (0x2C9C, 0x2C9D); (0x2C9E, 0x2C9F); (0x2CA0, 0x2CA1);
    (0x2CA2, 0x2CA3); (0x2CA4, 0x2CA5); (0x2CA6, 0x2CA7); (0x2CA8, 0x2CA9);
    (0x2CAA, 0x2CAB); (0x2CAC, 0x2CAD); (0x2CAE, 0x2CAF); (0x2CB0, 0x2CB1);
    (0x2CB2, 0x2CB3); (0x2CB4, 0x2CB5); (0x2CB6, 0x2CB7); (0x2CB8, 0x2CB9);
    (0x2CBA, 0x2CBB); (0x2CBC, 0x2CBD); (0x2CBE, 0x2CBF); (0x2CC0, 0x2CC1);
    (0x2CC2, 0x2CC3); (0x2CC4, 0x2CC5); (0x2CC6, 0x2CC7); (0x2CC8, 0x2CC9);
    (0x2CCA, 0x2CCB); (0x2CCC, 0x2CCD); (0x2CCE, 0x2CCF); (0x2CD0, 0x2CD1);
    (0x2CD2, 0x2CD3); (0x2CD4, 0x2CD5); (0x2CD6, 0x2CD7); (0x2CD8, 0x2CD9);
    (0x2CDA, 0x2CDB); (0x2CDC, 0x2CDD); (0x2CDE, 0x2CDF); (0x2CE0, 0x2CE1);
    (0x2CE2, 0x2CE3); (0x2CEB, 0x2CEC); (0x2CED, 0x2CEE); (0x2CF2, 0x2CF3);
    (0xA640, 0xA641); (0xA642, 0xA643); (0xA644, 0xA645); (0xA646, 0xA647);
    (0xA648, 0xA649); (0xA64A, 0xA64B); (0xA64C, 0xA64D); (0xA64E, 0xA64F);
    (0xA650, 0xA651); (0xA652, 0xA653); (0xA654, 0xA655); (0xA656, 0xA657);
    (0xA658, 0xA659); (0xA65A, 0xA65B); (0xA65C, 0xA65D); (0xA65E, 0xA65F);
    (0xA660, 0xA661); (0xA662, 0xA663); (0xA664, 0xA665); (0xA666, 0xA667);
    (0xA668, 0xA669); (0xA66A, 0xA66B); (0xA66C, 0xA66D); (0xA680, 0xA681);
    (0xA682, 0xA683); (0xA684, 0xA685); (0xA686, 0xA687); (0xA688, 0xA689);
    (0xA68A, 0xA68B); (0xA68C, 0xA68D); (0xA68E, 0xA68F); (0xA690, 0xA691);
    (0xA692, 0xA693); (0xA694, 0xA695); (0xA696, 0xA697); (0xA698, 0xA699);
    (0xA69A, 0xA69B); (0xA722, 0xA723); (0xA724, 0xA725); (0xA726, 0xA727);
    (0xA728, 0xA729); (0xA72A, 0xA72B); (0xA72C, 0xA72D); (0xA72E, 0xA72F);
    (0xA732, 0xA733); (0xA734, 0xA735); (0xA736, 0xA737); (0xA738, 0xA739);
    (0xA73A, 0xA73B); (0xA73C, 0xA73D); (0xA73E, 0xA73F); (0xA740, 0xA741);
    (0xA742, 0xA743); (0xA744, 0xA745); (0xA746, 0xA747); (0xA748, 0xA749);
    (0xA74A, 0xA74B); (0xA74C, 0xA74D); (0xA74E, 0xA74F); (0xA750, 0xA751);
    (0xA752, 0xA753); (0xA754, 0xA755); (0xA756, 0xA757); (0xA758, 0xA759);
    (0xA75A, 0xA75B); (0xA75C, 0xA75D); (0xA75E, 0xA75F); (0xA760, 0xA761);
    (0xA762, 0xA763); (0xA764, 0xA765); (0xA766, 0xA767); (0xA768, 0xA769);
    (0xA76A, 0xA76B); (0xA76C, 0xA76D); (0xA76E, 0xA76F); (0xA779, 0xA77A);
    (0xA77B, 0xA77C); (0xA77D, 0x1D79); (0xA77E, 0xA77F); (0xA780, 0xA781);
    (0xA782, 0xA783); (0xA784, 0xA785); (0xA786, 0xA787); (0xA78B, 0xA78C);
    (0xA78D, 0x265); (0xA790, 0xA791); (0xA792, 0xA793); (0xA796, 0xA797);
    (0xA798, 0xA799); (0xA79A, 0xA79B); (0xA79C, 0xA79D); (0xA79E, 0xA79F);
    (0xA7A0, 0xA7A1); (0xA7A2, 0xA7A3); (0xA7A4, 0xA7A5); (0xA7A6, 0xA7A7);
    (0xA7A8, 0xA7A9); (0xA7AA, 0x266); (0xA7AB, 0x25C); (0xA7AC, 0x261);
    (0xA7AD, 0x26C); (0xA7AE, 0x26A); (0xA7B0, 0x29E); (0xA7B1, 0x287);
    (0xA7B2, 0x29D); (0xA7B3, 0xAB53); (0xA7B4, 0xA7B5); (0xA7B6, 0xA7B7);
    (0xA7B8, 0xA7B9); (0xA7BA, 0xA7BB); (0xA7BC, 0xA7BD); (0xA7BE, 0xA7BF);
    (0xA7C0, 0xA7C1); (0xA7C2, 0xA7C3); (0xA7C4, 0xA794); (0xA7C5, 0x282);
    (0xA7C6, 0x1D8E); (0xA7C7, 0xA7C8); (0xA7C9, 0xA7CA); (0xA7D0, 0xA7D1);
    (0xA7D6, 0xA7D7); (0xA7D8, 0xA7D9); (0xA7F5, 0xA7F6); (0xFF21, 0xFF41);
    (0xFF22, 0xFF42); (0xFF23, 0xFF43); (0xFF24, 0xFF44); (0xFF25, 0xFF45);
    (0xFF26, 0xFF46); (0xFF27, 0xFF47); (0xFF28, 0xFF48); (0xFF29, 0xFF49);
    (0xFF2A, 0xFF4A); (0xFF2B, 0xFF4B); (0xFF2C, 0xFF4C); (0xFF2D, 0xFF4D);
    (0xFF2E, 0xFF4E); (0xFF2F, 0xFF4F); (0xFF30, 0xFF50); (0xFF31, 0xFF51);
    (0xFF32, 0xFF52); (0xFF33, 0xFF53); (0xFF34, 0xFF54); (0xFF35, 0xFF55);
    (0xFF36, 0xFF56); (0xFF37, 0xFF57); (0xFF38, 0xFF58); (0xFF39, 0xFF59);
    (0xFF3A, 0xFF5A); (0x10400, 0x10428); (0x10401, 0x10429);
    (0x10402, 0x1042A); (0x10403, 0x1042B); (0x10404, 0x1042C);
    (0x10405, 0x1042D); (0x10406, 0x1042E); (0x10407, 0x1042F);
    (0x10408, 0x10430); (0x10409, 0x10431); (0x1040A, 0x10432);
    (0x1040B, 0x10433); (0x1040C, 0x10434); (0x1040D, 0x10435);
    (0x1040E, 0x10436); (0x1040F, 0x10437); (0x10410, 0x10438);
    (0x10411, 0x10439); (0x10412, 0x1043A); (0x10413, 0x1043B);
    (0x10414, 0x1043C); (0x10415, 0x1043D); (0x10416, 0x1043E);
    (0x10417, 0x1043F); (0x10418, 0x10440); (0x10419, 0x10441);
    (0x1041A, 0x10442); (0x1041B, 0x10443); (0x1041C, 0x10444);
    (0x1041D, 0x10445); (0x1041E, 0x10446); (0x1041F, 0x10447);
    (0x10420, 0x10448); (0x10421, 0x10449); (0x10422, 0x1044A);
    (0x10423, 0x1044B); (0x10424, 0x1044C); (0x10425, 0x1044D);
    (0x10426, 0x1044E); (0x10427, 0x1044F); (0x104B0, 0x104D8);
    (0x104B1, 0x104D9); (0x104B2, 0x104DA); (0x104B3, 0x104DB);
    (0x104B4, 0x104DC); (0x104B5, 0x104DD); (0x104B6, 0x104DE);
    (0x104B7, 0x104DF); (0x104B8, 0x104E0); (0x104B9, 0x104E1);
    (0x104BA, 0x104E2); (0x104BB, 0x104E3); (0x104BC, 0x104E4);
    (0x104BD, 0x104E5); (0x104BE, 0x104E6); (0x104BF, 0x104E7);
    (0x104C0, 0x104E8); (0x104C1, 0x104E9); (0x104C2, 0x104EA);
    (0x104C3, 0x104EB); (0x104C4, 0x104EC); (0x104C5, 0x104ED);
    (0x104C6, 0x104EE); (0x104C7, 0x104EF); (0x104C8, 0x104F0);
    (0x104C9, 0x104F1); (0x104CA, 0x104F2); (0x104CB, 0x104F3);
    (0x104CC, 0x104F4); (0x104CD, 0x104F5); (0x104CE, 0x104F6);
    (0x104CF, 0x104F7); (0x104D0, 0x104F8); (0x104D1, 0x104F9);
    (0x104D2, 0x104FA); (0x104D3, 0x104FB); (0x10570, 0x10597);
    (0x10571, 0x10598); (0x10572, 0x10599); (0x10573, 0x1059A);
    (0x10574, 0x1059B); (0x10575, 0x1059C); (0x10576, 0x1059D);
    (0x10577, 0x1059E); (0x10578, 0x1059F); (0x10579, 0x105A0);
    (0x1057A, 0x105A1); (0x1057C, 0x105A3); (0x1057D, 0x105A4);
    (0x1057E, 0x105A5); (0x1057F, 0x105A6); (0x10580, 0x105A7);
    (0x10581, 0x105A8); (0x10582, 0x105A9); (0x10583, 0x105AA);
    (0x10584, 0x105AB); (0x10585, 0x105AC); (0x10586, 0x105AD);
    (0x10587, 0x105AE); (0x10588, 0x105AF); (0x10589, 0x105B0);
    (0x1058A, 0x105B1); (0x1058C, 0x105B3); (0x1058D, 0x105B4);
    (0x1058E, 0x105B5); (0x1058F, 0x105B6); (0x10590, 0x105B7);
    (0x10591, 0x105B8); (0x10592, 0x105B9); (0x10594, 0x105BB);
    (0x10595, 0x105BC); (0x10C80, 0x10CC0); (0x10C81, 0x10CC1);
    (0x10C82, 0x10CC2); (0x10C83, 0x10CC3); (0x10C84, 0x10CC4);
    (0x10C85, 0x10CC5); (0x10C86, 0x10CC6); (0x10C87, 0x10CC7);
    (0x10C88, 0x10CC8); (0x10C89, 0x10CC9); (0x10C8A, 0x10CCA);
    (0x10C8B, 0x10CCB); (0x10C8C, 0x10CCC); (0x10C8D, 0x10CCD);
    (0x10C8E, 0x10CCE); (0x10C8F, 0x10CCF); (0x10C90, 0x10CD0);
    (0x10C91, 0x10CD1); (0x10C92, 0x10CD2); (0x10C93, 0x10CD3);
    (0x10C94, 0x10CD4); (0x10C95, 0x10CD5); (0x10C96, 0x10CD6);
    (0x10C97, 0x10CD7); (0x10C98, 0x10CD8); (0x10C99, 0x10CD9);
    (0x10C9A, 0x10CDA); (0x10C9B, 0x10CDB); (0x10C9C, 0x10CDC);
    (0x10C9D, 0x10CDD); (0x10C9E, 0x10CDE); (0x10C9F, 0x10CDF);
    (0x10CA0, 0x10CE0); (0x10CA1, 0x10CE1); (0x10CA2, 0x10CE2);
    (0x10CA3, 0x10CE3); (0x10CA4, 0x10CE4); (0x10CA5, 0x10CE5);
    (0x10CA6, 0x10CE6); (0x10CA7, 0x10CE7); (0x10CA8, 0x10CE8);
    (0x10CA9, 0x10CE9); (0x10CAA, 0x10CEA); (0x10CAB, 0x10CEB);
    (0x10CAC, 0x10CEC); (0x10CAD, 0x10CED); (0x10CAE, 0x10CEE);
    (0x10CAF, 0x10CEF); (0x10CB0, 0x10CF0); (0x10CB1, 0x10CF1);
    (0x10CB2, 0x10CF2); (0x118A0, 0x118C0); (0x118A1, 0x118C1);
    (0x118A2, 0x118C2); (0x118A3, 0x118C3); (0x118A4, 0x118C4);
    (0x118A5, 0x118C5); (0x118A6, 0x118C6); (0x118A7, 0x118C7);
    (0x118A8, 0x118C8); (0x118A9, 0x118C9); (0x118AA, 0x118CA);
    (0x118AB, 0x118CB); (0x118AC, 0x118CC); (0x118AD, 0x118CD);
    (0x118AE, 0x118CE); (0x118AF, 0x118CF); (0x118B0, 0x118D0);
    (0x118B1, 0x118D1); (0x118B2, 0x118D2); (0x118B3, 0x118D3);
    (0x118B4, 0x118D4); (0x118B5, 0x118D5); (0x118B6, 0x118D6);
    (0x118B7, 0x118D7); (0x118B8, 0x118D8); (0x118B9, 0x118D9);
    (0x118BA, 0x118DA); (0x118BB, 0x118DB); (0x118BC, 0x118DC);
    (0x118BD, 0x118DD); (0x118BE, 0x118DE); (0x118BF, 0x118DF);
    (0x16E40, 0x16E60); (0x16E41, 0x16E61); (0x16E42, 0x16E62);
    (0x16E43, 0x16E63); (0x16E44, 0x16E64); (0x16E45, 0x16E65);
    (0x16E46, 0x16E66); (0x16E47, 0x16E67); (0x16E48, 0x16E68);
    (0x16E49, 0x16E69); (0x16E4A, 0x16E6A); (0x16E4B, 0x16E6B);
    (0x16E4C, 0x16E6C); (0x16E4D, 0x16E6D); (0x16E4E, 0x16E6E);
    (0x16E4F, 0x16E6F); (0x16E50, 0x16E70); (0x16E51, 0x16E71);
    (0x16E52, 0x16E72); (0x16E53, 0x16E73); (0x16E54, 0x16E74);
    (0x16E55, 0x16E75); (0x16E56, 0x16E76); (0x16E57, 0x16E77);
    (0x16E58, 0x16E78); (0x16E59, 0x16E79); (0x16E5A, 0x16E7A);
    (0x16E5B, 0x16E7B); (0x16E5C, 0x16E7C); (0x16E5D, 0x16E7D);
    (0x16E5E, 0x16E7E); (0x16E5F, 0x16E7F); (0x1E900, 0x1E922);
    (0x1E901, 0x1E923); (0x1E902, 0x1E924); (0x1E903, 0x1E925);
    (0x1E904, 0x1E926); (0x1E905, 0x1E927); (0x1E906, 0x1E928);
    (0x1E907, 0x1E929); (0x1E908, 0x1E92A); (0x1E909, 0x1E92B);
    (0x1E90A, 0x1E92C); (0x1E90B, 0x1E92D); (0x1E90C, 0x1E92E);
    (0x1E90D, 0x1E92F); (0x1E90E, 0x1E930); (0x1E90F, 0x1E931);
    (0x1E910, 0x1E932); (0x1E911, 0x1E933); (0x1E912, 0x1E934);
    (0x1E913, 0x1E935); (0x1E914, 0x1E936); (0x1E915, 0x1E937);
    (0x1E916, 0x1E938); (0x1E917, 0x1E939); (0x1E918, 0x1E93A);
    (0x1E919, 0x1E93B); (0x1E91A, 0x1E93C); (0x1E91B, 0x1E93D);
    (0x1E91C, 0x1E93E); (0x1E91D, 0x1E93F); (0x1E91E, 0x1E940);
    (0x1E91F, 0x1E941); (0x1E920, 0x1E942); (0x1E921, 0x1E943) ].

(** The code points whose upper case is not themselves. *)
Definition uppercase : list (N * list N) :=
  [
    (0x61, [0x41]); (0x62, [0x42]); (0x63, [0x43]); (0x64, [0x44]);
    (0x65, [0x45]); (0x66, [0x46]); (0x67, [0x47]); (0x68, [0x48]);
    (0x69, [0x49]); (0x6A, [0x4A]); (0x6B, [0x4B]); (0x6C, [0x4C]);
    (0x6D, [0x4D]); (0x6E, [0x4E]); (0x6F, [0x4F]); (0x70, [0x50]);
    (0x71, [0x51]); (0x72, [0x52]); (0x73, [0x53]); (0x74, [0x54]);
    (0x75, [0x55]); (0x76, [0x56]); (0x77, [0x57]); (0x78, [0x58]);
    (0x79, [0x59]); (0x7A, [0x5A]); (0xB5, [0x39C]); (0xDF, [0x53; 0x53]);
    (0xE0, [0xC0]); (0xE1, [0xC1]); (0xE2, [0xC2]); (0xE3, [0xC3]);
    (0xE4, [0xC4]); (0xE5, [0xC5]); (0xE6, [0xC6]); (0xE7, [0xC7]);
    (0xE8, [0xC8]); (0xE9, [0xC9]); (0xEA, [0xCA]); (0xEB, [0xCB]);
    (0xEC, [0xCC]); (0xED, [0xCD]); (0xEE, [0xCE]); (0xEF, [0xCF]);
    (0xF0, [0xD0]); (0xF1, [0xD1]); (0xF2, [0xD2]); (0xF3, [0xD3]);
    (0xF4, [0xD4]); (0xF5, [0xD5]); (0xF6, [0xD6]); (0xF8, [0xD8]);
    (0xF9, [0xD9]); (0xFA, [0xDA]); (0xFB, [0xDB]); (0xFC, [0xDC]);
    (0xFD, [0xDD]); (0xFE, [0xDE]); (0xFF, [0x178]); (0x101, [0x100]);
    (0x103, [0x102]); (0x105, [0x104]); (0x107, [0x106]); (0x109, [0x108]);
    (0x10B, [0x10A]); (0x10D, [0x10C]); (0x10F, [0x10E]); (0x111, [0x110]);
    (0x113, [0x112]); (0x115, [0x114]); (0x117, [0x116]); (0x119, [0x118]);
    (0x11B, [0x11A]); (0x11D, [0x11C]); (0x11F, [0x11E]); (0x121, [0x120]);
    (0x123, [0x122]); (0x125, [0x124]); (0x127, [0x126]); (0x129, [0x128]);
    (0x12B, [0x12A]); (0x12D, [0x12C]); (0x12F, [0x12E]); (0x131, [0x49]);
    (0x133, [0x132]); (0x135, [0x134]); (0x137, [0x136]); (0x13A, [0x139]);
    (0x13C, [0x13B]); (0x13E, [0x13D]); (0x140, [0x13F]); (0x142, [0x141]);
    (0x144, [0x143]); (0x146, [0x145]); (0x148, [0x147]);
    (0x149, [0x2BC; 0x4E]); (0x14B, [0x14A]); (0x14D, [0x14C]);
    (0x14F, [0x14E]); (0x151, [0x150]); (0x153, [0x152]); (0x155, [0x154]);
    (0x157, [0x156]); (0x159, [0x158]); (0x15B, [0x15A]); (0x15D, [0x15C]);
    (0x15F, [0x15E]); (0x161, [0x160]); (0x163, [0x162]); (0x165, [0x164]);
    (0x167, [0x166]); (0x169, [0x168]); (0x16B, [0x16A]); (0x16D, [0x16C]);
    (0x16F, [0x16E]); (0x171, [0x170]); (0x173, [0x172]); (0x175, [0x174]);
    (0x177, [0x176]); (0x17A, [0x179]); (0x17C, [0x17B]); (0x17E, [0x17D]);
    (0x17F, [0x53]); (0x180, [0x243]); (0x183, [0x182]); (0x185, [0x184]);
    (0x188, [0x187]); (0x18C, [0x18B]); (0x192, [0x191]); (0x195, [0x1F6]);
    (0x199, [0x198]); (0x19A, [0x23D]); (0x19E, [0x220]); (0x1A1, [0x1A0]);
    (0x1A3, [0x1A2]); (0x1A5, [0x1A4]); (0x1A8, [0x1A7]); (0x1AD, [0x1AC]);
    (0x1B0, [0x1AF]); (0x1B4, [0x1B3]); (0x1B6, [0x1B5]); (0x1B9, [0x1B8]);
    (0x1BD, [0x1BC]); (0x1BF, [0x1F7]); (0x1C5, [0x1C4]); (0x1C6, [0x1C4]);
    (0x1C8, [0x1C7]); (0x1C9, [0x1C7]); (0x1CB, [0x1CA]); (0x1CC, [0x1CA]);
    (0x1CE, [0x1CD]); (0x1D0, [0x1CF]); (0x1D2, [0x1D1]); (0x1D4, [0x1D3]);
    (0x1D6, [0x1D5]); (0x1D8, [0x1D7]); (0x1DA, [0x1D9]); (0x1DC, [0x1DB]);
    (0x1DD, [0x18E]); (0x1DF, [0x1DE]); (0x1E1, [0x1E0]); (0x1E3, [0x1E2]);
    (0x1E5, [0x1E4]); (0x1E7, [0x1E6]); (0x1E9, [0x1E8]); (0x1EB, [0x1EA]);
    (0x1ED, [0x1EC]); (0x1EF, [0x1EE]); (0x1F0, [0x4A; 0x30C]);
    (0x1F2, [0x1F1]); (0x1F3, [0x1F1]); (0x1F5, [0x1F4]); (0x1F9, [0x1F8]);
    (0x1FB, [0x1FA]); (0x1FD, [0x1FC]); (0x1FF, [0x1FE]); (0x201, [0x200]);
    (0x203, [0x202]); (0x205, [0x204]); (0x207, [0x206]); (0x209, [0x208]);
    (0x20B, [0x20A]); (0x20D, [0x20C]); (0x20F, [0x20E]); (0x211, [0x210]);
    (0x213, [0x212]); (0x215, [0x214]); (0x217, [0x216]); (0x219, [0x218]);
    (0x21B, [0x21A]); (0x21D, [0x21C]); (0x21F, [0x21E]); (0x223, [0x222]);
    (0x225, [0x224]); (0x227, [0x226]); (0x229, [0x228]); (0x22B, [0x22A]);
    (0x22D, [0x22C]); (0x22F, [0x22E]); (0x231, [0x230]); (0x233, [0x232]);
    (0x23C, [0x23B]); (0x23F, [0x2C7E]); (0x240, [0x2C7F]); (0x242, [0x241]);
    (0x247, [0x246]); (0x249, [0x248]); (0x24B, [0x24A]); (0x24D, [0x24C]);
    (0x24F, [0x24E]); (0x250, [0x2C6F]); (0x251, [0x2C6D]);
    (0x252, [0x2C70]); (0x253, [0x181]); (0x254, [0x186]); (0x256, [0x189]);
    (0x257, [0x18A]); (0x259, [0x18F]); (0x25B, [0x190]); (0x25C, [0xA7AB]);
    (0x260, [0x193]); (0x261, [0xA7AC]); (0x263, [0x194]); (0x265, [0xA78D]);
    (0x266, [0xA7AA]); (0x268, [0x197]); (0x269, [0x196]); (0x26A, [0xA7AE]);
    (0x26B, [0x2C62]); (0x26C, [0xA7AD]); (0x26F, [0x19C]);
    (0x271, [0x2C6E]); (0x272, [0x19D]); (0x275, [0x19F]); (0x27D, [0x2C64]);
    (0x280, [0x1A6]); (0x282, [0xA7C5]); (0x283, [0x1A9]); (0x287, [0xA7B1]);
    (0x288, [0x1AE]); (0x289, [0x244]); (0x28A, [0x1B1]); (0x28B, [0x1B2]);
    (0x28C, [0x245]); (0x292, [0x1B7]); (0x29D, [0xA7B2]); (0x29E, [0xA7B0]);
    (0x345, [0x399]); (0x371, [0x370]); (0x373, [0x372]); (0x377, [0x376]);
    (0x37B, [0x3FD]); (0x37C, [0x3FE]); (0x37D, [0x3FF]);
    (0x390, [0x399; 0x308; 0x301]); (0x3AC, [0x386]); (0x3AD, [0x388]);
    (0x3AE, [0x389]); (0x3AF, [0x38A]); (0x3B0, [0x3A5; 0x308; 0x301]);
    (0x3B1, [0x391]); (0x3B2, [0x392]); (0x3B3, [0x393]); (0x3B4, [0x394]);
    (0x3B5, [0x395]); (0x3B6, [0x396]); (0x3B7, [0x397]); (0x3B8, [0x398]);
    (0x3B9, [0x399]); (0x3BA, [0x39A]); (0x3BB, [0x39B]); (0x3BC, [0x39C]);
    (0x3BD, [0x39D]); (0x3BE, [0x39E]); (0x3BF, [0x39F]); (0x3C0, [0x3A0]);
    (0x3C1, [0x3A1]); (0x3C2, [0x3A3]); (0x3C3, [0x3A3]); (0x3C4, [0x3A4]);
    (0x3C5, [0x3A5]); (0x3C6, [0x3A6]); (0x3C7, [0x3A7]); (0x3C8, [0x3A8]);
    (0x3C9, [0x3A9]); (0x3CA, [0x3AA]); (0x3CB, [0x3AB]); (0x3CC, [0x38C]);
    (0x3CD, [0x38E]); (0x3CE, [0x38F]); (0x3D0, [0x392]); (0x3D1, [0x398]);
    (0x3D5, [0x3A6]); (0x3D6, [0x3A0]); (0x3D7, [0x3CF]); (0x3D9, [0x3D8]);
    (0x3DB, [0x3DA]); (0x3DD, [0x3DC]); (0x3DF, [0x3DE]); (0x3E1, [0x3E0]);
    (0x3E3, [0x3E2]); (0x3E5, [0x3E4]); (0x3E7, [0x3E6]); (0x3E9, [0x3E8]);
    (0x3EB, [0x3EA]); (0x3ED, [0x3EC]); (0x3EF, [0x3EE]); (0x3F0, [0x39A]);
    (0x3F1, [0x3A1]); (0x3F2, [0x3F9]); (0x3F3, [0x37F]); (0x3F5, [0x395]);
    (0x3F8, [0x3F7]); (0x3FB, [0x3FA]); (0x430, [0x410]); (0x431, [0x411]);
    (0x432, [0x412]); (0x433, [0x413]); (0x434, [0x414]); (0x435, [0x415]);
    (0x436, [0x416]); (0x437, [0x417]); (0x438, [0x418]); (0x439, [0x419]);
    (0x43A, [0x41A]); (0x43B, [0x41B]); (0x43C, [0x41C]); (0x43D, [0x41D]);
    (0x43E, [0x41E]); (0x43F, [0x41F]); (0x440, [0x420]); (0x441, [0x421]);
    (0x442, [0x422]); (0x443, [0x423]); (0x444, [0x424]); (0x445, [0x425]);
    (0x446, [0x426]); (0x447, [0x427]); (0x448, [0x428]); (0x449, [0x429]);
    (0x44A, [0x42A]); (0x44B, [0x42B]); (0x44C, [0x42C]); (0x44D, [0x42D]);
    (0x44E, [0x42E]); (0x44F, [0x42F]); (0x450, [0x400]); (0x451, [0x401]);
    (0x452, [0x402]); (0x453, [0x403]); (0x454, [0x404]); (0x455, [0x405]);
    (0x456, [0x406]); (0x457, [0x407]); (0x458, [0x408]); (0x459, [0x409]);
    (0x45A, [0x40A]); (0x45B, [0x40B]); (0x45C, [0x40C]); (0x45D, [0x40D]);
    (0x45E, [0x40E]); (0x45F, [0x40F]); (0x461, [0x460]); (0x463, [0x462]);
    (0x465, [0x464]); (0x467, [0x466]); (0x469, [0x468]); (0x46B, [0x46A]);
    (0x46D, [0x46C]); (0x46F, [0x46E]); (0x471, [0x470]); (0x473, [0x472]);
    (0x475, [0x474]); (0x477, [0x476]); (0x479, [0x478]); (0x47B, [0x47A]);
    (0x47D, [0x47C]); (0x47F, [0x47E]); (0x481, [0x480]); (0x48B, [0x48A]);
    (0x48D, [0x48C]); (0x48F, [0x48E]); (0x491, [0x490]); (0x493, [0x492]);
    (0x495, [0x494]); (0x497, [0x496]); (0x499, [0x498]); (0x49B, [0x49A]);
    (0x49D, [0x49C]); (0x49F, [0x49E]); (0x4A1, [0x4A0]); (0x4A3, [0x4A2]);
    (0x4A5, [0x4A4]); (0x4A7, [0x4A6]); (0x4A9, [0x4A8]); (0x4AB, [0x4AA]);
    (0x4AD, [0x4AC]); (0x4AF, [0x4AE]); (0x4B1, [0x4B0]); (0x4B3, [0x4B2]);
    (0x4B5, [0x4B4]); (0x4B7, [0x4B6]); (0x4B9, [0x4B8]); (0x4BB, [0x4BA]);
    (0x4BD, [0x4BC]); (0x4BF, [0x4BE]); (0x4C2, [0x4C1]); (0x4C4, [0x4C3]);
    (0x4C6, [0x4C5]); (0x4C8, [0x4C7]); (0x4CA, [0x4C9]); (0x4CC, [0x4CB]);
    (0x4CE, [0x4CD]); (0x4CF, [0x4C0]); (0x4D1, [0x4D0]); (0x4D3, [0x4D2]);
    (0x4D5, [0x4D4]); (0x4D7, [0x4D6]); (0x4D9, [0x4D8]); (0x4DB, [0x4DA]);
    (0x4DD, [0x4DC]); (0x4DF, [0x4DE]); (0x4E1, [0x4E0]); (0x4E3, [0x4E2]);
    (0x4E5, [0x4E4]); (0x4E7, [0x4E6]); (0x4E9, [0x4E8]); (0x4EB, [0x4EA]);
    (0x4ED, [0x4EC]); (0x4EF, [0x4EE]); (0x4F1, [0x4F0]); (0x4F3, [0x4F2]);
    (0x4F5, [0x4F4]); (0x4F7, [0x4F6]); (0x4F9, [0x4F8]); (0x4FB, [0x4FA]);
    (0x4FD, [0x4FC]); (0x4FF, [0x4FE]); (0x501, [0x500]); (0x503, [0x502]);
    (0x505, [0x504]); (0x507, [0x506]); (0x509, [0x508]); (0x50B, [0x50A]);
    (0x50D, [0x50C]); (0x50F, [0x50E]); (0x511, [0x510]); (0x513, [0x512]);
    (0x515, [0x514]); (0x517, [0x516]); (0x519, [0x518]); (0x51B, [0x51A]);
    (0x51D, [0x51C]); (0x51F, [0x51E]); (0x521, [0x520]); (0x523, [0x522]);
    (0x525, [0x524]); (0x527, [0x526]); (0x529, [0x528]); (0x52B, [0x52A]);
    (0x52D, [0x52C]); (0x52F, [0x52E]); (0x561, [0x531]); (0x562, [0x532]);
    (0x563, [0x533]); (0x564, [0x534]); (0x565, [0x535]); (0x566, [0x536]);
    (0x567, [0x537]); (0x568, [0x538]); (0x569, [0x539]); (0x56A, [0x53A]);
    (0x56B, [0x53B]); (0x56C, [0x53C]); (0x56D, [0x53D]); (0x56E, [0x53E]);
    (0x56F, [0x53F]); (0x570, [0x540]); (0x571, [0x541]); (0x572, [0x542]);
    (0x573, [0x543]); (0x574, [0x544]); (0x575, [0x545]); (0x576, [0x546]);
    (0x577, [0x547]); (0x578, [0x548]); (0x579, [0x549]); (0x57A, [0x54A]);
    (0x57B, [0x54B]); (0x57C, [0x54C]); (0x57D, [0x54D]); (0x57E, [0x54E]);
    (0x57F, [0x54F]); (0x580, [0x550]); (0x581, [0x551]); (0x582, [0x552]);
    (0x583, [0x553]); (0x584, [0x554]); (0x585, [0x555]); (0x586, [0x556]);
    (0x587, [0x535; 0x552]); (0x10D0, [0x1C90]); (0x10D1, [0x1C91]);
    (0x10D2, [0x1C92]); (0x10D3, [0x1C93]); (0x10D4, [0x1C94]);
    (0x10D5, [0x1C95]); (0x10D6, [0x1C96]); (0x10D7, [0x1C97]);
    (0x10D8, [0x1C98]); (0x10D9, [0x1C99]); (0x10DA, [0x1C9A]);
    (0x10DB, [0x1C9B]); (0x10DC, [0x1C9C]); (0x10DD, [0x1C9D]);
    (0x10DE, [0x1C9E]); (0x10DF, [0x1C9F]); (0x10E0, [0x1CA0]);
    (0x10E1, [0x1CA1]); (0x10E2, [0x1CA2]); (0x10E3, [0x1CA3]);
    (0x10E4, [0x1CA4]); (0x10E5, [0x1CA5]); (0x10E6, [0x1CA6]);
    (0x10E7, [0x1CA7]); (0x10E8, [0x1CA8]); (0x10E9, [0x1CA9]);
    (0x10EA, [0x1CAA]); (0x10EB, [0x1CAB]); (0x10EC, [0x1CAC]);
    (0x10ED, [0x1CAD]); (0x10EE, [0x1CAE]); (0x10EF, [0x1CAF]);
    (0x10F0, [0x1CB0]); (0x10F1, [0x1CB1]); (0x10F2, [0x1CB2]);
    (0x10F3, [0x1CB3]); (0x10F4, [0x1CB4]); (0x10F5, [0x1CB5]);
    (0x10F6, [0x1CB6]); (0x10F7, [0x1CB7]); (0x10F8, [0x1CB8]);
    (0x10F9, [0x1CB9]); (0x10FA, [0x1CBA]); (0x10FD, [0x1CBD]);
    (0x10FE, [0x1CBE]); (0x10FF, [0x1CBF]); (0x13F8, [0x13F0]);
    (0x13F9, [0x13F1]); (0x13FA, [0x13F2]); (0x13FB, [0x13F3]);
    (0x13FC, [0x13F4]); (0x13FD, [0x13F5]); (0x1C80, [0x412]);
    (0x1C81, [0x414]); (0x1C82, [0x41E]); (0x1C83, [0x421]);
    (0x1C84, [0x422]); (0x1C85, [0x422]); (0x1C86, [0x42A]);
    (0x1C87, [0x462]); (0x1C88, [0xA64A]); (0x1D79, [0xA77D]);
    (0x1D7D, [0x2C63]); (0x1D8E, [0xA7C6]); (0x1E01, [0x1E00]);
    (0x1E03, [0x1E02]); (0x1E05, [0x1E04]); (0x1E07, [0x1E06]);
    (0x1E09, [0x1E08]); (0x1E0B, [0x1E0A]); (0x1E0D, [0x1E0C]);
    (0x1E0F, [0x1E0E]); (0x1E11, [0x1E10]); (0x1E13, [0x1E12]);
    (0x1E15, [0x1E14]); (0x1E17, [0x1E16]); (0x1E19, [0x1E18]);
    (0x1E1B, [0x1E1A]); (0x1E1D, [0x1E1C]); (0x1E1F, [0x1E1E]);
    (0x1E21, [0x1E20]); (0x1E23, [0x1E22]); (0x1E25, [0x1E24]);
    (0x1E27, [0x1E26]); (0x1E29, [0x1E28]); (0x1E2B, [0x1E2A]);
    (0x1E2D, [0x1E2C]); (0x1E2F, [0x1E2E]); (0x1E31, [0x1E30]);
    (0x1E33, [0x1E32]); (0x1E35, [0x1E34]); (0x1E37, [0x1E36]);
    (0x1E39, [0x1E38]); (0x1E3B, [0x1E3A]); (0x1E3D, [0x1E3C]);
    (0x1E3F, [0x1E3E]); (0x1E41, [0x1E40]); (0x1E43, [0x1E42]);
    (0x1E45, [0x1E44]); (0x1E47, [0x1E46]); (0x1E49, [0x1E48]);
    (0x1E4B, [0x1E4A]); (0x1E4D, [0x1E4C]); (0x1E4F, [0x1E4E]);
    (0x1E51, [0x1E50]); (0x1E53, [0x1E52]); (0x1E55, [0x1E54]);
    (0x1E57, [0x1E56]); (0x1E59, [0x1E58]); (0x1E5B, [0x1E5A]);
    (0x1E5D, [0x1E5C]); (0x1E5F, [0x1E5E]); (0x1E61, [0x1E60]);
    (0x1E63, [0x1E62]); (0x1E65, [0x1E64]); (0x1E67, [0x1E66]);
    (0x1E69, [0x1E68]); (0x1E6B, [0x1E6A]); (0x1E6D, [0x1E6C]);
    (0x1E6F, [0x1E6E]); (0x1E71, [0x1E70]); (0x1E73, [0x1E72]);
    (0x1E75, [0x1E74]); (0x1E77, [0x1E76]); (0x1E79, [0x1E78]);
    (0x1E7B, [0x1E7A]); (0x1E7D, [0x1E7C]); (0x1E7F, [0x1E7E]);
    (0x1E81, [0x1E80]); (0x1E83, [0x1E82]); (0x1E85, [0x1E84]);
    (0x1E87, [0x1E86]); (0x1E89, [0x1E88]); (0x1E8B, [0x1E8A]);
    (0x1E8D, [0x1E8C]); (0x1E8F, [0x1E8E]); (0x1E91, [0x1E90]);
    (0x1E93, [0x1E92]); (0x1E95, [0x1E94]); (0x1E96, [0x48; 0x331]);
    (0x1E97, [0x54; 0x308]); (0x1E98, [0x57; 0x30A]);
    (0x1E99, [0x59; 0x30A]); (0x1E9A, [0x41; 0x2BE]); (0x1E9B, [0x1E60]);
    (0x1EA1, [0x1EA0]); (0x1EA3, [0x1EA2]); (0x1EA5, [0x1EA4]);
    (0x1EA7, [0x1EA6]); (0x1EA9, [0x1EA8]); (0x1EAB, [0x1EAA]);
    (0x1EAD, [0x1EAC]); (0x1EAF, [0x1EAE]); (0x1EB1, [0x1EB0]);
    (0x1EB3, [0x1EB2]); (0x1EB5, [0x1EB4]); (0x1EB7, [0x1EB6]);
    (0x1EB9, [0x1EB8]); (0x1EBB, [0x1EBA]); (0x1EBD, [0x1EBC]);
    (0x1EBF, [0x1EBE]); (0x1EC1, [0x1EC0]); (0x1EC3, [0x1EC2]);
    (0x1EC5, [0x1EC4]); (0x1EC7, [0x1EC6]); (0x1EC9, [0x1EC8]);
    (0x1ECB, [0x1ECA]); (0x1ECD, [0x1ECC]); (0x1ECF, [0x1ECE]);
    (0x1ED1, [0x1ED0]); (0x1ED3, [0x1ED2]); (0x1ED5, [0x1ED4]);
    (0x1ED7, [0x1ED6]); (0x1ED9, [0x1ED8]); (0x1EDB, [0x1EDA]);
    (0x1EDD, [0x1EDC]); (0x1EDF, [0x1EDE]); (0x1EE1, [0x1EE0]);
    (0x1EE3, [0x1EE2]); (0x1EE5, [0x1EE4]); (0x1EE7, [0x1EE6]);
    (0x1EE9, [0x1EE8]); (0x1EEB, [0x1EEA]); (0x1EED, [0x1EEC]);
    (0x1EEF, [0x1EEE]); (0x1EF1, [0x1EF0]); (0x1EF3, [0x1EF2]);
    (0x1EF5, [0x1EF4]); (0x1EF7, [0x1EF6]); (0x1EF9, [0x1EF8]);
    (0x1EFB, [0x1EFA]); (0x1EFD, [0x1EFC]); (0x1EFF, [0x1EFE]);
    (0x1F00, [0x1F08]); (0x1F01, [0x1F09]); (0x1F02, [0x1F0A]);
    (0x1F03, [0x1F0B]); (0x1F04, [0x1F0C]); (0x1F05, [0x1F0D]);
    (0x1F06, [0x1F0E]); (0x1F07, [0x1F0F]); (0x1F10, [0x1F18]);
    (0x1F11, [0x1F19]); (0x1F12, [0x1F1A]); (0x1F13, [0x1F1B]);
    (0x1F14, [0x1F1C]); (0x1F15, [0x1F1D]); (0x1F20, [0x1F28]);
    (0x1F21, [0x1F29]); (0x1F22, [0x1F2A]); (0x1F23, [0x1F2B]);
    (0x1F24, [0x1F2C]); (0x1F25, [0x1F2D]); (0x1F26, [0x1F2E]);
    (0x1F27, [0x1F2F]); (0x1F30, [0x1F38]); (0x1F31, [0x1F39]);
    (0x1F32, [0x1F3A]); (0x1F33, [0x1F3B]); (0x1F34, [0x1F3C]);
    (0x1F35, [0x1F3D]); (0x1F36, [0x1F3E]); (0x1F37, [0x1F3F]);
    (0x1F40, [0x1F48]); (0x1F41, [0x1F49]); (0x1F42, [0x1F4A]);
    (0x1F43, [0x1F4B]); (0x1F44, [0x1F4C]); (0x1F45, [0x1F4D]);
    (0x1F50, [0x3A5; 0x313]); (0x1F51, [0x1F59]);
    (0x1F52, [0x3A5; 0x313; 0x300]); (0x1F53, [0x1F5B]);
    (0x1F54, [0x3A5; 0x313; 0x301]); (0x1F55, [0x1F5D]);
    (0x1F56, [0x3A5; 0x313; 0x342]); (0x1F57, [0x1F5F]); (0x1F60, [0x1F68]);
    (0x1F61, [0x1F69]); (0x1F62, [0x1F6A]); (0x1F63, [0x1F6B]);
    (0x1F64, [0x1F6C]); (0x1F65, [0x1F6D]); (0x1F66, [0x1F6E]);
    (0x1F67, [0x1F6F]); (0x1F70, [0x1FBA]); (0x1F71, [0x1FBB]);
    (0x1F72, [0x1FC8]); (0x1F73, [0x1FC9]); (0x1F74, [0x1FCA]);
    (0x1F75, [0x1FCB]); (0x1F76, [0x1FDA]); (0x1F77, [0x1FDB]);
    (0x1F78, [0x1FF8]); (0x1F79, [0x1FF9]); (0x1F7A, [0x1FEA]);
    (0x1F7B, [0x1FEB]); (0x1F7C, [0x1FFA]); (0x1F7D, [0x1FFB]);
    (0x1F80, [0x1F08; 0x399]); (0x1F81, [0x1F09; 0x399]);
    (0x1F82, [0x1F0A; 0x399]); (0x1F83, [0x1F0B; 0x399]);
    (0x1F84, [0x1F0C; 0x399]); (0x1F85, [0x1F0D; 0x399]);
    (0x1F86, [0x1F0E; 0x399]); (0x1F87, [0x1F0F; 0x399]);
    (0x1F88, [0x1F08; 0x399]); (0x1F89, [0x1F09; 0x399]);
    (0x1F8A, [0x1F0A; 0x399]); (0x1F8B, [0x1F0B; 0x399]);
    (0x1F8C, [0x1F0C; 0x399]); (0x1F8D, [0x1F0D; 0x399]);
    (0x1F8E, [0x1F0E; 0x399]); (0x1F8F, [0x1F0F; 0x399]);
    (0x1F90, [0x1F28; 0x399]); (0x1F91, [0x1F29; 0x399]);
    (0x1F92, [0x1F2A; 0x399]); (0x1F93, [0x1F2B; 0x399]);
    (0x1F94, [0x1F2C; 0x399]); (0x1F95, [0x1F2D; 0x399]);
    (0x1F96, [0x1F2E; 0x399]); (0x1F97, [0x1F2F; 0x399]);
    (0x1F98, [0x1F28; 0x399]); (0x1F99, [0x1F29; 0x399]);
    (0x1F9A, [0x1F2A; 0x399]); (0x1F9B, [0x1F2B; 0x399]);
    (0x1F9C, [0x1F2C; 0x399]); (0x1F9D, [0x1F2D; 0x399]);
    (0x1F9E, [0x1F2E; 0x399]); (0x1F9F, [0x1F2F; 0x399]);
    (0x1FA0, [0x1F68; 0x399]); (0x1FA1, [0x1F69; 0x399]);
    (0x1FA2, [0x1F6A; 0x399]); (0x1FA3, [0x1F6B; 0x399]);
    (0x1FA4, [0x1F6C; 0x399]); (0x1FA5, [0x1F6D; 0x399]);
    (0x1FA6, [0x1F6E; 0x399]); (0x1FA7, [0x1F6F; 0x399]);
    (0x1FA8, [0x1F68; 0x399]); (0x1FA9, [0x1F69; 0x399]);
    (0x1FAA, [0x1F6A; 0x399]); (0x1FAB, [0x1F6B; 0x399]);
    (0x1FAC, [0x1F6C; 0x399]); (0x1FAD, [0x1F6D; 0x399]);
    (0x1FAE, [0x1F6E; 0x399]); (0x1FAF, [0x1F6F; 0x399]); (0x1FB0, [0x1FB8]);
    (0x1FB1, [0x1FB9]); (0x1FB2, [0x1FBA; 0x399]); (0x1FB3, [0x391; 0x399]);
    (0x1FB4, [0x386; 0x399]); (0x1FB6, [0x391; 0x342]);
    (0x1FB7, [0x391; 0x342; 0x399]); (0x1FBC, [0x391; 0x399]);
    (0x1FBE, [0x399]); (0x1FC2, [0x1FCA; 0x399]); (0x1FC3, [0x397; 0x399]);
    (0x1FC4, [0x389; 0x399]); (0x1FC6, [0x397; 0x342]);
    (0x1FC7, [0x397; 0x342; 0x399]); (0x1FCC, [0x397; 0x399]);
    (0x1FD0, [0x1FD8]); (0x1FD1, [0x1FD9]); (0x1FD2, [0x399; 0x308; 0x300]);
    (0x1FD3, [0x399; 0x308; 0x301]); (0x1FD6, [0x399; 0x342]);
    (0x1FD7, [0x399; 0x308; 0x342]); (0x1FE0, [0x1FE8]); (0x1FE1, [0x1FE9]);
    (0x1FE2, [0x3A5; 0x308; 0x300]); (0x1FE3, [0x3A5; 0x308; 0x301]);
    (0x1FE4, [0x3A1; 0x313]); (0x1FE5, [0x1FEC]); (0x1FE6, [0x3A5; 0x342]);
    (0x1FE7, [0x3A5; 0x308; 0x342]); (0x1FF2, [0x1FFA; 0x399]);
    (0x1FF3, [0x3A9; 0x399]); (0x1FF4, [0x38F; 0x399]);
    (0x1FF6, [0x3A9; 0x342]); (0x1FF7, [0x3A9; 0x342; 0x399]);
    (0x1FFC, [0x3A9; 0x399]); (0x214E, [0x2132]); (0x2170, [0x2160]);
    (0x2171, [0x2161]); (0x2172, [0x2162]); (0x2173, [0x2163]);
    (0x2174, [0x2164]); (0x2175, [0x2165]); (0x2176, [0x2166]);
    (0x2177, [0x2167]); (0x2178, [0x2168]); (0x2179, [0x2169]);
    (0x217A, [0x216A]); (0x217B, [0x216B]); (0x217C, [0x216C]);
    (0x217D, [0x216D]); (0x217E, [0x216E]); (0x217F, [0x216F]);
    (0x2184, [0x2183]); (0x24D0, [0x24B6]); (0x24D1, [0x24B7]);
    (0x24D2, [0x24B8]); (0x24D3, [0x24B9]); (0x24D4, [0x24BA]);
    (0x24D5, [0x24BB]); (0x24D6, [0x24BC]); (0x24D7, [0x24BD]);
    (0x24D8, [0x24BE]); (0x24D9, [0x24BF]); (0x24DA, [0x24C0]);
    (0x24DB, [0x24C1]); (0x24DC, [0x24C2]); (0x24DD, [0x24C3]);
    (0x24DE, [0x24C4]); (0x24DF, [0x24C5]); (0x24E0, [0x24C6]);
    (0x24E1, [0x24C7]); (0x24E2, [0x24C8]); (0x24E3, [0x24C9]);
    (0x24E4, [0x24CA]); (0x24E5, [0x24CB]); (0x24E6, [0x24CC]);
    (0x24E7, [0x24CD]); (0x24E8, [0x24CE]); (0x24E9, [0x24CF]);
    (0x2C30, [0x2C00]); (0x2C31, [0x2C01]); (0x2C32, [0x2C02]);
    (0x2C33, [0x2C03]); (0x2C34, [0x2C04]); (0x2C35, [0x2C05]);
    (0x2C36, [0x2C06]); (0x2C37, [0x2C07]); (0x2C38, [0x2C08]);
    (0x2C39, [0x2C09]); (0x2C3A, [0x2C0A]); (0x2C3B, [0x2C0B]);
    (0x2C3C, [0x2C0C]); (0x2C3D, [0x2C0D]); (0x2C3E, [0x2C0E]);
    (0x2C3F, [0x2C0F]); (0x2C40, [0x2C10]); (0x2C41, [0x2C11]);
    (0x2C42, [0x2C12]); (0x2C43, [0x2C13]); (0x2C44, [0x2C14]);
    (0x2C45, [0x2C15]); (0x2C46, [0x2C16]); (0x2C47, [0x2C17]);
    (0x2C48, [0x2C18]); (0x2C49, [0x2C19]); (0x2C4A, [0x2C1A]);
    (0x2C4B, [0x2C1B]); (0x2C4C, [0x2C1C]); (0x2C4D, [0x2C1D]);
    (0x2C4E, [0x2C1E]); (0x2C4F, [0x2C1F]); (0x2C50, [0x2C20]);
    (0x2C51, [0x2C21]); (0x2C52, [0x2C22]); (0x2C53, [0x2C23]);
    (0x2C54, [0x2C24]); (0x2C55, [0x2C25]); (0x2C56, [0x2C26]);
    (0x2C57, [0x2C27]); (0x2C58, [0x2C28]); (0x2C59, [0x2C29]);
    (0x2C5A, [0x2C2A]); (0x2C5B, [0x2C2B]); (0x2C5C, [0x2C2C]);
    (0x2C5D, [0x2C2D]); (0x2C5E, [0x2C2E]); (0x2C5F, [0x2C2F]);
    (0x2C61, [0x2C60]); (0x2C65, [0x23A]); (0x2C66, [0x23E]);
    (0x2C68, [0x2C67]); (0x2C6A, [0x2C69]); (0x2C6C, [0x2C6B]);
    (0x2C73, [0x2C72]); (0x2C76, [0x2C75]); (0x2C81, [0x2C80]);
    (0x2C83, [0x2C82]); (0x2C85, [0x2C84]); (0x2C87, [0x2C86]);
    (0x2C89, [0x2C88]); (0x2C8B, [0x2C8A]); (0x2C8D, [0x2C8C]);
    (0x2C8F, [0x2C8E]); (0x2C91, [0x2C90]); (0x2C93, [0x2C92]);
    (0x2C95, [0x2C94]); (0x2C97, [0x2C96]); (0x2C99, [0x2C98]);
    (0x2C9B, [0x2C9A]); (0x2C9D, [0x2C9C]); (0x2C9F, [0x2C9E]);
    (0x2CA1, [0x2CA0]); (0x2CA3, [0x2CA2]); (0x2CA5, [0x2CA4]);
    (0x2CA7, [0x2CA6]); (0x2CA9, [0x2CA8]); (0x2CAB, [0x2CAA]);
    (0x2CAD, [0x2CAC]); (0x2CAF, [0x2CAE]); (0x2CB1, [0x2CB0]);
    (0x2CB3, [0x2CB2]); (0x2CB5, [0x2CB4]); (0x2CB7, [0x2CB6]);
    (0x2CB9, [0x2CB8]); (0x2CBB, [0x2CBA]); (0x2CBD, [0x2CBC]);
    (0x2CBF, [0x2CBE]); (0x2CC1, [0x2CC0]); (0x2CC3, [0x2CC2]);
    (0x2CC5, [0x2CC4]); (0x2CC7, [0x2CC6]); (0x2CC9, [0x2CC8]);
    (0x2CCB, [0x2CCA]); (0x2CCD, [0x2CCC]); (0x2CCF, [0x2CCE]);
    (0x2CD1, [0x2CD0]); (0x2CD3, [0x2CD2]); (0x2CD5, [0x2CD4]);
    (0x2CD7, [0x2CD6]); (0x2CD9, [0x2CD8]); (0x2CDB, [0x2CDA]);
    (0x2CDD, [0x2CDC]); (0x2CDF, [0x2CDE]); (0x2CE1, [0x2CE0]);
    (0x2CE3, [0x2CE2]); (0x2CEC, [0x2CEB]); (0x2CEE, [0x2CED]);
    (0x2CF3, [0x2CF2]); (0x2D00, [0x10A0]); (0x2D01, [0x10A1]);
    (0x2D02, [0x10A2]); (0x2D03, [0x10A3]); (0x2D04, [0x10A4]);
    (0x2D05, [0x10A5]); (0x2D06, [0x10A6]); (0x2D07, [0x10A7]);
    (0x2D08, [0x10A8]); (0x2D09, [0x10A9]); (0x2D0A, [0x10AA]);
    (0x2D0B, [0x10AB]); (0x2D0C, [0x10AC]); (0x2D0D, [0x10AD]);
    (0x2D0E, [0x10AE]); (0x2D0F, [0x10AF]); (0x2D10, [0x10B0]);
    (0x2D11, [0x10B1]); (0x2D12, [0x10B2]); (0x2D13, [0x10B3]);
    (0x2D14, [0x10B4]); (0x2D15, [0x10B5]); (0x2D16, [0x10B6]);
    (0x2D17, [0x10B7]); (0x2D18, [0x10B8]); (0x2D19, [0x10B9]);
    (0x2D1A, [0x10BA]); (0x2D1B, [0x10BB]); (0x2D1C, [0x10BC]);
    (0x2D1D, [0x10BD]); (0x2D1E, [0x10BE]); (0x2D1F, [0x10BF]);
    (0x2D20, [0x10C0]); (0x2D21, [0x10C1]); (0x2D22, [0x10C2]);
    (0x2D23, [0x10C3]); (0x2D24, [0x10C4]); (0x2D25, [0x10C5]);
    (0x2D27, [0x10C7]); (0x2D2D, [0x10CD]); (0xA641, [0xA640]);
    (0xA643, [0xA642]); (0xA645, [0xA644]); (0xA647, [0xA646]);
    (0xA649, [0xA648]); (0xA64B, [0xA64A]); (0xA64D, [0xA64C]);
    (0xA64F, [0xA64E]); (0xA651, [0xA650]); (0xA653, [0xA652]);
    (0xA655, [0xA654]); (0xA657, [0xA656]); (0xA659, [0xA658]);
    (0xA65B, [0xA65A]); (0xA65D, [0xA65C]); (0xA65F, [0xA65E]);
    (0xA661, [0xA660]); (0xA663, [0xA662]); (0xA665, [0xA664]);
    (0xA667, [0xA666]); (0xA669, [0xA668]); (0xA66B, [0xA66A]);
    (0xA66D, [0xA66C]); (0xA681, [0xA680]); (0xA683, [0xA682]);
    (0xA685, [0xA684]); (0xA687, [0xA686]); (0xA689, [0xA688]);
    (0xA68B, [0xA68A]); (0xA68D, [0xA68C]); (0xA68F, [0xA68E]);
    (0xA691, [0xA690]); (0xA693, [0xA692]); (0xA695, [0xA694]);
    (0xA697, [0xA696]); (0xA699, [0xA698]); (0xA69B, [0xA69A]);
    (0xA723, [0xA722]); (0xA725, [0xA724]); (0xA727, [0xA726]);
    (0xA729, [0xA728]); (0xA72B, [0xA72A]); (0xA72D, [0xA72C]);
    (0xA72F, [0xA72E]); (0xA733, [0xA732]); (0xA735, [0xA734]);
    (0xA737, [0xA736]); (0xA739, [0xA738]); (0xA73B, [0xA73A]);
    (0xA73D, [0xA73C]); (0xA73F, [0xA73E]); (0xA741, [0xA740]);
    (0xA743, [0xA742]); (0xA745, [0xA744]); (0xA747, [0xA746]);
    (0xA749, [0xA748]); (0xA74B, [0xA74A]); (0xA74D, [0xA74C]);
    (0xA74F, [0xA74E]); (0xA751, [0xA750]); (0xA753, [0xA752]);
    (0xA755, [0xA754]); (0xA757, [0xA756]); (0xA759, [0xA758]);
    (0xA75B, [0xA75A]); (0xA75D, [0xA75C]); (0xA75F, [0xA75E]);
    (0xA761, [0xA760]); (0xA763, [0xA762]); (0xA765, [0xA764]);
    (0xA767, [0xA766]); (0xA769, [0xA768]); (0xA76B, [0xA76A]);
    (0xA76D, [0xA76C]); (0xA76F, [0xA76E]); (0xA77A, [0xA779]);
    (0xA77C, [0xA77B]); (0xA77F, [0xA77E]); (0xA781, [0xA780]);
    (0xA783, [0xA782]); (0xA785, [0xA784]); (0xA787, [0xA786]);
    (0xA78C, [0xA78B]); (0xA791, [0xA790]); (0xA793, [0xA792]);
    (0xA794, [0xA7C4]); (0xA797, [0xA796]); (0xA799, [0xA798]);
    (0xA79B, [0xA79A]); (0xA79D, [0xA79C]); (0xA79F, [0xA79E]);
    (0xA7A1, [0xA7A0]); (0xA7A3, [0xA7A2]); (0xA7A5, [0xA7A4]);
    (0xA7A7, [0xA7A6]); (0xA7A9, [0xA7A8]); (0xA7B5, [0xA7B4]);
    (0xA7B7, [0xA7B6]); (0xA7B9, [0xA7B8]); (0xA7BB, [0xA7BA]);
    (0xA7BD, [0xA7BC]); (0xA7BF, [0xA7BE]); (0xA7C1, [0xA7C0]);
    (0xA7C3, [0xA7C2]); (0xA7C8, [0xA7C7]); (0xA7CA, [0xA7C9]);
    (0xA7D1, [0xA7D0]); (0xA7D7, [0xA7D6]); (0xA7D9, [0xA7D8]);
    (0xA7F6, [0xA7F5]); (0xAB53, [0xA7B3]); (0xAB70, [0x13A0]);
    (0xAB71, [0x13A1]); (0xAB72, [0x13A2]); (0xAB73, [0x13A3]);
    (0xAB74, [0x13A4]); (0xAB75, [0x13A5]); (0xAB76, [0x13A6]);
    (0xAB77, [0x13A7]); (0xAB78, [0x13A8]); (0xAB79, [0x13A9]);
    (0xAB7A, [0x13AA]); (0xAB7B, [0x13AB]); (0xAB7C, [0x13AC]);
    (0xAB7D, [0x13AD]); (0xAB7E, [0x13AE]); (0xAB7F, [0x13AF]);
    (0xAB80, [0x13B0]); (0xAB81, [0x13B1]); (0xAB82, [0x13B2]);
    (0xAB83, [0x13B3]); (0xAB84, [0x13B4]); (0xAB85, [0x13B5]);
    (0xAB86, [0x13B6]); (0xAB87, [0x13B7]); (0xAB88, [0x13B8]);
    (0xAB89, [0x13B9]); (0xAB8A, [0x13BA]); (0xAB8B, [0x13BB]);
    (0xAB8C, [0x13BC]); (0xAB8D, [0x13BD]); (0xAB8E, [0x13BE]);
    (0xAB8F, [0x13BF]); (0xAB90, [0x13C0]); (0xAB91, [0x13C1]);
    (0xAB92, [0x13C2]); (0xAB93, [0x13C3]); (0xAB94, [0x13C4]);
    (0xAB95, [0x13C5]); (0xAB96, [0x13C6]); (0xAB97, [0x13C7]);
    (0xAB98, [0x13C8]); (0xAB99, [0x13C9]); (0xAB9A, [0x13CA]);
    (0xAB9B, [0x13CB]); (0xAB9C, [0x13CC]); (0xAB9D, [0x13CD]);
    (0xAB9E, [0x13CE]); (0xAB9F, [0x13CF]); (0xABA0, [0x13D0]);
    (0xABA1, [0x13D1]); (0xABA2, [0x13D2]); (0xABA3, [0x13D3]);
    (0xABA4, [0x13D4]); (0xABA5, [0x13D5]); (0xABA6, [0x13D6]);
    (0xABA7, [0x13D7]); (0xABA8, [0x13D8]); (0xABA9, [0x13D9]);
    (0xABAA, [0x13DA]); (0xABAB, [0x13DB]); (0xABAC, [0x13DC]);
    (0xABAD, [0x13DD]); (0xABAE, [0x13DE]); (0xABAF, [0x13DF]);
    (0xABB0, [0x13E0]); (0xABB1, [0x13E1]); (0xABB2, [0x13E2]);
    (0xABB3, [0x13E3]); (0xABB4, [0x13E4]); (0xABB5, [0x13E5]);
    (0xABB6, [0x13E6]); (0xABB7, [0x13E7]); (0xABB8, [0x13E8]);
    (0xABB9, [0x13E9]); (0xABBA, [0x13EA]); (0xABBB, [0x13EB]);
    (0xABBC, [0x13EC]); (0xABBD, [0x13ED]); (0xABBE, [0x13EE]);
    (0xABBF, [0x13EF]); (0xFB00, [0x46; 0x46]); (0xFB01, [0x46; 0x49]);
    (0xFB02, [0x46; 0x4C]); (0xFB03, [0x46; 0x46; 0x49]);
    (0xFB04, [0x46; 0x46; 0x4C]); (0xFB05, [0x53; 0x54]);
    (0xFB06, [0x53; 0x54]); (0xFB13, [0x544; 0x546]);
    (0xFB14, [0x544; 0x535]); (0xFB15, [0x544; 0x53B]);
    (0xFB16, [0x54E; 0x546]); (0xFB17, [0x544; 0x53D]); (0xFF41, [0xFF21]);
    (0xFF42, [0xFF22]); (0xFF43, [0xFF23]); (0xFF44, [0xFF24]);
    (0xFF45, [0xFF25]); (0xFF46, [0xFF26]); (0xFF47, [0xFF27]);
    (0xFF48, [0xFF28]); (0xFF49, [0xFF29]); (0xFF4A, [0xFF2A]);
    (0xFF4B, [0xFF2B]); (0xFF4C, [0xFF2C]); (0xFF4D, [0xFF2D]);
    (0xFF4E, [0xFF2E]); (0xFF4F, [0xFF2F]); (0xFF50, [0xFF30]);
    (0xFF51, [0xFF31]); (0xFF52, [0xFF32]); (0xFF53, [0xFF33]);
    (0xFF54, [0xFF34]); (0xFF55, [0xFF35]); (0xFF56, [0xFF36]);
    (0xFF57, [0xFF37]); (0xFF58, [0xFF38]); (0xFF59, [0xFF39]);
    (0xFF5A, [0xFF3A]); (0x10428, [0x10400]); (0x10429, [0x10401]);
    (0x1042A, [0x10402]); (0x1042B, [0x10403]); (0x1042C, [0x10404]);
    (0x1042D, [0x10405]); (0x1042E, [0x10406]); (0x1042F, [0x10407]);
    (0x10430, [0x10408]); (0x10431, [0x10409]); (0x10432, [0x1040A]);
    (0x10433, [0x1040B]); (0x10434, [0x1040C]); (0x10435, [0x1040D]);
    (0x10436, [0x1040E]); (0x10437, [0x1040F]); (0x10438, [0x10410]);
    (0x10439, [0x10411]); (0x1043A, [0x10412]); (0x1043B, [0x10413]);
    (0x1043C, [0x10414]); (0x1043D, [0x10415]); (0x1043E, [0x10416]);
    (0x1043F, [0x10417]); (0x10440, [0x10418]); (0x10441, [0x10419]);
    (0x10442, [0x1041A]); (0x10443, [0x1041B]); (0x10444, [0x1041C]);
    (0x10445, [0x1041D]); (0x10446, [0x1041E]); (0x10447, [0x1041F]);
    (0x10448, [0x10420]); (0x10449, [0x10421]); (0x1044A, [0x10422]);
    (0x1044B, [0x10423]); (0x1044C, [0x10424]); (0x1044D, [0x10425]);
    (0x1044E, [0x10426]); (0x1044F, [0x10427]); (0x104D8, [0x104B0]);
    (0x104D9, [0x104B1]); (0x104DA, [0x104B2]); (0x104DB, [0x104B3]);
    (0x104DC, [0x104B4]); (0x104DD, [0x104B5]); (0x104DE, [0x104B6]);
    (0x104DF, [0x104B7]); (0x104E0, [0x104B8]); (0x104E1, [0x104B9]);
    (0x104E2, [0x104BA]); (0x104E3, [0x104BB]); (0x104E4, [0x104BC]);
    (0x104E5, [0x104BD]); (0x104E6, [0x104BE]); (0x104E7, [0x104BF]);
    (0x104E8, [0x104C0]); (0x104E9, [0x104C1]); (0x104EA, [0x104C2]);
    (0x104EB, [0x104C3]); (0x104EC, [0x104C4]); (0x104ED, [0x104C5]);
    (0x104EE, [0x104C6]); (0x104EF, [0x104C7]); (0x104F0, [0x104C8]);
    (0x104F1, [0x104C9]); (0x104F2, [0x104CA]); (0x104F3, [0x104CB]);
    (0x104F4, [0x104CC]); (0x104F5, [0x104CD]); (0x104F6, [0x104CE]);
    (0x104F7, [0x104CF]); (0x104F8, [0x104D0]); (0x104F9, [0x104D1]);
    (0x104FA, [0x104D2]); (0x104FB, [0x104D3]); (0x10597, [0x10570]);
    (0x10598, [0x10571]); (0x10599, [0x10572]); (0x1059A, [0x10573]);
    (0x1059B, [0x10574]); (0x1059C, [0x10575]); (0x1059D, [0x10576]);
    (0x1059E, [0x10577]); (0x1059F, [0x10578]); (0x105A0, [0x10579]);
    (0x105A1, [0x1057A]); (0x105A3, [0x1057C]); (0x105A4, [0x1057D]);
    (0x105A5, [0x1057E]); (0x105A6, [0x1057F]); (0x105A7, [0x10580]);
    (0x105A8, [0x10581]); (0x105A9, [0x10582]); (0x105AA, [0x10583]);
    (0x105AB, [0x10584]); (0x105AC, [0x10585]); (0x105AD, [0x10586]);
    (0x105AE, [0x10587]); (0x105AF, [0x10588]); (0x105B0, [0x10589]);
    (0x105B1, [0x1058A]); (0x105B3, [0x1058C]); (0x105B4, [0x1058D]);
    (0x105B5, [0x1058E]); (0x105B6, [0x1058F]); (0x105B7, [0x10590]);
    (0x105B8, [0x10591]); (0x105B9, [0x10592]); (0x105BB, [0x10594]);
    (0x105BC, [0x10595]); (0x10CC0, [0x10C80]); (0x10CC1, [0x10C81]);
    (0x10CC2, [0x10C82]); (0x10CC3, [0x10C83]); (0x10CC4, [0x10C84]);
    (0x10CC5, [0x10C85]); (0x10CC6, [0x10C86]); (0x10CC7, [0x10C87]);
    (0x10CC8, [0x10C88]); (0x10CC9, [0x10C89]); (0x10CCA, [0x10C8A]);
    (0x10CCB, [0x10C8B]); (0x10CCC, [0x10C8C]); (0x10CCD, [0x10C8D]);
    (0x10CCE, [0x10C8E]); (0x10CCF, [0x10C8F]); (0x10CD0, [0x10C90]);
    (0x10CD1, [0x10C91]); (0x10CD2, [0x10C92]); (0x10CD3, [0x10C93]);
    (0x10CD4, [0x10C94]); (0x10CD5, [0x10C95]); (0x10CD6, [0x10C96]);
    (0x10CD7, [0x10C97]); (0x10CD8, [0x10C98]); (0x10CD9, [0x10C99]);
    (0x10CDA, [0x10C9A]); (0x10CDB, [0x10C9B]); (0x10CDC, [0x10C9C]);
    (0x10CDD, [0x10C9D]); (0x10CDE, [0x10C9E]); (0x10CDF, [0x10C9F]);
    (0x10CE0, [0x10CA0]); (0x10CE1, [0x10CA1]); (0x10CE2, [0x10CA2]);
    (0x10CE3, [0x10CA3]); (0x10CE4, [0x10CA4]); (0x10CE5, [0x10CA5]);
    (0x10CE6, [0x10CA6]); (0x10CE7, [0x10CA7]); (0x10CE8, [0x10CA8]);
    (0x10CE9, [0x10CA9]); (0x10CEA, [0x10CAA]); (0x10CEB, [0x10CAB]);
    (0x10CEC, [0x10CAC]); (0x10CED, [0x10CAD]); (0x10CEE, [0x10CAE]);
    (0x10CEF, [0x10CAF]); (0x10CF0, [0x10CB0]); (0x10CF1, [0x10CB1]);
    (0x10CF2, [0x10CB2]); (0x118C0, [0x118A0]); (0x118C1, [0x118A1]);
    (0x118C2, [0x118A2]); (0x118C3, [0x118A3]); (0x118C4, [0x118A4]);
    (0x118C5, [0x118A5]); (0x118C6, [0x118A6]); (0x118C7, [0x118A7]);
    (0x118C8, [0x118A8]); (0x118C9, [0x118A9]); (0x118CA, [0x118AA]);
    (0x118CB, [0x118AB]); (0x118CC, [0x118AC]); (0x118CD, [0x118AD]);
    (0x118CE, [0x118AE]); (0x118CF, [0x118AF]); (0x118D0, [0x118B0]);
    (0x118D1, [0x118B1]); (0x118D2, [0x118B2]); (0x118D3, [0x118B3]);
    (0x118D4, [0x118B4]); (0x118D5, [0x118B5]); (0x118D6, [0x118B6]);
    (0x118D7, [0x118B7]); (0x118D8, [0x118B8]); (0x118D9, [0x118B9]);
    (0x118DA, [0x118BA]); (0x118DB, [0x118BB]); (0x118DC, [0x118BC]);
    (0x118DD, [0x118BD]); (0x118DE, [0x118BE]); (0x118DF, [0x118BF]);
    (0x16E60, [0x16E40]); (0x16E61, [0x16E41]); (0x16E62, [0x16E42]);
    (0x16E63, [0x16E43]); (0x16E64, [0x16E44]); (0x16E65, [0x16E45]);
    (0x16E66, [0x16E46]); (0x16E67, [0x16E47]); (0x16E68, [0x16E48]);
    (0x16E69, [0x16E49]); (0x16E6A, [0x16E4A]); (0x16E6B, [0x16E4B]);
    (0x16E6C, [0x16E4C]); (0x16E6D, [0x16E4D]); (0x16E6E, [0x16E4E]);
    (0x16E6F, [0x16E4F]); (0x16E70, [0x16E50]); (0x16E71, [0x16E51]);
    (0x16E72, [0x16E52]); (0x16E73, [0x16E53]); (0x16E74, [0x16E54]);
    (0x16E75, [0x16E55]); (0x16E76, [0x16E56]); (0x16E77, [0x16E57]);
    (0x16E78, [0x16E58]); (0x16E79, [0x16E59]); (0x16E7A, [0x16E5A]);
    (0x16E7B, [0x16E5B]); (0x16E7C, [0x16E5C]); (0x16E7D, [0x16E5D]);
    (0x16E7E, [0x16E5E]); (0x16E7F, [0x16E5F]); (0x1E922, [0x1E900]);
    (0x1E923, [0x1E901]); (0x1E924, [0x1E902]); (0x1E925, [0x1E903]);
    (0x1E926, [0x1E904]); (0x1E927, [0x1E905]); (0x1E928, [0x1E906]);
    (0x1E929, [0x1E907]); (0x1E92A, [0x1E908]); (0x1E92B, [0x1E909]);
    (0x1E92C, [0x1E90A]); (0x1E92D, [0x1E90B]); (0x1E92E, [0x1E90C]);
    (0x1E92F, [0x1E90D]); (0x1E930, [0x1E90E]); (0x1E931, [0x1E90F]);
    (0x1E932, [0x1E910]); (0x1E933, [0x1E911]); (0x1E934, [0x1E912]);
    (0x1E935, [0x1E913]); (0x1E936, [0x1E914]); (0x1E937, [0x1E915]);
    (0x1E938, [0x1E916]); (0x1E939, [0x1E917]); (0x1E93A, [0x1E918]);
    (0x1E93B, [0x1E919]); (0x1E93C, [0x1E91A]); (0x1E93D, [0x1E91B]);
    (0x1E93E, [0x1E91C]); (0x1E93F, [0x1E91D]); (0x1E940, [0x1E91E]);
    (0x1E941, [0x1E91F]); (0x1E942, [0x1E920]); (0x1E943, [0x1E921]) ].

(** The code points whose title case is not their upper case. *)
Definition titlecase : list (N * list N) :=
  [
    (0xDF, [0x53; 0x73]); (0x1C4, [0x1C5]); (0x1C5, [0x1C5]);
    (0x1C6, [0x1C5]); (0x1C7, [0x1C8]); (0x1C8, [0x1C8]); (0x1C9, [0x1C8]);
    (0x1CA, [0x1CB]); (0x1CB, [0x1CB]); (0x1CC, [0x1CB]); (0x1F1, [0x1F2]);
    (0x1F2, [0x1F2]); (0x1F3, [0x1F2]); (0x587, [0x535; 0x582]);
    (0x10D0, [0x10D0]); (0x10D1, [0x10D1]); (0x10D2, [0x10D2]);
    (0x10D3, [0x10D3]); (0x10D4, [0x10D4]); (0x10D5, [0x10D5]);
    (0x10D6, [0x10D6]); (0x10D7, [0x10D7]); (0x10D8, [0x10D8]);
    (0x10D9, [0x10D9]); (0x10DA, [0x10DA]); (0x10DB, [0x10DB]);
    (0x10DC, [0x10DC]); (0x10DD, [0x10DD]); (0x10DE, [0x10DE]);
    (0x10DF, [0x10DF]); (0x10E0, [0x10E0]); (0x10E1, [0x10E1]);
    (0x10E2, [0x10E2]); (0x10E3, [0x10E3]); (0x10E4, [0x10E4]);
    (0x10E5, [0x10E5]); (0x10E6, [0x10E6]); (0x10E7, [0x10E7]);
    (0x10E8, [0x10E8]); (0x10E9, [0x10E9]); (0x10EA, [0x10EA]);
    (0x10EB, [0x10EB]); (0x10EC, [0x10EC]); (0x10ED, [0x10ED]);
    (0x10EE, [0x10EE]); (0x10EF, [0x10EF]); (0x10F0, [0x10F0]);
    (0x10F1, [0x10F1]); (0x10F2, [0x10F2]); (0x10F3, [0x10F3]);
    (0x10F4, [0x10F4]); (0x10F5, [0x10F5]); (0x10F6, [0x10F6]);
    (0x10F7, [0x10F7]); (0x10F8, [0x10F8]); (0x10F9, [0x10F9]);
    (0x10FA, [0x10FA]); (0x10FD, [0x10FD]); (0x10FE, [0x10FE]);
    (0x10FF, [0x10FF]); (0x1F80, [0x1F88]); (0x1F81, [0x1F89]);
    (0x1F82, [0x1F8A]); (0x1F83, [0x1F8B]); (0x1F84, [0x1F8C]);
    (0x1F85, [0x1F8D]); (0x1F86, [0x1F8E]); (0x1F87, [0x1F8F]);
    (0x1F88, [0x1F88]); (0x1F89, [0x1F89]); (0x1F8A, [0x1F8A]);
    (0x1F8B, [0x1F8B]); (0x1F8C, [0x1F8C]); (0x1F8D, [0x1F8D]);
    (0x1F8E, [0x1F8E]); (0x1F8F, [0x1F8F]); (0x1F90, [0x1F98]);
    (0x1F91, [0x1F99]); (0x1F92, [0x1F9A]); (0x1F93, [0x1F9B]);
    (0x1F94, [0x1F9C]); (0x1F95, [0x1F9D]); (0x1F96, [0x1F9E]);
    (0x1F97, [0x1F9F]); (0x1F98, [0x1F98]); (0x1F99, [0x1F99]);
    (0x1F9A, [0x1F9A]); (0x1F9B, [0x1F9B]); (0x1F9C, [0x1F9C]);
    (0x1F9D, [0x1F9D]); (0x1F9E, [0x1F9E]); (0x1F9F, [0x1F9F]);
    (0x1FA0, [0x1FA8]); (0x1FA1, [0x1FA9]); (0x1FA2, [0x1FAA]);
    (0x1FA3, [0x1FAB]); (0x1FA4, [0x1FAC]); (0x1FA5, [0x1FAD]);
    (0x1FA6, [0x1FAE]); (0x1FA7, [0x1FAF]); (0x1FA8, [0x1FA8]);
    (0x1FA9, [0x1FA9]); (0x1FAA, [0x1FAA]); (0x1FAB, [0x1FAB]);
    (0x1FAC, [0x1FAC]); (0x1FAD, [0x1FAD]); (0x1FAE, [0x1FAE]);
    (0x1FAF, [0x1FAF]); (0x1FB2, [0x1FBA; 0x345]); (0x1FB3, [0x1FBC]);
    (0x1FB4, [0x386; 0x345]); (0x1FB7, [0x391; 0x342; 0x345]);
    (0x1FBC, [0x1FBC]); (0x1FC2, [0x1FCA; 0x345]); (0x1FC3, [0x1FCC]);
    (0x1FC4, [0x389; 0x345]); (0x1FC7, [0x397; 0x342; 0x345]);
    (0x1FCC, [0x1FCC]); (0x1FF2, [0x1FFA; 0x345]); (0x1FF3, [0x1FFC]);
    (0x1FF4, [0x38F; 0x345]); (0x1FF7, [0x3A9; 0x342; 0x345]);
    (0x1FFC, [0x1FFC]); (0xFB00, [0x46; 0x66]); (0xFB01, [0x46; 0x69]);
    (0xFB02, [0x46; 0x6C]); (0xFB03, [0x46; 0x66; 0x69]);
    (0xFB04, [0x46; 0x66; 0x6C]); (0xFB05, [0x53; 0x74]);
    (0xFB06, [0x53; 0x74]); (0xFB13, [0x544; 0x576]);
    (0xFB14, [0x544; 0x565]); (0xFB15, [0x544; 0x56B]);
    (0xFB16, [0x54E; 0x576]); (0xFB17, [0x544; 0x56D]) ].

End UnicodeData.

(** [str.isspace], [\s] and the characters [str.strip()] removes. *)
Definition isspace (c : N) : bool :=
  in_range 9 13 c || in_range 28 32 c || (c =? 0x85) || (c =? 0xA0)
  || (c =? 0x1680) || in_range 0x2000 0x200A c || (c =? 0x2028)
  || (c =? 0x2029) || (c =? 0x202F) || (c =? 0x205F) || (c =? 0x3000).

(** The zero of the run of decimal digits a code point belongs to. *)
Definition decimal_zero (c : N) : option N :=
  find (fun z => in_range z (z + 9) c) UnicodeData.decimal_zeros.

(** [\d] and [str.isdecimal]: the decimal digits of every script. *)
Definition isdecimal (c : N) : bool :=
  match decimal_zero c with
  | Some _ => true
  | None => false
  end.

(** The digit a decimal digit stands for. *)
Definition decimal_value (c : N) : N :=
  match decimal_zero c with
  | Some z => c - z
  | None => 0
  end.

Definition isalnum (c : N) : bool := in_ranges UnicodeData.alnum c.

(** [\w]: alphanumeric or underscore. *)
Definition isword (c : N) : bool := isalnum c || (c =? 0x5F).

Definition iscased (c : N) : bool := in_ranges UnicodeData.cased c.

Definition case_ignorable (c : N) : bool :=
  in_ranges UnicodeData.case_ignorable c.

(** The lower case of a code point other than U+0130 is one code point. *)
Definition lower1 (c : N) : N := default c (char_get UnicodeData.lowercase c).

Definition lower_char (c : N) : pystr :=
  if c =? 0x130 then [0x69; 0x307] else [lower1 c].

Definition upper_char (c : N) : pystr :=
  default [c] (char_get UnicodeData.uppercase c).

Definition title_char (c : N) : pystr :=
  default (upper_char c) (char_get UnicodeData.titlecase c).

Fixpoint take_while (p : N -> bool) (s : pystr) : pystr :=
  match s with
  | c :: r => if p c then c :: take_while p r else []
  | [] => []
  end.
Fixpoint drop_while (p : N -> bool) (s : pystr) : pystr :=
  match s with
  | c :: r => if p c then drop_while p r else s
  | [] => []
  end.

(** A capital sigma is lowered to the final form when a cased character
    comes before it and none after it, case-ignorable characters being
    skipped on both sides.  [before] holds the characters before the
    sigma, the nearest first. *)
Definition final_sigma (before after : pystr) : bool :=
  match drop_while case_ignorable before with
  | c :: _ =>
      iscased c
      && match drop_while case_ignorable after with
         | c' :: _ => negb (iscased c')
         | [] => true
         end
  | [] => false
  end.

(** The lower case of [c] between [before] and [after]. *)
Definition lower_at (before : pystr) (c : N) (after : pystr) : pystr :=
  if c =? 0x3A3 then [if final_sigma before after then 0x3C2 else 0x3C3]
  else lower_char c.

Fixpoint lower_from (before s : pystr) : pystr :=
  match s with
  | [] => []
  | c :: r => lower_at before c r ++ lower_from (c :: before) r
  end.

Definition lower (s : pystr) : pystr := lower_from [] s.
Definition upper (s : pystr) : pystr := flat_map upper_char s.

(** [str.title()]: a character after a cased one is lowered, any other
    is title-cased. *)
Fixpoint title_from (previous_is_cased : bool) (before s : pystr) : pystr :=
  match s with
  | [] => []
  | c :: r =>
      (if previous_is_cased then lower_at before c r else title_char c)
        ++ title_from (iscased c) (c :: before) r
  end.
Definition title (s : pystr) : pystr := title_from false [] s.

Arguments decimal_zero : simpl never.
Arguments isalnum : simpl never.
Arguments iscased : simpl never.
Arguments case_ignorable : simpl never.
Arguments lower1 : simpl never.
Arguments upper_char : simpl never.
Arguments title_char : simpl never.

Fixpoint lstrip (s : pystr) : pystr :=
  match s with
  | c :: r => if isspace c then lstrip r else s
  | [] => []
  end.
Fixpoint rstrip (s : pystr) : pystr :=
  match s with
  | c :: r =>
      match rstrip r with
      | [] => if isspace c then [] else [c]
      | r' => c :: r'
      end
  | [] => []
  end.
Definition strip (s : pystr) : pystr := rstrip (lstrip s).

Definition str_eqb (a b : pystr) : bool := bool_decide (a = b).

Fixpoint startswith (p s : pystr) : bool :=
  match p, s with
  | [], _ => true
  | a :: p', b :: s' => (a =? b) && startswith p' s'
  | _ :: _, [] => false
  end.

(** [needle in hay] on strings. *)
Fixpoint contains (needle hay : pystr) : bool :=
  startswith needle hay ||
  match hay with
  | [] => false
  | _ :: r => contains needle r
  end.

(** [str(n)] for an [int]. *)
Definition digit_char (d : N) : N := 0x30 + d.
Fixpoint digits_fuel (fuel : nat) (n : N) (acc : pystr) : pystr :=
  match fuel with
  | O => acc
  | S k =>
      let acc' := digit_char (n mod 10) :: acc in
      if n <? 10 then acc' else digits_fuel k (n / 10) acc'
  end.
Definition str_of_N (n : N) : pystr := digits_fuel (S (N.to_nat (N.log2 n))) n [].
Definition str_of_int (z : Z) : pystr :=
  match z with
  | Zneg p => 0x2D :: str_of_N (Npos p)
  | _ => str_of_N (Z.to_N z)
  end.

(** ** Python exceptions

    A call either returns or raises.  An exception carries its class
    (the scripts tell [requests.exceptions.Timeout] and
    [requests.exceptions.HTTPError] from every other [Exception]) and
    the text [str(e)] gives. *)
Inductive exn_class :=
| TimeoutExc
| HTTPErrorExc
| AttributeErrorExc
| IndexErrorExc
| KeyErrorExc
| TypeErrorExc
| ValueErrorExc
| OtherExc.

Record exn := Exn { exn_cls : exn_class; exn_msg : pystr }.

Inductive res (A : Type) :=
| Ret (a : A)
| Raise (e : exn).
Arguments Ret {A} a.
Arguments Raise {A} e.

#[global] Instance res_ret : MRet res := fun A a => Ret a.
#[global] Instance res_bind : MBind res := fun A B k m =>
  match m with
  | Ret a => k a
  | Raise e => Raise e
  end.

Definition returns {A} (m : res A) : Prop := exists a, m = Ret a.

(** [s[i]] *)
Definition index (s : pystr) (i : nat) : res N :=
  match s !! i with
  | Some c => Ret c
  | None => Raise (Exn IndexErrorExc (u "string index out of range"))
  end.

(** [d.get(k)] on a dict literal, kept as the association list of the
    literal. *)
Fixpoint assoc_get {V} (d : list (pystr * V)) (k : pystr) : option V :=
  match d with
  | [] => None
  | (k', v) :: r => if str_eqb k' k then Some v else assoc_get r k
  end.

(** ** Python values

    The values a decoded JSON document puts in the fields the scripts
    read: text, integers and [null]. *)
Inductive pyval :=
| PNone
| PStr (s : pystr)
| PInt (z : Z).

#[global] Instance pyval_eq_dec : EqDecision pyval.
Proof. solve_decision. Defined.

(** [str(v)] *)
Definition str (v : pyval) : pystr :=
  match v with
  | PNone => u "None"
  | PStr s => s
  | PInt z => str_of_int z
  end.

(** [d.get(k)] on a dict of values: [None] for a missing key and for a
    key that holds [None]. *)
Definition dict_get (d : gmap pystr pyval) (k : pystr) : option pyval :=
  match d !! k with
  | Some PNone => None
  | v => v
  end.

(** Truth value of [v] in a condition. *)
Definition truthy (v : pyval) : bool :=
  match v with
  | PNone => false
  | PStr s => negb (str_eqb s [])
  | PInt z => negb (z =? 0)%Z
  end.

(** [v.strip()]: only text has the method. *)
Definition strip_method (v : pyval) : res pystr :=
  match v with
  | PStr s => Ret (strip s)
  | PNone =>
      Raise (Exn AttributeErrorExc (u "'NoneType' object has no attribute 'strip'"))
  | PInt _ =>
      Raise (Exn AttributeErrorExc (u "'int' object has no attribute 'strip'"))
  end.

(** ** Python floats

    A Python [float] is an IEEE binary64 number: the kernel's primitive
    floats, whose arithmetic and comparisons are the hardware's. *)

(** The binary64 number nearest to [n / d]. *)
Definition float_of_ratio (n : N) (d : positive) : float :=
  match n with
  | N0 => 0%float
  | Npos p => SF2Prim (SFdiv prec emax (S754_finite false p 0) (S754_finite false d 0))
  end.

Definition float_of_N (n : N) : float := float_of_ratio n 1.

Fixpoint pow10 (n : nat) : positive :=
  match n with
  | O => 1
  | S k => 10 * pow10 k
  end.

(** [x / 2^k] rounded to the nearest integer, ties to even. *)
Definition div_pow2_half_even (x : N) (k : N) : N :=
  let q := N.shiftr x k in
  let r := x - N.shiftl q k in
  let half := N.shiftl 1 (k - 1) in
  if k =? 0 then x
  else if r <? half then q
  else if half <? r then q + 1
  else if N.even q then q else q + 1.

(** The exact value of a finite non-zero [x] in units of [10^-ndigits],
    rounded to the nearest integer (ties to even), with the sign of [x]. *)
Definition decimal_units (x : float) (ndigits : nat) : option (bool * N) :=
  match Prim2SF x with
  | S754_finite s m e =>
      Some (s,
            match e with
            | Zneg p => div_pow2_half_even (Npos m * Npos (pow10 ndigits)) (Npos p)
            | _ => Npos m * Npos (pow10 ndigits) * 2 ^ Z.to_N e
            end)
  | _ => None
  end.

(** [round(x, ndigits)] for [ndigits >= 0]: the decimal with [ndigits]
    fractional digits nearest to the exact value of [x] (ties to even),
    read back as a float; zeros, infinities and NaN are returned
    unchanged. *)
Definition py_round (x : float) (ndigits : nat) : float :=
  match decimal_units x ndigits with
  | Some (s, k) =>
      let r := float_of_ratio k (pow10 ndigits) in
      if s : bool then (- r)%float else r
  | None => x
  end.

(** Value of a run of decimal digits. *)
Definition digits_value (s : pystr) : N :=
  fold_left (fun acc c => acc * 10 + decimal_value c) s 0.

(** [float(s)] for a text of the form digits, optional point, digits
    (what the displacement patterns capture). *)
Definition float_of_decimal (s : pystr) : float :=
  let int_part := take_while isdecimal s in
  let frac_part := drop (S (length int_part)) s in
  float_of_ratio (digits_value (int_part ++ frac_part)) (pow10 (length frac_part)).

(** [float(v)] for an [int]. *)
Definition float_of_int (z : Z) : float :=
  match z with
  | Zneg p => (- float_of_N (Npos p))%float
  | _ => float_of_N (Z.to_N z)
  end.

(** A float computed from an [int]: beyond the float range Python
    raises [OverflowError]. *)
Definition in_float_range (x : float) (msg : pystr) : res float :=
  if is_infinity x then Raise (Exn OtherExc msg) else Ret x.

(** Truth value of a float in a condition: false exactly for zero. *)
Definition float_truthy (x : float) : bool := negb (x =? 0)%float.

(** The two conversions between floats and arbitrary text that the
    scripts use, [float(s)] and [str(x)]; none of the properties below
    depends on how they read or print a number. *)
Class FloatText := {
  float_of_str : pystr -> res float;
  str_of_float : float -> pystr
}.

(** ** The remote service

    What one [requests.get] followed by [raise_for_status] and [json()]
    can produce: an exception (a timeout, an HTTP error status, or any
    other failure), or a JSON object whose ["Results"] member is absent
    or [null] ([None] below) or a list of [{"Variable": .., "Value": ..}]
    objects.  A service is the sequence of its answers to successive
    requests. *)
Record item := { Variable_ : pystr; Value : pyval }.

Inductive response :=
| RespRaise (e : exn)
| RespJson (results : option (list item)).

Definition service := nat -> response.

(** What the scripts do to the outside world, in order. *)
Inductive event :=
| Get (url : pystr) (timeout : Z)
| Sleep (seconds : Z).

(** ** [VinApi_Query.py] *)
Module VinApiQuery.

Definition wmi_mapping : list (pystr * pystr) :=
  [ (u "1HG", u "Honda"); (u "1F", u "Ford"); (u "1G", u "Chevrolet");
    (u "5YJ", u "Tesla"); (u "JM", u "Toyota"); (u "WAU", u "Audi");
    (u "WBA", u "BMW"); (u "WVW", u "Volkswagen"); (u "SAL", u "Land Rover");
    (u "1GY", u "Cadillac"); (u "KL4", u "Buick"); (u "5T", u "Toyota");
    (u "3TY", u "Toyota"); (u "JT", u "Toyota"); (u "4T", u "Toyota");
    (u "2HG", u "Honda"); (u "JHM", u "Honda"); (u "5F", u "Honda");
    (u "3HG", u "Honda"); (u "1FT", u "Ford"); (u "1FM", u "Ford");
    (u "1FA", u "Ford"); (u "WA1", u "Audi"); (u "WBY", u "BMW");
    (u "5UX", u "BMW"); (u "7SA", u "Tesla"); (u "JM3", u "Mazda");
    (u "1V2", u "Volkswagen"); (u "3VW", u "Volkswagen") ].

Definition year_mapping : list (pystr * Z) :=
  [ (u "A", 2010); (u "B", 2011); (u "C", 2012); (u "D", 2013);
    (u "E", 2014); (u "F", 2015); (u "G", 2016); (u "H", 2017);
    (u "J", 2018); (u "K", 2019); (u "L", 2020); (u "M", 2021);
    (u "N", 2022); (u "P", 2023); (u "R", 2024); (u "S", 2025);
    (u "T", 2026); (u "V", 2027); (u "W", 2028); (u "X", 2029);
    (u "Y", 2030); (u "1", 2001); (u "2", 2002); (u "3", 2003);
    (u "4", 2004); (u "5", 2005); (u "6", 2006); (u "7", 2007);
    (u "8", 2008); (u "9", 2009) ]%Z.

Definition wmi_unrecognized : pystr :=
  u "Hard decode unrecognized (WMI not in mapping)".
Definition year_unrecognized : pystr :=
  u "Hard decode unrecognized (Year code not in mapping)".

Record hard_decoded := {
  manufacturer : pystr;
  year : pystr;
  decode_status : pystr
}.

Definition hard_decode_vin (vin : pystr) : res hard_decoded :=
  let wmi := upper (take 3 vin) in
  c ← index vin 9;
  let year_code := upper_char c in
  let manufacturer := default wmi_unrecognized (assoc_get wmi_mapping wmi) in
  let year :=
    match assoc_get year_mapping year_code with
    | Some y => str_of_int y
    | None => year_unrecognized
    end in
  let decode_status :=
    if negb (str_eqb manufacturer wmi_unrecognized)
       && negb (str_eqb year year_unrecognized)
    then u "success" else u "partial_success" in
  Ret {| manufacturer := manufacturer; year := year;
         decode_status := decode_status |}.

Definition invalid_chars : list pystr := [u "I"; u "O"; u "Q"].

Definition invalid_char_msg (char : N) : pystr :=
  u "VIN contains invalid character '" ++ [char]
    ++ u "' (I/O/Q are not allowed)".

Fixpoint first_invalid (vin : pystr) : option N :=
  match vin with
  | [] => None
  | char :: r =>
      if bool_decide (upper_char char ∈ invalid_chars) then Some char
      else first_invalid r
  end.

Definition validate_vin (vin : pystr) : bool * pystr :=
  if negb (length vin =? 17)%nat then (false, u "VIN must be 17 characters long")
  else match first_invalid vin with
       | Some char => (false, invalid_char_msg char)
       | None => (true, u "VIN format is valid")
       end.


(** *** [extract_standardized_engine] *)

Definition NA : pystr := u "N/A".

Section Standardize.
Context `{FloatText}.

(** [float(v)] *)
Definition float_of_value (v : pyval) : res float :=
  match v with
  | PStr s => float_of_str s
  | PInt z =>
      in_float_range (float_of_int z) (u "int too large to convert to float")
  | PNone =>
      Raise (Exn TypeErrorExc
               (u "float() argument must be a string or a real number, not 'NoneType'"))
  end.

(** [try: body except: fallback] *)
Definition try_except {A} (body : res A) (fallback : A) : A :=
  match body with
  | Ret a => a
  | Raise _ => fallback
  end.

Definition gasoline_keywords : list pystr :=
  [u "gas"; u "petrol"; u "regular unleaded"; u "premium unleaded"].

Definition extract_standardized_engine (api_raw_engine : gmap pystr pyval)
  : res pystr :=
  let displacement_l := dict_get api_raw_engine (u "Displacement (L)") in
  let displacement_cc := dict_get api_raw_engine (u "Displacement (CC)") in
  let standardized_displacement :=
    match displacement_l, displacement_cc with
    | Some l, _ =>
        try_except
          (x ← float_of_value l; Ret (str_of_float (py_round x 1) ++ u "L"))
          (str l)
    | None, Some cc =>
        try_except
          (x ← float_of_value cc;
           let displacement_l_convert := py_round (x / 1000)%float 1 in
           Ret (str_of_float displacement_l_convert ++ u "L"))
          (str cc ++ u "CC")
    | None, None => NA
    end in
  let raw_fuel := default (PStr NA) (api_raw_engine !! u "Fuel Type - Primary") in
  standardized_fuel ←
    (if truthy raw_fuel && negb (str_eqb (strip (str raw_fuel)) [])
     then
       let fuel_lower := lower (strip (str raw_fuel)) in
       if existsb (fun kw => contains kw fuel_lower) gasoline_keywords
       then Ret (u "Gasoline")
       else if contains (u "diesel") fuel_lower then Ret (u "Diesel")
       else if contains (u "electric") fuel_lower then Ret (u "Electric")
       else if contains (u "hybrid") fuel_lower then Ret (u "Hybrid")
       else strip_method raw_fuel
     else Ret NA);
  Ret (u "Displacement: " ++ standardized_displacement
         ++ u "; Fuel Type: " ++ standardized_fuel).

(** *** [decode_vin_simplified] *)

Record vehicle := {
  VIN : pystr;
  Manufacturer : pystr;
  Year : pystr;
  Model : pystr;
  Engine : pystr;
  Transmission : pystr;
  Data_Source : pystr
}.

(** The returned dict; [vehicle_info] is [None] for the empty dict. *)
Record result := {
  success : bool;
  vehicle_info : option vehicle;
  error : pystr
}.

Definition set_Manufacturer (x : pystr) (v : vehicle) : vehicle :=
  {| VIN := VIN v; Manufacturer := x; Year := Year v; Model := Model v;
     Engine := Engine v; Transmission := Transmission v;
     Data_Source := Data_Source v |}.
Definition set_Year (x : pystr) (v : vehicle) : vehicle :=
  {| VIN := VIN v; Manufacturer := Manufacturer v; Year := x; Model := Model v;
     Engine := Engine v; Transmission := Transmission v;
     Data_Source := Data_Source v |}.
Definition set_Model (x : pystr) (v : vehicle) : vehicle :=
  {| VIN := VIN v; Manufacturer := Manufacturer v; Year := Year v; Model := x;
     Engine := Engine v; Transmission := Transmission v;
     Data_Source := Data_Source v |}.
Definition set_Engine (x : pystr) (v : vehicle) : vehicle :=
  {| VIN := VIN v; Manufacturer := Manufacturer v; Year := Year v;
     Model := Model v; Engine := x; Transmission := Transmission v;
     Data_Source := Data_Source v |}.
Definition set_Transmission (x : pystr) (v : vehicle) : vehicle :=
  {| VIN := VIN v; Manufacturer := Manufacturer v; Year := Year v;
     Model := Model v; Engine := Engine v; Transmission := x;
     Data_Source := Data_Source v |}.
Definition set_Data_Source (x : pystr) (v : vehicle) : vehicle :=
  {| VIN := VIN v; Manufacturer := Manufacturer v; Year := Year v;
     Model := Model v; Engine := Engine v; Transmission := Transmission v;
     Data_Source := x |}.

Definition max_retries : nat := 2.
Definition retry_delay : Z := 2.

Definition api_url (vin : pystr) : pystr :=
  u "https://vpic.nhtsa.dot.gov/api/vehicles/DecodeVIN/" ++ vin ++ u "?format=json".

Definition no_data : pystr := u "API parsing failed, no data".
Definition hard_decode_source : pystr := u "Hard Decode (API Unavailable)".

(** One turn of the loop over [api_data["Results"]]. *)
Definition map_item (acc : vehicle * gmap pystr pyval) (it : item)
  : vehicle * gmap pystr pyval :=
  let '(parsed_info, api_raw_engine) := acc in
  let var_name := Variable_ it in
  let var_value := match Value it with PNone => PStr NA | v => v end in
  let var_value_strip := strip (str var_value) in
  let shown := if str_eqb var_value_strip [] then NA else var_value_strip in
  if str_eqb var_name (u "Make") then
    (set_Manufacturer shown parsed_info, api_raw_engine)
  else if str_eqb var_name (u "Model Year") then
    (set_Year shown parsed_info, api_raw_engine)
  else if str_eqb var_name (u "Model") then
    (set_Model shown parsed_info, api_raw_engine)
  else if bool_decide (var_name ∈ [u "Transmission Style"; u "Transmission"]) then
    (set_Transmission shown parsed_info, api_raw_engine)
  else if bool_decide (var_name ∈ [u "Displacement (L)"; u "Displacement (CC)";
                                   u "Fuel Type - Primary"]) then
    (parsed_info, <[var_name := var_value]> api_raw_engine)
  else acc.

(** The three-way simplification of the transmission text. *)
Definition simplify_transmission (t : pystr) : pystr :=
  if contains (u "CVT") t then u "CVT"
  else if contains (u "Automatic") t then u "Automatic"
  else if contains (u "Manual") t || contains (u "Standard") t then u "Manual"
  else t.

(** The part of the [try] block that follows a non-empty ["Results"]. *)
Definition parse_results (vin : pystr) (results : list item) : res vehicle :=
  let parsed_info :=
    {| VIN := upper vin; Manufacturer := NA; Year := NA; Model := NA;
       Engine := NA; Transmission := NA; Data_Source := u "API" |} in
  let '(parsed_info, api_raw_engine) :=
    fold_left map_item results (parsed_info, ∅) in
  engine ← extract_standardized_engine api_raw_engine;
  let parsed_info := set_Engine engine parsed_info in
  let parsed_info :=
    if negb (str_eqb (Manufacturer parsed_info) NA)
    then set_Manufacturer (title (Manufacturer parsed_info)) parsed_info
    else parsed_info in
  let parsed_info :=
    set_Transmission (simplify_transmission (Transmission parsed_info)) parsed_info in
  hard_decoded ← hard_decode_vin vin;
  let parsed_info :=
    if str_eqb (Manufacturer parsed_info) NA
    then set_Data_Source (u "API + Hard Decode (Manufacturer Fallback)")
           (set_Manufacturer (manufacturer hard_decoded) parsed_info)
    else parsed_info in
  let parsed_info :=
    if str_eqb (Year parsed_info) NA
    then set_Data_Source (u "API + Hard Decode (Year Fallback)")
           (set_Year (year hard_decoded) parsed_info)
    else parsed_info in
  Ret parsed_info.

(** How one turn of the retry loop ends. *)
Inductive turn :=
| Continue
| Break.

(** The loop state: the [result] dict, the [api_success] flag and what
    was done to the outside world so far (latest first). *)
Record state := {
  st_result : result;
  api_success : bool;
  trace : list event
}.

Definition set_error (msg : pystr) (st : state) : state :=
  {| st_result := {| success := success (st_result st);
                     vehicle_info := vehicle_info (st_result st);
                     error := msg |};
     api_success := api_success st;
     trace := trace st |}.

Definition log (e : event) (st : state) : state :=
  {| st_result := st_result st; api_success := api_success st;
     trace := e :: trace st |}.

Definition falling_back : pystr := u "; falling back to hard decode".

(** The body of [for attempt in range(max_retries + 1)]. *)
Definition attempt_body (srv : service) (vin : pystr) (attempt : nat) (st : state)
  : turn * state :=
  let st := log (Get (api_url vin) 15) st in
  let body : res (turn * state) :=
    match srv attempt with
    | RespRaise e => Raise e
    | RespJson results =>
        match results with
        | None | Some [] =>
            if (attempt <? max_retries)%nat
            then Ret (Continue, log (Sleep retry_delay) st)
            else Ret (Break,
                      set_error (u "API returned empty data; falling back to hard decode") st)
        | Some (it :: its) =>
            parsed_info ← parse_results vin (it :: its);
            Ret (Break,
                 {| st_result := {| success := true;
                                    vehicle_info := Some parsed_info;
                                    error := [] |};
                    api_success := true;
                    trace := trace st |})
        end
    end in
  match body with
  | Ret out => out
  | Raise e =>
      match exn_cls e with
      | TimeoutExc =>
          if (attempt <? max_retries)%nat
          then (Continue, log (Sleep retry_delay) st)
          else (Continue,
                set_error (u "API request timed out (2 retries exhausted)" ++ falling_back) st)
      | HTTPErrorExc =>
          (Break, set_error (u "API HTTP Error: " ++ take 50 (exn_msg e) ++ falling_back) st)
      | _ =>
          (Break, set_error (u "API parsing error: " ++ take 50 (exn_msg e) ++ falling_back) st)
      end
  end.

Fixpoint attempts (srv : service) (vin : pystr) (todo : list nat) (st : state)
  : state :=
  match todo with
  | [] => st
  | attempt :: later =>
      match attempt_body srv vin attempt st with
      | (Continue, st') => attempts srv vin later st'
      | (Break, st') => st'
      end
  end.

Definition decode_vin_simplified (srv : service) (vin : pystr)
  : res (result * list event) :=
  let '(vin_valid, vin_msg) := validate_vin vin in
  if negb vin_valid
  then Ret ({| success := false; vehicle_info := None; error := vin_msg |}, [])
  else
    let result :=
      {| success := false;
         vehicle_info :=
           Some {| VIN := upper vin; Manufacturer := NA; Year := NA;
                   Model := no_data; Engine := no_data; Transmission := no_data;
                   Data_Source := hard_decode_source |};
         error := [] |} in
    let st :=
      attempts srv vin (seq 0 (max_retries + 1))
        {| st_result := result; api_success := false; trace := [] |} in
    if negb (api_success st)
    then
      hard_decoded ← hard_decode_vin vin;
      let info :=
        (fun v => set_Data_Source hard_decode_source
                    (set_Year (year hard_decoded)
                       (set_Manufacturer (manufacturer hard_decoded) v)))
          <$> vehicle_info (st_result st) in
      Ret ({| success := str_eqb (decode_status hard_decoded) (u "success");
              vehicle_info := info;
              error := error (st_result st) |},
           rev (trace st))
    else Ret (st_result st, rev (trace st)).

(** *** The command-line block

    What the block under [if __name__ == "__main__"] prints after the
    banner, for the text typed at the prompt: the decoded record, with
    the no-data text in place of the marker for model and transmission
    and the error as a note when there is one; or the failure, with the
    error and the status of the structural decoder.  An exception ends
    the block, whatever it printed before. *)
Inductive printed :=
| Decoded (data_source vin manufacturer year model engine transmission : pystr)
    (note : option pystr)
| Failed (error_reason hard_decode_status : pystr).

Definition main_block (srv : service) (typed : pystr) : res (printed * list event) :=
  let input_vin := strip typed in
  '(result, events) ← decode_vin_simplified srv input_vin;
  if success result then
    vehicle ←
      match vehicle_info result with
      | Some vehicle => Ret vehicle
      | None => Raise (Exn KeyErrorExc (u "'Data_Source'"))
      end;
    Ret (Decoded (Data_Source vehicle) (VIN vehicle) (Manufacturer vehicle)
           (Year vehicle)
           (if negb (str_eqb (Model vehicle) NA) then Model vehicle else no_data)
           (Engine vehicle)
           (if negb (str_eqb (Transmission vehicle) NA) then Transmission vehicle
            else no_data)
           (if negb (str_eqb (error result) []) then Some (error result) else None),
         events)
  else
    hard_decoded ← hard_decode_vin input_vin;
    Ret (Failed (error result) (decode_status hard_decoded), events).

End Standardize.

End VinApiQuery.

(** ** [Vin_Decoder_QueryApi_Test.py]

    Embedded: [fields_to_check], [hard_decode_vin], [load_vehicle_data],
    [decode_vin], [map_api_fields], [normalize_text],
    [extract_engine_features], [engine_features_match],
    [compare_vehicles], [compare_with_source] and the tallies of
    [generate_report].  The rest of the report and [main] format and
    move data between these. *)
Module QueryApiTest.

Definition fields_to_check : list pystr :=
  [u "Manufacturer/Make"; u "Year"; u "Model"; u "Engine"; u "Transmission"].

(** *** [hard_decode_vin] *)

Definition year_mapping : list (pystr * Z) := VinApiQuery.year_mapping.

Definition wmi_mapping : list (pystr * pystr) :=
  [ (u "1HG", u "Honda"); (u "1F", u "Ford"); (u "1G", u "Chevrolet");
    (u "5YJ", u "Tesla"); (u "JM", u "Toyota"); (u "WAU", u "Audi");
    (u "WBA", u "BMW"); (u "WVW", u "Volkswagen"); (u "5N", u "Hyundai");
    (u "KM", u "Kia"); (u "SAL", u "Land Rover"); (u "JF", u "Subaru") ].

Definition hard_decode_vin (vin : pystr) : option (gmap pystr pyval) :=
  if str_eqb vin [] || negb (length vin =? 17)%nat then None
  else
    let year_code := upper (take 1 (drop 9 vin)) in
    let Year :=
      match assoc_get year_mapping year_code with
      | Some y => PInt y
      | None => PStr (u "未知（码：" ++ year_code ++ u "）")
      end in
    let wmi := upper (take 3 vin) in
    let Make :=
      match assoc_get wmi_mapping wmi with
      | Some m => PStr m
      | None => PStr (u "未知（WMI：" ++ wmi ++ u "）")
      end in
    Some (<[u "Manufacturer/Make" := Make]> (<[u "Year" := Year]> ∅)).

(** *** [load_vehicle_data]

    The file is taken as read: what [open] and [json.load] give is an
    exception, a JSON value that is not an object, or an object, given
    by its [items()], VIN and value in the order of the file.  A value
    is a dict of fields or something else. *)
Inductive json_entry :=
| NotADict
| Dict (info : gmap pystr pyval).

Inductive document :=
| Unreadable (e : exn)
| NotAnObject
| Object (items : list (pystr * json_entry)).

Definition required_fields : list pystr :=
  [u "Manufacturer/Make"; u "Year"; u "Model"; u "Engine"; u "Transmission"].

(** [for field in fields: if info[field] is None: info[field] = ""] *)
Fixpoint fill_nulls (fields : list pystr) (info : gmap pystr pyval)
  : gmap pystr pyval :=
  match fields with
  | [] => info
  | field :: later =>
      fill_nulls later
        (if bool_decide (info !! field = Some PNone)
         then <[field := PStr []]> info else info)
  end.

(** The loop over [data.items()]. *)
Fixpoint load_records (items : list (pystr * json_entry))
    (valid_data : gmap pystr (gmap pystr pyval)) : gmap pystr (gmap pystr pyval) :=
  match items with
  | [] => valid_data
  | (vin, NotADict) :: later => load_records later valid_data
  | (vin, Dict info) :: later =>
      let missing := filter (fun f => info !! f = None) required_fields in
      match missing with
      | _ :: _ => load_records later valid_data
      | [] => load_records later (<[vin := fill_nulls required_fields info]> valid_data)
      end
  end.

Definition load_vehicle_data (doc : document) : gmap pystr (gmap pystr pyval) :=
  match doc with
  | Object items => load_records items ∅
  | Unreadable _ | NotAnObject => ∅
  end.

(** *** [decode_vin] *)

(** An entry of [api_data]: the raw JSON value, or the float read from
    a displacement. *)
Inductive api_value :=
| Raw (v : pyval)
| Num (x : float).

Definition max_retries : nat := 2.
Definition retry_delay : Z := 2.

Section Fetch.
Context `{FloatText}.

Definition store_item (api_data : gmap pystr (option api_value)) (it : item)
  : gmap pystr (option api_value) :=
  let var := Variable_ it in
  let val := Value it in
  if bool_decide (var ∈ [u "Displacement (L)"; u "Displacement (CC)"]) then
    let converted : res (option api_value) :=
      if bool_decide (val ≠ PNone) && negb (str_eqb (strip (str val)) [])
      then x ← VinApiQuery.float_of_value val; Ret (Some (Num x))
      else Ret None in
    <[var := VinApiQuery.try_except converted (Some (Raw val))]> api_data
  else <[var := Some (Raw val)]> api_data.

(** The loop of [decode_vin]; the result is [None] for Python's [None]. *)
Fixpoint decode_attempts (srv : service) (vin : pystr) (todo : list nat)
    (trace : list event)
  : option (gmap pystr (option api_value)) * list event :=
  match todo with
  | [] => (None, trace)
  | attempt :: later =>
      let trace := Get (VinApiQuery.api_url vin) 15 :: trace in
      match srv attempt with
      | RespJson None | RespJson (Some []) => (None, trace)
      | RespJson (Some (it :: its)) =>
          (Some (fold_left store_item (it :: its) ∅), trace)
      | RespRaise e =>
          if (attempt <? max_retries)%nat
          then decode_attempts srv vin later (Sleep retry_delay :: trace)
          else (None, trace)
      end
  end.

Definition decode_vin (srv : service) (vin : pystr)
  : option (gmap pystr (option api_value)) * list event :=
  let '(r, trace) := decode_attempts srv vin (seq 0 (max_retries + 1)) [] in
  (r, rev trace).

End Fetch.

(** *** [map_api_fields]

    A value of [api_data] is read as [option api_value]: [None] is
    Python's [None], whether [decode_vin] stored it or the service sent
    [null]. *)

(** [api_data.get(key)] *)
Definition api_get (api_data : gmap pystr (option api_value)) (key : pystr)
  : option api_value :=
  match api_data !! key with
  | Some (Some (Raw PNone)) | Some None | None => None
  | Some (Some v) => Some v
  end.

(** [api_data.get(key, "")] *)
Definition api_get_or_empty (api_data : gmap pystr (option api_value)) (key : pystr)
  : option api_value :=
  match api_data !! key with
  | None => Some (Raw (PStr []))
  | Some _ => api_get api_data key
  end.

(** [f"{x:.1f}"] for a float: the decimal with one fractional digit
    nearest to the exact value of [x], ties to even. *)
Definition format_1f_float (x : float) : pystr :=
  match decimal_units x 1, Prim2SF x with
  | Some (s, k), _ =>
      (if s : bool then u "-" else []) ++ str_of_N (k / 10) ++ u "." ++ str_of_N (k mod 10)
  | None, S754_zero s => if s then u "-0.0" else u "0.0"
  | None, S754_infinity s => if s then u "-inf" else u "inf"
  | None, _ => u "nan"
  end.

(** [f"{v:.1f}"] *)
Definition format_1f (v : api_value) : res pystr :=
  match v with
  | Num x => Ret (format_1f_float x)
  | Raw (PInt z) =>
      x ← in_float_range (float_of_int z) (u "int too large to convert to float");
      Ret (format_1f_float x)
  | Raw (PStr _) =>
      Raise (Exn ValueErrorExc (u "Unknown format code 'f' for object of type 'str'"))
  | Raw PNone =>
      Raise (Exn TypeErrorExc
               (u "unsupported format string passed to NoneType.__format__"))
  end.

(** [v / 1000]; the quotient of two [int]s is the float nearest to it. *)
Definition div_1000 (v : api_value) : res float :=
  match v with
  | Num x => Ret (x / 1000)%float
  | Raw (PInt z) =>
      let q := float_of_ratio (Z.abs_N z) 1000 in
      in_float_range (if (z <? 0)%Z then (- q)%float else q)
        (u "integer division result too large for a float")
  | Raw (PStr _) =>
      Raise (Exn TypeErrorExc (u "unsupported operand type(s) for /: 'str' and 'int'"))
  | Raw PNone =>
      Raise (Exn TypeErrorExc
               (u "unsupported operand type(s) for /: 'NoneType' and 'int'"))
  end.

(** [sep.join(parts)] *)
Fixpoint join (sep : pystr) (parts : list pystr) : pystr :=
  match parts with
  | [] => []
  | [part] => part
  | part :: later => part ++ sep ++ join sep later
  end.

(** The ["raw_engine_data"] dict of the mapped record. *)
Record mapped_engine := {
  api_raw_displacement_l : option api_value;
  api_raw_displacement_cc : option api_value;
  api_raw_fuel_type : option api_value;
  api_standardized_fuel : pystr
}.

(** The mapped record, a field for each key: ["Manufacturer/Make"],
    ["Year"], ["Model"], ["Engine"], ["Transmission"],
    ["Other Engine Info"] and ["raw_engine_data"]. *)
Record mapped := {
  api_Make : pystr;
  api_Year : pystr;
  api_Model : pystr;
  api_Engine : pystr;
  api_Transmission : option api_value;
  api_Other_Engine_Info : pystr;
  api_raw_engine_data : mapped_engine
}.

Section Mapping.
Context `{FloatText}.

(** [str(v)] *)
Definition str_value (v : api_value) : pystr :=
  match v with
  | Raw p => str p
  | Num x => str_of_float x
  end.

(** Truth value of [v] in a condition. *)
Definition truthy_value (v : option api_value) : bool :=
  match v with
  | None => false
  | Some (Raw p) => truthy p
  | Some (Num x) => float_truthy x
  end.

(** [v.strip()] *)
Definition strip_value (v : api_value) : res pystr :=
  match v with
  | Raw p => strip_method p
  | Num _ =>
      Raise (Exn AttributeErrorExc (u "'float' object has no attribute 'strip'"))
  end.

(** [api_data.get(key, "").strip() if api_data.get(key) is not None else ""] *)
Definition stripped_or_empty (api_data : gmap pystr (option api_value)) (key : pystr)
  : res pystr :=
  match api_get api_data key with
  | Some v => strip_value v
  | None => Ret []
  end.

(** The four categories of the fuel text, or the text itself. *)
Definition standardize_fuel (raw_fuel_type : option api_value) : pystr :=
  match raw_fuel_type with
  | Some v =>
      if truthy_value raw_fuel_type && negb (str_eqb (strip (str_value v)) [])
      then
        let fuel_lower := lower (strip (str_value v)) in
        if existsb (fun kw => contains kw fuel_lower) [u "gas"; u "petrol"]
        then u "Gasoline"
        else if contains (u "diesel") fuel_lower then u "Diesel"
        else if contains (u "hybrid") fuel_lower then u "Hybrid"
        else if contains (u "electric") fuel_lower then u "Electric"
        else strip (str_value v)
      else []
  | None => []
  end.

Definition map_api_fields (api_data : option (gmap pystr (option api_value)))
  : res (option mapped) :=
  match api_data with
  | None => Ret None
  | Some api_data =>
      if (size api_data =? 0)%nat then Ret None
      else
        let raw_displacement_l := api_get api_data (u "Displacement (L)") in
        let raw_displacement_cc := api_get api_data (u "Displacement (CC)") in
        display_displacement ←
          match raw_displacement_l, raw_displacement_cc with
          | Some l, _ => shown ← format_1f l; Ret (shown ++ u "L")
          | None, Some cc => x ← div_1000 cc; Ret (format_1f_float x ++ u "L")
          | None, None => Ret []
          end;
        let raw_fuel_type := api_get api_data (u "Fuel Type - Primary") in
        let standardized_fuel := standardize_fuel raw_fuel_type in
        let engine_config := api_get api_data (u "Engine Configuration") in
        let engine_info_parts :=
          (if str_eqb display_displacement [] then []
           else [u "Displacement: " ++ display_displacement])
          ++ (if str_eqb standardized_fuel [] then []
              else [u "Fuel Type: " ++ standardized_fuel])
          ++ match engine_config with
             | Some v =>
                 if truthy_value engine_config
                    && negb (str_eqb (strip (str_value v)) [])
                 then [u "Config: " ++ strip (str_value v)] else []
             | None => []
             end in
        let engine_info := join (u "; ") engine_info_parts in
        make ← stripped_or_empty api_data (u "Make");
        let year :=
          match api_get api_data (u "Model Year") with
          | Some v => strip (str_value v)
          | None => []
          end in
        model ← stripped_or_empty api_data (u "Model");
        let transmission :=
          let style := api_get_or_empty api_data (u "Transmission Style") in
          if truthy_value style then style
          else api_get_or_empty api_data (u "Transmission") in
        other ← stripped_or_empty api_data (u "Other Engine Info");
        Ret (Some {| api_Make := make; api_Year := year; api_Model := model;
                     api_Engine := engine_info; api_Transmission := transmission;
                     api_Other_Engine_Info := other;
                     api_raw_engine_data :=
                       {| api_raw_displacement_l := raw_displacement_l;
                          api_raw_displacement_cc := raw_displacement_cc;
                          api_raw_fuel_type := raw_fuel_type;
                          api_standardized_fuel := standardized_fuel |} |})
  end.

End Mapping.

(** *** [normalize_text] *)

(** The characters [re.sub(r'[^\w\s.\-\/;]', '', s)] keeps. *)
Definition kept (c : N) : bool :=
  isword c || isspace c || (c =? 0x2E) || (c =? 0x2D) || (c =? 0x2F) || (c =? 0x3B).

(** [re.sub(r'\s+', ' ', s)]; [in_run] tells that the previous character
    was white space. *)
Fixpoint collapse_from (in_run : bool) (s : pystr) : pystr :=
  match s with
  | [] => []
  | c :: r =>
      if isspace c
      then if in_run then collapse_from true r else 0x20 :: collapse_from true r
      else c :: collapse_from false r
  end.
Definition collapse_spaces (s : pystr) : pystr := collapse_from false s.

Definition normalize_text (text : pyval) : pystr :=
  match text with
  | PNone => []
  | _ =>
      let text_str := filter (fun c => kept c = true) (str text) in
      lower (strip (collapse_spaces text_str))
  end.

(** *** [extract_engine_features] *)

Record raw_engine_data := {
  raw_displacement_l : option float;
  raw_displacement_cc : option float;
  raw_fuel_type : pyval;
  standardized_fuel : pyval
}.

(** The empty dict [{}]: [.get("standardized_fuel", "")] gives [""]. *)
Definition empty_raw : raw_engine_data :=
  {| raw_displacement_l := None; raw_displacement_cc := None;
     raw_fuel_type := PNone; standardized_fuel := PStr [] |}.

Record features := {
  displacement : option float;
  displacement_unit : pystr;
  fuel_type : option pystr;
  raw_text : pystr
}.

(** [\d+\.?\d*] at the head of [s]: the text matched and what follows.
    In the three patterns the token after the number is never a digit, a
    point or white space, so the greedy match is the only candidate at a
    given start. *)
Definition match_number (s : pystr) : option (pystr * pystr) :=
  let d1 := take_while isdecimal s in
  let r1 := drop_while isdecimal s in
  match d1, r1 with
  | [], _ => None
  | _, c :: r2 =>
      if c =? 0x2E
      then Some (d1 ++ [c] ++ take_while isdecimal r2, drop_while isdecimal r2)
      else Some (d1, r1)
  | _, [] => Some (d1, [])
  end.

(** [\d+] at the head of [s]. *)
Definition match_digits (s : pystr) : option (pystr * pystr) :=
  match take_while isdecimal s with
  | [] => None
  | d => Some (d, drop_while isdecimal s)
  end.

(** A pattern tried at the head of a text: the groups it captures. *)
Definition pattern := pystr -> option (pystr * option pystr).

(** First pattern: a number [\d+\.?\d*], white space [\s*], then [l] or
    [t]; two groups. *)
Definition pattern_l_t : pattern := fun s =>
  '(g1, r) ← match_number s;
  let r := lstrip r in
  if startswith (u "l") r then Some (g1, Some (u "l"))
  else if startswith (u "t") r then Some (g1, Some (u "t"))
  else None.

(** Second pattern: digits [\d+], white space, then [cc] or
    [cubic centimeter]; two groups. *)
Definition pattern_cc : pattern := fun s =>
  '(g1, r) ← match_digits s;
  let r := lstrip r in
  if startswith (u "cc") r then Some (g1, Some (u "cc"))
  else if startswith (u "cubic centimeter") r then Some (g1, Some (u "cubic centimeter"))
  else None.

(** Third pattern: a number, white space, then [liter]; one group. *)
Definition pattern_liter : pattern := fun s =>
  '(g1, r) ← match_number s;
  if startswith (u "liter") (lstrip r) then Some (g1, None) else None.

Definition displacement_patterns : list pattern :=
  [pattern_l_t; pattern_cc; pattern_liter].

(** [re.search]: the match at the leftmost start. *)
Fixpoint re_search (pat : pattern) (s : pystr) : option (pystr * option pystr) :=
  match pat s with
  | Some g => Some g
  | None =>
      match s with
      | [] => None
      | _ :: r => re_search pat r
      end
  end.

(** The loop over [displacement_patterns].  [float] cannot fail on a
    text captured by [\d+\.?\d*], so the [except: continue] branch is
    never taken. *)
Fixpoint search_displacement (patterns : list pattern) (text : pystr)
  : option float :=
  match patterns with
  | [] => None
  | pat :: later =>
      match re_search pat text with
      | Some (g1, g2) =>
          let val := float_of_decimal g1 in
          let unit := match g2 with Some g => lower g | None => u "l" end in
          let val :=
            if bool_decide (unit ∈ [u "cc"; u "cubic centimeter"])
            then (val / 1000)%float else val in
          Some (py_round val 1)
      | None => search_displacement later text
      end
  end.

Definition fuel_mapping : list (pystr * list pystr) :=
  [ (u "gasoline", [u "gas"; u "gasoline"; u "petrol"]);
    (u "diesel", [u "diesel"; u "dsl"]);
    (u "hybrid", [u "hybrid"]);
    (u "electric", [u "electric"; u "ev"]) ].

Fixpoint search_fuel (mapping : list (pystr * list pystr)) (text : pystr)
  : option pystr :=
  match mapping with
  | [] => None
  | (standard, variations) :: later =>
      if existsb (fun var => contains var text) variations
      then Some standard
      else search_fuel later text
  end.

Definition extract_engine_features (engine_text : pyval)
    (raw : option raw_engine_data) : features :=
  let raw_text := normalize_text engine_text in
  match raw with
  | Some raw_engine_data =>
      let displacement :=
        match raw_displacement_l raw_engine_data,
              raw_displacement_cc raw_engine_data with
        | Some raw_disp_l, _ => Some (py_round raw_disp_l 1)
        | None, Some raw_disp_cc => Some (py_round (raw_disp_cc / 1000)%float 1)
        | None, None => None
        end in
      {| displacement := displacement; displacement_unit := u "L";
         fuel_type := Some (normalize_text (standardized_fuel raw_engine_data));
         raw_text := raw_text |}
  | None =>
      {| displacement := search_displacement displacement_patterns raw_text;
         displacement_unit := u "L";
         fuel_type := search_fuel fuel_mapping raw_text;
         raw_text := raw_text |}
  end.

(** *** [engine_features_match] *)

(** The texts of the [reason] entry, with what they interpolate:
    - [BothEmpty]: 双方发动机文本均为空
    - [HybridRelaxed]: 混动车型（文本含混动关键词），放开燃料类型匹配（本地：..，API：..）
    - [FuelMismatch]: 燃料类型不匹配（本地：..，API：..）
    - [FuelIncomplete]: 燃料类型信息不完整（本地：..，API：..）
    - [DisplacementMismatch]: 排量不匹配（本地：..，API：..，误差..，允许±0.2L）
    - [DisplacementIncomplete]: 排量信息不完整（本地：..，API：..）
    - [Matched]: 匹配成功（燃料类型：..，排量：.. ≈ ..） *)
Inductive reason :=
| NoReason
| BothEmpty
| HybridRelaxed (local_fuel api_fuel : pystr)
| FuelMismatch (local_fuel api_fuel : pystr)
| FuelIncomplete (local_fuel api_fuel : pystr)
| DisplacementMismatch (local_displacement api_displacement error : option float)
| DisplacementIncomplete (local_displacement api_displacement : option float)
| Matched (local_fuel : pystr) (local_displacement api_displacement : option float).

(** The entries of [match_details].  A displacement or an error is kept
    as the number it prints ([None] prints 无). *)
Record details := {
  fuel_type_match : bool;
  displacement_match : bool;
  local_fuel : pystr;
  api_fuel : pystr;
  local_displacement : option float;
  api_displacement : option float;
  displacement_error : option float
}.

(** The dict returned next to the verdict: for two empty texts the
    details sit under a ["match_details"] key next to ["reason"];
    otherwise details and reason share one dict. *)
Inductive analysis :=
| Nested (r : reason) (match_details : details)
| Flat (match_details : details) (r : reason).

Definition details_of (a : analysis) : details :=
  match a with
  | Nested _ d => d
  | Flat d _ => d
  end.
Definition reason_of (a : analysis) : reason :=
  match a with
  | Nested r _ => r
  | Flat _ r => r
  end.

Definition none_mark : pystr := u "无".
Definition NA_text : pystr := u "N/A".

(** [x or '无'] *)
Definition or_none (x : option pystr) : pystr :=
  match x with
  | Some (c :: r) => c :: r
  | _ => none_mark
  end.

Definition str_truthy (x : option pystr) : bool :=
  match x with
  | Some (_ :: _) => true
  | _ => false
  end.

Definition opt_float_truthy (x : option float) : bool :=
  match x with
  | Some v => float_truthy v
  | None => false
  end.

Definition set_fuel_type_match (b : bool) (d : details) : details :=
  {| fuel_type_match := b; displacement_match := displacement_match d;
     local_fuel := local_fuel d; api_fuel := api_fuel d;
     local_displacement := local_displacement d;
     api_displacement := api_displacement d;
     displacement_error := displacement_error d |}.
Definition set_displacement_match (b : bool) (d : details) : details :=
  {| fuel_type_match := fuel_type_match d; displacement_match := b;
     local_fuel := local_fuel d; api_fuel := api_fuel d;
     local_displacement := local_displacement d;
     api_displacement := api_displacement d;
     displacement_error := displacement_error d |}.
Definition set_displacement_error (e : option float) (d : details) : details :=
  {| fuel_type_match := fuel_type_match d;
     displacement_match := displacement_match d;
     local_fuel := local_fuel d; api_fuel := api_fuel d;
     local_displacement := local_displacement d;
     api_displacement := api_displacement d;
     displacement_error := e |}.

(** The tolerance [0.2] as Python reads it. *)
Definition tolerance : float := (0x1.999999999999ap-3)%float.

(** The fuel stage: the details and reason after it, and whether the
    function goes on to the displacement stage. *)
Definition fuel_stage (local_feat api_feat : features)
    (local_raw_text api_raw_text : pystr) (d : details)
  : details * reason * bool :=
  let is_hybrid_by_fuel :=
    bool_decide (fuel_type local_feat = Some (u "hybrid"))
    || bool_decide (fuel_type api_feat = Some (u "hybrid")) in
  let is_hybrid_by_text :=
    contains (u "hybrid") local_raw_text || contains (u "hybrid") api_raw_text in
  let is_hybrid := is_hybrid_by_fuel || is_hybrid_by_text in
  if is_hybrid then
    (set_fuel_type_match true d, HybridRelaxed (local_fuel d) (api_fuel d), true)
  else if str_truthy (fuel_type local_feat) && str_truthy (fuel_type api_feat) then
    let same := bool_decide (fuel_type local_feat = fuel_type api_feat) in
    if same then (set_fuel_type_match same d, NoReason, true)
    else (set_fuel_type_match same d, FuelMismatch (local_fuel d) (api_fuel d), false)
  else if negb (str_truthy (fuel_type local_feat))
          && negb (str_truthy (fuel_type api_feat)) then
    (set_fuel_type_match true d, NoReason, true)
  else (d, FuelIncomplete (local_fuel d) (api_fuel d), false).

(** The displacement stage: the final verdict and dict. *)
Definition displacement_stage (local_feat api_feat : features) (d : details)
  : bool * analysis :=
  match displacement local_feat, displacement api_feat with
  | Some l, Some a =>
      let error := abs (l - a)%float in
      let d := set_displacement_error (Some error) d in
      let ok := (error <=? tolerance)%float in
      let d := set_displacement_match ok d in
      if ok
      then (true, Flat d (Matched (local_fuel d) (local_displacement d)
                            (api_displacement d)))
      else (false, Flat d (DisplacementMismatch (local_displacement d)
                             (api_displacement d) (displacement_error d)))
  | l, a =>
      if negb (opt_float_truthy l) && negb (opt_float_truthy a)
      then
        let d := set_displacement_match true d in
        (true, Flat d (Matched (local_fuel d) (local_displacement d)
                         (api_displacement d)))
      else (false, Flat d (DisplacementIncomplete (local_displacement d)
                             (api_displacement d)))
  end.

(** The dict returned for two empty texts. *)
Definition vacuous_analysis : analysis :=
  Nested BothEmpty
    {| fuel_type_match := true; displacement_match := true;
       local_fuel := none_mark; api_fuel := none_mark;
       local_displacement := None; api_displacement := None;
       displacement_error := None |}.

(** [not local_engine.strip() and not api_engine.strip()]: the second
    text is looked at only when the first is empty. *)
Definition both_texts_empty (local_engine api_engine : pyval) : res bool :=
  local_stripped ← strip_method local_engine;
  if str_eqb local_stripped []
  then api_stripped ← strip_method api_engine; Ret (str_eqb api_stripped [])
  else Ret false.

(** The function from the point where both feature sets are known. *)
Definition compare_features (local_feat api_feat : features)
    (local_raw_text api_raw_text : pystr) : bool * analysis :=
  let match_details :=
    {| fuel_type_match := false; displacement_match := false;
       local_fuel := or_none (fuel_type local_feat);
       api_fuel := or_none (fuel_type api_feat);
       local_displacement := displacement local_feat;
       api_displacement := displacement api_feat;
       displacement_error := None |} in
  let '(match_details, r, go_on) :=
    fuel_stage local_feat api_feat local_raw_text api_raw_text match_details in
  if go_on : bool
  then displacement_stage local_feat api_feat match_details
  else (false, Flat match_details r).

Definition engine_features_match (local_engine api_engine : pyval)
    (api_raw_engine_data : option raw_engine_data) : res (bool * analysis) :=
  both_empty ← both_texts_empty local_engine api_engine;
  if both_empty : bool then Ret (true, vacuous_analysis)
  else
    let local_feat := extract_engine_features local_engine None in
    let api_feat := extract_engine_features api_engine api_raw_engine_data in
    let local_raw_text := normalize_text local_engine in
    let api_raw_text := normalize_text api_engine in
    Ret (compare_features local_feat api_feat local_raw_text api_raw_text).

(** *** [compare_with_source] and [compare_vehicles] *)

(** The record compared against: the five fields it may hold, and the
    dict under its ["raw_engine_data"] key when it has one. *)
Record source_data := {
  src_fields : gmap pystr pyval;
  src_raw_engine_data : option raw_engine_data
}.

(** The texts of [mismatch_reason], with what they interpolate:
    制造商不匹配, 年份不匹配, 型号不匹配, the engine matcher's reason,
    变速箱不匹配; [NoMismatch] is the empty text. *)
Inductive mismatch :=
| NoMismatch
| ManufacturerMismatch (std_local std_source : pystr)
| YearMismatch (local_val source_val : pyval)
| ModelMismatch (std_local std_source : pystr)
| EngineMismatch (r : reason)
| TransmissionMismatch (std_local std_source : pystr).

(** An entry of [result["fields"]]; [field_match] is its ["match"] and
    [extra_info] the engine matcher's dict, present for the engine. *)
Record field_result := {
  local_value : pyval;
  source_value : pyval;
  field_match : bool;
  standardized_local : pystr;
  standardized_source : pystr;
  mismatch_reason : mismatch;
  extra_info : option analysis
}.

(** The texts of [result["details"]]: empty, API未返回有效数据且硬解码失败,
    or 使用..比对..字段，..个匹配，匹配率..% *)
Inductive details_text :=
| NoDetails
| NothingToCompare
| Summary (source_name : pystr) (total_fields match_count : nat) (match_rate : float).

(** The verdict dict; [match_] is its ["match"]. *)
Record comparison := {
  match_ : bool;
  match_rate : float;
  details_ : details_text;
  fields : gmap pystr field_result;
  match_source : pystr;
  engine_match_analysis : option analysis
}.

Definition api_source_name : pystr := u "API数据".
Definition hard_source_name : pystr := u "硬解码数据".

(** [d.get(field, "")] *)
Definition get_or_empty (d : gmap pystr pyval) (field : pystr) : pyval :=
  default (PStr []) (d !! field).

Definition either_contains (a b : pystr) : bool := contains a b || contains b a.

(** The body of [for field in fields_to_check]: the entry stored under
    [field] and, for the engine, the dict stored in
    [engine_match_analysis]. *)
Definition compare_field (local_data : gmap pystr pyval) (src : source_data)
    (source_name : pystr) (field : pystr)
  : res (field_result * option analysis) :=
  match src_fields src !! field with
  | None =>
      Ret ({| local_value := get_or_empty local_data field;
              source_value := PStr (u "硬解码无此数据");
              field_match := true;
              standardized_local := normalize_text (get_or_empty local_data field);
              standardized_source := NA_text;
              mismatch_reason := NoMismatch;
              extra_info := None |}, None)
  | Some source_val =>
      let local_val := get_or_empty local_data field in
      let std_local := normalize_text local_val in
      let std_source := normalize_text source_val in
      '(matched, reason, extra) ←
        (if str_eqb field (u "Manufacturer/Make") then
           let m := either_contains std_local std_source in
           Ret (m, if m then NoMismatch else ManufacturerMismatch std_local std_source,
                None)
         else if str_eqb field (u "Year") then
           let m := str_eqb (strip (str local_val)) (strip (str source_val)) in
           Ret (m, if m then NoMismatch else YearMismatch local_val source_val, None)
         else if str_eqb field (u "Model") then
           let m := either_contains std_local std_source in
           Ret (m, if m then NoMismatch else ModelMismatch std_local std_source, None)
         else if str_eqb field (u "Engine") then
           let api_raw_engine :=
             if str_eqb source_name api_source_name
             then Some (default empty_raw (src_raw_engine_data src))
             else None in
           '(m, engine_analysis) ←
             engine_features_match local_val source_val api_raw_engine;
           Ret (m, if m : bool then NoMismatch else EngineMismatch (reason_of engine_analysis),
                Some engine_analysis)
         else if str_eqb field (u "Transmission") then
           let cvt_match :=
             (contains (u "cvt") std_local && contains (u "automatic") std_source)
             || (contains (u "cvt") std_source && contains (u "automatic") std_local) in
           let manual_match :=
             contains (u "manual") std_local && contains (u "manual") std_source in
           let include_match := either_contains std_local std_source in
           let m := cvt_match || manual_match || include_match in
           Ret (m, if m then NoMismatch else TransmissionMismatch std_local std_source,
                None)
         else Ret (false, NoMismatch, None)) : res (bool * mismatch * option analysis);
      Ret ({| local_value := local_val; source_value := source_val;
              field_match := matched;
              standardized_local := std_local;
              standardized_source := std_source;
              mismatch_reason := reason;
              extra_info := extra |}, extra)
  end.

(** The loop state: [result["fields"]], [match_count] and
    [result["engine_match_analysis"]]. *)
Record loop_state := {
  ls_fields : gmap pystr field_result;
  match_count : nat;
  ls_engine : option analysis
}.

Fixpoint compare_loop (local_data : gmap pystr pyval) (src : source_data)
    (source_name : pystr) (todo : list pystr) (st : loop_state) : res loop_state :=
  match todo with
  | [] => Ret st
  | field :: later =>
      '(entry, engine) ← compare_field local_data src source_name field;
      compare_loop local_data src source_name later
        {| ls_fields := <[field := entry]> (ls_fields st);
           match_count := if field_match entry then S (match_count st)
                          else match_count st;
           ls_engine := match engine with
                        | Some a => Some a
                        | None => ls_engine st
                        end |}
  end.

Definition compare_with_source (local_data : gmap pystr pyval) (src : source_data)
    (result_template : comparison) (source_name : pystr) : res comparison :=
  st ← compare_loop local_data src source_name fields_to_check
         {| ls_fields := fields result_template; match_count := 0;
            ls_engine := engine_match_analysis result_template |};
  let total_fields := length fields_to_check in
  let rate :=
    if (0 <? total_fields)%nat
    then py_round (float_of_ratio (N.of_nat (match_count st))
                     (Pos.of_nat total_fields) * 100)%float 2
    else 0%float in
  engine_entry ←
    match ls_fields st !! u "Engine" with
    | Some e => Ret e
    | None => Raise (Exn KeyErrorExc (u "'Engine'"))
    end;
  Ret {| match_ := (4 <=? match_count st)%nat && field_match engine_entry;
         match_rate := rate;
         details_ := Summary source_name total_fields (match_count st) rate;
         fields := ls_fields st;
         match_source := match_source result_template;
         engine_match_analysis := ls_engine st |}.

Definition base_result : comparison :=
  {| match_ := false; match_rate := 0%float; details_ := NoDetails;
     fields := ∅; match_source := u "api"; engine_match_analysis := None |}.

Definition compare_vehicles (local_data : gmap pystr pyval)
    (api_data : option source_data) (vin : pystr) : res comparison :=
  match api_data with
  | None =>
      match hard_decode_vin vin with
      | Some hard_data =>
          compare_with_source local_data
            {| src_fields := hard_data; src_raw_engine_data := None |}
            {| match_ := false; match_rate := 0%float; details_ := NoDetails;
               fields := ∅; match_source := u "hard_decode";
               engine_match_analysis := None |}
            hard_source_name
      | None =>
          Ret {| match_ := false; match_rate := 0%float;
                 details_ := NothingToCompare; fields := ∅;
                 match_source := u "api"; engine_match_analysis := None |}
      end
  | Some api => compare_with_source local_data api base_result api_source_name
  end.

(** *** [generate_report]: the tallies

    The loop of [generate_report] over [valid_results] that fills the
    ["match"] counts of [field_stats] and the three counts of
    [engine_core_stats]; the rates and the text are made from these
    afterwards.  Every value [main] puts in [comparison_results] is a
    dict with a ["fields"] key, so [valid_results] holds them all. *)
Record tallies := {
  field_stats : gmap pystr nat;
  fuel_type_matched : nat;
  displacement_matched : nat;
  both_matched : nat
}.

Definition initial_tallies : tallies :=
  {| field_stats := list_to_map ((fun f => (f, 0%nat)) <$> fields_to_check);
     fuel_type_matched := 0; displacement_matched := 0; both_matched := 0 |}.

(** [ea.get(flag)] as a condition: the flag sits at the top of the dict
    only when it is the flat one. *)
Definition analysis_flag (flag : details -> bool) (ea : option analysis) : bool :=
  match ea with
  | Some (Flat match_details _) => flag match_details
  | _ => false
  end.

(** [for field in field_stats: if res["fields"][field]["match"]: ...] *)
Fixpoint tally_fields (one : comparison) (todo : list pystr) (stats : gmap pystr nat)
  : res (gmap pystr nat) :=
  match todo with
  | [] => Ret stats
  | field :: later =>
      match fields one !! field with
      | Some entry =>
          tally_fields one later
            (if field_match entry
             then <[field := S (default 0%nat (stats !! field))]> stats
             else stats)
      | None => Raise (Exn KeyErrorExc (u "'" ++ field ++ u "'"))
      end
  end.

Definition tally_one (t : tallies) (one : comparison) : res tallies :=
  stats ← tally_fields one fields_to_check (field_stats t);
  let ea := engine_match_analysis one in
  let fuel := analysis_flag fuel_type_match ea in
  let disp := analysis_flag displacement_match ea in
  Ret {| field_stats := stats;
         fuel_type_matched :=
           if fuel then S (fuel_type_matched t) else fuel_type_matched t;
         displacement_matched :=
           if disp then S (displacement_matched t) else displacement_matched t;
         both_matched :=
           if fuel && disp then S (both_matched t) else both_matched t |}.

Fixpoint tally (valid_results : list comparison) (t : tallies) : res tallies :=
  match valid_results with
  | [] => Ret t
  | one :: later => t' ← tally_one t one; tally later t'
  end.

End QueryApiTest.

(** * Notions used in the statements

    What the lemmas below speak about: predicates on texts, the
    conditions and counts that the specification names, the schedule of
    a retry loop, and the data of the examples. *)

Import QueryApiTest.
Import VinApiQuery.

(** A closed decidable statement is settled by evaluating its decision
    procedure. *)
Ltac by_evaluation :=
  apply (bool_decide_unpack _); vm_compute; exact I.

(** Replace a literal in a hypothesis by its code points. *)
Ltac literal_in H :=
  match type of H with
  | context [u ?lit] =>
      let v := eval vm_compute in (u lit) in change (u lit) with v in H
  end.

(** A code point that lower-casing leaves as it is, wherever it stands:
    not the dotted capital U+0130, not the capital sigma, and without
    an entry in the lower-case table. *)
Definition lowered (c : N) : bool :=
  negb (c =? 0x130) && negb (c =? 0x3A3)
  && bool_decide (char_get UnicodeData.lowercase c = None).

(** White space reduced to single blanks between other characters;
    [prev] tells that the character before was white space. *)
Fixpoint single_spaced (prev : bool) (s : pystr) : bool :=
  match s with
  | [] => true
  | c :: r =>
      if isspace c then (c =? 0x20) && negb prev && single_spaced true r
      else single_spaced false r
  end.

(** No white space in front. *)
Definition no_lead (s : pystr) : Prop :=
  match s with
  | c :: _ => isspace c = false
  | [] => True
  end.

(** The normalizer on a text. *)
Definition normalize_str (s : pystr) : pystr :=
  lower (strip (collapse_spaces (filter (fun c => kept c = true) s))).

(** The condition of the hybrid branch, on the features and the two
    normalized texts. *)
Definition hybrid_condition (local_feat api_feat : features)
    (local_raw_text api_raw_text : pystr) : Prop :=
  fuel_type local_feat = Some (u "hybrid")
  \/ fuel_type api_feat = Some (u "hybrid")
  \/ contains (u "hybrid") local_raw_text = true
  \/ contains (u "hybrid") api_raw_text = true.

(** The condition of the hybrid branch, on what the matcher is given. *)
Definition hybrid_evidence (local_engine api_engine : pyval)
    (raw : option raw_engine_data) : Prop :=
  hybrid_condition (extract_engine_features local_engine None)
    (extract_engine_features api_engine raw)
    (normalize_text local_engine) (normalize_text api_engine).

Definition electric_raw : raw_engine_data :=
  {| raw_displacement_l := Some 2%float; raw_displacement_cc := None;
     raw_fuel_type := PStr (u "Electric");
     standardized_fuel := PStr (u "Electric") |}.

Definition electric_no_displacement : raw_engine_data :=
  {| raw_displacement_l := None; raw_displacement_cc := None;
     raw_fuel_type := PStr (u "Electric");
     standardized_fuel := PStr (u "Electric") |}.

(** Whether the entry stored under [field] says matched. *)
Definition field_matched (fs : gmap pystr field_result) (field : pystr) : bool :=
  match fs !! field with
  | Some e => field_match e
  | None => false
  end.

(** The number of compared fields whose entry says matched. *)
Definition matched_field_count (fs : gmap pystr field_result) : nat :=
  length (filter (fun field => field_matched fs field = true) fields_to_check).

Definition example_local : gmap pystr pyval :=
  list_to_map
    [ (u "Manufacturer/Make", PStr (u "Toyota")); (u "Year", PInt 2019);
      (u "Model", PStr (u "Camry")); (u "Engine", PStr (u "2.5L gas"));
      (u "Transmission", PStr (u "Automatic")) ].

Definition example_source : source_data :=
  {| src_fields :=
       list_to_map
         [ (u "Manufacturer/Make", PStr (u "TOYOTA")); (u "Year", PStr (u "2019"));
           (u "Model", PStr (u "Camry"));
           (u "Engine", PStr (u "Displacement: 2.0L; Fuel Type: Gasoline"));
           (u "Transmission", PStr (u "Automatic")) ];
     src_raw_engine_data :=
       Some {| raw_displacement_l := Some 2%float; raw_displacement_cc := None;
               raw_fuel_type := PStr (u "Gasoline");
               standardized_fuel := PStr (u "Gasoline") |} |}.

Definition example_verdict : comparison :=
  match compare_with_source example_local example_source base_result
          api_source_name with
  | Ret r => r
  | Raise _ => base_result
  end.

(** The value the item loop stores for an item: its text, stripped, or
    the marker when the value is [null] or blank. *)
Definition shown_value (it : item) : pystr :=
  let var_value := match Value it with PNone => PStr NA | v => v end in
  let var_value_strip := strip (str var_value) in
  if str_eqb var_value_strip [] then NA else var_value_strip.




(** The value is a text or [null]. *)
Definition text_or_null (v : pyval) : Prop :=
  match v with
  | PInt _ => False
  | _ => True
  end.

(** Every value of the dict is a text. *)
Definition all_texts (d : gmap pystr pyval) : Prop :=
  forall k v, d !! k = Some v -> exists s, v = PStr s.

(** A text interface for the examples.  [float] reads a plain decimal
    (digits, optional point, digits) with white space around it and
    refuses any other text; [str] prints the nearest decimal with one
    fractional digit, which is what Python prints for a float rounded to
    one decimal and below 10^16. *)
Definition read_plain_decimal (s : pystr) : res float :=
  match match_number (strip s) with
  | Some (_, []) => Ret (float_of_decimal (strip s))
  | _ => Raise (Exn ValueErrorExc (u "could not convert string to float"))
  end.

Definition print_one_decimal (x : float) : pystr :=
  match decimal_units x 1, Prim2SF x with
  | Some (s, k), _ =>
      (if s : bool then u "-" else []) ++ str_of_N (k / 10) ++ u "." ++ str_of_N (k mod 10)
  | None, S754_zero s => if s then u "-0.0" else u "0.0"
  | None, S754_infinity s => if s then u "-inf" else u "inf"
  | None, _ => u "nan"
  end.

Definition decimal_text : FloatText :=
  {| float_of_str := read_plain_decimal; str_of_float := print_one_decimal |}.

(** A service whose every answer is one result set. *)
Definition always (results : list item) : service :=
  fun _ => RespJson (Some results).

Definition dual_clutch : list item :=
  [ {| Variable_ := u "Make"; Value := PStr (u "VOLKSWAGEN") |};
    {| Variable_ := u "Model Year"; Value := PStr (u "2015") |};
    {| Variable_ := u "Transmission Style";
       Value := PStr (u "Dual-Clutch Transmission (DCT)") |} ].

Definition is_timeout (r : response) : bool :=
  match r with
  | RespRaise e =>
      match exn_cls e with
      | TimeoutExc => true
      | _ => false
      end
  | RespJson _ => false
  end.

Definition is_empty_result (r : response) : bool :=
  match r with
  | RespJson None | RespJson (Some []) => true
  | _ => false
  end.

(** The answers after which [decode_vin_simplified] asks again: a
    timeout, and an empty or absent result set. *)
Definition retried_simplified (r : response) : bool :=
  is_timeout r || is_empty_result r.

(** The answers after which [decode_vin] asks again: any exception. *)
Definition retried_test (r : response) : bool :=
  match r with
  | RespRaise _ => true
  | RespJson _ => false
  end.

(** What a loop of at most three attempts does to the outside world
    when it asks again exactly after the answers in [retried]: a request,
    and up to two times a pause of two seconds and another request. *)
Definition schedule (retried : response -> bool) (srv : service) (url : pystr)
  : list event :=
  Get url 15 ::
  (if retried (srv 0%nat)
   then Sleep 2 :: Get url 15 ::
        (if retried (srv 1%nat) then [Sleep 2; Get url 15] else [])
   else []).

(** Whether the loop of [decode_vin_simplified] gets as far as its
    attempt number [i]. *)
Definition attempt_made (srv : service) (i : nat) : bool :=
  match i with
  | 0%nat => true
  | 1%nat => retried_simplified (srv 0%nat)
  | 2%nat => retried_simplified (srv 0%nat) && retried_simplified (srv 1%nat)
  | _ => false
  end.

(** What one turn of the loop leaves alone in the state. *)
Definition unchanged (st st' : state) : Prop :=
  api_success st' = api_success st
  /\ success (st_result st') = success (st_result st)
  /\ vehicle_info (st_result st') = vehicle_info (st_result st).

(** Attempt [i] yields a record: a non-empty result set that the
    standardizer accepts. *)
Definition attempt_succeeds `{FloatText} (srv : service) (vin : pystr) (i : nat) : bool :=
  match srv i with
  | RespJson (Some (it :: its)) =>
      match parse_results vin (it :: its) with
      | Ret _ => true
      | Raise _ => false
      end
  | _ => false
  end.

(** Total failure of the remote lookup: no attempt that is made yields a
    record (every one times out, comes back empty, or ends in an HTTP
    or other error). *)
Definition remote_fails `{FloatText} (srv : service) (vin : pystr) : Prop :=
  forall i, attempt_made srv i = true -> attempt_succeeds srv vin i = false.

(** The record built from the structural decoder alone. *)
Definition structural_record (vin : pystr) (hd : hard_decoded) : vehicle :=
  {| VIN := upper vin; Manufacturer := manufacturer hd; Year := year hd;
     Model := no_data; Engine := no_data; Transmission := no_data;
     Data_Source := hard_decode_source |}.

(** Three services: one that always times out, one that always answers
    with an empty result set, one that always answers with an HTTP error
    status. *)
Definition always_times_out : service :=
  fun _ => RespRaise (Exn TimeoutExc (u "Read timed out. (read timeout=15)")).
Definition always_empty : service := fun _ => RespJson (Some []).
Definition always_http_error : service :=
  fun _ => RespRaise (Exn HTTPErrorExc (u "503 Server Error: Service Unavailable")).

Definition three_requests (vin : pystr) : list event :=
  [ Get (api_url vin) 15; Sleep 2; Get (api_url vin) 15; Sleep 2;
    Get (api_url vin) 15 ].

(** ** Notions of the further properties

    The loader's documents, the outcomes of the orchestrator, what the
    item loops keep of a result set, and the data of the examples. *)

(** Every required field is present in the dict. *)
Definition complete (info : gmap pystr pyval) : Prop :=
  forall f, f ∈ required_fields -> is_Some (info !! f).

(** A document of three entries: a complete record with a [null]
    model, a value that is not a dict, and a record without engine. *)
Definition honda_info : gmap pystr pyval :=
  list_to_map
    [ (u "Manufacturer/Make", PStr (u "Honda")); (u "Year", PInt 2019);
      (u "Model", PNone); (u "Engine", PStr (u "2.4L gas"));
      (u "Transmission", PStr (u "Automatic")); (u "Color", PNone) ].

Definition sample_items : list (pystr * json_entry) :=
  [ (u "1HGCM8263KA004352", Dict honda_info);
    (u "5YJ3E1EA7KF000001", NotADict);
    (u "WAUZZZ8V5KA000002",
     Dict (list_to_map
             [ (u "Manufacturer/Make", PStr (u "Audi")); (u "Year", PInt 2019);
               (u "Model", PStr (u "A3"));
               (u "Transmission", PStr (u "Automatic")) ])) ].

Definition sample_document : document := Object sample_items.

(** A source that holds the year only. *)
Definition year_only : source_data :=
  {| src_fields := {[ u "Year" := PInt 2019 ]}; src_raw_engine_data := None |}.

(** [r] or the initial verdict when the comparison raised. *)
Definition verdict_of (run : res comparison) : comparison :=
  match run with
  | Ret r => r
  | Raise _ => base_result
  end.

(** The result dict after an attempt that yields the record [v]. *)
Definition api_result (v : vehicle) : result :=
  {| success := true; vehicle_info := Some v; error := [] |}.

(** Attempt [i] is made and yields the record [v]. *)
Definition yields `{FloatText} (srv : service) (vin : pystr) (i : nat) (v : vehicle)
  : Prop :=
  attempt_made srv i = true
  /\ exists it its, srv i = RespJson (Some (it :: its))
                    /\ parse_results vin (it :: its) = Ret v.

(** The raw manufacturer and year of a result set: the value of its
    last item of that name, the marker when it has none. *)
Definition raw_manufacturer (results : list item) : pystr :=
  fold_left
    (fun acc it => if str_eqb (Variable_ it) (u "Make") then shown_value it else acc)
    results NA.

Definition raw_year (results : list item) : pystr :=
  fold_left
    (fun acc it => if str_eqb (Variable_ it) (u "Model Year") then shown_value it else acc)
    results NA.

Definition manufacturer_fallback : pystr :=
  u "API + Hard Decode (Manufacturer Fallback)".
Definition year_fallback : pystr := u "API + Hard Decode (Year Fallback)".

(** The manufacturer of the service is not usable: absent, or the
    marker once title-cased. *)
Definition manufacturer_missing (results : list item) : bool :=
  str_eqb (raw_manufacturer results) NA
  || str_eqb (title (raw_manufacturer results)) NA.

(** A service that times out once and then answers. *)
Definition late_answer (results : list item) : service :=
  fun i =>
    match i with
    | O => RespRaise (Exn TimeoutExc (u "Read timed out. (read timeout=15)"))
    | _ => RespJson (Some results)
    end.

(** A result set without manufacturer and year. *)
Definition model_only : list item :=
  [ {| Variable_ := u "Make"; Value := PStr (u "n/a") |};
    {| Variable_ := u "Model"; Value := PStr (u "Accord") |};
    {| Variable_ := u "Model Year"; Value := PNone |} ].

(** The raw engine dict the comparator hands to the engine matcher. *)
Definition engine_raw_argument (src : source_data) (source_name : pystr)
  : option raw_engine_data :=
  if str_eqb source_name api_source_name
  then Some (default empty_raw (src_raw_engine_data src))
  else None.

(** A reference record whose engine is a number. *)
Definition numeric_engine_local : gmap pystr pyval :=
  <[u "Engine" := PInt 2]> example_local.

(** The text the comparison script's decoder gives for a prefix that is
    not in its table. *)
Definition unknown_make (wmi : pystr) : pystr := u "未知（WMI：" ++ wmi ++ u "）".

(** The value of the last item of a result set named [key], if any. *)
Definition last_value (key : pystr) (results : list item) : option pyval :=
  fold_left
    (fun acc it => if str_eqb (Variable_ it) key then Some (Value it) else acc)
    results None.

(** What [api_data.get(var)] gives once [decode_vin] has stored [val]
    under [var]. *)
Definition stored `{FloatText} (var : pystr) (val : pyval) : option api_value :=
  api_get (store_item ∅ {| Variable_ := var; Value := val |}) var.

(** A value of the service that is a non-blank text [float] refuses. *)
Definition unparseable `{FloatText} (v : option pyval) : Prop :=
  exists s e, v = Some (PStr s) /\ strip s ≠ [] /\ float_of_str s = Raise e.

(** A value of the service that is absent, [null] or a blank text. *)
Definition blank_value (v : option pyval) : Prop :=
  v = None \/ v = Some PNone \/ exists s, v = Some (PStr s) /\ strip s = [].

(** A result set whose displacement is not a number. *)
Definition odd_displacement : list item :=
  [ {| Variable_ := u "Make"; Value := PStr (u "HONDA") |};
    {| Variable_ := u "Displacement (L)"; Value := PStr (u "2.0L") |} ].

(** A fuel text that names a hybrid and an electric drive. *)
Definition plug_in_fuel : pystr := u "Plug-in Hybrid Electric".

(** The value the item loop of [decode_vin_simplified] keeps for an
    item: the marker text in place of [null]. *)
Definition kept_value (it : item) : pyval :=
  match Value it with
  | PNone => PStr NA
  | v => v
  end.

(** A result set with [null] litres and the cubic centimetres known. *)
Definition null_litres : list item :=
  [ {| Variable_ := u "Displacement (CC)"; Value := PStr (u "1998") |};
    {| Variable_ := u "Displacement (L)"; Value := PNone |};
    {| Variable_ := u "Fuel Type - Primary"; Value := PStr (u "Gasoline") |} ].

(** No white space at the end. *)
Definition no_trail (s : pystr) : Prop :=
  match last s with
  | Some c => isspace c = false
  | None => True
  end.

(** * Properties *)

Lemma Ret_inj {A} (a b : A) : Ret a = Ret b -> a = b.
Proof. by intros [= ->]. Qed.

(** ** Text helpers *)

(** A table fact on the code points below [n] is settled by evaluating
    it on each of them. *)
Lemma below_by_cases (P : N -> bool) (n : nat) :
  forallb P (N.of_nat <$> seq 0 n) = true ->
  forall c, c < N.of_nat n -> P c = true.
Proof.
  intros Hall c Hc.
  rewrite forallb_forall in Hall.
  apply Hall, list_elem_of_In, list_elem_of_fmap.
  exists (N.to_nat c). split; [lia|]. apply elem_of_seq. lia.
Qed.

Lemma char_get_In {V} (table : list (N * V)) (c : N) (v : V) :
  char_get table c = Some v -> (c, v) ∈ table.
Proof.
  induction table as [|[c' v'] table IH]; cbn [char_get]; [done|].
  destruct (N.eqb_spec c' c) as [->|Hne].
  - intros [= ->]. left.
  - intros Hget. right. auto.
Qed.

(** A fact on the entries of a table is settled by evaluating it on
    each of them. *)
Lemma table_by_cases {V} (P : N -> V -> Prop) `{!forall c v, Decision (P c v)}
    (table : list (N * V)) :
  forallb (fun e => bool_decide (P e.1 e.2)) table = true ->
  forall c v, char_get table c = Some v -> P c v.
Proof.
  intros Hall c v Hget. rewrite forallb_forall in Hall.
  eapply bool_decide_eq_true, (Hall (c, v)), list_elem_of_In, char_get_In, Hget.
Qed.

(** The characters whose upper case is I, O or Q are the six letters
    and the dotless U+0131. *)
Lemma upper_char_invalid (c : N) :
  upper_char c ∈ VinApiQuery.invalid_chars <-> c ∈ u "IOQioqı".
Proof.
  unfold upper_char.
  destruct (char_get UnicodeData.uppercase c) as [v|] eqn:Hget; cbn [default from_option id].
  - revert c v Hget.
    apply (table_by_cases
      (fun c v => v ∈ VinApiQuery.invalid_chars <-> c ∈ u "IOQioqı")).
    vm_compute. reflexivity.
  - split.
    + intros Hin. change (VinApiQuery.invalid_chars) with [[0x49]; [0x4F]; [0x51]] in Hin.
      change (u "IOQioqı") with [0x49; 0x4F; 0x51; 0x69; 0x6F; 0x71; 0x131].
      rewrite !elem_of_cons in Hin. rewrite !elem_of_cons.
      destruct Hin as [Hin|[Hin|[Hin|Hin]]];
        [injection Hin as ->; auto ..|by apply elem_of_nil in Hin].
    + intros Hin. change (u "IOQioqı") with [0x49; 0x4F; 0x51; 0x69; 0x6F; 0x71; 0x131] in Hin.
      repeat (apply elem_of_cons in Hin as [->|Hin];
              [first [by_evaluation | vm_compute in Hget; discriminate Hget]|]).
      by apply elem_of_nil in Hin.
Qed.

Lemma first_invalid_None (vin : pystr) :
  VinApiQuery.first_invalid vin = None <->
  forall c, c ∈ vin -> upper_char c ∉ VinApiQuery.invalid_chars.
Proof.
  induction vin as [|a vin IH]; simpl.
  - split; [intros _ c Hc; by apply elem_of_nil in Hc | done].
  - case_bool_decide as Ha.
    + split; [done|]. intros Hall. exfalso. apply (Hall a); [left | done].
    + rewrite IH. split.
      * intros Hall c Hc. apply elem_of_cons in Hc as [->|Hc]; auto.
      * intros Hall c Hc. apply Hall. by right.
Qed.


Lemma validate_vin_wrong_length (vin : pystr) :
  length vin ≠ 17%nat ->
  VinApiQuery.validate_vin vin = (false, u "VIN must be 17 characters long").
Proof.
  intros Hlen. unfold VinApiQuery.validate_vin.
  destruct (Nat.eqb_spec (length vin) 17); [done | reflexivity].
Qed.



Example invalid_char_msg_o :
  VinApiQuery.invalid_char_msg 111
  = u "VIN contains invalid character 'o' (I/O/Q are not allowed)".
Proof. vm_compute. reflexivity. Qed.

(** C10, as the code has it: a text is accepted exactly when it has 17
    characters and none of them has I, O or Q as its upper case, that
    is, none of them is I, O, Q, i, o, q or the dotless U+0131 (whose
    upper case is I).  Spaces, punctuation and lower-case letters pass:
    the alphabet of a VIN is not enforced. *)
Theorem validate_vin_accepts (vin : pystr) :
  (VinApiQuery.validate_vin vin = (true, u "VIN format is valid")
   <-> length vin = 17%nat /\ forall c, c ∈ vin -> c ∉ u "IOQioqı")
  /\ ((VinApiQuery.validate_vin vin).1 = true
      <-> VinApiQuery.validate_vin vin = (true, u "VIN format is valid"))
  /\ (forall c, upper_char c ∈ VinApiQuery.invalid_chars <-> c ∈ u "IOQioqı").
Proof.
  assert (VinApiQuery.validate_vin vin = (true, u "VIN format is valid")
          <-> length vin = 17%nat /\ forall c, c ∈ vin -> c ∉ u "IOQioqı") as Hiff.
  { split.
    - intros Hv. destruct (decide (length vin = 17%nat)) as [Hlen|Hlen].
      + split; [done|].
        unfold VinApiQuery.validate_vin in Hv. rewrite Hlen in Hv. cbn [Nat.eqb negb] in Hv.
        destruct (VinApiQuery.first_invalid vin) as [c'|] eqn:Hfirst; [discriminate Hv|].
        rewrite first_invalid_None in Hfirst.
        intros c Hc Hin. by apply (Hfirst c Hc), upper_char_invalid.
      + rewrite (validate_vin_wrong_length vin Hlen) in Hv. discriminate Hv.
    - intros [Hlen Hnone].
      assert (VinApiQuery.first_invalid vin = None) as Hfirst.
      { apply first_invalid_None. intros c Hc Hup.
        by apply (Hnone c Hc), upper_char_invalid. }
      unfold VinApiQuery.validate_vin. rewrite Hlen, Hfirst. reflexivity. }
  split_and!; [exact Hiff | | exact upper_char_invalid].
  split; [|by intros ->].
  unfold VinApiQuery.validate_vin.
  destruct (negb (length vin =? 17)%nat); [discriminate|].
  by destruct (VinApiQuery.first_invalid vin).
Qed.

Lemma validate_vin_accepts_witness :
  VinApiQuery.validate_vin (u "ab c-d_e!f@g#h$%^") = (true, u "VIN format is valid").
Proof.
  apply (proj2 (proj1 (validate_vin_accepts (u "ab c-d_e!f@g#h$%^")))). split.
  - reflexivity.
  - intros c Hc. literal_in Hc.
    repeat (apply elem_of_cons in Hc as [->|Hc]; [by_evaluation|]).
    by apply elem_of_nil in Hc.
Defined.

(** A 17-character text that holds none of I, O, Q, i, o, q and is
    refused: its last character is the dotless U+0131, whose upper case
    is I, and the message quotes it. *)
Lemma validate_vin_refuses_dotless_i :
  length (u "1HGCM82633A00435ı") = 17%nat
  /\ Forall (fun c => c ∉ u "IOQioq") (u "1HGCM82633A00435ı")
  /\ upper_char 0x131 = u "I"
  /\ VinApiQuery.validate_vin (u "1HGCM82633A00435ı")
     = (false, u "VIN contains invalid character 'ı' (I/O/Q are not allowed)")
  /\ ~ (forall vin : pystr,
          length vin = 17%nat -> Forall (fun c => c ∉ u "IOQioq") vin ->
          (VinApiQuery.validate_vin vin).1 = true).
Proof.
  assert (Forall (fun c => c ∉ u "IOQioq") (u "1HGCM82633A00435ı")) as Hnone
    by by_evaluation.
  split_and!; [vm_compute; reflexivity | exact Hnone | vm_compute; reflexivity
              | vm_compute; reflexivity |].
  intros H. specialize (H (u "1HGCM82633A00435ı") ltac:(vm_compute; reflexivity) Hnone).
  vm_compute in H. discriminate H.
Qed.

(** ** The structural decoder *)

Lemma upper_length (s : pystr) : (length s <= length (upper s))%nat.
Proof.
  unfold upper. induction s as [|c s IH]; simpl; [lia|].
  rewrite length_app.
  assert (upper_char c ≠ []) as Hne; [|destruct (upper_char c); [done | simpl; lia]].
  unfold upper_char.
  destruct (char_get UnicodeData.uppercase c) as [v|] eqn:Hget;
    cbn [default from_option id]; [|done].
  revert c v Hget. apply (table_by_cases (fun _ v => v ≠ [])).
  vm_compute. reflexivity.
Qed.

Lemma assoc_get_In {V} (d : list (pystr * V)) (k : pystr) (v : V) :
  assoc_get d k = Some v -> (k, v) ∈ d.
Proof.
  induction d as [|[k' v'] d IH]; simpl; [done|].
  unfold str_eqb. case_bool_decide as Hk.
  - intros [= ->]. subst. left.
  - intros Hget. right. auto.
Qed.

(** A key that is found is the upper-cased three-character prefix, so
    the table keys of fewer than three characters are never found. *)
Lemma found_key_has_three (vin v : pystr) :
  (3 <= length vin)%nat ->
  assoc_get VinApiQuery.wmi_mapping (upper (take 3 vin)) = Some v ->
  exists k, (k, v) ∈ VinApiQuery.wmi_mapping /\ (3 <= length k)%nat.
Proof.
  intros Hlen Hget. exists (upper (take 3 vin)).
  split; [by apply assoc_get_In|].
  pose proof (upper_length (take 3 vin)) as Hup.
  rewrite length_take in Hup. lia.
Qed.

Lemma hard_decode_vin_returns (vin : pystr) :
  length vin = 17%nat -> returns (VinApiQuery.hard_decode_vin vin).
Proof.
  intros Hlen. unfold VinApiQuery.hard_decode_vin, index.
  destruct (vin !! 9%nat) as [c|] eqn:Hc.
  - eexists. reflexivity.
  - apply lookup_ge_None in Hc. lia.
Qed.

(** C6: the decoder makes one lookup, of the three-character prefix.
    The VIN 1G1ZT53826F109149 starts with the table entry 1G
    (Chevrolet), yet both scripts give the unrecognized marker. *)
Theorem hard_decode_no_prefix_fallback :
  assoc_get VinApiQuery.wmi_mapping (u "1G") = Some (u "Chevrolet")
  /\ VinApiQuery.hard_decode_vin (u "1G1ZT53826F109149")
     = Ret {| VinApiQuery.manufacturer := VinApiQuery.wmi_unrecognized;
              VinApiQuery.year := u "2006";
              VinApiQuery.decode_status := u "partial_success" |}
  /\ assoc_get QueryApiTest.wmi_mapping (u "1G") = Some (u "Chevrolet")
  /\ (QueryApiTest.hard_decode_vin (u "1G1ZT53826F109149")
        ≫= lookup (u "Manufacturer/Make"))
     = Some (PStr (u "未知（WMI：1G1）")).
Proof. split_and!; vm_compute; reflexivity. Qed.

(** ** The text normalizer *)

(** What the lower-case table holds: no white space on either side, and
    a lower case that is kept exactly when the character is, that
    lower-casing leaves alone and that is no capital of Basic Latin. *)
Lemma lowercase_table (c d : N) :
  char_get UnicodeData.lowercase c = Some d ->
  isspace c = false /\ isspace d = false /\ kept d = kept c
  /\ lowered d = true /\ in_range 0x41 0x5A d = false.
Proof.
  revert c d.
  apply (table_by_cases
    (fun c d => isspace c = false /\ isspace d = false /\ kept d = kept c
                /\ lowered d = true /\ in_range 0x41 0x5A d = false)).
  vm_compute. reflexivity.
Qed.

(** The capitals of Basic Latin are in the lower-case table. *)
Lemma capital_has_lower (c : N) :
  char_get UnicodeData.lowercase c = None -> in_range 0x41 0x5A c = false.
Proof.
  intros Hget. destruct (in_range 0x41 0x5A c) eqn:Hc; [|done]. exfalso.
  assert (c < N.of_nat 91) as Hlt.
  { unfold in_range in Hc. apply andb_prop in Hc as [_ Hc]. apply N.leb_le in Hc.
    simpl. lia. }
  pose proof (below_by_cases
    (fun c => bool_decide (in_range 0x41 0x5A c = true ->
                           char_get UnicodeData.lowercase c ≠ None)) 91) as H.
  specialize (H ltac:(vm_compute; reflexivity) c Hlt).
  apply bool_decide_eq_true in H. by apply H.
Qed.

Lemma lowered_fixed (before after : pystr) (d : N) :
  lowered d = true -> lower_at before d after = [d].
Proof.
  unfold lowered. rewrite !andb_true_iff, !negb_true_iff, bool_decide_eq_true.
  intros [[Hdot Hsigma] Hget].
  unfold lower_at, lower_char, lower1. by rewrite Hsigma, Hdot, Hget.
Qed.

Lemma lowered_not_dotted (d : N) : lowered d = true -> d ≠ 0x130.
Proof.
  unfold lowered. rewrite !andb_true_iff, !negb_true_iff.
  intros [[Hdot _] _]. by apply N.eqb_neq.
Qed.

(** The lower case of a character other than U+0130, wherever it
    stands, is one character. *)
Lemma lower_at_clean (before after : pystr) (c : N) :
  c ≠ 0x130 ->
  exists d,
    lower_at before c after = [d]
    /\ isspace d = isspace c /\ (isspace c = true -> d = c)
    /\ kept d = kept c /\ lowered d = true /\ in_range 0x41 0x5A d = false.
Proof.
  intros Hne. unfold lower_at.
  destruct (N.eqb_spec c 0x3A3) as [->|Hsigma].
  - destruct (final_sigma before after); eexists; (split; [reflexivity|]);
      split_and!; try (vm_compute; reflexivity);
      intros Hs; vm_compute in Hs; discriminate Hs.
  - unfold lower_char. destruct (N.eqb_spec c 0x130) as [?|_]; [done|].
    exists (lower1 c). split; [done|]. unfold lower1.
    destruct (char_get UnicodeData.lowercase c) as [d|] eqn:Hget;
      cbn [default from_option id].
    + destruct (lowercase_table c d Hget) as (Hc & Hd & Hk & Hl & Hcap).
      split_and!; [congruence | intros; congruence | done | done | done].
    + split_and!; [done | done | done | | by apply capital_has_lower].
      unfold lowered. apply N.eqb_neq in Hne, Hsigma.
      by rewrite Hne, Hsigma, bool_decide_eq_true_2.
Qed.

Lemma lower_at_dotted (before after : pystr) :
  lower_at before 0x130 after = [0x69; 0x307].
Proof. reflexivity. Qed.

Lemma lower_at_cases (before after : pystr) (c : N) :
  (isspace c = true /\ lower_at before c after = [c])
  \/ (isspace c = false
      /\ exists d ds, lower_at before c after = d :: ds
                      /\ Forall (fun x => isspace x = false) (d :: ds)).
Proof.
  destruct (decide (c = 0x130)) as [->|Hne].
  - right. split; [reflexivity|]. exists 0x69, [0x307].
    split; [apply lower_at_dotted|]. by repeat constructor.
  - destruct (lower_at_clean before after c Hne) as (d & -> & Hs & Hsame & _).
    destruct (isspace c) eqn:Hc.
    + left. split; [done|]. by rewrite Hsame.
    + right. split; [done|]. exists d, []. split; [done|]. by apply Forall_singleton.
Qed.

Lemma lower_at_no_capital (before after : pystr) (c : N) :
  Forall (fun x => in_range 0x41 0x5A x = false) (lower_at before c after).
Proof.
  destruct (decide (c = 0x130)) as [->|Hne].
  - rewrite lower_at_dotted. by repeat constructor.
  - destruct (lower_at_clean before after c Hne) as (d & -> & _ & _ & _ & _ & Hcap).
    by apply Forall_singleton.
Qed.

Lemma lower_from_cons (before : pystr) (c : N) (s : pystr) :
  lower_from before (c :: s) = lower_at before c s ++ lower_from (c :: before) s.
Proof. reflexivity. Qed.

Lemma lower_from_no_capital (before s : pystr) :
  Forall (fun x => in_range 0x41 0x5A x = false) (lower_from before s).
Proof.
  revert before. induction s as [|c s IH]; intros before; [constructor|].
  rewrite lower_from_cons. apply Forall_app. split; [|apply IH].
  apply lower_at_no_capital.
Qed.

(** Lower-casing a text without U+0130 keeps what the filter keeps and
    gives characters that lower-casing leaves alone. *)
Lemma lower_from_clean (before s : pystr) :
  Forall (fun c => c ≠ 0x130) s ->
  Forall (fun c => kept c = true) s ->
  Forall (fun d => kept d = true /\ lowered d = true) (lower_from before s).
Proof.
  intros Hs. revert before. induction Hs as [|c s Hc Hs IH]; intros before Hk.
  - constructor.
  - apply Forall_cons in Hk as [Hkc Hk]. rewrite lower_from_cons.
    destruct (lower_at_clean before s c Hc) as (d & -> & _ & _ & Hkd & Hl & _).
    cbn [app]. constructor; [split; congruence | by apply IH].
Qed.

Lemma lower_from_fixed (before s : pystr) :
  Forall (fun d => lowered d = true) s -> lower_from before s = s.
Proof.
  intros Hs. revert before. induction Hs as [|d s Hd Hs IH]; intros before; [done|].
  by rewrite lower_from_cons, (lowered_fixed before s d Hd), IH.
Qed.

(** No text has U+0130 in its lower case. *)
Lemma lower_from_not_dotted (before s : pystr) :
  Forall (fun d => d ≠ 0x130) (lower_from before s).
Proof.
  revert before. induction s as [|c s IH]; intros before; [constructor|].
  rewrite lower_from_cons. apply Forall_app. split; [|apply IH].
  destruct (decide (c = 0x130)) as [->|Hne].
  - rewrite lower_at_dotted. by repeat constructor.
  - destruct (lower_at_clean before s c Hne) as (d & -> & _ & _ & _ & Hl & _).
    apply Forall_singleton. by apply lowered_not_dotted.
Qed.

(** The lower case of a text with U+0130 holds the combining dot. *)
Lemma lower_from_dotted (before s : pystr) :
  0x130 ∈ s -> 0x307 ∈ lower_from before s.
Proof.
  revert before. induction s as [|c s IH]; intros before Hin.
  - by apply elem_of_nil in Hin.
  - rewrite lower_from_cons. apply elem_of_app.
    apply elem_of_cons in Hin as [<-|Hin]; [left | right; by apply IH].
    rewrite lower_at_dotted. right. left.
Qed.

Lemma lower_from_nonempty (before s : pystr) : s ≠ [] -> lower_from before s ≠ [].
Proof.
  destruct s as [|c s]; [done|]. intros _. rewrite lower_from_cons.
  by destruct (lower_at_cases before s c) as [[_ ->]|(_ & d & ds & -> & _)].
Qed.

Lemma single_spaced_cons (b : bool) (c : N) (s : pystr) :
  single_spaced b (c :: s)
  = if isspace c then (c =? 0x20) && negb b && single_spaced true s
    else single_spaced false s.
Proof. reflexivity. Qed.

Lemma single_spaced_nonspace (b : bool) (w s : pystr) :
  w ≠ [] -> Forall (fun x => isspace x = false) w ->
  single_spaced b (w ++ s) = single_spaced false s.
Proof.
  intros Hne Hw. revert b. induction Hw as [|c w Hc Hw IH]; intros b; [done|].
  cbn [app]. rewrite single_spaced_cons, Hc.
  destruct w as [|c' w']; [reflexivity|]. by apply IH.
Qed.

(** Lower-casing keeps the shape of a text: where its white space is. *)
Lemma single_spaced_lower_from (b : bool) (before s : pystr) :
  single_spaced b (lower_from before s) = single_spaced b s.
Proof.
  revert b before. induction s as [|c s IH]; intros b before; [done|].
  rewrite lower_from_cons, (single_spaced_cons b c s).
  destruct (lower_at_cases before s c) as [[Hc ->]|(Hc & d & ds & -> & Hds)]; rewrite Hc.
  - cbn [app]. by rewrite single_spaced_cons, Hc, IH.
  - rewrite single_spaced_nonspace by done. apply IH.
Qed.

Lemma single_spaced_lower (b : bool) (s : pystr) :
  single_spaced b (lower s) = single_spaced b s.
Proof. apply single_spaced_lower_from. Qed.

Lemma no_lead_lower (s : pystr) : no_lead s -> no_lead (lower s).
Proof.
  unfold lower. destruct s as [|c s]; [done|]. rewrite lower_from_cons.
  cbn [no_lead]. intros Hc.
  destruct (lower_at_cases [] s c) as [[Hs _]|(_ & d & ds & -> & Hds)]; [congruence|].
  cbn [app]. by apply Forall_cons in Hds as [? _].
Qed.

Lemma last_app_nonempty {A} (l w : list A) : w ≠ [] -> last (l ++ w) = last w.
Proof.
  intros Hw. destruct w as [|x w] using rev_ind; [done|].
  by rewrite app_assoc, !last_snoc.
Qed.

Lemma no_trail_lower_from (before s : pystr) :
  no_trail s -> no_trail (lower_from before s).
Proof.
  unfold no_trail. revert before. induction s as [|c s IH]; intros before; [done|].
  rewrite lower_from_cons. destruct s as [|c' s'].
  - cbn [last lower_from]. rewrite app_nil_r. intros Hc.
    destruct (lower_at_cases before [] c) as [[Hs _]|(_ & d & ds & -> & Hds)];
      [congruence|].
    destruct (last (d :: ds)) as [x|] eqn:Hlast; [|done].
    apply last_Some_elem_of in Hlast.
    by apply (proj1 (Forall_forall _ _) Hds).
  - intros Hlast. rewrite last_app_nonempty by by apply lower_from_nonempty.
    apply IH. exact Hlast.
Qed.

Lemma no_trail_lower (s : pystr) : no_trail s -> no_trail (lower s).
Proof. apply no_trail_lower_from. Qed.

(** What the stages keep of a property of the characters. *)
Lemma Forall_collapse_from (P : N -> Prop) (b : bool) (s : pystr) :
  P 0x20 -> Forall P s -> Forall P (collapse_from b s).
Proof.
  intros Hsp Hs. revert b. induction Hs as [|c s Hc Hs IH]; intros b; simpl.
  - constructor.
  - destruct (isspace c), b; try constructor; auto.
Qed.

Lemma Forall_lstrip (P : N -> Prop) (s : pystr) :
  Forall P s -> Forall P (lstrip s).
Proof.
  induction 1 as [|c s Hc Hs IH]; simpl; [constructor|].
  destruct (isspace c); [done | by constructor].
Qed.

Lemma Forall_rstrip (P : N -> Prop) (s : pystr) :
  Forall P s -> Forall P (rstrip s).
Proof.
  induction 1 as [|c s Hc Hs IH]; simpl; [constructor|].
  destruct (rstrip s); [|by constructor].
  destruct (isspace c); by repeat constructor.
Qed.

Lemma Forall_filter_kept (P : N -> Prop) (s : pystr) :
  Forall P s -> Forall P (filter (fun c => kept c = true) s).
Proof.
  intros Hs. apply Forall_forall. intros c Hc.
  apply list_elem_of_filter in Hc as [_ Hc].
  rewrite Forall_forall in Hs. auto.
Qed.

Lemma filter_kept_all (s : pystr) :
  Forall (fun c => kept c = true) (filter (fun c => kept c = true) s).
Proof.
  apply Forall_forall. intros c Hc. by apply list_elem_of_filter in Hc as [? _].
Qed.

Lemma filter_kept_fixed (s : pystr) :
  Forall (fun c => kept c = true) s -> filter (fun c => kept c = true) s = s.
Proof.
  induction 1 as [|c s Hc Hs IH]; [done|].
  by rewrite filter_cons_True, IH.
Qed.

(** The stages keep every character that is not white space. *)
Lemma elem_of_collapse_from (b : bool) (s : pystr) (c : N) :
  isspace c = false -> c ∈ s -> c ∈ collapse_from b s.
Proof.
  intros Hc. revert b. induction s as [|a s IH]; intros b Hin; [done|].
  cbn [collapse_from]. apply elem_of_cons in Hin as [<-|Hin].
  - rewrite Hc. left.
  - destruct (isspace a), b; try right; by apply IH.
Qed.

Lemma elem_of_lstrip (s : pystr) (c : N) :
  isspace c = false -> c ∈ s -> c ∈ lstrip s.
Proof.
  intros Hc. induction s as [|a s IH]; intros Hin; [done|].
  cbn [lstrip]. destruct (isspace a) eqn:Ha; [|done].
  apply elem_of_cons in Hin as [->|Hin]; [congruence | by apply IH].
Qed.

Lemma rstrip_cons (c : N) (s : pystr) :
  rstrip (c :: s)
  = match rstrip s with
    | [] => if isspace c then [] else [c]
    | r' => c :: r'
    end.
Proof. reflexivity. Qed.

Lemma elem_of_rstrip (s : pystr) (c : N) :
  isspace c = false -> c ∈ s -> c ∈ rstrip s.
Proof.
  intros Hc. induction s as [|a s IH]; intros Hin; [done|].
  rewrite rstrip_cons. apply elem_of_cons in Hin as [<-|Hin].
  - destruct (rstrip s); [rewrite Hc|]; left.
  - specialize (IH Hin). destruct (rstrip s) as [|c' r']; [by apply elem_of_nil in IH|].
    by right.
Qed.

Lemma collapse_from_single_spaced (b : bool) (s : pystr) :
  single_spaced b (collapse_from b s) = true.
Proof.
  revert b. induction s as [|c s IH]; intros b; simpl; [done|].
  destruct (isspace c) eqn:Hc.
  - destruct b; [apply IH|]. simpl. apply IH.
  - simpl. rewrite Hc. apply IH.
Qed.

Lemma collapse_from_fixed (b : bool) (s : pystr) :
  single_spaced b s = true -> collapse_from b s = s.
Proof.
  revert b. induction s as [|c s IH]; intros b; simpl; [done|].
  destruct (isspace c).
  - intros H. apply andb_prop in H as [H Hs]. apply andb_prop in H as [Hc Hb].
    apply N.eqb_eq in Hc. destruct b; [done|]. rewrite IH; [|done]. by subst.
  - intros Hs. by rewrite IH.
Qed.

Lemma single_spaced_lstrip (b : bool) (s : pystr) :
  single_spaced b s = true -> single_spaced false (lstrip s) = true.
Proof.
  revert b. induction s as [|c s IH]; intros b; simpl; [done|].
  destruct (isspace c) eqn:Hc.
  - intros H. apply andb_prop in H as [_ Hs]. eauto.
  - intros Hs. simpl. by rewrite Hc.
Qed.

Lemma single_spaced_rstrip (b : bool) (s : pystr) :
  single_spaced b s = true -> single_spaced b (rstrip s) = true.
Proof.
  revert b. induction s as [|c s IH]; intros b; [done|].
  rewrite single_spaced_cons. cbn [rstrip].
  destruct (isspace c) eqn:Hc.
  - intros H. apply andb_prop in H as [H Hs]. specialize (IH _ Hs).
    destruct (rstrip s) as [|c' r'] eqn:Hr; [done|].
    by rewrite single_spaced_cons, Hc, H, IH.
  - intros Hs. specialize (IH _ Hs).
    destruct (rstrip s) as [|c' r'] eqn:Hr.
    + by rewrite single_spaced_cons, Hc.
    + by rewrite single_spaced_cons, Hc, IH.
Qed.

Lemma lstrip_no_lead (s : pystr) : no_lead (lstrip s).
Proof.
  induction s as [|c s IH]; simpl; [done|].
  destruct (isspace c) eqn:Hc; [done | exact Hc].
Qed.

Lemma lstrip_fixed (s : pystr) : no_lead s -> lstrip s = s.
Proof. destruct s as [|c s]; simpl; [done|]. by intros ->. Qed.

Lemma rstrip_no_lead (s : pystr) : no_lead s -> no_lead (rstrip s).
Proof.
  destruct s as [|c s]; simpl; [done|]. intros Hc.
  destruct (rstrip s); [by rewrite Hc | done].
Qed.

Lemma rstrip_twice (s : pystr) : rstrip (rstrip s) = rstrip s.
Proof.
  induction s as [|c s IH]; [done|].
  rewrite rstrip_cons.
  destruct (rstrip s) as [|c' r'] eqn:Hr.
  - destruct (isspace c) eqn:Hc; [done|]. by rewrite rstrip_cons, Hc.
  - by rewrite rstrip_cons, IH.
Qed.

Lemma rstrip_no_trail (s : pystr) : no_trail (rstrip s).
Proof.
  unfold no_trail. induction s as [|c s IH]; [done|]. rewrite rstrip_cons.
  destruct (rstrip s) as [|c' r'] eqn:Hr.
  - destruct (isspace c) eqn:Hc; [done | exact Hc].
  - exact IH.
Qed.

Lemma rstrip_fixed (s : pystr) : no_trail s -> rstrip s = s.
Proof.
  unfold no_trail. induction s as [|c s IH]; [done|]. rewrite rstrip_cons.
  destruct s as [|c' s'].
  - cbn [last rstrip]. by intros ->.
  - intros Hlast. rewrite IH by exact Hlast. reflexivity.
Qed.

Lemma strip_twice (s : pystr) : strip (strip s) = strip s.
Proof.
  unfold strip.
  rewrite (lstrip_fixed (rstrip (lstrip s))).
  - apply rstrip_twice.
  - apply rstrip_no_lead, lstrip_no_lead.
Qed.

Lemma normalize_text_str (text : pyval) :
  text ≠ PNone -> normalize_text text = normalize_str (str text).
Proof. by destruct text. Qed.

(** The text that is lower-cased holds only kept characters, is
    single-spaced and trimmed, and has U+0130 only if the input has. *)
Lemma normalize_stages (s : pystr) :
  let t := strip (collapse_spaces (filter (fun c => kept c = true) s)) in
  Forall (fun c => kept c = true) t
  /\ single_spaced false t = true /\ no_lead t /\ no_trail t
  /\ (Forall (fun c => c ≠ 0x130) s -> Forall (fun c => c ≠ 0x130) t)
  /\ (0x130 ∈ s -> 0x130 ∈ t).
Proof.
  cbn zeta. unfold strip, collapse_spaces. split_and!.
  - apply Forall_rstrip, Forall_lstrip, Forall_collapse_from;
      [vm_compute; reflexivity | apply filter_kept_all].
  - apply single_spaced_rstrip.
    eapply single_spaced_lstrip, collapse_from_single_spaced.
  - apply rstrip_no_lead, lstrip_no_lead.
  - apply rstrip_no_trail.
  - intros Hs. apply Forall_rstrip, Forall_lstrip, Forall_collapse_from;
      [by_evaluation | by apply Forall_filter_kept].
  - intros Hin.
    assert (isspace 0x130 = false) as Hsp by (vm_compute; reflexivity).
    apply elem_of_rstrip, elem_of_lstrip, elem_of_collapse_from; try exact Hsp.
    apply list_elem_of_filter. split; [vm_compute; reflexivity | exact Hin].
Qed.

Lemma normalize_str_not_dotted (s : pystr) :
  Forall (fun d => d ≠ 0x130) (normalize_str s).
Proof. apply lower_from_not_dotted. Qed.

Lemma normalize_str_clean (s : pystr) :
  Forall (fun c => c ≠ 0x130) s ->
  Forall (fun d => kept d = true /\ lowered d = true) (normalize_str s).
Proof.
  intros Hs. destruct (normalize_stages s) as (Hkept & _ & _ & _ & Hclean & _).
  apply lower_from_clean; auto.
Qed.

Lemma normalize_str_idempotent (s : pystr) :
  Forall (fun c => c ≠ 0x130) s ->
  normalize_str (normalize_str s) = normalize_str s.
Proof.
  intros Hs. pose proof (normalize_str_clean s Hs) as Hr.
  destruct (normalize_stages s) as (_ & Hsingle & Hlead & Htrail & _).
  assert (single_spaced false (normalize_str s) = true) as Hsingle'.
  { unfold normalize_str. by rewrite single_spaced_lower. }
  assert (no_lead (normalize_str s)) as Hlead' by by apply no_lead_lower.
  assert (no_trail (normalize_str s)) as Htrail' by by apply no_trail_lower.
  revert Hr Hsingle' Hlead' Htrail'. generalize (normalize_str s) as r.
  intros r Hr Hsingle' Hlead' Htrail'. unfold normalize_str.
  rewrite (filter_kept_fixed r)
    by (eapply Forall_impl; [exact Hr | by intros d [? _]]).
  unfold collapse_spaces. rewrite (collapse_from_fixed false r Hsingle').
  unfold strip. rewrite (lstrip_fixed r Hlead'), (rstrip_fixed r Htrail').
  apply lower_from_fixed. eapply Forall_impl; [exact Hr | by intros d [_ ?]].
Qed.

Lemma normalize_str_dotted (s : pystr) :
  0x130 ∈ s -> normalize_str (normalize_str s) ≠ normalize_str s.
Proof.
  intros Hin Heq.
  assert (0x307 ∈ normalize_str s) as Hdot.
  { apply lower_from_dotted. by apply (normalize_stages s). }
  pose proof (normalize_str_clean (normalize_str s) (normalize_str_not_dotted s)) as Hr.
  rewrite Heq in Hr. rewrite Forall_forall in Hr.
  destruct (Hr _ Hdot) as [Hkept _]. vm_compute in Hkept. discriminate Hkept.
Qed.

(** C9, as the code has it: the normalizer is a total function, gives
    the empty text for [None], and normalizing twice is normalizing
    once exactly for the inputs whose text does not hold the dotted
    capital U+0130: that letter is kept and lower-cased to an i followed
    by the combining dot U+0307, which the second pass removes. *)
Theorem normalize_text_idempotent (text : pyval) :
  normalize_text PNone = []
  /\ (normalize_text (PStr (normalize_text text)) = normalize_text text
      <-> 0x130 ∉ str text).
Proof.
  split; [reflexivity|].
  destruct (decide (text = PNone)) as [->|Hne].
  - split; [intros _; by_evaluation | reflexivity].
  - rewrite (normalize_text_str text Hne).
    change (normalize_str (normalize_str (str text)) = normalize_str (str text)
            <-> 0x130 ∉ str text).
    split.
    + intros Heq Hin. by apply (normalize_str_dotted (str text)).
    + intros Hnot. apply normalize_str_idempotent, Forall_forall.
      intros c Hc ->. by apply Hnot.
Qed.

Lemma normalize_text_idempotent_witness :
  normalize_text (PStr (normalize_text (PStr (u "  2.0L   Hybrid!! (Turbo) "))))
  = normalize_text (PStr (u "  2.0L   Hybrid!! (Turbo) "))
  /\ normalize_text (PStr (normalize_text (PStr (u "未知（WMI：1G1） ΟΔΟΣ Дизель"))))
     = normalize_text (PStr (u "未知（WMI：1G1） ΟΔΟΣ Дизель")).
Proof.
  split.
  - apply (normalize_text_idempotent (PStr (u "  2.0L   Hybrid!! (Turbo) "))).
    by_evaluation.
  - apply (normalize_text_idempotent (PStr (u "未知（WMI：1G1） ΟΔΟΣ Дизель"))).
    by_evaluation.
Defined.

Example normalize_text_scripts :
  normalize_text (PStr (u "未知（WMI：1G1） ΟΔΟΣ Дизель")) = u "未知wmi1g1 οδος дизель".
Proof. vm_compute. reflexivity. Qed.

(** The text İ (U+0130) is a letter and is kept; its lower case is i
    followed by the combining dot U+0307, which a second pass removes. *)
Lemma normalize_text_not_idempotent :
  normalize_text (PStr (u "İ")) = [0x69; 0x307]
  /\ normalize_text (PStr (normalize_text (PStr (u "İ")))) = [0x69]
  /\ ~ (forall text : pyval,
          normalize_text (PStr (normalize_text text)) = normalize_text text).
Proof.
  split_and!; [vm_compute; reflexivity | vm_compute; reflexivity |].
  intros H. specialize (H (PStr (u "İ"))). vm_compute in H. discriminate H.
Qed.

(** ** The engine matcher *)

Lemma displacement_stage_keeps_fuel (local_feat api_feat : features) (d : details) :
  fuel_type_match (details_of (displacement_stage local_feat api_feat d).2)
  = fuel_type_match d.
Proof.
  unfold displacement_stage.
  destruct (displacement local_feat) as [l|], (displacement api_feat) as [a|];
    repeat case_match; reflexivity.
Qed.

Lemma fuel_stage_hybrid (local_feat api_feat : features)
    (local_raw_text api_raw_text : pystr) (d : details) :
  hybrid_condition local_feat api_feat local_raw_text api_raw_text ->
  fuel_stage local_feat api_feat local_raw_text api_raw_text d
  = (set_fuel_type_match true d, HybridRelaxed (local_fuel d) (api_fuel d), true).
Proof.
  intros Hev. unfold fuel_stage.
  match goal with |- (if ?b then _ else _) = _ => assert (b = true) as -> end;
    [|reflexivity].
  destruct Hev as [H|[H|[H|H]]]; rewrite H.
  - by rewrite bool_decide_eq_true_2.
  - rewrite (bool_decide_eq_true_2 (Some (u "hybrid") = Some (u "hybrid"))) by done.
    by rewrite orb_true_r.
  - by rewrite orb_true_r.
  - by rewrite !orb_true_r.
Qed.

Lemma compare_features_hybrid (local_feat api_feat : features)
    (local_raw_text api_raw_text : pystr) :
  hybrid_condition local_feat api_feat local_raw_text api_raw_text ->
  fuel_type_match
    (details_of (compare_features local_feat api_feat local_raw_text api_raw_text).2)
  = true.
Proof.
  intros Hev. unfold compare_features.
  rewrite (fuel_stage_hybrid _ _ _ _ _ Hev).
  by rewrite displacement_stage_keeps_fuel.
Qed.

Lemma both_texts_empty_returns (local_text api_text : pystr) :
  returns (both_texts_empty (PStr local_text) (PStr api_text)).
Proof.
  unfold both_texts_empty, returns. cbn [strip_method mbind res_bind].
  destruct (str_eqb (strip local_text) []); cbn [strip_method mbind res_bind]; eauto.
Qed.

Lemma engine_features_match_returns (local_text api_text : pystr)
    (raw : option raw_engine_data) :
  returns (engine_features_match (PStr local_text) (PStr api_text) raw).
Proof.
  unfold engine_features_match.
  destruct (both_texts_empty_returns local_text api_text) as [b ->].
  cbn [mbind res_bind]. destruct b; eexists; reflexivity.
Qed.

(** C2: with a hybrid fuel category on either side, or the word hybrid
    in either normalized text, the fuel-type entry of the dict the
    matcher returns is true, whatever the two categories are; on two
    texts the matcher does return. *)
Theorem hybrid_override (local_engine api_engine : pyval)
    (raw : option raw_engine_data) :
  hybrid_evidence local_engine api_engine raw ->
  (forall verdict a,
     engine_features_match local_engine api_engine raw = Ret (verdict, a) ->
     fuel_type_match (details_of a) = true)
  /\ (forall local_text api_text,
        local_engine = PStr local_text -> api_engine = PStr api_text ->
        returns (engine_features_match local_engine api_engine raw)).
Proof.
  intros Hev. split.
  - intros verdict a. unfold engine_features_match.
    destruct (both_texts_empty local_engine api_engine) as [[|]|e];
      cbn [mbind res_bind]; [by intros [= <- <-] | | done].
    intros Hcmp. apply Ret_inj in Hcmp.
    pose proof (compare_features_hybrid _ _ _ _ Hev) as Hfuel.
    by rewrite Hcmp in Hfuel.
  - intros local_text api_text -> ->. apply engine_features_match_returns.
Qed.

Lemma hybrid_override_witness :
  exists verdict a,
    engine_features_match (PStr (u "2.0L Hybrid"))
      (PStr (u "Displacement: 2.0L; Fuel Type: Electric")) (Some electric_raw)
    = Ret (verdict, a)
    /\ api_fuel (details_of a) = u "electric"
    /\ fuel_type_match (details_of a) = true.
Proof.
  pose proof (hybrid_override (PStr (u "2.0L Hybrid"))
                (PStr (u "Displacement: 2.0L; Fuel Type: Electric"))
                (Some electric_raw)) as [Hfuel Hret].
  - right. right. left. vm_compute. reflexivity.
  - destruct (Hret _ _ eq_refl eq_refl) as [[verdict a] Heq].
    exists verdict, a. split_and!; [exact Heq | | by eapply Hfuel].
    vm_compute in Heq. by injection Heq as <- <-.
Defined.

(** The displacement stage, case by case. *)
Lemma displacement_stage_both (local_feat api_feat : features) (d : details)
    (l a : float) :
  displacement local_feat = Some l -> displacement api_feat = Some a ->
  let (verdict, an) := displacement_stage local_feat api_feat d in
  verdict = (abs (l - a) <=? tolerance)%float
  /\ displacement_match (details_of an) = (abs (l - a) <=? tolerance)%float
  /\ displacement_error (details_of an) = Some (abs (l - a))%float.
Proof.
  intros Hl Ha. unfold displacement_stage. rewrite Hl, Ha.
  destruct (abs (l - a) <=? tolerance)%float; done.
Qed.

Lemma displacement_stage_neither (local_feat api_feat : features) (d : details) :
  displacement local_feat = None -> displacement api_feat = None ->
  let (verdict, an) := displacement_stage local_feat api_feat d in
  verdict = true /\ displacement_match (details_of an) = true.
Proof. intros Hl Ha. unfold displacement_stage. rewrite Hl, Ha. done. Qed.

(** One side only: the stage fails as incomplete when the value is not
    zero, and passes when it is zero. *)
Lemma displacement_stage_one_sided (local_feat api_feat : features) (d : details)
    (x : float) :
  (displacement local_feat = Some x /\ displacement api_feat = None)
  \/ (displacement local_feat = None /\ displacement api_feat = Some x) ->
  displacement_stage local_feat api_feat d
  = if float_truthy x
    then (false, Flat d (DisplacementIncomplete (local_displacement d)
                           (api_displacement d)))
    else (true, Flat (set_displacement_match true d)
                  (Matched (local_fuel d) (local_displacement d)
                     (api_displacement d))).
Proof.
  intros [[Hl Ha]|[Hl Ha]]; unfold displacement_stage; rewrite Hl, Ha;
    cbn [opt_float_truthy]; destruct (float_truthy x); reflexivity.
Qed.

(** C3: a displacement of zero on one side and none on the other.  The
    local text 0.0L Electric gives the displacement 0.0, the remote side
    has none; the matcher answers matched, with [displacement_match]
    true, where a one-sided value is to fail as incomplete. *)
Theorem displacement_zero_one_sided :
  displacement (extract_engine_features (PStr (u "0.0L Electric")) None)
  = Some 0%float
  /\ displacement (extract_engine_features (PStr (u "Fuel Type: Electric"))
                     (Some electric_no_displacement)) = None
  /\ engine_features_match (PStr (u "0.0L Electric"))
       (PStr (u "Fuel Type: Electric")) (Some electric_no_displacement)
     = Ret (true,
            Flat {| fuel_type_match := true; displacement_match := true;
                    local_fuel := u "electric"; api_fuel := u "electric";
                    local_displacement := Some 0%float;
                    api_displacement := None;
                    displacement_error := None |}
                 (Matched (u "electric") (Some 0%float) None)).
Proof. split_and!; vm_compute; reflexivity. Qed.

(** The tolerance is applied to binary floats: 2.5 against 2.3 differ
    by a little more than 0.2 and do not match, 2.0 against 1.8 do. *)
Example displacement_tolerance_on_floats :
  (compare_features (extract_engine_features (PStr (u "2.5L gas")) None)
     (extract_engine_features (PStr (u "2.3L gas")) None)
     (u "2.5l gas") (u "2.3l gas")).1 = false
  /\ (compare_features (extract_engine_features (PStr (u "2.0L gas")) None)
        (extract_engine_features (PStr (u "1.8L gas")) None)
        (u "2.0l gas") (u "1.8l gas")).1 = true.
Proof. split; vm_compute; reflexivity. Qed.

(** ** The record comparator *)

Lemma fields_to_check_NoDup : NoDup fields_to_check.
Proof. by_evaluation. Qed.

Lemma compare_loop_spec (local_data : gmap pystr pyval) (src : source_data)
    (source_name : pystr) (todo : list pystr) (st st' : loop_state) :
  NoDup todo ->
  compare_loop local_data src source_name todo st = Ret st' ->
  match_count st'
  = (match_count st
     + length (filter (fun f => field_matched (ls_fields st') f = true) todo))%nat
  /\ (forall f, f ∉ todo -> ls_fields st' !! f = ls_fields st !! f)
  /\ (forall f, f ∈ todo -> is_Some (ls_fields st' !! f)).
Proof.
  intros Hnd. revert st. induction Hnd as [|field later Hnotin Hnd IH]; intros st.
  - intros Heq. apply Ret_inj in Heq as <-. split_and!; [simpl; lia | done |].
    intros f Hf. by apply elem_of_nil in Hf.
  - cbn [compare_loop].
    destruct (compare_field local_data src source_name field) as [[entry engine]|e];
      cbn [mbind res_bind]; [|done].
    intros Hloop. apply IH in Hloop as (Hcount & Hother & Hsome).
    cbn [ls_fields match_count] in Hcount, Hother.
    assert (ls_fields st' !! field = Some entry) as Hfield.
    { rewrite (Hother field Hnotin). apply lookup_insert_eq. }
    split_and!.
    + assert (field_matched (ls_fields st') field = field_match entry) as Hfm.
      { unfold field_matched. by rewrite Hfield. }
      rewrite filter_cons, Hcount.
      destruct (decide (field_matched (ls_fields st') field = true)) as [Hm|Hm];
        rewrite Hfm in Hm; destruct (field_match entry); simpl; try done; lia.
    + intros f Hf. apply not_elem_of_cons in Hf as [Hne Hf].
      rewrite (Hother f Hf). by apply lookup_insert_ne.
    + intros f Hf. apply elem_of_cons in Hf as [->|Hf]; [by rewrite Hfield | auto].
Qed.

Lemma compare_loop_returns (local_data : gmap pystr pyval) (src : source_data)
    (source_name : pystr) (todo : list pystr) (st : loop_state) :
  (forall f, f ∈ todo -> returns (compare_field local_data src source_name f)) ->
  returns (compare_loop local_data src source_name todo st).
Proof.
  revert st. induction todo as [|field later IH]; intros st Hall.
  - by eexists.
  - cbn [compare_loop].
    destruct (Hall field) as [[entry engine] ->]; [left|].
    cbn [mbind res_bind]. apply IH. intros f Hf. apply Hall. by right.
Qed.

(** The percentage: a fifth of the count times a hundred, which is
    twenty times the count; rounding to two decimals changes nothing. *)
Lemma rate_values (n : nat) :
  (n <= 5)%nat ->
  py_round (float_of_ratio (N.of_nat n) (Pos.of_nat 5) * 100)%float 2
  = (float_of_ratio (N.of_nat n) 5 * 100)%float
  /\ (float_of_ratio (N.of_nat n) 5 * 100)%float = float_of_N (20 * N.of_nat n).
Proof.
  intros Hn.
  do 6 (destruct n as [|n]; [vm_compute; split; reflexivity|]). lia.
Qed.

Lemma matched_field_count_le (fs : gmap pystr field_result) :
  (matched_field_count fs <= 5)%nat.
Proof.
  unfold matched_field_count.
  etrans; [apply length_filter|]. reflexivity.
Qed.

(** C1: in every verdict the comparator returns, the rate is the count
    of matched fields over five times a hundred, and the overall match
    holds exactly when at least four fields matched and the engine entry
    is one of them; so four matched fields without the engine give no
    overall match. *)
Theorem aggregate_verdict (local_data : gmap pystr pyval) (src : source_data)
    (result_template : comparison) (source_name : pystr) (r : comparison) :
  compare_with_source local_data src result_template source_name = Ret r ->
  let n := matched_field_count (fields r) in
  match_rate r = (float_of_ratio (N.of_nat n) 5 * 100)%float
  /\ match_rate r = float_of_N (20 * N.of_nat n)
  /\ (match_ r = true <->
      (4 <= n)%nat /\ field_matched (fields r) (u "Engine") = true)
  /\ (n = 4%nat -> field_matched (fields r) (u "Engine") = false ->
      match_ r = false).
Proof.
  unfold compare_with_source.
  destruct (compare_loop _ _ _ _ _) as [st|e] eqn:Hloop; cbn [mbind res_bind]; [|done].
  apply compare_loop_spec in Hloop as (Hcount & _ & _);
    [|apply fields_to_check_NoDup].
  cbn [match_count] in Hcount. rewrite Nat.add_0_l in Hcount.
  destruct (ls_fields st !! u "Engine") as [engine_entry|] eqn:Hengine;
    cbn [mbind res_bind]; [|done].
  intros Hr. apply Ret_inj in Hr as <-. cbn [fields match_rate match_].
  fold (matched_field_count (ls_fields st)) in Hcount.
  change (0 <? length fields_to_check)%nat with true. cbn match.
  change (length fields_to_check) with 5%nat.
  rewrite Hcount.
  destruct (rate_values _ (matched_field_count_le (ls_fields st))) as [Hround Hval].
  assert (field_matched (ls_fields st) (u "Engine") = field_match engine_entry) as Hfm.
  { unfold field_matched. by rewrite Hengine. }
  rewrite Hfm. split_and!.
  - exact Hround.
  - by rewrite Hround.
  - rewrite andb_true_iff, Nat.leb_le. done.
  - intros -> ->. apply andb_false_r.
Qed.

(** The comparator returns whenever the two engine values it hands to
    the engine matcher are texts. *)
Lemma compare_field_returns (local_data : gmap pystr pyval) (src : source_data)
    (source_name field : pystr) :
  (field = u "Engine" ->
   forall source_val, src_fields src !! field = Some source_val ->
   exists l a, get_or_empty local_data field = PStr l /\ source_val = PStr a) ->
  returns (compare_field local_data src source_name field).
Proof.
  intros Hengine. unfold compare_field.
  destruct (src_fields src !! field) as [source_val|] eqn:Hsrc; [|by eexists].
  destruct (str_eqb field (u "Manufacturer/Make")); [by eexists|].
  destruct (str_eqb field (u "Year")); [by eexists|].
  destruct (str_eqb field (u "Model")); [by eexists|].
  destruct (str_eqb field (u "Engine")) eqn:Hfield.
  - apply bool_decide_eq_true in Hfield.
    destruct (Hengine Hfield source_val eq_refl) as (l & a & -> & ->).
    destruct (engine_features_match_returns l a
                (if str_eqb source_name api_source_name
                 then Some (default empty_raw (src_raw_engine_data src))
                 else None)) as [[m an] ->].
    by eexists.
  - destruct (str_eqb field (u "Transmission")); by eexists.
Qed.

Lemma compare_with_source_returns (local_data : gmap pystr pyval) (src : source_data)
    (result_template : comparison) (source_name : pystr) :
  (forall source_val, src_fields src !! u "Engine" = Some source_val ->
   exists l a, get_or_empty local_data (u "Engine") = PStr l /\ source_val = PStr a) ->
  returns (compare_with_source local_data src result_template source_name).
Proof.
  intros Hengine. unfold compare_with_source.
  destruct (compare_loop_returns local_data src source_name fields_to_check
              {| ls_fields := fields result_template; match_count := 0;
                 ls_engine := engine_match_analysis result_template |})
    as [st Hloop].
  { intros f _. apply compare_field_returns. intros ->. exact Hengine. }
  rewrite Hloop. cbn [mbind res_bind].
  apply compare_loop_spec in Hloop as (_ & _ & Hsome);
    [|apply fields_to_check_NoDup].
  destruct (Hsome (u "Engine")) as [e ->]; [by_evaluation|].
  by eexists.
Qed.

Lemma aggregate_verdict_witness :
  compare_with_source example_local example_source base_result api_source_name
  = Ret example_verdict
  /\ matched_field_count (fields example_verdict) = 4%nat
  /\ field_matched (fields example_verdict) (u "Engine") = false
  /\ match_rate example_verdict = 80%float
  /\ match_ example_verdict = false.
Proof.
  assert (compare_with_source example_local example_source base_result
            api_source_name = Ret example_verdict) as Hrun
    by (vm_compute; reflexivity).
  destruct (aggregate_verdict _ _ _ _ _ Hrun) as (_ & Hrate & _ & Hfour).
  assert (matched_field_count (fields example_verdict) = 4%nat) as Hcount
    by (vm_compute; reflexivity).
  assert (field_matched (fields example_verdict) (u "Engine") = false) as Hengine
    by (vm_compute; reflexivity).
  split_and!; [exact Hrun | exact Hcount | exact Hengine | | by apply Hfour].
  rewrite Hrate, Hcount. vm_compute. reflexivity.
Defined.

(** ** The standardizer and the orchestrator *)



Section Orchestrator.
Context `{FloatText}.

Lemma extract_standardized_engine_returns (api_raw_engine : gmap pystr pyval) :
  all_texts api_raw_engine -> returns (extract_standardized_engine api_raw_engine).
Proof.
  intros Htexts. unfold extract_standardized_engine, returns.
  destruct (api_raw_engine !! u "Fuel Type - Primary") as [v|] eqn:Hfuel;
    cbn [default].
  - destruct (Htexts _ _ Hfuel) as [s ->].
    repeat (case_match; cbn [strip_method mbind res_bind]); eauto.
  - repeat (case_match; cbn [strip_method mbind res_bind]); eauto.
Qed.

Lemma map_item_texts (acc : vehicle * gmap pystr pyval) (it : item) :
  text_or_null (Value it) -> all_texts acc.2 -> all_texts (map_item acc it).2.
Proof.
  destruct acc as [parsed_info api_raw_engine]. unfold map_item.
  intros Hv Htexts. repeat case_match; try exact Htexts; cbn [snd];
    intros k v Hk; apply lookup_insert_Some in Hk as [[_ <-]|[_ Hk]]; eauto;
    by destruct Hv.
Qed.

Lemma fold_map_item_texts (results : list item) (acc : vehicle * gmap pystr pyval) :
  Forall (fun it => text_or_null (Value it)) results ->
  all_texts acc.2 -> all_texts (fold_left map_item results acc).2.
Proof.
  intros Hres. revert acc. induction Hres as [|it results Hit Hres IH]; intros acc;
    [done|].
  intros Htexts. cbn [fold_left]. by apply IH, map_item_texts.
Qed.

(** The standardizer returns on a VIN of 17 characters and a result set
    whose values are texts or [null]. *)
Lemma parse_results_returns (vin : pystr) (results : list item) :
  length vin = 17%nat ->
  Forall (fun it => text_or_null (Value it)) results ->
  returns (parse_results vin results).
Proof.
  intros Hlen Hres. unfold parse_results.
  pose proof (fold_map_item_texts results
    ({| VIN := upper vin; Manufacturer := NA; Year := NA; Model := NA;
        Engine := NA; Transmission := NA; Data_Source := u "API" |}, ∅) Hres) as Ht.
  destruct (fold_left map_item results _) as [parsed_info api_raw_engine].
  destruct (extract_standardized_engine_returns api_raw_engine) as [engine ->].
  { apply Ht. intros k v Hk. cbn [snd] in Hk. by rewrite lookup_empty in Hk. }
  destruct (hard_decode_vin_returns vin Hlen) as [hd ->].
  cbn [mbind res_bind]. by eexists.
Qed.



End Orchestrator.

Example standardized_engine_from_cc :
  @extract_standardized_engine decimal_text
    (list_to_map [ (u "Displacement (CC)", PStr (u "2000"));
                   (u "Fuel Type - Primary", PStr (u "Gasoline")) ])
  = Ret (u "Displacement: 2.0L; Fuel Type: Gasoline").
Proof. vm_compute. reflexivity. Qed.



(** ** The retry loops *)

Section Retry.
Context `{FloatText}.

Lemma extract_standardized_engine_raises (api_raw_engine : gmap pystr pyval) (e : exn) :
  extract_standardized_engine api_raw_engine = Raise e ->
  exn_cls e = AttributeErrorExc.
Proof.
  unfold extract_standardized_engine. cbv zeta.
  generalize (default (PStr NA) (api_raw_engine !! u "Fuel Type - Primary")).
  intros raw_fuel.
  match goal with
  | |- context [u "Displacement: " ++ ?d ++ _] => generalize d
  end.
  intros standardized_displacement.
  destruct (truthy raw_fuel && _); cbn [mbind res_bind]; [|done].
  repeat (case_match; cbn [mbind res_bind]; try done).
  all: repeat match goal with Heq : _ = _ |- _ => clear Heq end.
  all: destruct raw_fuel; cbn [strip_method mbind res_bind]; try done;
    by intros [= <-].
Qed.

Lemma parse_results_raises (vin : pystr) (results : list item) (e : exn) :
  parse_results vin results = Raise e -> exn_cls e ≠ TimeoutExc.
Proof.
  unfold parse_results.
  destruct (fold_left map_item results _) as [parsed_info api_raw_engine].
  destruct (extract_standardized_engine api_raw_engine) as [engine|e'] eqn:He;
    cbn [mbind res_bind].
  - unfold hard_decode_vin, index.
    destruct (vin !! 9%nat); cbn [mbind res_bind]; [done|].
    by intros [= <-].
  - intros [= <-]. by rewrite (extract_standardized_engine_raises _ _ He).
Qed.

Lemma attempt_body_spec (srv : service) (vin : pystr) (i : nat) (st : state) :
  trace (attempt_body srv vin i st).2
  = (if retried_simplified (srv i) && (i <? 2)%nat then [Sleep 2] else [])
      ++ Get (api_url vin) 15 :: trace st
  /\ (retried_simplified (srv i) = false -> (attempt_body srv vin i st).1 = Break)
  /\ (retried_simplified (srv i) = true -> (i < 2)%nat ->
      (attempt_body srv vin i st).1 = Continue)
  /\ (attempt_succeeds srv vin i = false -> unchanged st (attempt_body srv vin i st).2).
Proof.
  unfold attempt_body, attempt_succeeds, retried_simplified, unchanged.
  change max_retries with 2%nat. change retry_delay with 2%Z.
  destruct (srv i) as [e|[[|it its]|]]; cbn [is_timeout is_empty_result mbind res_bind].
  - destruct (exn_cls e); destruct (i <? 2)%nat eqn:Hi;
      try apply Nat.ltb_ge in Hi; split_and!; try done; intros; lia.
  - destruct (i <? 2)%nat eqn:Hi; try apply Nat.ltb_ge in Hi;
      split_and!; try done; intros; lia.
  - destruct (parse_results vin (it :: its)) as [p|e] eqn:Hp; cbn [mbind res_bind].
    + split_and!; done.
    + pose proof (parse_results_raises _ _ _ Hp) as Hcls.
      destruct (exn_cls e); split_and!; done.
  - destruct (i <? 2)%nat eqn:Hi; try apply Nat.ltb_ge in Hi;
      split_and!; try done; intros; lia.
Qed.

Lemma unchanged_trans (a b c : state) : unchanged a b -> unchanged b c -> unchanged a c.
Proof. unfold unchanged. intros (-> & -> & ->) (-> & -> & ->). done. Qed.

(** The three-turn loop: what it does outside, and what is left of the
    state when the remote lookup fails. *)
Lemma attempts_spec (srv : service) (vin : pystr) (st : state) :
  let st' := attempts srv vin (seq 0 (max_retries + 1)) st in
  rev (trace st') = rev (trace st) ++ schedule retried_simplified srv (api_url vin)
  /\ (remote_fails srv vin -> unchanged st st').
Proof.
  change (seq 0 (max_retries + 1)) with [0; 1; 2]%nat.
  unfold remote_fails, schedule. cbn [attempts].
  destruct (attempt_body_spec srv vin 0 st) as (Ht0 & Hb0 & Hc0 & Hu0).
  destruct (attempt_body srv vin 0 st) as [t0 st0]. cbn [fst snd] in *.
  destruct (retried_simplified (srv 0%nat)) eqn:Hr0.
  2:{ rewrite (Hb0 eq_refl). cbn zeta. rewrite Ht0. cbn [andb app rev].
      split; [by rewrite <- ?app_assoc|].
      intros Hfail. apply Hu0, (Hfail 0%nat). done. }
  rewrite (Hc0 eq_refl ltac:(lia)).
  destruct (attempt_body_spec srv vin 1 st0) as (Ht1 & Hb1 & Hc1 & Hu1).
  destruct (attempt_body srv vin 1 st0) as [t1 st1]. cbn [fst snd] in *.
  destruct (retried_simplified (srv 1%nat)) eqn:Hr1.
  2:{ rewrite (Hb1 eq_refl). cbn zeta. rewrite Ht1, Ht0. cbn [andb app rev Nat.ltb Nat.leb].
      split; [by rewrite <- ?app_assoc|].
      intros Hfail. eapply unchanged_trans; [apply Hu0, (Hfail 0%nat); done|].
      apply Hu1, (Hfail 1%nat). cbn. exact Hr0. }
  rewrite (Hc1 eq_refl ltac:(lia)).
  destruct (attempt_body_spec srv vin 2 st1) as (Ht2 & _ & _ & Hu2).
  destruct (attempt_body srv vin 2 st1) as [t2 st2]. cbn [fst snd] in *.
  assert (rev (trace st2)
          = rev (trace st) ++
            [Get (api_url vin) 15; Sleep 2; Get (api_url vin) 15; Sleep 2;
             Get (api_url vin) 15]) as Htrace.
  { rewrite Ht2, Ht1, Ht0. rewrite andb_false_r.
    cbn [andb app rev Nat.ltb Nat.leb]. by rewrite <- ?app_assoc. }
  assert (remote_fails srv vin -> unchanged st st2) as Hunch.
  { intros Hfail.
    eapply unchanged_trans; [apply Hu0, (Hfail 0%nat); done|].
    eapply unchanged_trans; [apply Hu1, (Hfail 1%nat); cbn; exact Hr0|].
    apply Hu2, (Hfail 2%nat). cbn. by rewrite Hr0, Hr1. }
  destruct t2; split; assumption.
Qed.

End Retry.

Lemma validate_vin_true_length (vin : pystr) :
  (validate_vin vin).1 = true -> length vin = 17%nat.
Proof.
  unfold validate_vin. destruct (Nat.eqb_spec (length vin) 17); [done|].
  cbn. discriminate.
Qed.

Lemma partial_success_ne : u "partial_success" ≠ u "success".
Proof. by_evaluation. Qed.

Section Policy.
Context `{FloatText}.

Lemma decode_vin_schedule (srv : service) (vin : pystr) :
  (decode_vin srv vin).2 = schedule retried_test srv (api_url vin).
Proof.
  unfold decode_vin, schedule.
  change (seq 0 (QueryApiTest.max_retries + 1)) with [0; 1; 2]%nat.
  cbn [decode_attempts]. change QueryApiTest.retry_delay with 2%Z.
  destruct (srv 0%nat) as [e0|[[|i0 r0]|]]; try reflexivity.
  destruct (srv 1%nat) as [e1|[[|i1 r1]|]]; try reflexivity.
  destruct (srv 2%nat) as [e2|[[|i2 r2]|]]; reflexivity.
Qed.

Lemma decode_vin_simplified_spec (srv : service) (vin : pystr) :
  (validate_vin vin).1 = true ->
  exists hd r,
    hard_decode_vin vin = Ret hd
    /\ decode_vin_simplified srv vin
       = Ret (r, schedule retried_simplified srv (api_url vin))
    /\ (remote_fails srv vin ->
        vehicle_info r = Some (structural_record vin hd)
        /\ success r = str_eqb (decode_status hd) (u "success")).
Proof.
  intros Hvalid.
  destruct (hard_decode_vin_returns vin (validate_vin_true_length vin Hvalid))
    as [hd Hhd].
  exists hd. unfold decode_vin_simplified.
  destruct (validate_vin vin) as [vin_valid vin_msg]. cbn [fst] in Hvalid.
  subst vin_valid. cbn [negb].
  match goal with
  | |- context [attempts srv vin _ ?st0] =>
      destruct (attempts_spec srv vin st0) as [Htrace Hfail]
  end.
  cbn zeta in Htrace, Hfail. cbn [trace rev app] in Htrace.
  destruct (attempts srv vin _ _) as [res ok tr]. cbn [trace api_success st_result] in *.
  rewrite Htrace, Hhd. cbn [mbind res_bind].
  destruct ok; cbn [negb].
  - eexists. split_and!; [done | reflexivity |].
    intros Hf. destruct (Hfail Hf) as (Hok & _).
    cbn [api_success] in Hok. discriminate.
  - eexists. split_and!; [done | reflexivity |].
    intros Hf. destruct (Hfail Hf) as (_ & _ & Hinfo).
    cbn [vehicle_info st_result] in Hinfo.
    cbn [vehicle_info success]. rewrite Hinfo. split; reflexivity.
Qed.

(** C4, as the code has it: each loop makes at most three requests,
    two seconds apart.  [decode_vin_simplified] asks again after a
    timeout and after an empty or absent result set, and stops at an
    HTTP error or any other exception; [decode_vin] asks again after
    any exception, an HTTP error included, and stops at an empty or
    absent result set. *)
Theorem retry_policy (srv : service) (vin : pystr) :
  (validate_vin vin).1 = true ->
  (exists r, decode_vin_simplified srv vin
             = Ret (r, schedule retried_simplified srv (api_url vin)))
  /\ (decode_vin srv vin).2 = schedule retried_test srv (api_url vin)
  /\ (forall e, retried_simplified (RespRaise e) = true <-> exn_cls e = TimeoutExc)
  /\ retried_simplified (RespJson None) = true
  /\ retried_simplified (RespJson (Some [])) = true
  /\ (forall e, retried_test (RespRaise e) = true)
  /\ (forall results, retried_test (RespJson results) = false).
Proof.
  intros Hvalid.
  destruct (decode_vin_simplified_spec srv vin Hvalid) as (hd & r & _ & Hrun & _).
  split_and!; try done.
  - by exists r.
  - apply decode_vin_schedule.
  - intros e. unfold retried_simplified. cbn [is_timeout is_empty_result].
    rewrite orb_false_r. destruct (exn_cls e); split; done.
Qed.

(** C5: for a valid VIN whose remote lookup fails altogether, the
    orchestrator returns, and the record it returns is the structural
    decoder's: its manufacturer and year, the fallback source tag, the
    no-data text in the fields the decoder does not know, and a success
    flag that is true exactly when the decoder's status is success, that
    is when both fields resolved. *)
Theorem structural_fallback (srv : service) (vin : pystr) :
  (validate_vin vin).1 = true ->
  remote_fails srv vin ->
  exists hd r tr,
    hard_decode_vin vin = Ret hd
    /\ decode_vin_simplified srv vin = Ret (r, tr)
    /\ vehicle_info r = Some (structural_record vin hd)
    /\ (Data_Source <$> vehicle_info r) = Some (u "Hard Decode (API Unavailable)")
    /\ (Manufacturer <$> vehicle_info r) = Some (manufacturer hd)
    /\ (Year <$> vehicle_info r) = Some (year hd)
    /\ (success r = true <-> decode_status hd = u "success")
    /\ (decode_status hd = u "success" <->
        manufacturer hd ≠ wmi_unrecognized /\ year hd ≠ year_unrecognized).
Proof.
  intros Hvalid Hfail.
  destruct (decode_vin_simplified_spec srv vin Hvalid) as (hd & r & Hhd & Hrun & Hrec).
  destruct (Hrec Hfail) as [Hinfo Hsuccess].
  exists hd, r, (schedule retried_simplified srv (api_url vin)).
  split_and!; [exact Hhd | exact Hrun | exact Hinfo | | | | |].
  - by rewrite Hinfo.
  - by rewrite Hinfo.
  - by rewrite Hinfo.
  - rewrite Hsuccess. unfold str_eqb. apply bool_decide_eq_true.
  - unfold hard_decode_vin in Hhd.
    destruct (index vin 9) as [c|e]; cbn [mbind res_bind] in Hhd; [|done].
    apply Ret_inj in Hhd as <-. cbn [decode_status manufacturer year].
    unfold str_eqb.
    generalize (default wmi_unrecognized (assoc_get wmi_mapping (upper (take 3 vin)))).
    generalize (match assoc_get year_mapping (upper_char c) with
                | Some y => str_of_int y
                | None => year_unrecognized
                end).
    generalize wmi_unrecognized year_unrecognized. intros MU YU Y M.
    case_bool_decide as HM; case_bool_decide as HY; cbn [negb andb];
      (split;
       [ intros Hp; first [destruct (partial_success_ne Hp) | split; assumption]
       | intros [Hn1 Hn2]; first [reflexivity | contradiction] ]).
Qed.

End Policy.

Lemma retry_policy_witness :
  exists r,
    @decode_vin_simplified decimal_text always_times_out (u "1HGCM8263KA004352")
    = Ret (r, three_requests (u "1HGCM8263KA004352")).
Proof.
  destruct (@retry_policy decimal_text always_times_out (u "1HGCM8263KA004352"))
    as ((r & Hr) & _); [vm_compute; reflexivity|].
  exists r. exact Hr.
Defined.

(** An empty result set is asked for again by [decode_vin_simplified],
    and an HTTP error by [decode_vin]: three requests each. *)
Lemma retry_not_timeout_only :
  (exists r,
     @decode_vin_simplified decimal_text always_empty (u "1HGCM8263KA004352")
     = Ret (r, three_requests (u "1HGCM8263KA004352")))
  /\ @decode_vin decimal_text always_http_error (u "1HGCM8263KA004352")
     = (None, three_requests (u "1HGCM8263KA004352")).
Proof. split; [eexists|]; vm_compute; reflexivity. Qed.

Lemma structural_fallback_witness :
  exists r tr,
    @decode_vin_simplified decimal_text always_times_out (u "1HGCM8263KA004352")
    = Ret (r, tr)
    /\ vehicle_info r
       = Some {| VIN := u "1HGCM8263KA004352"; Manufacturer := u "Honda";
                 Year := u "2019"; Model := no_data; Engine := no_data;
                 Transmission := no_data;
                 Data_Source := u "Hard Decode (API Unavailable)" |}
    /\ success r = true.
Proof.
  destruct (@structural_fallback decimal_text always_times_out
              (u "1HGCM8263KA004352"))
    as (hd & r & tr & Hhd & Hrun & Hinfo & _ & _ & _ & Hsuccess & _).
  - vm_compute. reflexivity.
  - intros i _. reflexivity.
  - exists r, tr. vm_compute in Hhd. apply Ret_inj in Hhd. subst hd.
    split_and!; [exact Hrun | | apply Hsuccess; vm_compute; reflexivity].
    rewrite Hinfo. vm_compute. reflexivity.
Defined.

(** The same failure for a VIN whose prefix is not in the table: the
    record is still filled in, with the marker as manufacturer, and the
    success flag is false. *)
Example structural_fallback_partial :
  exists r tr,
    @decode_vin_simplified decimal_text always_http_error (u "1G1ZT53826F109149")
    = Ret (r, tr)
    /\ vehicle_info r
       = Some {| VIN := u "1G1ZT53826F109149";
                 Manufacturer := wmi_unrecognized;
                 Year := u "2006"; Model := no_data; Engine := no_data;
                 Transmission := no_data;
                 Data_Source := u "Hard Decode (API Unavailable)" |}
    /\ success r = false
    /\ tr = [Get (api_url (u "1G1ZT53826F109149")) 15].
Proof. eexists _, _. split_and!; vm_compute; reflexivity. Qed.

(** ** Further examples *)

Example hard_decode_1HG_K :
  hard_decode_vin (u "1HGCM8263KA004352")
  = Ret {| manufacturer := u "Honda"; year := u "2019";
           decode_status := u "success" |}.
Proof. vm_compute. reflexivity. Qed.

Example round_examples :
  (py_round 0.35 1, py_round 0.25 1, py_round 2.45 1, py_round 60 2,
   float_of_decimal (u "2.0"), float_of_decimal (u "2."),
   float_of_decimal (u "1998"),
   py_round (float_of_decimal (u "1998") / 1000) 1)%float
  = (0.3, 0.2, 2.5, 60, 2, 2, 1998, 2)%float.
Proof. vm_compute. reflexivity. Qed.

Example literals_are_code_points :
  u "无" = [0x65E0] /\ u "İ" = [0x130] /\ u "N/A" = [78; 47; 65].
Proof. split_and!; reflexivity. Qed.

Example manufacturer_containment :
  either_contains (normalize_text (PStr (u "Toyota")))
    (normalize_text (PStr (u "Toyota Motor"))) = true.
Proof. vm_compute. reflexivity. Qed.

(** * Further properties

    What the code shows beyond the claims above: the loader, the edges
    of the structural decoders, the comparator on absent and blank
    values, the shape of a normalized text, the exceptions of the
    engine matcher, the outcomes of the orchestrator, the field mapper,
    the command-line block and the tallies of the report. *)

(** ** The loader *)

Lemma fill_nulls_lookup (fields : list pystr) (info : gmap pystr pyval) (k : pystr) :
  fill_nulls fields info !! k
  = if bool_decide (k ∈ fields /\ info !! k = Some PNone)
    then Some (PStr []) else info !! k.
Proof.
  revert info. induction fields as [|field later IH]; intros info; cbn [fill_nulls].
  - rewrite bool_decide_eq_false_2; [done|]. intros [Hk _]. by apply elem_of_nil in Hk.
  - rewrite IH. clear IH.
    destruct (decide (info !! field = Some PNone)) as [Hnull|Hnull].
    + rewrite (bool_decide_eq_true_2 _ Hnull).
      destruct (decide (k = field)) as [->|Hne].
      * rewrite lookup_insert_eq.
        rewrite bool_decide_eq_false_2 by (intros [_ ?]; done).
        rewrite bool_decide_eq_true_2; [done|]. split; [left | done].
      * rewrite lookup_insert_ne by done.
        rewrite (bool_decide_ext (k ∈ later /\ info !! k = Some PNone)
                   (k ∈ field :: later /\ info !! k = Some PNone)); [done|].
        rewrite elem_of_cons. intuition congruence.
    + rewrite (bool_decide_eq_false_2 _ Hnull).
      rewrite (bool_decide_ext (k ∈ later /\ info !! k = Some PNone)
                 (k ∈ field :: later /\ info !! k = Some PNone)); [done|].
      rewrite elem_of_cons. intuition congruence.
Qed.

Lemma missing_nil_complete (info : gmap pystr pyval) :
  filter (fun f => info !! f = None) required_fields = [] <-> complete info.
Proof.
  unfold complete. split.
  - intros Hnil f Hf. destruct (info !! f) eqn:Hl; [by eexists|].
    exfalso. by apply (filter_nil_not_elem_of _ _ f Hnil).
  - intros Hall. induction required_fields as [|f l IH]; [done|].
    rewrite filter_cons_False.
    + apply IH. intros g Hg. apply Hall. by right.
    + destruct (Hall f) as [v ->]; [left | done].
Qed.

(** Where a record of the result comes from. *)
Lemma load_records_origin (items : list (pystr * json_entry))
    (valid_data : gmap pystr (gmap pystr pyval)) (vin : pystr)
    (record : gmap pystr pyval) :
  load_records items valid_data !! vin = Some record ->
  valid_data !! vin = Some record
  \/ exists info, (vin, Dict info) ∈ items /\ complete info
                  /\ record = fill_nulls required_fields info.
Proof.
  revert valid_data. induction items as [|[v [|info]] items IH]; intros valid_data;
    cbn [load_records]; [by left | |].
  - intros H. destruct (IH _ H) as [?|(i & Hi & ?)]; [by left|].
    right. exists i. split; [by right | done].
  - destruct (filter _ required_fields) as [|m ms] eqn:Hmissing.
    + intros H. destruct (IH _ H) as [Hl|(i & Hi & ?)].
      * apply lookup_insert_Some in Hl as [[<- <-]|[_ Hl]]; [|by left].
        right. exists info. split_and!; [left | by apply missing_nil_complete | done].
      * right. exists i. split; [by right | done].
    + intros H. destruct (IH _ H) as [?|(i & Hi & ?)]; [by left|].
      right. exists i. split; [by right | done].
Qed.

Lemma load_records_other (items : list (pystr * json_entry))
    (valid_data : gmap pystr (gmap pystr pyval)) (vin : pystr) :
  vin ∉ items.*1 -> load_records items valid_data !! vin = valid_data !! vin.
Proof.
  revert valid_data. induction items as [|[v [|info]] items IH]; intros valid_data;
    cbn [load_records]; [done| |]; rewrite fmap_cons, not_elem_of_cons; cbn [fst];
    intros [Hne Hnotin].
  - by apply IH.
  - destruct (filter _ required_fields); rewrite IH by done; [|done].
    by apply lookup_insert_ne.
Qed.

Lemma load_records_keeps (items : list (pystr * json_entry))
    (valid_data : gmap pystr (gmap pystr pyval)) (vin : pystr)
    (info : gmap pystr pyval) :
  NoDup items.*1 -> (vin, Dict info) ∈ items -> complete info ->
  load_records items valid_data !! vin = Some (fill_nulls required_fields info).
Proof.
  intros Hnd Hin Hcomplete. revert valid_data Hnd.
  induction items as [|[v e] items IH]; intros valid_data Hnd;
    [by apply elem_of_nil in Hin|].
  rewrite fmap_cons in Hnd. apply NoDup_cons in Hnd as [Hfresh Hnd]. cbn [fst] in Hfresh.
  apply elem_of_cons in Hin as [[= <- <-]|Hin].
  - cbn [load_records].
    rewrite (proj2 (missing_nil_complete info) Hcomplete).
    rewrite load_records_other by done. apply lookup_insert_eq.
  - destruct e as [|info']; cbn [load_records]; [by apply IH|].
    destruct (filter _ required_fields); by apply IH.
Qed.

(** X1: Every record the loader returns holds the five required fields,
    none of them [null]; it is a complete dict of the document in which
    each [null] under a required field became the empty text and every
    other entry is as it was. *)
Theorem loaded_records_are_complete (doc : document) (vin : pystr)
    (record : gmap pystr pyval) :
  load_vehicle_data doc !! vin = Some record ->
  (forall f, f ∈ required_fields ->
     exists v, record !! f = Some v /\ v ≠ PNone)
  /\ exists items info,
       doc = Object items /\ (vin, Dict info) ∈ items /\ complete info
       /\ (forall k, k ∈ required_fields -> info !! k = Some PNone ->
             record !! k = Some (PStr []))
       /\ (forall k, k ∉ required_fields \/ info !! k ≠ Some PNone ->
             record !! k = info !! k).
Proof.
  destruct doc as [e| |items]; cbn [load_vehicle_data];
    [by rewrite lookup_empty | by rewrite lookup_empty |].
  intros Hload. apply load_records_origin in Hload as [Hempty|(info & Hin & Hc & ->)];
    [by rewrite lookup_empty in Hempty|].
  split.
  - intros f Hf. rewrite fill_nulls_lookup. destruct (Hc f Hf) as [v Hv].
    case_bool_decide as Hnull; [by eexists|].
    exists v. split; [done|]. intros ->. apply Hnull. by split.
  - exists items, info. split_and!; try done.
    + intros k Hk Hnull. rewrite fill_nulls_lookup.
      by rewrite bool_decide_eq_true_2.
    + intros k Hk. rewrite fill_nulls_lookup.
      rewrite bool_decide_eq_false_2; [done|]. intros [? ?]. by destruct Hk.
Qed.

Lemma loaded_records_are_complete_witness :
  load_vehicle_data sample_document !! u "1HGCM8263KA004352"
  = Some (fill_nulls required_fields honda_info)
  /\ (exists v, fill_nulls required_fields honda_info !! u "Model" = Some v
                /\ v ≠ PNone)
  /\ fill_nulls required_fields honda_info !! u "Color" = Some PNone.
Proof.
  assert (load_vehicle_data sample_document !! u "1HGCM8263KA004352"
          = Some (fill_nulls required_fields honda_info)) as Hload
    by (vm_compute; reflexivity).
  destruct (loaded_records_are_complete _ _ _ Hload) as [Hfields _].
  split_and!; [exact Hload | apply Hfields; by_evaluation | vm_compute; reflexivity].
Defined.

(** X2: In a document whose VINs are distinct the loader keeps exactly the
    entries that are dicts holding all five required fields: a value
    that is not a dict and a dict that lacks a field are dropped. *)
Theorem loader_keeps_exactly (items : list (pystr * json_entry)) (vin : pystr)
    (record : gmap pystr pyval) :
  NoDup items.*1 ->
  load_vehicle_data (Object items) !! vin = Some record
  <-> exists info, (vin, Dict info) ∈ items /\ complete info
                   /\ record = fill_nulls required_fields info.
Proof.
  intros Hnd. cbn [load_vehicle_data]. split.
  - intros Hload. apply load_records_origin in Hload as [Hempty|?]; [|done].
    by rewrite lookup_empty in Hempty.
  - intros (info & Hin & Hc & ->). by apply load_records_keeps.
Qed.

Lemma loader_keeps_exactly_witness :
  load_vehicle_data (Object sample_items) !! u "1HGCM8263KA004352"
  = Some (fill_nulls required_fields honda_info).
Proof.
  apply (loader_keeps_exactly sample_items); [by_evaluation|].
  exists honda_info. split_and!; [left | | reflexivity].
  unfold complete. apply Forall_forall. by_evaluation.
Defined.

Example loader_drops :
  load_vehicle_data sample_document !! u "5YJ3E1EA7KF000001" = None
  /\ load_vehicle_data sample_document !! u "WAUZZZ8V5KA000002" = None
  /\ load_vehicle_data (Unreadable (Exn OtherExc (u "No such file"))) = ∅
  /\ load_vehicle_data NotAnObject = ∅.
Proof. split_and!; vm_compute; reflexivity. Qed.

(** ** The structural decoders at their edges *)

(** X3: The decoder of [VinApi_Query.py] reads the tenth character without
    a length test: it returns for a text of ten characters or more and
    raises [IndexError] for a shorter one. *)
Theorem hard_decode_vin_needs_ten (vin : pystr) :
  ((10 <= length vin)%nat -> returns (hard_decode_vin vin))
  /\ ((length vin < 10)%nat ->
      hard_decode_vin vin
      = Raise (Exn IndexErrorExc (u "string index out of range"))).
Proof.
  unfold hard_decode_vin, index. split; intros Hlen.
  - destruct (vin !! 9%nat) as [c|] eqn:Hc; [by eexists|].
    apply lookup_ge_None in Hc. lia.
  - rewrite (proj2 (lookup_ge_None vin 9)) by lia. reflexivity.
Qed.

Lemma hard_decode_vin_needs_ten_witness :
  returns (hard_decode_vin (u "1HGCM8263K"))
  /\ hard_decode_vin (u "1HGCM8263")
     = Raise (Exn IndexErrorExc (u "string index out of range")).
Proof.
  split.
  - apply (hard_decode_vin_needs_ten (u "1HGCM8263K")). vm_compute. lia.
  - apply (hard_decode_vin_needs_ten (u "1HGCM8263")). vm_compute. lia.
Defined.

Lemma test_hard_decode_none (vin : pystr) :
  length vin ≠ 17%nat -> QueryApiTest.hard_decode_vin vin = None.
Proof.
  intros Hlen. unfold QueryApiTest.hard_decode_vin.
  destruct (Nat.eqb_spec (length vin) 17); [done|]. by rewrite orb_true_r.
Qed.

Lemma test_hard_decode_some (vin : pystr) :
  length vin = 17%nat ->
  exists hard_data year make,
    QueryApiTest.hard_decode_vin vin = Some hard_data
    /\ hard_data !! u "Year" = Some year
    /\ hard_data !! u "Manufacturer/Make" = Some (PStr make)
    /\ dom hard_data = {[ u "Year"; u "Manufacturer/Make" ]}.
Proof.
  intros Hlen. unfold QueryApiTest.hard_decode_vin.
  assert (str_eqb vin [] = false) as ->.
  { apply bool_decide_eq_false_2. intros ->. done. }
  rewrite Hlen. cbn [Nat.eqb negb orb].
  eexists _, _, (match assoc_get QueryApiTest.wmi_mapping (upper (take 3 vin)) with
                 | Some m => m
                 | None => _
                 end).
  split_and!; [reflexivity | | |].
  - rewrite lookup_insert_ne by by_evaluation. apply lookup_insert_eq.
  - rewrite lookup_insert_eq. by destruct (assoc_get _ _).
  - rewrite !dom_insert_L, dom_empty_L. set_solver.
Qed.

(** X4: The decoder of the comparison script gives nothing for a text whose
    length is not 17 and otherwise a dict with exactly two keys, the year
    and the manufacturer; it makes no I/O/Q test. *)
Theorem test_hard_decode_shape (vin : pystr) :
  (length vin ≠ 17%nat -> QueryApiTest.hard_decode_vin vin = None)
  /\ (length vin = 17%nat ->
      exists hard_data year make,
        QueryApiTest.hard_decode_vin vin = Some hard_data
        /\ hard_data !! u "Year" = Some year
        /\ hard_data !! u "Manufacturer/Make" = Some (PStr make)
        /\ dom hard_data = {[ u "Year"; u "Manufacturer/Make" ]}).
Proof.
  split; [apply test_hard_decode_none | apply test_hard_decode_some].
Qed.

Lemma test_hard_decode_shape_witness :
  QueryApiTest.hard_decode_vin (u "1HG") = None
  /\ exists hard_data,
       QueryApiTest.hard_decode_vin (u "IIIIIIIIIKIIIIIII") = Some hard_data
       /\ hard_data !! u "Model" = None.
Proof.
  split.
  - apply (test_hard_decode_shape (u "1HG")). vm_compute. lia.
  - destruct (test_hard_decode_shape (u "IIIIIIIIIKIIIIIII")) as [_ H].
    destruct (H ltac:(vm_compute; reflexivity))
      as (hard_data & year & make & Hhd & Hyear & Hmake & Hdom).
    exists hard_data. split; [exact Hhd|].
    apply not_elem_of_dom. rewrite Hdom.
    apply not_elem_of_union. split; apply not_elem_of_singleton; by_evaluation.
Defined.

(** ** The two structural decoders side by side *)

Lemma test_table_in_cli_table :
  Forall (fun entry => (length entry.1 < 3)%nat
                       \/ assoc_get VinApiQuery.wmi_mapping entry.1 = Some entry.2)
    QueryApiTest.wmi_mapping.
Proof. by_evaluation. Qed.

Lemma tenth_character (vin : pystr) (c : N) :
  vin !! 9%nat = Some c -> upper (take 1 (drop 9 vin)) = upper_char c.
Proof.
  intros Hc. assert (drop 9 vin !! 0%nat = Some c) as Hd.
  { rewrite lookup_drop. by rewrite Nat.add_0_r. }
  destruct (drop 9 vin) as [|d rest]; [discriminate|].
  injection Hd as ->. unfold upper. cbn [take flat_map]. apply app_nil_r.
Qed.

(** X5: On a text of 17 characters the two structural decoders agree on the
    year, and whatever manufacturer the comparison script's decoder
    resolves, the decoder of [VinApi_Query.py] resolves to the same
    name. *)
Theorem decoders_agree (vin : pystr) :
  length vin = 17%nat ->
  exists hd hard_data,
    hard_decode_vin vin = Ret hd
    /\ QueryApiTest.hard_decode_vin vin = Some hard_data
    /\ ((exists y, hard_data !! u "Year" = Some (PInt y) /\ year hd = str_of_int y)
        \/ (year hd = year_unrecognized
            /\ exists s, hard_data !! u "Year" = Some (PStr s)))
    /\ (forall m, hard_data !! u "Manufacturer/Make" = Some (PStr m) ->
                  m ≠ unknown_make (upper (take 3 vin)) ->
                  manufacturer hd = m).
Proof.
  intros Hlen.
  destruct (vin !! 9%nat) as [c|] eqn:Hc;
    [|apply lookup_ge_None in Hc; lia].
  unfold hard_decode_vin, QueryApiTest.hard_decode_vin, index. rewrite Hc.
  cbn [mbind res_bind].
  assert (str_eqb vin [] = false) as ->.
  { apply bool_decide_eq_false_2. intros ->. done. }
  rewrite Hlen. cbn [Nat.eqb negb orb].
  rewrite (tenth_character _ _ Hc). unfold QueryApiTest.year_mapping.
  eexists _, _. split_and!; [reflexivity | reflexivity | |].
  - cbn [year]. rewrite lookup_insert_ne by by_evaluation. rewrite lookup_insert_eq.
    destruct (assoc_get VinApiQuery.year_mapping (upper_char c)) as [y|].
    + left. by exists y.
    + right. split; [reflexivity|]. by eexists.
  - cbn [manufacturer]. rewrite lookup_insert_eq. unfold unknown_make.
    intros m Hm Hknown.
    destruct (assoc_get QueryApiTest.wmi_mapping (upper (take 3 vin))) as [m'|] eqn:Hget.
    + injection Hm as ->. apply assoc_get_In in Hget.
      pose proof (proj1 (Forall_forall _ _) test_table_in_cli_table _ Hget) as Hin.
      cbn [fst snd] in Hin. destruct Hin as [Hshort| ->]; [|reflexivity].
      pose proof (upper_length (take 3 vin)) as Hup.
      rewrite length_take in Hup. lia.
    + injection Hm as Hm. by destruct Hknown.
Qed.

Lemma decoders_agree_witness :
  exists hd hard_data,
    hard_decode_vin (u "1HGCM8263KA004352") = Ret hd
    /\ QueryApiTest.hard_decode_vin (u "1HGCM8263KA004352") = Some hard_data
    /\ year hd = u "2019" /\ manufacturer hd = u "Honda".
Proof.
  destruct (decoders_agree (u "1HGCM8263KA004352")) as (hd & hard_data & Hhd & Ht & _ & _);
    [vm_compute; reflexivity|].
  exists hd, hard_data. split_and!; [exact Hhd | exact Ht | |].
  - revert Hhd. generalize hd. intros hd'. vm_compute. intros Heq.
    injection Heq as <-. reflexivity.
  - revert Hhd. generalize hd. intros hd'. vm_compute. intros Heq.
    injection Heq as <-. reflexivity.
Defined.

(** The converse fails: the table of [VinApi_Query.py] is the larger
    one. *)
Example decoders_differ :
  manufacturer <$> (match hard_decode_vin (u "1GYS4BKJ5KR000001") with
                    | Ret hd => Some hd
                    | Raise _ => None
                    end) = Some (u "Cadillac")
  /\ (QueryApiTest.hard_decode_vin (u "1GYS4BKJ5KR000001")
        ≫= lookup (u "Manufacturer/Make"))
     = Some (PStr (unknown_make (u "1GY"))).
Proof. split; vm_compute; reflexivity. Qed.

(** ** More on the record comparator *)

(** The entry the loop leaves under a field is the one computed for it. *)
Lemma compare_loop_entry (local_data : gmap pystr pyval) (src : source_data)
    (source_name : pystr) (todo : list pystr) (st st' : loop_state) (f : pystr) :
  NoDup todo ->
  compare_loop local_data src source_name todo st = Ret st' ->
  f ∈ todo ->
  exists entry engine,
    compare_field local_data src source_name f = Ret (entry, engine)
    /\ ls_fields st' !! f = Some entry.
Proof.
  intros Hnd. revert st. induction Hnd as [|field later Hnotin Hnd IH]; intros st.
  - intros _ Hf. by apply elem_of_nil in Hf.
  - cbn [compare_loop].
    destruct (compare_field local_data src source_name field) as [[entry engine]|e]
      eqn:Hfield; cbn [mbind res_bind]; [|done].
    intros Hloop Hf. apply elem_of_cons in Hf as [->|Hf]; [|by eapply IH].
    exists entry, engine. split; [done|].
    apply compare_loop_spec in Hloop as (_ & Hother & _); [|done].
    rewrite (Hother field Hnotin). apply lookup_insert_eq.
Qed.

Lemma compare_with_source_entry (local_data : gmap pystr pyval) (src : source_data)
    (result_template : comparison) (source_name : pystr) (r : comparison)
    (f : pystr) :
  compare_with_source local_data src result_template source_name = Ret r ->
  f ∈ fields_to_check ->
  exists entry engine,
    compare_field local_data src source_name f = Ret (entry, engine)
    /\ fields r !! f = Some entry
    /\ match_ r
       = (4 <=? matched_field_count (fields r))%nat
         && field_matched (fields r) (u "Engine")
    /\ match_source r = match_source result_template.
Proof.
  unfold compare_with_source. intros Hrun Hf.
  destruct (compare_loop _ _ _ _ _) as [st|e] eqn:Hloop; cbn [mbind res_bind] in Hrun;
    [|done].
  destruct (compare_loop_entry _ _ _ _ _ _ f fields_to_check_NoDup Hloop Hf)
    as (entry & engine & Hfield & Hentry).
  apply compare_loop_spec in Hloop as (Hcount & _ & _); [|apply fields_to_check_NoDup].
  cbn [match_count] in Hcount. rewrite Nat.add_0_l in Hcount.
  fold (matched_field_count (ls_fields st)) in Hcount.
  destruct (ls_fields st !! u "Engine") as [engine_entry|] eqn:Hengine;
    cbn [mbind res_bind] in Hrun; [|done].
  apply Ret_inj in Hrun as <-. cbn [fields match_ match_source].
  exists entry, engine. split_and!; [done | done | | done].
  rewrite Hcount. unfold field_matched. by rewrite Hengine.
Qed.

Lemma absent_field_entry (local_data : gmap pystr pyval) (src : source_data)
    (result_template : comparison) (source_name : pystr) (r : comparison)
    (f : pystr) :
  compare_with_source local_data src result_template source_name = Ret r ->
  f ∈ fields_to_check ->
  src_fields src !! f = None ->
  field_matched (fields r) f = true
  /\ (source_value <$> fields r !! f) = Some (PStr (u "硬解码无此数据")).
Proof.
  intros Hrun Hf Habsent.
  destruct (compare_with_source_entry _ _ _ _ _ f Hrun Hf)
    as (entry & engine & Hfield & Hentry & _).
  unfold compare_field in Hfield. rewrite Habsent in Hfield.
  apply Ret_inj in Hfield. injection Hfield as <- _.
  unfold field_matched. rewrite Hentry. done.
Qed.

(** X6: A compared field that the source record does not hold counts as
    matched, with the no-data text as its source value, whatever the
    reference record says. *)
Theorem absent_field_is_matched (local_data : gmap pystr pyval) (src : source_data)
    (result_template : comparison) (source_name : pystr) (r : comparison)
    (f : pystr) :
  compare_with_source local_data src result_template source_name = Ret r ->
  f ∈ fields_to_check ->
  src_fields src !! f = None ->
  field_matched (fields r) f = true
  /\ (source_value <$> fields r !! f) = Some (PStr (u "硬解码无此数据"))
  /\ (1 <= matched_field_count (fields r))%nat.
Proof.
  intros Hrun Hf Habsent.
  destruct (absent_field_entry _ _ _ _ _ _ Hrun Hf Habsent) as [Hm Hsrc].
  split_and!; [exact Hm | exact Hsrc |].
  unfold matched_field_count.
  assert (f ∈ filter (fun field => field_matched (fields r) field = true)
                fields_to_check) as Hin
    by (apply list_elem_of_filter; by split).
  destruct (filter _ fields_to_check); [by apply elem_of_nil in Hin | cbn; lia].
Qed.

Lemma absent_field_is_matched_witness :
  field_matched
    (fields (verdict_of (compare_with_source example_local year_only base_result
                           hard_source_name))) (u "Engine") = true.
Proof.
  apply (absent_field_is_matched example_local year_only base_result
           hard_source_name).
  - vm_compute. reflexivity.
  - by_evaluation.
  - vm_compute. reflexivity.
Defined.

Lemma matched_field_count_unfold (fs : gmap pystr field_result) :
  matched_field_count fs
  = (Nat.b2n (field_matched fs (u "Manufacturer/Make"))
     + Nat.b2n (field_matched fs (u "Year"))
     + Nat.b2n (field_matched fs (u "Model"))
     + Nat.b2n (field_matched fs (u "Engine"))
     + Nat.b2n (field_matched fs (u "Transmission")))%nat.
Proof.
  unfold matched_field_count, fields_to_check.
  rewrite !filter_cons, filter_nil.
  destruct (field_matched fs (u "Manufacturer/Make")),
           (field_matched fs (u "Year")), (field_matched fs (u "Model")),
           (field_matched fs (u "Engine")), (field_matched fs (u "Transmission"));
    reflexivity.
Qed.

(** X7: Without API data and with a VIN of 17 characters the comparison runs
    against the structural decoder and never raises.  Model, engine and
    transmission are not in that source and count as matched, so the
    verdict is a match as soon as the manufacturer or the year agrees. *)
Theorem hard_fallback_comparison (local_data : gmap pystr pyval) (vin : pystr) :
  length vin = 17%nat ->
  exists r,
    compare_vehicles local_data None vin = Ret r
    /\ match_source r = u "hard_decode"
    /\ field_matched (fields r) (u "Model") = true
    /\ field_matched (fields r) (u "Engine") = true
    /\ field_matched (fields r) (u "Transmission") = true
    /\ (3 <= matched_field_count (fields r))%nat
    /\ match_ r
       = field_matched (fields r) (u "Manufacturer/Make")
         || field_matched (fields r) (u "Year").
Proof.
  intros Hlen.
  destruct (test_hard_decode_some vin Hlen)
    as (hard_data & year & make & Hhd & _ & _ & Hdom).
  assert (forall k, k ≠ u "Year" -> k ≠ u "Manufacturer/Make" ->
                    hard_data !! k = None) as Habsent.
  { intros k H1 H2. apply not_elem_of_dom. rewrite Hdom.
    apply not_elem_of_union. split; by apply not_elem_of_singleton. }
  unfold compare_vehicles. rewrite Hhd.
  match goal with
  | |- context [compare_with_source ?l ?s ?t ?n] =>
      destruct (compare_with_source_returns l s t n) as [r Hrun]
  end.
  { intros source_val Hsome. cbn [src_fields] in Hsome.
    rewrite Habsent in Hsome by by_evaluation. done. }
  exists r. split; [exact Hrun|].
  destruct (compare_with_source_entry _ _ _ _ _ (u "Engine") Hrun ltac:(by_evaluation))
    as (_ & _ & _ & _ & Hmatch & Hsource).
  assert (forall f, f ∈ fields_to_check -> f ≠ u "Year" -> f ≠ u "Manufacturer/Make" ->
                    field_matched (fields r) f = true) as Hthree.
  { intros f Hf H1 H2.
    apply (absent_field_entry _ _ _ _ _ f Hrun Hf). by apply Habsent. }
  pose proof (Hthree (u "Model") ltac:(by_evaluation) ltac:(by_evaluation)
                ltac:(by_evaluation)) as HModel.
  pose proof (Hthree (u "Engine") ltac:(by_evaluation) ltac:(by_evaluation)
                ltac:(by_evaluation)) as HEngine.
  pose proof (Hthree (u "Transmission") ltac:(by_evaluation) ltac:(by_evaluation)
                ltac:(by_evaluation)) as HTrans.
  rewrite Hmatch, Hsource, matched_field_count_unfold, HModel, HEngine, HTrans.
  generalize (field_matched (fields r) (u "Manufacturer/Make")),
             (field_matched (fields r) (u "Year")).
  intros make_matched year_matched.
  split_and!; try reflexivity.
  - unfold Nat.b2n. destruct make_matched, year_matched; lia.
  - destruct make_matched, year_matched; reflexivity.
Qed.

Lemma hard_fallback_comparison_witness :
  exists r,
    compare_vehicles example_local None (u "1G1ZT53829F109149") = Ret r
    /\ match_ r
       = field_matched (fields r) (u "Manufacturer/Make")
         || field_matched (fields r) (u "Year")
    /\ (3 <= matched_field_count (fields r))%nat.
Proof.
  destruct (hard_fallback_comparison example_local (u "1G1ZT53829F109149"))
    as (r & Hrun & _ & _ & _ & _ & Hcount & Hmatch); [vm_compute; reflexivity|].
  exists r. split_and!; assumption.
Defined.

(** The reference record of a Toyota of 2019 against the VIN of a
    Chevrolet of 2009: three of five fields count as matched, no match;
    against a VIN with the year code of 2019: a match. *)
Example hard_fallback_verdicts :
  match_ (verdict_of (compare_vehicles example_local None (u "1G1ZT53829F109149")))
  = false
  /\ match_rate (verdict_of (compare_vehicles example_local None
                               (u "1G1ZT53829F109149"))) = 60%float
  /\ match_ (verdict_of (compare_vehicles example_local None
                           (u "1G1ZT5382KF109149"))) = true.
Proof. split_and!; vm_compute; reflexivity. Qed.

Lemma contains_nil (s : pystr) : contains [] s = true.
Proof. by destruct s. Qed.

Lemma either_contains_blank (a b : pystr) :
  a = [] \/ b = [] -> either_contains a b = true.
Proof.
  unfold either_contains. intros [-> | ->]; rewrite contains_nil;
    [done | apply orb_true_r].
Qed.

(** X8: A manufacturer, model or transmission that normalizes to the empty
    text on either side (blank, or punctuation only) matches whatever
    stands on the other side: the empty text is contained in every
    text. *)
Theorem blank_value_matches (local_data : gmap pystr pyval) (src : source_data)
    (result_template : comparison) (source_name : pystr) (r : comparison)
    (f : pystr) (source_val : pyval) :
  compare_with_source local_data src result_template source_name = Ret r ->
  f ∈ [u "Manufacturer/Make"; u "Model"; u "Transmission"] ->
  src_fields src !! f = Some source_val ->
  normalize_text (get_or_empty local_data f) = []
  \/ normalize_text source_val = [] ->
  field_matched (fields r) f = true.
Proof.
  intros Hrun Hf Hsrc Hblank.
  assert (f ∈ fields_to_check) as Hcheck.
  { repeat (apply elem_of_cons in Hf as [->|Hf]; [by_evaluation|]).
    by apply elem_of_nil in Hf. }
  destruct (compare_with_source_entry _ _ _ _ _ f Hrun Hcheck)
    as (entry & engine & Hfield & Hentry & _).
  unfold field_matched. rewrite Hentry.
  unfold compare_field in Hfield. rewrite Hsrc in Hfield.
  pose proof (either_contains_blank _ _ Hblank) as Hcontains.
  repeat (apply elem_of_cons in Hf as [->|Hf]);
    [ change (str_eqb (u "Manufacturer/Make") (u "Manufacturer/Make")) with true in Hfield
    | change (str_eqb (u "Model") (u "Manufacturer/Make")) with false in Hfield;
      change (str_eqb (u "Model") (u "Year")) with false in Hfield;
      change (str_eqb (u "Model") (u "Model")) with true in Hfield
    | change (str_eqb (u "Transmission") (u "Manufacturer/Make")) with false in Hfield;
      change (str_eqb (u "Transmission") (u "Year")) with false in Hfield;
      change (str_eqb (u "Transmission") (u "Model")) with false in Hfield;
      change (str_eqb (u "Transmission") (u "Engine")) with false in Hfield;
      change (str_eqb (u "Transmission") (u "Transmission")) with true in Hfield
    | by apply elem_of_nil in Hf ];
    cbn [mbind res_bind] in Hfield; rewrite Hcontains in Hfield;
    rewrite ?orb_true_r in Hfield;
    apply Ret_inj in Hfield; injection Hfield as <- _; reflexivity.
Qed.

Lemma blank_value_matches_witness :
  field_matched
    (fields (verdict_of (compare_with_source
                           (<[u "Model" := PStr (u " ! ")]> example_local)
                           example_source base_result api_source_name)))
    (u "Model") = true.
Proof.
  apply (blank_value_matches (<[u "Model" := PStr (u " ! ")]> example_local)
           example_source base_result api_source_name _ (u "Model")
           (PStr (u "Camry"))).
  - vm_compute. reflexivity.
  - by_evaluation.
  - vm_compute. reflexivity.
  - left. vm_compute. reflexivity.
Defined.

(** ** The shape of a normalized text *)

(** X9: Whatever the text, its normal form is trimmed and single-spaced
    and holds no capital of the Basic Latin alphabet: no white space at
    either end, and between other characters only single blanks. *)
Theorem normalize_text_shape (text : pyval) :
  single_spaced false (normalize_text text) = true
  /\ no_lead (normalize_text text)
  /\ no_trail (normalize_text text)
  /\ Forall (fun c => in_range 0x41 0x5A c = false) (normalize_text text).
Proof.
  destruct (decide (text = PNone)) as [->|Hne]; [by split_and!|].
  rewrite (normalize_text_str text Hne). unfold normalize_str, strip, collapse_spaces.
  split_and!.
  - rewrite single_spaced_lower. apply single_spaced_rstrip.
    eapply single_spaced_lstrip, collapse_from_single_spaced.
  - apply no_lead_lower, rstrip_no_lead, lstrip_no_lead.
  - apply no_trail_lower, rstrip_no_trail.
  - apply lower_from_no_capital.
Qed.

Example normalize_text_example :
  normalize_text (PStr (u "  2.0L   Hybrid!! (Turbo) ")) = u "2.0l hybrid turbo".
Proof. vm_compute. reflexivity. Qed.

(** ** More on the engine matcher *)

Ltac details_step :=
  cbn [fst snd details_of fuel_type_match displacement_match
       set_fuel_type_match set_displacement_match set_displacement_error].

Lemma fuel_stage_flags (local_feat api_feat : features)
    (local_raw_text api_raw_text : pystr) (d d' : details) (r : reason) (go_on : bool) :
  fuel_type_match d = false -> displacement_match d = false ->
  fuel_stage local_feat api_feat local_raw_text api_raw_text d = (d', r, go_on) ->
  fuel_type_match d' = go_on /\ displacement_match d' = false.
Proof.
  intros Hf Hd. unfold fuel_stage.
  repeat case_match; intros Heq; injection Heq as <- _ <-; details_step; by split.
Qed.

Lemma displacement_stage_verdict (local_feat api_feat : features) (d : details) :
  fuel_type_match d = true -> displacement_match d = false ->
  (displacement_stage local_feat api_feat d).1
  = fuel_type_match (details_of (displacement_stage local_feat api_feat d).2)
    && displacement_match (details_of (displacement_stage local_feat api_feat d).2).
Proof.
  intros Hf Hd. unfold displacement_stage.
  destruct (displacement local_feat) as [l|], (displacement api_feat) as [a|];
    cbn zeta; repeat case_match; details_step; rewrite Hf, ?Hd; reflexivity.
Qed.

Lemma compare_features_verdict (local_feat api_feat : features)
    (local_raw_text api_raw_text : pystr) :
  (compare_features local_feat api_feat local_raw_text api_raw_text).1
  = fuel_type_match
      (details_of (compare_features local_feat api_feat local_raw_text api_raw_text).2)
    && displacement_match
         (details_of (compare_features local_feat api_feat local_raw_text api_raw_text).2).
Proof.
  unfold compare_features.
  match goal with
  | |- context [fuel_stage ?lf ?af ?lt ?at_ ?d0] =>
      destruct (fuel_stage lf af lt at_ d0) as [[d r] go_on] eqn:Hstage;
      destruct (fuel_stage_flags lf af lt at_ d0 d r go_on eq_refl eq_refl Hstage)
        as [Hf Hd]
  end.
  destruct go_on.
  - by apply displacement_stage_verdict.
  - details_step. by rewrite Hf.
Qed.

(** X10: The verdict of the engine matcher is the conjunction of the two
    flags of the dict it returns: fuel type matched and displacement
    matched. *)
Theorem engine_verdict_is_conjunction (local_engine api_engine : pyval)
    (raw : option raw_engine_data) (m : bool) (an : analysis) :
  engine_features_match local_engine api_engine raw = Ret (m, an) ->
  m = fuel_type_match (details_of an) && displacement_match (details_of an).
Proof.
  unfold engine_features_match.
  destruct (both_texts_empty local_engine api_engine) as [[|]|e];
    cbn [mbind res_bind]; [| |discriminate].
  - intros Heq. apply Ret_inj in Heq. injection Heq as <- <-. reflexivity.
  - intros Heq. apply Ret_inj in Heq.
    pose proof (compare_features_verdict
                  (extract_engine_features local_engine None)
                  (extract_engine_features api_engine raw)
                  (normalize_text local_engine) (normalize_text api_engine)) as Hv.
    rewrite Heq in Hv. exact Hv.
Qed.

Lemma engine_verdict_is_conjunction_witness :
  exists an,
    engine_features_match (PStr (u "2.5L gas"))
      (PStr (u "Displacement: 2.0L; Fuel Type: Gasoline"))
      (src_raw_engine_data example_source) = Ret (false, an)
    /\ fuel_type_match (details_of an) = true
    /\ displacement_match (details_of an) = false.
Proof.
  eassert (engine_features_match (PStr (u "2.5L gas"))
             (PStr (u "Displacement: 2.0L; Fuel Type: Gasoline"))
             (src_raw_engine_data example_source) = Ret (false, _)) as Hrun
    by (vm_compute; reflexivity).
  pose proof (engine_verdict_is_conjunction _ _ _ _ _ Hrun) as Hv.
  eexists. split_and!; [exact Hrun | vm_compute; reflexivity |].
  symmetry in Hv. apply andb_false_iff in Hv as [Hv|Hv]; [|exact Hv].
  vm_compute in Hv. discriminate Hv.
Defined.

Lemma both_texts_empty_cases (local_engine api_engine : pyval) :
  (returns (both_texts_empty local_engine api_engine)
   <-> exists s, local_engine = PStr s
                 /\ (strip s ≠ [] \/ exists t, api_engine = PStr t))
  /\ (forall e, both_texts_empty local_engine api_engine = Raise e ->
      exn_cls e = AttributeErrorExc).
Proof.
  unfold both_texts_empty, returns, str_eqb.
  destruct local_engine as [|s|z]; cbn [strip_method mbind res_bind].
  1,3: split;
    [split; [intros [b Hb]; discriminate Hb | intros (s & Hs & _); discriminate Hs]
    |intros e Heq; injection Heq as <-; reflexivity].
  destruct (decide (strip s = [])) as [Hblank|Hblank].
  - rewrite (bool_decide_eq_true_2 _ Hblank).
    destruct api_engine as [|t|z]; cbn [strip_method mbind res_bind].
    1,3: split;
      [split;
       [intros [b Hb]; discriminate Hb
       |intros (s' & Hs & [Hne|(t & Ht)]);
        [injection Hs as <-; contradiction | discriminate Ht]]
      |intros e Heq; injection Heq as <-; reflexivity].
    split; [split|intros e Heq; discriminate Heq].
    + intros _. exists s. split; [reflexivity|]. right. by exists t.
    + intros _. eexists. reflexivity.
  - rewrite (bool_decide_eq_false_2 _ Hblank).
    split; [split|intros e Heq; discriminate Heq].
    + intros _. exists s. split; [reflexivity|]. by left.
    + intros _. eexists. reflexivity.
Qed.

(** X11: The engine matcher needs text: it returns exactly when the local
    engine is a text and, if that text is blank, the other engine is a
    text too; in every other case it raises [AttributeError], the
    missing [strip] method of [None] or of a number. *)
Theorem engine_matcher_needs_text (local_engine api_engine : pyval)
    (raw : option raw_engine_data) :
  (returns (engine_features_match local_engine api_engine raw)
   <-> exists s, local_engine = PStr s
                 /\ (strip s ≠ [] \/ exists t, api_engine = PStr t))
  /\ (forall e, engine_features_match local_engine api_engine raw = Raise e ->
      exn_cls e = AttributeErrorExc).
Proof.
  destruct (both_texts_empty_cases local_engine api_engine) as [Hiff Hraise].
  unfold engine_features_match.
  destruct (both_texts_empty local_engine api_engine) as [b|e] eqn:Hboth;
    cbn [mbind res_bind].
  - split; [|by destruct b].
    rewrite <- Hiff. split; intros _; [by exists b|]. destruct b; by eexists.
  - split; [|intros e' Heq; injection Heq as <-; by apply Hraise].
    rewrite <- Hiff. split; intros [x Hx]; discriminate Hx.
Qed.

Example engine_matcher_on_numbers :
  exn_cls <$> (match engine_features_match (PInt 2) (PStr (u "2.0L")) None with
               | Raise e => Some e
               | Ret _ => None
               end) = Some AttributeErrorExc
  /\ returns (engine_features_match (PStr (u "2.0L")) PNone None).
Proof. split; [vm_compute; reflexivity|]. eexists. vm_compute. reflexivity. Qed.

(** ** When the comparator raises *)

Lemma compare_field_raises (local_data : gmap pystr pyval) (src : source_data)
    (source_name field : pystr) (e : exn) :
  compare_field local_data src source_name field = Raise e ->
  field = u "Engine"
  /\ exists source_val,
       src_fields src !! u "Engine" = Some source_val
       /\ engine_features_match (get_or_empty local_data (u "Engine")) source_val
            (engine_raw_argument src source_name) = Raise e.
Proof.
  unfold compare_field, engine_raw_argument.
  destruct (src_fields src !! field) as [source_val|] eqn:Hsrc; [|discriminate].
  destruct (str_eqb field (u "Manufacturer/Make")); [discriminate|].
  destruct (str_eqb field (u "Year")); [discriminate|].
  destruct (str_eqb field (u "Model")); [discriminate|].
  destruct (str_eqb field (u "Engine")) eqn:Hfield.
  - apply bool_decide_eq_true in Hfield. subst field.
    destruct (engine_features_match _ source_val _) as [[m an]|e'] eqn:Hm;
      cbn [mbind res_bind]; [discriminate|].
    intros Heq. injection Heq as <-. split; [reflexivity|]. by exists source_val.
  - destruct (str_eqb field (u "Transmission")); discriminate.
Qed.

Lemma compare_field_engine_raises (local_data : gmap pystr pyval) (src : source_data)
    (source_name : pystr) (source_val : pyval) (e : exn) :
  src_fields src !! u "Engine" = Some source_val ->
  engine_features_match (get_or_empty local_data (u "Engine")) source_val
    (engine_raw_argument src source_name) = Raise e ->
  compare_field local_data src source_name (u "Engine") = Raise e.
Proof.
  intros Hsrc Hm. unfold compare_field. rewrite Hsrc.
  change (str_eqb (u "Engine") (u "Manufacturer/Make")) with false.
  change (str_eqb (u "Engine") (u "Year")) with false.
  change (str_eqb (u "Engine") (u "Model")) with false.
  change (str_eqb (u "Engine") (u "Engine")) with true.
  cbn iota. fold (engine_raw_argument src source_name). rewrite Hm. reflexivity.
Qed.

Lemma compare_loop_raises (local_data : gmap pystr pyval) (src : source_data)
    (source_name : pystr) (todo : list pystr) (st : loop_state) (e : exn) :
  compare_loop local_data src source_name todo st = Raise e ->
  exists f, f ∈ todo /\ compare_field local_data src source_name f = Raise e.
Proof.
  revert st. induction todo as [|field later IH]; intros st; cbn [compare_loop];
    [discriminate|].
  destruct (compare_field local_data src source_name field) as [[entry engine]|e']
    eqn:Hfield; cbn [mbind res_bind].
  - intros Hloop. destruct (IH _ Hloop) as (f & Hf & Hraise).
    exists f. split; [by right | exact Hraise].
  - intros Heq. injection Heq as <-. exists field. split; [left | exact Hfield].
Qed.

Lemma compare_field_other_returns (local_data : gmap pystr pyval) (src : source_data)
    (source_name field : pystr) :
  field ≠ u "Engine" -> returns (compare_field local_data src source_name field).
Proof.
  intros Hne. apply compare_field_returns. intros Heq. by destruct Hne.
Qed.

(** X12: The comparator raises only through the engine matcher: exactly when
    the source record holds an engine and the matcher raises on the two
    engine values, and then with the matcher's exception.  No other
    field and no key lookup can fail. *)
Theorem comparison_raises_on_engine_only (local_data : gmap pystr pyval)
    (src : source_data) (result_template : comparison) (source_name : pystr)
    (e : exn) :
  compare_with_source local_data src result_template source_name = Raise e
  <-> exists source_val,
        src_fields src !! u "Engine" = Some source_val
        /\ engine_features_match (get_or_empty local_data (u "Engine")) source_val
             (engine_raw_argument src source_name) = Raise e.
Proof.
  unfold compare_with_source. split.
  - destruct (compare_loop _ _ _ _ _) as [st|e'] eqn:Hloop; cbn [mbind res_bind].
    + apply compare_loop_spec in Hloop as (_ & _ & Hsome);
        [|apply fields_to_check_NoDup].
      destruct (Hsome (u "Engine")) as [entry ->]; [by_evaluation|]. discriminate.
    + intros Heq. injection Heq as <-.
      apply compare_loop_raises in Hloop as (f & _ & Hraise).
      by apply compare_field_raises in Hraise as [_ ?].
  - intros (source_val & Hsrc & Hm).
    pose proof (compare_field_engine_raises _ _ _ _ _ Hsrc Hm) as Hengine.
    unfold fields_to_check. cbn [compare_loop].
    destruct (compare_field_other_returns local_data src source_name
                (u "Manufacturer/Make")) as [[e1 a1] ->]; [by_evaluation|].
    cbn [mbind res_bind].
    destruct (compare_field_other_returns local_data src source_name (u "Year"))
      as [[e2 a2] ->]; [by_evaluation|].
    cbn [mbind res_bind].
    destruct (compare_field_other_returns local_data src source_name (u "Model"))
      as [[e3 a3] ->]; [by_evaluation|].
    cbn [mbind res_bind]. rewrite Hengine. reflexivity.
Qed.

(** A reference record whose engine is a number, as a JSON file may
    hold it, makes the comparison against API data raise. *)
Example numeric_engine_raises :
  exists e,
    compare_with_source numeric_engine_local example_source base_result
      api_source_name = Raise e
    /\ exn_cls e = AttributeErrorExc.
Proof. eexists. split; vm_compute; reflexivity. Qed.

(** ** The displacement patterns *)

Lemma startswith_liter (s : pystr) :
  startswith (u "liter") s = true -> startswith (u "l") s = true.
Proof.
  change (u "liter") with [108; 105; 116; 101; 114].
  change (u "l") with [108].
  destruct s as [|c s]; cbn [startswith]; [discriminate|].
  intros Hs. apply andb_true_iff in Hs as [-> _]. reflexivity.
Qed.

Lemma pattern_liter_covered (s : pystr) :
  pattern_l_t s = None -> pattern_liter s = None.
Proof.
  unfold pattern_l_t, pattern_liter.
  destruct (match_number s) as [[g1 r]|]; cbn [mbind option_bind]; [|done].
  destruct (startswith (u "liter") (lstrip r)) eqn:Hliter; [|done].
  by rewrite (startswith_liter _ Hliter).
Qed.

Lemma re_search_covered (pat covered : pattern) (s : pystr) :
  (forall t, pat t = None -> covered t = None) ->
  re_search pat s = None -> re_search covered s = None.
Proof.
  intros Hcov. induction s as [|c s IH]; cbn [re_search].
  - destruct (pat []) eqn:Hp; [discriminate|]. by rewrite (Hcov _ Hp).
  - destruct (pat (c :: s)) eqn:Hp; [discriminate|]. rewrite (Hcov _ Hp). exact IH.
Qed.

(** X13: The third displacement pattern, a number before the word liter, is
    never the one that decides: wherever it matches, the first pattern
    matches too, on the letter l.  The displacement read from a text is
    that of the first two patterns alone. *)
Theorem liter_pattern_is_dead (engine_text : pyval) :
  displacement (extract_engine_features engine_text None)
  = search_displacement [pattern_l_t; pattern_cc] (normalize_text engine_text)
  /\ (forall text, re_search pattern_liter text ≠ None ->
                   re_search pattern_l_t text ≠ None).
Proof.
  split.
  - unfold extract_engine_features. cbn [displacement].
    unfold displacement_patterns. cbn [search_displacement].
    destruct (re_search pattern_l_t (normalize_text engine_text)) as [[g1 g2]|] eqn:H1;
      [reflexivity|].
    destruct (re_search pattern_cc (normalize_text engine_text)) as [[g1 g2]|];
      [reflexivity|].
    by rewrite (re_search_covered _ _ _ pattern_liter_covered H1).
  - intros text Hliter Hlt. apply Hliter.
    exact (re_search_covered _ _ _ pattern_liter_covered Hlt).
Qed.

(** A displacement written with the word liter is read by the first
    pattern; and so is any number that stands before a word in l or t. *)
Example displacement_readings :
  displacement (extract_engine_features (PStr (u "2.5 Liter V6")) None)
  = Some 2.5%float
  /\ displacement (extract_engine_features (PStr (u "4 turbo 2.0L")) None)
     = Some 4%float.
Proof. split; vm_compute; reflexivity. Qed.

(** ** The outcomes of the orchestrator *)

Lemma map_item_keeps (acc : vehicle * gmap pystr pyval) (it : item) :
  VIN (map_item acc it).1 = VIN acc.1
  /\ Data_Source (map_item acc it).1 = Data_Source acc.1.
Proof.
  destruct acc as [parsed_info api_raw_engine]. unfold map_item.
  repeat case_match; split; reflexivity.
Qed.

Lemma map_item_manufacturer (acc : vehicle * gmap pystr pyval) (it : item) :
  Manufacturer (map_item acc it).1
  = if str_eqb (Variable_ it) (u "Make") then shown_value it
    else Manufacturer acc.1.
Proof.
  destruct acc as [parsed_info api_raw_engine]. unfold map_item.
  fold (shown_value it).
  destruct (str_eqb (Variable_ it) (u "Make")); [reflexivity|].
  repeat case_match; reflexivity.
Qed.

Lemma map_item_year (acc : vehicle * gmap pystr pyval) (it : item) :
  Year (map_item acc it).1
  = if str_eqb (Variable_ it) (u "Model Year") then shown_value it
    else Year acc.1.
Proof.
  destruct acc as [parsed_info api_raw_engine]. unfold map_item.
  fold (shown_value it).
  destruct (str_eqb (Variable_ it) (u "Make")) eqn:E;
    [apply bool_decide_eq_true in E; rewrite E; reflexivity|clear E].
  destruct (str_eqb (Variable_ it) (u "Model Year")); [reflexivity|].
  repeat case_match; reflexivity.
Qed.

Lemma fold_map_item_fields (results : list item) (acc : vehicle * gmap pystr pyval) :
  VIN (fold_left map_item results acc).1 = VIN acc.1
  /\ Data_Source (fold_left map_item results acc).1 = Data_Source acc.1
  /\ Manufacturer (fold_left map_item results acc).1
     = fold_left
         (fun acc it => if str_eqb (Variable_ it) (u "Make") then shown_value it else acc)
         results (Manufacturer acc.1)
  /\ Year (fold_left map_item results acc).1
     = fold_left
         (fun acc it =>
            if str_eqb (Variable_ it) (u "Model Year") then shown_value it else acc)
         results (Year acc.1).
Proof.
  revert acc. induction results as [|it results IH]; intros acc; [done|].
  cbn [fold_left]. destruct (IH (map_item acc it)) as (-> & -> & -> & ->).
  destruct (map_item_keeps acc it) as [-> ->].
  by rewrite map_item_manufacturer, map_item_year.
Qed.

Lemma wmi_values_not_marker :
  Forall (fun entry => entry.2 ≠ NA) VinApiQuery.wmi_mapping.
Proof. by_evaluation. Qed.

Lemma year_values_not_marker :
  Forall (fun entry => str_of_int entry.2 ≠ NA) VinApiQuery.year_mapping.
Proof. by_evaluation. Qed.

(** The structural decoder never gives the not-available marker. *)
Lemma hard_decoded_not_marker (vin : pystr) (hd : hard_decoded) :
  hard_decode_vin vin = Ret hd -> manufacturer hd ≠ NA /\ year hd ≠ NA.
Proof.
  unfold hard_decode_vin. destruct (index vin 9) as [c|e]; cbn [mbind res_bind]; [|done].
  intros Hhd. apply Ret_inj in Hhd as <-. cbn [manufacturer year]. split.
  - destruct (assoc_get VinApiQuery.wmi_mapping (upper (take 3 vin))) as [m|] eqn:Hget;
      cbn [default]; [|by_evaluation].
    apply assoc_get_In in Hget.
    exact (proj1 (Forall_forall _ _) wmi_values_not_marker _ Hget).
  - destruct (assoc_get VinApiQuery.year_mapping (upper_char c)) as [y|] eqn:Hget;
      [|by_evaluation].
    apply assoc_get_In in Hget.
    exact (proj1 (Forall_forall _ _) year_values_not_marker _ Hget).
Qed.

Ltac field_step :=
  cbn [negb orb VIN Manufacturer Year Model Engine Transmission Data_Source
       set_Engine set_Manufacturer set_Transmission set_Data_Source set_Year].

Section Outcomes.
Context `{FloatText}.

(** The record of the standardizer, field by field: the service's
    manufacturer, title-cased, and year, each replaced by the structural
    decoder's when it is the marker; the source tag names the year
    fallback whenever the year fell back, the manufacturer fallback when
    only the manufacturer did. *)
Lemma parse_results_fields (vin : pystr) (results : list item) (v : vehicle)
    (hd : hard_decoded) :
  parse_results vin results = Ret v ->
  hard_decode_vin vin = Ret hd ->
  VIN v = upper vin
  /\ Manufacturer v
     = (if manufacturer_missing results then manufacturer hd
        else title (raw_manufacturer results))
  /\ Year v = (if str_eqb (raw_year results) NA then year hd else raw_year results)
  /\ Data_Source v
     = (if str_eqb (raw_year results) NA then year_fallback
        else if manufacturer_missing results then manufacturer_fallback
        else u "API").
Proof.
  unfold parse_results, manufacturer_missing, raw_manufacturer, raw_year.
  unfold year_fallback, manufacturer_fallback.
  intros Hv Hhd. rewrite Hhd in Hv.
  destruct (fold_map_item_fields results
    ({| VIN := upper vin; Manufacturer := NA; Year := NA; Model := NA;
        Engine := NA; Transmission := NA; Data_Source := u "API" |}, ∅))
    as (HVIN & Hsrc & Hmake & Hyear).
  destruct (fold_left map_item results _) as [parsed_info api_raw_engine].
  cbn [fst VIN Data_Source Manufacturer Year] in HVIN, Hsrc, Hmake, Hyear.
  destruct (extract_standardized_engine api_raw_engine) as [engine|e];
    cbn [mbind res_bind] in Hv; [|done].
  apply Ret_inj in Hv as <-. rewrite <- Hmake, <- Hyear.
  destruct parsed_info as [pVIN pMake pYear pModel pEngine pTrans pSource].
  cbn [VIN Data_Source Manufacturer Year] in HVIN, Hsrc |- *.
  subst pVIN pSource.
  unfold str_eqb. generalize NA. intros marker.
  cbn [set_Engine Manufacturer].
  destruct (decide (pMake = marker)) as [Em|Em];
    [rewrite (bool_decide_eq_true_2 _ Em) | rewrite (bool_decide_eq_false_2 _ Em)];
    field_step.
  - rewrite (bool_decide_eq_true_2 _ Em). field_step.
    destruct (decide (pYear = marker)) as [Ey|Ey];
      [rewrite (bool_decide_eq_true_2 _ Ey) | rewrite (bool_decide_eq_false_2 _ Ey)];
      field_step; split_and!; reflexivity.
  - generalize (title pMake). intros titled.
    destruct (decide (titled = marker)) as [Et|Et];
      [rewrite (bool_decide_eq_true_2 _ Et) | rewrite (bool_decide_eq_false_2 _ Et)];
      field_step;
      (destruct (decide (pYear = marker)) as [Ey|Ey];
       [rewrite (bool_decide_eq_true_2 _ Ey) | rewrite (bool_decide_eq_false_2 _ Ey)];
       field_step; split_and!; reflexivity).
Qed.

Lemma attempt_succeeds_inv (srv : service) (vin : pystr) (i : nat) :
  attempt_succeeds srv vin i = true ->
  exists it its v,
    srv i = RespJson (Some (it :: its)) /\ parse_results vin (it :: its) = Ret v.
Proof.
  unfold attempt_succeeds. destruct (srv i) as [e|[[|it its]|]]; try discriminate.
  destruct (parse_results vin (it :: its)) as [v|e] eqn:Hp; [|discriminate].
  intros _. exists it, its, v. split; [reflexivity | exact Hp].
Qed.

Lemma attempt_body_yield (srv : service) (vin : pystr) (i : nat) (st : state)
    (it : item) (its : list item) (v : vehicle) :
  srv i = RespJson (Some (it :: its)) ->
  parse_results vin (it :: its) = Ret v ->
  attempt_body srv vin i st
  = (Break, {| st_result := api_result v; api_success := true;
               trace := Get (api_url vin) 15 :: trace st |}).
Proof. intros Hs Hp. unfold attempt_body. rewrite Hs, Hp. reflexivity. Qed.

Lemma empty_data_text :
  u "API returned empty data; falling back to hard decode"
  = u "API returned empty data" ++ falling_back.
Proof. vm_compute. reflexivity. Qed.

(** An attempt after which the loop gives up leaves an error text that
    ends with the fallback notice. *)
Lemma attempt_body_gives_up (srv : service) (vin : pystr) (i : nat) (st : state) :
  attempt_succeeds srv vin i = false ->
  retried_simplified (srv i) = false \/ i = 2%nat ->
  exists why, error (st_result (attempt_body srv vin i st).2) = why ++ falling_back.
Proof.
  unfold attempt_body, attempt_succeeds, retried_simplified.
  change max_retries with 2%nat.
  destruct (srv i) as [e|[[|it its]|]]; cbn [is_timeout is_empty_result mbind res_bind orb].
  - intros _ Hend. destruct (exn_cls e).
    + destruct Hend as [?| ->]; [discriminate|]. cbn [Nat.ltb Nat.leb snd set_error st_result error].
      by eexists.
    + cbn [snd set_error st_result error]. eexists (_ ++ _). by rewrite <- app_assoc.
    + cbn [snd set_error st_result error]. eexists (_ ++ _). by rewrite <- app_assoc.
    + cbn [snd set_error st_result error]. eexists (_ ++ _). by rewrite <- app_assoc.
    + cbn [snd set_error st_result error]. eexists (_ ++ _). by rewrite <- app_assoc.
    + cbn [snd set_error st_result error]. eexists (_ ++ _). by rewrite <- app_assoc.
    + cbn [snd set_error st_result error]. eexists (_ ++ _). by rewrite <- app_assoc.
    + cbn [snd set_error st_result error]. eexists (_ ++ _). by rewrite <- app_assoc.
  - intros _ [?| ->]; [discriminate|]. cbn [Nat.ltb Nat.leb snd set_error st_result error].
    eexists. apply empty_data_text.
  - destruct (parse_results vin (it :: its)) as [p|e] eqn:Hp; [discriminate|].
    intros _ _. cbn [mbind res_bind].
    pose proof (parse_results_raises _ _ _ Hp) as Hcls.
    destruct (exn_cls e); [done|..];
      cbn [snd set_error st_result error]; eexists (_ ++ _); by rewrite <- app_assoc.
  - intros _ [?| ->]; [discriminate|]. cbn [Nat.ltb Nat.leb snd set_error st_result error].
    eexists. apply empty_data_text.
Qed.

Lemma remote_fails_intro (srv : service) (vin : pystr) :
  attempt_succeeds srv vin 0 = false ->
  (retried_simplified (srv 0%nat) = true -> attempt_succeeds srv vin 1 = false) ->
  (retried_simplified (srv 0%nat) = true -> retried_simplified (srv 1%nat) = true ->
   attempt_succeeds srv vin 2 = false) ->
  remote_fails srv vin.
Proof.
  intros H0 H1 H2 i Hi. destruct i as [|[|[|i]]]; cbn [attempt_made] in Hi.
  - exact H0.
  - by apply H1.
  - apply andb_true_iff in Hi as [? ?]. by apply H2.
  - discriminate.
Qed.

(** The loop ends in one of two ways: an attempt that was made yielded a
    record, which is then the result with an empty error; or no attempt
    did, and the result is as before but for an error text that ends
    with the fallback notice. *)
Lemma attempts_outcome (srv : service) (vin : pystr) (st : state) :
  let st' := attempts srv vin (seq 0 (max_retries + 1)) st in
  (exists i v, yields srv vin i v /\ st_result st' = api_result v
               /\ api_success st' = true)
  \/ (remote_fails srv vin /\ unchanged st st'
      /\ exists why, error (st_result st') = why ++ falling_back).
Proof.
  change (seq 0 (max_retries + 1)) with [0; 1; 2]%nat. cbn [attempts]. cbn zeta.
  destruct (attempt_succeeds srv vin 0) eqn:S0.
  { left. destruct (attempt_succeeds_inv _ _ _ S0) as (it & its & v & Hs & Hp).
    rewrite (attempt_body_yield _ _ _ st _ _ _ Hs Hp).
    exists 0%nat, v. split_and!; [split; [reflexivity|eauto] | reflexivity..]. }
  destruct (attempt_body_spec srv vin 0 st) as (_ & Hb0 & Hc0 & Hu0).
  specialize (Hu0 S0).
  pose proof (attempt_body_gives_up srv vin 0 st S0) as Hg0.
  destruct (attempt_body srv vin 0 st) as [t0 st0]. cbn [fst snd] in *.
  destruct (retried_simplified (srv 0%nat)) eqn:R0.
  2:{ rewrite (Hb0 eq_refl). right. split_and!; [|exact Hu0|apply Hg0; by left].
      apply remote_fails_intro; [exact S0|rewrite R0; discriminate..]. }
  rewrite (Hc0 eq_refl ltac:(lia)). clear Hb0 Hc0 Hg0.
  destruct (attempt_succeeds srv vin 1) eqn:S1.
  { left. destruct (attempt_succeeds_inv _ _ _ S1) as (it & its & v & Hs & Hp).
    rewrite (attempt_body_yield _ _ _ st0 _ _ _ Hs Hp).
    exists 1%nat, v. split_and!; [split; [exact R0|eauto] | reflexivity..]. }
  destruct (attempt_body_spec srv vin 1 st0) as (_ & Hb1 & Hc1 & Hu1).
  specialize (Hu1 S1).
  pose proof (attempt_body_gives_up srv vin 1 st0 S1) as Hg1.
  destruct (attempt_body srv vin 1 st0) as [t1 st1]. cbn [fst snd] in *.
  destruct (retried_simplified (srv 1%nat)) eqn:R1.
  2:{ rewrite (Hb1 eq_refl). right.
      split_and!; [|by eapply unchanged_trans|apply Hg1; by left].
      apply remote_fails_intro; [exact S0|intros _; exact S1|rewrite R1; discriminate]. }
  rewrite (Hc1 eq_refl ltac:(lia)). clear Hb1 Hc1 Hg1.
  destruct (attempt_succeeds srv vin 2) eqn:S2.
  { left. destruct (attempt_succeeds_inv _ _ _ S2) as (it & its & v & Hs & Hp).
    rewrite (attempt_body_yield _ _ _ st1 _ _ _ Hs Hp).
    exists 2%nat, v. split_and!; [split; [|eauto] | reflexivity..].
    cbn [attempt_made]. by rewrite R0, R1. }
  destruct (attempt_body_spec srv vin 2 st1) as (_ & _ & _ & Hu2).
  specialize (Hu2 S2).
  pose proof (attempt_body_gives_up srv vin 2 st1 S2 (or_intror eq_refl)) as Hg2.
  destruct (attempt_body srv vin 2 st1) as [t2 st2]. cbn [fst snd] in *.
  assert (remote_fails srv vin /\ unchanged st st2
          /\ exists why, error (st_result st2) = why ++ falling_back) as Hfail.
  { split_and!; [|eapply unchanged_trans; [|exact Hu2]; by eapply unchanged_trans|exact Hg2].
    apply remote_fails_intro; [exact S0|intros _; exact S1|intros _ _; exact S2]. }
  destruct t2; right; exact Hfail.
Qed.

Lemma decode_vin_simplified_cases (srv : service) (vin : pystr) :
  (validate_vin vin).1 = true ->
  exists hd r,
    hard_decode_vin vin = Ret hd
    /\ decode_vin_simplified srv vin
       = Ret (r, schedule retried_simplified srv (api_url vin))
    /\ ((exists i v, yields srv vin i v /\ r = api_result v)
        \/ (remote_fails srv vin
            /\ vehicle_info r = Some (structural_record vin hd)
            /\ success r = str_eqb (decode_status hd) (u "success")
            /\ exists why, error r = why ++ falling_back)).
Proof.
  intros Hvalid.
  destruct (hard_decode_vin_returns vin (validate_vin_true_length vin Hvalid))
    as [hd Hhd].
  exists hd. unfold decode_vin_simplified.
  destruct (validate_vin vin) as [vin_valid vin_msg]. cbn [fst] in Hvalid.
  subst vin_valid. cbn [negb].
  match goal with
  | |- context [attempts srv vin _ ?st0] =>
      destruct (attempts_spec srv vin st0) as [Htrace _];
      pose proof (attempts_outcome srv vin st0) as Hout
  end.
  cbn zeta in Htrace, Hout. cbn [trace rev app] in Htrace.
  destruct (attempts srv vin _ _) as [res ok tr]. cbn [trace api_success st_result] in *.
  rewrite Htrace, Hhd. cbn [mbind res_bind].
  destruct Hout as [(i & v & Hy & Hres & Hok)|(Hfail & (Hok & _ & Hinfo) & Herr)];
    cbn [api_success st_result vehicle_info] in *; subst ok; cbn [negb].
  - subst res. eexists. split_and!; [done | reflexivity |]. left. by exists i, v.
  - eexists. split_and!; [done | reflexivity |]. right.
    cbn [vehicle_info success error]. rewrite Hinfo. split_and!; done.
Qed.

Lemma yields_unique (srv : service) (vin : pystr) (i j : nat) (v w : vehicle) :
  yields srv vin i v -> yields srv vin j w -> i = j /\ v = w.
Proof.
  intros (Hi & it & its & Hs & Hp) (Hj & jt & jts & Hs' & Hp').
  assert (forall k, (exists a b, srv k = RespJson (Some (a :: b))) ->
                    retried_simplified (srv k) = false) as Hstop.
  { intros k (a & b & ->). reflexivity. }
  pose proof (Hstop i ltac:(eauto)) as Ri. pose proof (Hstop j ltac:(eauto)) as Rj.
  assert (i = j) as <-.
  { destruct i as [|[|[|i]]], j as [|[|[|j]]]; cbn [attempt_made] in Hi, Hj;
      try discriminate; try reflexivity;
      revert Hi Hj; rewrite ?Ri, ?Rj, ?andb_false_r, ?andb_false_l; congruence. }
  split; [reflexivity|]. rewrite Hs in Hs'. injection Hs' as <- <-.
  rewrite Hp in Hp'. by apply Ret_inj in Hp'.
Qed.

Lemma falling_back_not_nil (why : pystr) : why ++ falling_back ≠ [].
Proof. intros Hnil. apply app_eq_nil in Hnil as [_ Hnil]. revert Hnil. by_evaluation. Qed.

End Outcomes.

Lemma source_tags_differ :
  u "API" ≠ year_fallback /\ u "API" ≠ manufacturer_fallback
  /\ manufacturer_fallback ≠ year_fallback
  /\ u "API" ≠ hard_decode_source /\ manufacturer_fallback ≠ hard_decode_source
  /\ year_fallback ≠ hard_decode_source.
Proof. split_and!; by_evaluation. Qed.

Section OutcomeTheorems.
Context `{FloatText}.

Lemma parse_results_resolved (vin : pystr) (results : list item) (v : vehicle) :
  parse_results vin results = Ret v ->
  VIN v = upper vin /\ Manufacturer v ≠ NA /\ Year v ≠ NA
  /\ Data_Source v ∈ [u "API"; manufacturer_fallback; year_fallback].
Proof.
  intros Hv.
  assert (exists hd, hard_decode_vin vin = Ret hd) as [hd Hhd].
  { unfold parse_results in Hv.
    destruct (fold_left map_item results _) as [parsed_info api_raw_engine].
    destruct (extract_standardized_engine api_raw_engine) as [engine|e];
      cbn [mbind res_bind] in Hv; [|discriminate].
    destruct (hard_decode_vin vin) as [hd|e]; [by exists hd|discriminate]. }
  destruct (parse_results_fields _ _ _ _ Hv Hhd) as (-> & -> & -> & ->).
  destruct (hard_decoded_not_marker _ _ Hhd) as [Hm Hy].
  unfold manufacturer_missing, str_eqb. revert Hm Hy.
  generalize (title (raw_manufacturer results)) (raw_manufacturer results)
    (raw_year results) (manufacturer hd) (year hd) (u "API") manufacturer_fallback
    year_fallback NA.
  intros titled raw_m raw_y m y api mf yf marker Hm Hy.
  split_and!; [reflexivity | | |].
  - repeat case_bool_decide; cbn [orb]; assumption.
  - case_bool_decide; assumption.
  - repeat case_bool_decide; cbn [orb]; rewrite !elem_of_cons; auto.
Qed.

(** X14: The orchestrator returns a result dict for every service and every
    text, a valid VIN or not.  For a text the validator refuses it asks
    nothing of the service and returns the validator's message with an
    empty record; for a valid VIN it makes the requests of its schedule
    and returns a record that carries the VIN in upper case. *)
Theorem decode_vin_simplified_never_raises (srv : service) (vin : pystr) :
  exists r tr,
    decode_vin_simplified srv vin = Ret (r, tr)
    /\ ((validate_vin vin).1 = false ->
        tr = []
        /\ r = {| success := false; vehicle_info := None;
                  error := (validate_vin vin).2 |})
    /\ ((validate_vin vin).1 = true ->
        tr = schedule retried_simplified srv (api_url vin)
        /\ exists v, vehicle_info r = Some v /\ VIN v = upper vin).
Proof.
  destruct (validate_vin vin).1 eqn:Hvalid.
  - destruct (decode_vin_simplified_cases srv vin Hvalid)
      as (hd & r & Hhd & Hrun & Hcases).
    exists r, (schedule retried_simplified srv (api_url vin)).
    split_and!; [exact Hrun | discriminate |]. intros _. split; [reflexivity|].
    destruct Hcases as [(i & v & (_ & it & its & _ & Hv) & ->)|(_ & Hinfo & _)].
    + exists v. split; [reflexivity|].
      by destruct (parse_results_resolved _ _ _ Hv) as (HVIN & _).
    + exists (structural_record vin hd). split; [exact Hinfo | reflexivity].
  - unfold decode_vin_simplified.
    destruct (validate_vin vin) as [vin_valid vin_msg]. cbn [fst snd] in *.
    subst vin_valid. cbn [negb]. eexists _, _. split_and!; [reflexivity | | discriminate].
    intros _. split; reflexivity.
Qed.

(** X15: For a valid VIN the result is one of two: the record of the first
    attempt that yields one, with success true and an empty error; or
    the structural fallback, with an error text that ends with the
    fallback notice.  So the error is empty exactly when the record
    comes from the service. *)
Theorem api_record_or_fallback (srv : service) (vin : pystr) :
  (validate_vin vin).1 = true ->
  exists r tr,
    decode_vin_simplified srv vin = Ret (r, tr)
    /\ ((exists i v, yields srv vin i v /\ r = api_result v)
        \/ (remote_fails srv vin
            /\ (Data_Source <$> vehicle_info r) = Some hard_decode_source
            /\ exists why, error r = why ++ falling_back))
    /\ (error r = [] <-> exists i v, yields srv vin i v)
    /\ (forall i v, yields srv vin i v -> r = api_result v).
Proof.
  intros Hvalid.
  destruct (decode_vin_simplified_cases srv vin Hvalid)
    as (hd & r & Hhd & Hrun & Hcases).
  exists r, (schedule retried_simplified srv (api_url vin)).
  split; [exact Hrun|].
  destruct Hcases as [(i & v & Hy & ->)|(Hfail & Hinfo & _ & why & Herr)].
  - split_and!.
    + left. by exists i, v.
    + split; [intros _; by exists i, v | reflexivity].
    + intros j w Hj. by destruct (yields_unique _ _ _ _ _ _ Hy Hj) as [_ ->].
  - assert (forall i v, ¬ yields srv vin i v) as Hnone.
    { intros i v (Hmade & it & its & Hs & Hp).
      specialize (Hfail i Hmade). unfold attempt_succeeds in Hfail.
      rewrite Hs, Hp in Hfail. discriminate. }
    split_and!.
    + right. split_and!; [exact Hfail | by rewrite Hinfo | by exists why].
    + split.
      * intros Hnil. rewrite Herr in Hnil. by apply falling_back_not_nil in Hnil.
      * intros (i & v & Hy). by apply Hnone in Hy.
    + intros i v Hy. by apply Hnone in Hy.
Qed.

(** X16: For a valid VIN the record always names a manufacturer and a year:
    neither is ever the not-available marker, whether it comes from the
    service or from the structural decoder, and the source tag is one of
    four. *)
Theorem critical_fields_resolved (srv : service) (vin : pystr) (r : result)
    (tr : list event) :
  (validate_vin vin).1 = true ->
  decode_vin_simplified srv vin = Ret (r, tr) ->
  exists v,
    vehicle_info r = Some v
    /\ VIN v = upper vin
    /\ Manufacturer v ≠ NA /\ Year v ≠ NA
    /\ Data_Source v ∈ [u "API"; manufacturer_fallback; year_fallback;
                        hard_decode_source].
Proof.
  intros Hvalid Hrun.
  destruct (decode_vin_simplified_cases srv vin Hvalid)
    as (hd & r' & Hhd & Hrun' & Hcases).
  rewrite Hrun in Hrun'. apply Ret_inj in Hrun'. injection Hrun' as <- _.
  destruct Hcases as [(i & v & (_ & it & its & _ & Hv) & ->)|(_ & Hinfo & _)].
  - exists v. destruct (parse_results_resolved _ _ _ Hv) as (HVIN & Hm & Hy & Hsrc).
    split_and!; [reflexivity | exact HVIN | exact Hm | exact Hy |].
    revert Hsrc. generalize (Data_Source v) (u "API") manufacturer_fallback
      year_fallback hard_decode_source.
    intros tag api mf yf hds. rewrite !elem_of_cons. tauto.
  - exists (structural_record vin hd).
    destruct (hard_decoded_not_marker _ _ Hhd) as [Hm Hy].
    split_and!; [exact Hinfo | reflexivity | exact Hm | exact Hy |].
    cbn [structural_record Data_Source].
    generalize (u "API") manufacturer_fallback year_fallback hard_decode_source.
    intros api mf yf hds. rewrite !elem_of_cons. auto.
Qed.

(** X17: What the source tag of a standardized record tells.  It is the
    plain tag exactly when the service gave a usable manufacturer and a
    year.  When both fell back to the structural decoder the tag names
    the year only. *)
Theorem source_tag_meaning (vin : pystr) (results : list item) (v : vehicle)
    (hd : hard_decoded) :
  parse_results vin results = Ret v ->
  hard_decode_vin vin = Ret hd ->
  (Data_Source v = u "API"
   <-> raw_year results ≠ NA /\ manufacturer_missing results = false)
  /\ (raw_year results = NA -> manufacturer_missing results = true ->
      Data_Source v = year_fallback
      /\ Manufacturer v = manufacturer hd /\ Year v = year hd)
  /\ (Data_Source v = manufacturer_fallback ->
      Manufacturer v = manufacturer hd /\ Year v = raw_year results).
Proof.
  intros Hv Hhd.
  destruct (parse_results_fields _ _ _ _ Hv Hhd) as (_ & -> & -> & ->).
  destruct source_tags_differ as (H1 & H2 & H3 & _).
  unfold str_eqb. generalize (manufacturer_missing results). intros missing.
  revert H1 H2 H3.
  generalize (u "API") year_fallback manufacturer_fallback (raw_year results) NA.
  intros api yf mf y marker H1 H2 H3.
  case_bool_decide as Hy; destruct missing; split_and!; try done;
    try (split; [done|intros [? ?]; done]); try (intros; congruence).
Qed.

End OutcomeTheorems.

Lemma api_record_or_fallback_witness :
  exists r tr,
    @decode_vin_simplified decimal_text (late_answer dual_clutch)
      (u "3VW2K7AJ9FM123456") = Ret (r, tr)
    /\ error r = [].
Proof.
  destruct (@api_record_or_fallback decimal_text (late_answer dual_clutch)
              (u "3VW2K7AJ9FM123456"))
    as (r & tr & Hrun & _ & Herr & _); [vm_compute; reflexivity|].
  exists r, tr. split; [exact Hrun|]. apply Herr.
  eexists 1%nat, _. split; [vm_compute; reflexivity|].
  eexists _, _. split; [reflexivity|]. vm_compute. reflexivity.
Defined.

Lemma critical_fields_resolved_witness :
  exists r tr v,
    @decode_vin_simplified decimal_text (always model_only)
      (u "1HGCM8263KA004352") = Ret (r, tr)
    /\ vehicle_info r = Some v
    /\ Manufacturer v ≠ NA /\ Year v ≠ NA.
Proof.
  eassert (@decode_vin_simplified decimal_text (always model_only)
             (u "1HGCM8263KA004352") = Ret (_, _)) as Hrun
    by (vm_compute; reflexivity).
  assert ((validate_vin (u "1HGCM8263KA004352")).1 = true) as Hvalid
    by (vm_compute; reflexivity).
  destruct (@critical_fields_resolved decimal_text (always model_only)
              (u "1HGCM8263KA004352") _ _ Hvalid Hrun)
    as (v & Hinfo & _ & Hm & Hy & _).
  eexists _, _, v. split_and!; [exact Hrun | exact Hinfo | exact Hm | exact Hy].
Defined.

Lemma source_tag_meaning_witness :
  exists v,
    @parse_results decimal_text (u "1HGCM8263KA004352") model_only = Ret v
    /\ Data_Source v = year_fallback
    /\ Manufacturer v = u "Honda" /\ Year v = u "2019".
Proof.
  eassert (@parse_results decimal_text (u "1HGCM8263KA004352") model_only = Ret _)
    as Hv by (vm_compute; reflexivity).
  eassert (hard_decode_vin (u "1HGCM8263KA004352") = Ret _) as Hhd
    by (vm_compute; reflexivity).
  destruct (@source_tag_meaning decimal_text _ _ _ _ Hv Hhd) as (_ & Hboth & _).
  destruct Hboth as (Hsrc & Hm & Hy); [vm_compute; reflexivity..|].
  eexists. split_and!; [exact Hv | exact Hsrc | |].
  - rewrite Hm. vm_compute. reflexivity.
  - rewrite Hy. vm_compute. reflexivity.
Defined.

(** ** The litres and the cubic centimetres *)

Lemma map_item_litres (acc : vehicle * gmap pystr pyval) (it : item) :
  (map_item acc it).2 !! u "Displacement (L)"
  = if str_eqb (Variable_ it) (u "Displacement (L)") then Some (kept_value it)
    else acc.2 !! u "Displacement (L)".
Proof.
  destruct acc as [parsed_info api_raw_engine]. unfold map_item.
  fold (kept_value it).
  destruct (str_eqb (Variable_ it) (u "Make")) eqn:E;
    [apply bool_decide_eq_true in E; rewrite E; reflexivity|clear E].
  destruct (str_eqb (Variable_ it) (u "Model Year")) eqn:E;
    [apply bool_decide_eq_true in E; rewrite E; reflexivity|clear E].
  destruct (str_eqb (Variable_ it) (u "Model")) eqn:E;
    [apply bool_decide_eq_true in E; rewrite E; reflexivity|clear E].
  case_bool_decide as Ht.
  { assert (str_eqb (Variable_ it) (u "Displacement (L)") = false) as ->;
      [|reflexivity].
    apply bool_decide_eq_false_2. intros Heq. rewrite Heq in Ht.
    revert Ht. by_evaluation. }
  unfold str_eqb. case_bool_decide as He; cbn [snd].
  - case_bool_decide as Hl.
    + rewrite Hl. by rewrite lookup_insert_eq.
    + by rewrite lookup_insert_ne.
  - rewrite bool_decide_eq_false_2; [reflexivity|].
    intros Heq. apply He. rewrite Heq. by_evaluation.
Qed.

Lemma fold_map_item_litres (results : list item) (acc : vehicle * gmap pystr pyval) :
  (fold_left map_item results acc).2 !! u "Displacement (L)"
  = fold_left
      (fun found it =>
         if str_eqb (Variable_ it) (u "Displacement (L)") then Some (kept_value it)
         else found)
      results (acc.2 !! u "Displacement (L)").
Proof.
  revert acc. induction results as [|it results IH]; intros acc; [done|].
  cbn [fold_left]. by rewrite IH, map_item_litres.
Qed.

Lemma dict_get_kept (d : gmap pystr pyval) (k : pystr) (it : item) :
  d !! k = Some (kept_value it) -> dict_get d k = Some (kept_value it).
Proof.
  unfold dict_get. intros ->. unfold kept_value. by destruct (Value it).
Qed.

Lemma last_kept_value (results : list item) (val : pyval) :
  last_value (u "Displacement (L)") results = Some val ->
  fold_left
    (fun found it =>
       if str_eqb (Variable_ it) (u "Displacement (L)") then Some (kept_value it)
       else found)
    results None
  = Some (kept_value {| Variable_ := u "Displacement (L)"; Value := val |}).
Proof.
  unfold last_value. revert val.
  induction results as [|it results IH] using rev_ind; intros val; [done|].
  rewrite !fold_left_app. cbn [fold_left]. unfold str_eqb.
  case_bool_decide; [|by apply IH]. intros [= <-]. reflexivity.
Qed.

Section Litres.
Context `{FloatText}.

(** The engine text of the standardized record is the standardizer's,
    on the engine values the item loop kept. *)
Lemma parse_results_engine (vin : pystr) (results : list item) (v : vehicle) :
  parse_results vin results = Ret v ->
  exists parsed_info api_raw_engine,
    fold_left map_item results
      ({| VIN := upper vin; Manufacturer := NA; Year := NA; Model := NA;
          Engine := NA; Transmission := NA; Data_Source := u "API" |}, ∅)
    = (parsed_info, api_raw_engine)
    /\ extract_standardized_engine api_raw_engine = Ret (Engine v).
Proof.
  unfold parse_results.
  destruct (fold_left map_item results _) as [parsed_info api_raw_engine].
  destruct (extract_standardized_engine api_raw_engine) as [engine|e] eqn:He;
    cbn [mbind res_bind]; [|discriminate].
  destruct (hard_decode_vin vin) as [hd|e]; cbn [mbind res_bind]; [|discriminate].
  intros Hv. apply Ret_inj in Hv as <-.
  exists parsed_info, api_raw_engine. split; [reflexivity|]. rewrite He. f_equal.
  destruct parsed_info as [pVIN pMake pYear pModel pEngine pTrans pSource].
  unfold str_eqb. generalize NA. intros marker.
  cbn [set_Engine Manufacturer].
  destruct (bool_decide (pMake = marker)); field_step;
    repeat (match goal with
            | |- context [bool_decide ?P] => destruct (bool_decide P)
            end; field_step); reflexivity.
Qed.

(** X18: When [float] refuses the litres the item loop kept, the engine text
    shows them as they are and the cubic centimetres are not looked at.
    The loop keeps the marker text for a [null], so [null] litres give
    a displacement of N/A whatever the cubic centimetres say. *)
Theorem refused_litres_hide_cc (vin : pystr) (results : list item) (v : vehicle)
    (val : pyval) (e : exn) :
  parse_results vin results = Ret v ->
  last_value (u "Displacement (L)") results = Some val ->
  float_of_value (kept_value {| Variable_ := u "Displacement (L)"; Value := val |})
  = Raise e ->
  exists fuel,
    Engine v
    = u "Displacement: "
        ++ str (kept_value {| Variable_ := u "Displacement (L)"; Value := val |})
        ++ u "; Fuel Type: " ++ fuel.
Proof.
  intros Hv Hlast Hfloat.
  destruct (parse_results_engine _ _ _ Hv) as (parsed_info & api_raw_engine & Hfold & He).
  pose proof (fold_map_item_litres results
    ({| VIN := upper vin; Manufacturer := NA; Year := NA; Model := NA;
        Engine := NA; Transmission := NA; Data_Source := u "API" |}, ∅)) as Hl.
  rewrite Hfold in Hl. cbn [snd] in Hl. rewrite lookup_empty in Hl.
  rewrite (last_kept_value _ _ Hlast) in Hl. apply dict_get_kept in Hl.
  revert He. unfold extract_standardized_engine. rewrite Hl. cbv zeta.
  rewrite Hfloat. cbn [mbind res_bind try_except].
  match goal with
  | |- (?fuel ≫= _) = _ -> _ => destruct fuel as [standardized_fuel|e']
  end; cbn [mbind res_bind]; [|discriminate].
  intros Heq. apply Ret_inj in Heq as <-. by exists standardized_fuel.
Qed.

End Litres.

Lemma refused_litres_hide_cc_witness :
  exists v,
    @parse_results decimal_text (u "1HGCM8263KA004352") null_litres = Ret v
    /\ Engine v = u "Displacement: N/A; Fuel Type: Gasoline".
Proof.
  eassert (@parse_results decimal_text (u "1HGCM8263KA004352") null_litres = Ret _)
    as Hv by (vm_compute; reflexivity).
  destruct (@refused_litres_hide_cc decimal_text _ _ _ PNone
              (Exn ValueErrorExc (u "could not convert string to float")) Hv)
    as [fuel Hfuel]; [vm_compute; reflexivity..|].
  eexists. split; [exact Hv|]. vm_compute. reflexivity.
Defined.

(** ** The command-line block *)

Section CommandLine.
Context `{FloatText}.

Lemma validate_vin_short (vin : pystr) :
  (length vin < 17)%nat -> (validate_vin vin).1 = false.
Proof.
  intros Hlen. unfold validate_vin.
  destruct (Nat.eqb_spec (length vin) 17); [lia|reflexivity].
Qed.

(** X19: The command-line block ends in an exception exactly when the text
    typed, stripped, has fewer than ten characters: the decoding fails
    on the length, and the failure branch calls the structural decoder
    on the same text, which reads its tenth character.  For any longer
    text, valid or not, the block prints a record or a failure. *)
Theorem main_block_raises_iff (srv : service) (typed : pystr) :
  ((length (strip typed) < 10)%nat ->
   main_block srv typed
   = Raise (Exn IndexErrorExc (u "string index out of range")))
  /\ ((10 <= length (strip typed))%nat -> returns (main_block srv typed)).
Proof.
  unfold main_block. generalize (strip typed). intros input_vin. split; intros Hlen.
  - unfold decode_vin_simplified.
    pose proof (validate_vin_short input_vin ltac:(lia)) as Hvalid.
    destruct (validate_vin input_vin) as [vin_valid vin_msg]. cbn [fst] in Hvalid.
    subst vin_valid. cbn [negb mbind res_bind success].
    unfold hard_decode_vin, index.
    rewrite (proj2 (lookup_ge_None input_vin 9)) by lia. reflexivity.
  - assert (returns (hard_decode_vin input_vin)) as [hd Hhd].
    { unfold hard_decode_vin, index.
      destruct (input_vin !! 9%nat) as [c|] eqn:Hc; [by eexists|].
      apply lookup_ge_None in Hc. lia. }
    destruct (validate_vin input_vin).1 eqn:Hvalid.
    + destruct (decode_vin_simplified_cases srv input_vin Hvalid)
        as (hd' & r & _ & -> & Hcases).
      cbn [mbind res_bind]. rewrite Hhd.
      destruct (success r) eqn:Hs; [|by eexists].
      destruct Hcases as [(i & v & _ & ->)|(_ & -> & _)]; by eexists.
    + unfold decode_vin_simplified.
      destruct (validate_vin input_vin) as [vin_valid vin_msg]. cbn [fst] in Hvalid.
      subst vin_valid. cbn [negb mbind res_bind success]. rewrite Hhd. by eexists.
Qed.

End CommandLine.

Lemma main_block_raises_iff_witness :
  @main_block decimal_text always_times_out (u " 1HG ")
  = Raise (Exn IndexErrorExc (u "string index out of range"))
  /\ returns (@main_block decimal_text always_times_out (u "1HGCM8263K")).
Proof.
  split.
  - apply (@main_block_raises_iff decimal_text). vm_compute. lia.
  - apply (@main_block_raises_iff decimal_text). vm_compute. lia.
Defined.

(** ** The field mapper *)

Section Mapper.
Context `{FloatText}.

Lemma store_item_insert (api_data : gmap pystr (option api_value)) (it : item) :
  exists w, store_item api_data it = <[Variable_ it := w]> api_data.
Proof. unfold store_item. case_bool_decide; by eexists. Qed.

Lemma api_get_insert (api_data : gmap pystr (option api_value)) (k key : pystr)
    (w : option api_value) :
  api_get (<[k := w]> api_data) key
  = if str_eqb k key then api_get (<[k := w]> ∅) k else api_get api_data key.
Proof.
  unfold api_get, str_eqb. case_bool_decide as Hk.
  - subst key. by rewrite !lookup_insert_eq.
  - by rewrite lookup_insert_ne.
Qed.

(** What [api_data.get(key)] gives after the loop over the items. *)
Lemma api_get_store_item (api_data : gmap pystr (option api_value)) (it : item)
    (key : pystr) :
  api_get (store_item api_data it) key
  = if str_eqb (Variable_ it) key then stored (Variable_ it) (Value it)
    else api_get api_data key.
Proof.
  unfold stored.
  destruct (store_item_insert api_data it) as [w Hw].
  destruct (store_item_insert ∅ {| Variable_ := Variable_ it; Value := Value it |})
    as [w' Hw'].
  assert (w' = w) as ->.
  { revert Hw Hw'. unfold store_item. cbn [Variable_ Value].
    case_bool_decide; intros Hw Hw'.
    - apply (f_equal (lookup (Variable_ it))) in Hw, Hw'.
      rewrite !lookup_insert_eq in Hw, Hw'. congruence.
    - apply (f_equal (lookup (Variable_ it))) in Hw, Hw'.
      rewrite !lookup_insert_eq in Hw, Hw'. congruence. }
  rewrite Hw, Hw'. cbn [Variable_]. rewrite api_get_insert.
  unfold str_eqb. case_bool_decide; [|reflexivity].
  rewrite (api_get_insert ∅). unfold str_eqb. by rewrite bool_decide_eq_true_2.
Qed.

Lemma api_get_fold (results : list item) (key : pystr) :
  api_get (fold_left store_item results ∅) key
  = last_value key results ≫= stored key.
Proof.
  unfold last_value. induction results as [|it results IH] using rev_ind; [done|].
  rewrite !fold_left_app. cbn [fold_left]. rewrite api_get_store_item, IH.
  unfold str_eqb. case_bool_decide as Hk; [by subst key|reflexivity].
Qed.

Lemma fold_store_item_size (results : list item) :
  results ≠ [] -> (size (fold_left store_item results ∅) =? 0)%nat = false.
Proof.
  destruct results as [|it results] using rev_ind; [done|]. intros _.
  rewrite fold_left_app. cbn [fold_left].
  destruct (store_item_insert (fold_left store_item results ∅) it) as [w ->].
  apply Nat.eqb_neq. intros Hsize. apply map_size_empty_iff in Hsize.
  by apply insert_non_empty in Hsize.
Qed.

Lemma last_value_text (results : list item) (key : pystr) (v : pyval) :
  Forall (fun it => text_or_null (Value it)) results ->
  last_value key results = Some v -> text_or_null v.
Proof.
  unfold last_value. intros Hres. revert v.
  induction results as [|it results IH] using rev_ind; intros v; [done|].
  apply Forall_app in Hres as [Hres Hit].
  pose proof (proj1 (Forall_singleton _ _) Hit) as Hvalue.
  rewrite fold_left_app. cbn [fold_left]. unfold str_eqb.
  case_bool_decide; [|by apply IH]. intros [= <-]. exact Hvalue.
Qed.

(** The stored value of a text or [null], by the name of the item. *)
Lemma stored_text (var : pystr) (s : pystr) :
  var ∉ [u "Displacement (L)"; u "Displacement (CC)"] ->
  stored var (PStr s) = Some (Raw (PStr s)).
Proof.
  intros Hvar. unfold stored, store_item, api_get. cbn [Variable_ Value].
  rewrite (bool_decide_eq_false_2 _ Hvar). by rewrite lookup_insert_eq.
Qed.

Lemma stored_null (var : pystr) : stored var PNone = None.
Proof.
  unfold stored, store_item, api_get. cbn [Variable_ Value].
  case_bool_decide; rewrite lookup_insert_eq; [|reflexivity].
  rewrite (bool_decide_eq_false_2 (PNone ≠ PNone)) by (intros Hne; by apply Hne).
  reflexivity.
Qed.

Lemma stored_displacement (var : pystr) (s : pystr) :
  var ∈ [u "Displacement (L)"; u "Displacement (CC)"] ->
  stored var (PStr s)
  = if str_eqb (strip s) [] then None
    else match float_of_str s with
         | Ret x => Some (Num x)
         | Raise _ => Some (Raw (PStr s))
         end.
Proof.
  intros Hvar. unfold stored, store_item, api_get. cbn [Variable_ Value str].
  rewrite (bool_decide_eq_true_2 _ Hvar), lookup_insert_eq.
  rewrite (bool_decide_eq_true_2 (PStr s ≠ PNone)) by discriminate.
  cbn [andb]. destruct (str_eqb (strip s) []); cbn [negb]; [reflexivity|].
  cbn [VinApiQuery.float_of_value]. by destruct (float_of_str s).
Qed.

(** What the mapper reads under a displacement key, by the service's
    last value of that name. *)
Lemma displacement_read (results : list item) (key : pystr) :
  Forall (fun it => text_or_null (Value it)) results ->
  key ∈ [u "Displacement (L)"; u "Displacement (CC)"] ->
  let read := api_get (fold_left store_item results ∅) key in
  (blank_value (last_value key results) /\ read = None)
  \/ (unparseable (last_value key results)
      /\ exists s, read = Some (Raw (PStr s)))
  \/ (¬ blank_value (last_value key results)
      /\ ¬ unparseable (last_value key results)
      /\ exists x, read = Some (Num x)).
Proof.
  intros Hres Hkey. cbn zeta. rewrite api_get_fold.
  destruct (last_value key results) as [v|] eqn:Hlast; cbn [mbind option_bind];
    [|left; split; [by left | reflexivity]].
  pose proof (last_value_text _ _ _ Hres Hlast) as Htext.
  destruct v as [|s|z]; [|clear Htext|done].
  { left. split; [right; by left | apply stored_null]. }
  rewrite (stored_displacement _ _ Hkey). unfold str_eqb.
  case_bool_decide as Hblank.
  { left. split; [|reflexivity]. right. right. by exists s. }
  assert (¬ blank_value (Some (PStr s))) as Hnb.
  { intros [Hn|[Hn|(s' & Hs & Hb)]]; [discriminate Hn..|].
    injection Hs as <-. contradiction. }
  destruct (float_of_str s) as [x|e] eqn:Hfloat.
  - right. right. split_and!; [exact Hnb | | by exists x].
    intros (s' & e & Hs & _ & Hraise). injection Hs as <-. congruence.
  - right. left. split; [by exists s, e | by exists s].
Qed.

(** What the mapper reads under any other key: nothing, or a text. *)
Lemma text_read (results : list item) (key : pystr) :
  Forall (fun it => text_or_null (Value it)) results ->
  key ∉ [u "Displacement (L)"; u "Displacement (CC)"] ->
  stripped_or_empty (fold_left store_item results ∅) key
  = Ret (match last_value key results with
         | Some (PStr s) => strip s
         | _ => []
         end).
Proof.
  intros Hres Hkey. unfold stripped_or_empty. rewrite api_get_fold.
  destruct (last_value key results) as [v|] eqn:Hlast; cbn [mbind option_bind];
    [|reflexivity].
  pose proof (last_value_text _ _ _ Hres Hlast) as Htext.
  destruct v as [|s|z]; [|clear Htext|done].
  - by rewrite stored_null.
  - by rewrite (stored_text _ _ Hkey).
Qed.

End Mapper.

Section MapperTheorems.
Context `{FloatText}.

Lemma blank_not_unparseable (v : option pyval) : blank_value v -> ¬ unparseable v.
Proof.
  intros [->|[->|(s & -> & Hblank)]] (s' & e & Hs & Hne & _); [discriminate Hs..|].
  injection Hs as <-. contradiction.
Qed.

Lemma decode_vin_always (results : list item) (vin : pystr) :
  results ≠ [] ->
  (decode_vin (always results) vin).1 = Some (fold_left store_item results ∅).
Proof.
  intros Hne. unfold decode_vin.
  change (seq 0 (QueryApiTest.max_retries + 1)) with [0; 1; 2]%nat.
  cbn [decode_attempts always]. by destruct results.
Qed.

(** X20: The mapper on what [decode_vin] makes of a result set whose values
    are texts or [null].  It returns unless a displacement it formats
    is a text that [float] refused: the litres when they are not blank,
    else the cubic centimetres.  On such litres it raises
    [ValueError]. *)
Theorem mapping_returns_iff (results : list item) (vin : pystr) :
  results ≠ [] ->
  Forall (fun it => text_or_null (Value it)) results ->
  let api_data := fold_left store_item results ∅ in
  let l := last_value (u "Displacement (L)") results in
  let cc := last_value (u "Displacement (CC)") results in
  (decode_vin (always results) vin).1 = Some api_data
  /\ (returns (map_api_fields (Some api_data))
      <-> ¬ unparseable l /\ (blank_value l -> ¬ unparseable cc))
  /\ (unparseable l ->
      exists e, map_api_fields (Some api_data) = Raise e
                /\ exn_cls e = ValueErrorExc).
Proof.
  intros Hne Hres. cbn zeta. split; [by apply decode_vin_always|].
  assert (u "Make" ∉ [u "Displacement (L)"; u "Displacement (CC)"]) as HMake
    by by_evaluation.
  assert (u "Model" ∉ [u "Displacement (L)"; u "Displacement (CC)"]) as HModel
    by by_evaluation.
  assert (u "Other Engine Info" ∉ [u "Displacement (L)"; u "Displacement (CC)"])
    as HOther by by_evaluation.
  pose proof (text_read results _ Hres HMake) as RMake.
  pose proof (text_read results _ Hres HModel) as RModel.
  pose proof (text_read results _ Hres HOther) as ROther.
  assert (u "Displacement (L)" ∈ [u "Displacement (L)"; u "Displacement (CC)"])
    as HL by by_evaluation.
  assert (u "Displacement (CC)" ∈ [u "Displacement (L)"; u "Displacement (CC)"])
    as HCC by by_evaluation.
  pose proof (displacement_read results _ Hres HL) as RL.
  pose proof (displacement_read results _ Hres HCC) as RCC.
  cbn zeta in RL, RCC.
  unfold map_api_fields. rewrite (fold_store_item_size _ Hne). cbv zeta.
  rewrite RMake, RModel, ROther. clear RMake RModel ROther HMake HModel HOther HL HCC.
  generalize dependent (last_value (u "Displacement (L)") results).
  generalize dependent (last_value (u "Displacement (CC)") results).
  generalize (api_get (fold_left store_item results ∅) (u "Displacement (L)")).
  generalize (api_get (fold_left store_item results ∅) (u "Displacement (CC)")).
  intros read_cc read_l cc RCC l RL.
  destruct RL as [[Hbl ->]|[[Hul (s & ->)]|(Hnbl & Hnul & x & ->)]].
  - destruct RCC as [[Hbc ->]|[[Huc (s & ->)]|(Hnbc & Hnuc & x & ->)]].
    + cbn [mbind res_bind]. split_and!.
      * split; [intros _|intros _; by eexists].
        split; [|intros _]; by apply blank_not_unparseable.
      * intros Hu. by apply blank_not_unparseable in Hu.
    + cbn [div_1000 mbind res_bind]. split_and!.
      * split; [intros [m Hm]; discriminate Hm|].
        intros [_ Hcc]. by destruct (Hcc Hbl).
      * intros Hu. by apply blank_not_unparseable in Hu.
    + cbn [div_1000 mbind res_bind]. split_and!.
      * split; [intros _|intros _; by eexists].
        split; [by apply blank_not_unparseable | by intros _].
      * intros Hu. by apply blank_not_unparseable in Hu.
  - cbn [format_1f mbind res_bind]. split_and!.
    + split; [intros [m Hm]; discriminate Hm | intros [Hnu _]; contradiction].
    + intros _. eexists. split; reflexivity.
  - cbn [format_1f mbind res_bind]. split_and!.
    + split; [intros _|intros _; by eexists].
      split; [exact Hnul | intros Hb; contradiction].
    + intros Hu. contradiction.
Qed.

(** The fuel category of the mapped record is that of the service's
    fuel text. *)
Lemma map_api_fields_fuel (api_data : gmap pystr (option api_value)) (m : mapped) :
  map_api_fields (Some api_data) = Ret (Some m) ->
  api_standardized_fuel (api_raw_engine_data m)
  = standardize_fuel (api_get api_data (u "Fuel Type - Primary")).
Proof.
  unfold map_api_fields. destruct (size api_data =? 0)%nat; [discriminate|].
  cbv zeta.
  destruct (match api_get api_data (u "Displacement (L)") with
            | Some l => _
            | None => _
            end) as [display|e]; cbn [mbind res_bind]; [|discriminate].
  destruct (stripped_or_empty api_data (u "Make")) as [make|e];
    cbn [mbind res_bind]; [|discriminate].
  destruct (stripped_or_empty api_data (u "Model")) as [model|e];
    cbn [mbind res_bind]; [|discriminate].
  destruct (stripped_or_empty api_data (u "Other Engine Info")) as [other|e];
    cbn [mbind res_bind]; [|discriminate].
  intros Heq. apply Ret_inj in Heq. injection Heq as <-. reflexivity.
Qed.

Lemma lower_strip_nonblank (t needle : pystr) :
  needle ≠ [] -> contains needle (lower (strip t)) = true ->
  strip t ≠ [] /\ t ≠ [].
Proof.
  intros Hneedle Hc.
  assert (strip t ≠ []) as Hs.
  { intros Hnil. rewrite Hnil in Hc. destruct needle; [done|discriminate Hc]. }
  split; [exact Hs|]. intros ->. by apply Hs.
Qed.

(** X21: The two scripts put the same fuel text in different categories
    when it names both a hybrid and an electric drive and neither
    gasoline nor diesel: [VinApi_Query.py] tests electric first and says
    Electric, the comparison script tests hybrid first and says
    Hybrid. *)
Theorem fuel_standardizers_disagree (t : pystr)
    (api_raw_engine : gmap pystr pyval) (engine : pystr)
    (api_data : gmap pystr (option api_value)) (m : mapped) :
  contains (u "hybrid") (lower (strip t)) = true ->
  contains (u "electric") (lower (strip t)) = true ->
  existsb (fun kw => contains kw (lower (strip t))) gasoline_keywords = false ->
  contains (u "diesel") (lower (strip t)) = false ->
  api_raw_engine !! u "Fuel Type - Primary" = Some (PStr t) ->
  extract_standardized_engine api_raw_engine = Ret engine ->
  api_get api_data (u "Fuel Type - Primary") = Some (Raw (PStr t)) ->
  map_api_fields (Some api_data) = Ret (Some m) ->
  (exists shown, engine = u "Displacement: " ++ shown ++ u "; Fuel Type: Electric")
  /\ api_standardized_fuel (api_raw_engine_data m) = u "Hybrid".
Proof.
  intros Hhybrid Helectric Hgas Hdiesel Hraw Hengine Hget Hmapped.
  destruct (lower_strip_nonblank t (u "hybrid") ltac:(by_evaluation) Hhybrid)
    as [Hstrip Ht].
  split.
  - revert Hengine. unfold extract_standardized_engine. rewrite Hraw.
    cbv zeta. cbn [default from_option id truthy str]. unfold str_eqb.
    rewrite (bool_decide_eq_false_2 _ Ht), (bool_decide_eq_false_2 _ Hstrip).
    cbn [negb andb]. rewrite Hgas, Hdiesel, Helectric. cbn [mbind res_bind].
    intros Heq. apply Ret_inj in Heq as <-. by eexists.
  - rewrite (map_api_fields_fuel _ _ Hmapped), Hget.
    unfold standardize_fuel. cbn [truthy_value truthy str_value str]. unfold str_eqb.
    rewrite (bool_decide_eq_false_2 _ Ht), (bool_decide_eq_false_2 _ Hstrip).
    cbn [negb andb].
    assert (existsb (fun kw => contains kw (lower (strip t))) [u "gas"; u "petrol"]
            = false) as ->.
    { revert Hgas. unfold gasoline_keywords. cbn [existsb].
      destruct (contains (u "gas") _); [discriminate|].
      destruct (contains (u "petrol") _); [discriminate|]. reflexivity. }
    by rewrite Hdiesel, Hhybrid.
Qed.

End MapperTheorems.

Lemma mapping_returns_iff_witness :
  exists e,
    @map_api_fields decimal_text
      (Some (fold_left (@store_item decimal_text) odd_displacement ∅)) = Raise e
    /\ exn_cls e = ValueErrorExc.
Proof.
  destruct (@mapping_returns_iff decimal_text odd_displacement [])
    as (_ & _ & Hraise); [discriminate | repeat constructor |].
  apply Hraise. exists (u "2.0L"), (Exn ValueErrorExc (u "could not convert string to float")).
  split_and!; [vm_compute; reflexivity | by_evaluation | vm_compute; reflexivity].
Defined.

Lemma fuel_standardizers_disagree_witness :
  exists engine m,
    @extract_standardized_engine decimal_text
      {[ u "Fuel Type - Primary" := PStr plug_in_fuel ]} = Ret engine
    /\ @map_api_fields decimal_text
         (Some {[ u "Fuel Type - Primary" := Some (Raw (PStr plug_in_fuel)) ]})
       = Ret (Some m)
    /\ (exists shown,
          engine = u "Displacement: " ++ shown ++ u "; Fuel Type: Electric")
    /\ api_standardized_fuel (api_raw_engine_data m) = u "Hybrid".
Proof.
  eassert (@extract_standardized_engine decimal_text
             {[ u "Fuel Type - Primary" := PStr plug_in_fuel ]} = Ret _) as Hengine
    by (vm_compute; reflexivity).
  eassert (@map_api_fields decimal_text
             (Some {[ u "Fuel Type - Primary" := Some (Raw (PStr plug_in_fuel)) ]})
           = Ret (Some _)) as Hmapped
    by (vm_compute; reflexivity).
  eexists _, _. split; [exact Hengine|]. split; [exact Hmapped|].
  apply (@fuel_standardizers_disagree decimal_text plug_in_fuel
           {[ u "Fuel Type - Primary" := PStr plug_in_fuel ]} _
           {[ u "Fuel Type - Primary" := Some (Raw (PStr plug_in_fuel)) ]} _);
    [vm_compute; reflexivity.. | exact Hengine | vm_compute; reflexivity | exact Hmapped].
Defined.

(** ** The tallies of the report *)

Lemma tally_fields_returns (one : comparison) (todo : list pystr)
    (stats : gmap pystr nat) :
  returns (tally_fields one todo stats)
  <-> forall f, f ∈ todo -> is_Some (fields one !! f).
Proof.
  revert stats. induction todo as [|field later IH]; intros stats; cbn [tally_fields].
  - split; [intros _ f Hf; by apply elem_of_nil in Hf | intros _; by eexists].
  - destruct (fields one !! field) as [entry|] eqn:Hentry.
    + rewrite IH. split.
      * intros Hall f Hf. apply elem_of_cons in Hf as [->|Hf]; [by eexists | auto].
      * intros Hall f Hf. apply Hall. by right.
    + split; [intros [x Hx]; discriminate Hx|].
      intros Hall. destruct (Hall field) as [x Hx]; [left|]. congruence.
Qed.

Lemma tally_fields_raises (one : comparison) (todo : list pystr)
    (stats : gmap pystr nat) (e : exn) :
  tally_fields one todo stats = Raise e -> exn_cls e = KeyErrorExc.
Proof.
  revert stats. induction todo as [|field later IH]; intros stats; cbn [tally_fields];
    [discriminate|].
  destruct (fields one !! field) as [entry|]; [apply IH|].
  intros Heq. by injection Heq as <-.
Qed.

Lemma tally_returns (valid_results : list comparison) (t : tallies) :
  returns (tally valid_results t)
  <-> forall one f, one ∈ valid_results -> f ∈ fields_to_check ->
                    is_Some (fields one !! f).
Proof.
  revert t. induction valid_results as [|one later IH]; intros t; cbn [tally].
  - split; [intros _ one f Hone; by apply elem_of_nil in Hone | intros _; by eexists].
  - unfold tally_one.
    destruct (tally_fields one fields_to_check (field_stats t)) as [stats|e] eqn:Hone;
      cbn [mbind res_bind].
    + rewrite IH. split.
      * intros Hall o f Ho Hf. apply elem_of_cons in Ho as [->|Ho]; [|by apply Hall].
        apply (proj1 (tally_fields_returns one fields_to_check (field_stats t)));
          [by exists stats | exact Hf].
      * intros Hall o f Ho Hf. apply Hall; [by right | exact Hf].
    + split; [intros [x Hx]; discriminate Hx|].
      intros Hall.
      assert (returns (tally_fields one fields_to_check (field_stats t))) as [x Hx].
      { apply tally_fields_returns. intros f Hf. apply Hall; [left | exact Hf]. }
      congruence.
Qed.

Lemma tally_raises (valid_results : list comparison) (t : tallies) (e : exn) :
  tally valid_results t = Raise e -> exn_cls e = KeyErrorExc.
Proof.
  revert t. induction valid_results as [|one later IH]; intros t; cbn [tally];
    [discriminate|].
  unfold tally_one.
  destruct (tally_fields one fields_to_check (field_stats t)) as [stats|e'] eqn:Hone;
    cbn [mbind res_bind]; [apply IH|].
  intros Heq. injection Heq as <-. by apply tally_fields_raises in Hone.
Qed.

(** X22: The tallying loop of the report needs every compared field in
    every result: it returns when each result holds an entry for each of
    the five fields and raises [KeyError] otherwise.  The results of
    [compare_with_source] hold all five; the result [compare_vehicles]
    gives when there is no API data and the VIN is not 17 characters long
    holds none, so one such VIN stops the report. *)
Theorem tally_needs_every_field (valid_results : list comparison) :
  (returns (tally valid_results initial_tallies)
   <-> forall one f, one ∈ valid_results -> f ∈ fields_to_check ->
                     is_Some (fields one !! f))
  /\ (forall e, tally valid_results initial_tallies = Raise e ->
                exn_cls e = KeyErrorExc)
  /\ (forall local_data src result_template source_name r f,
        compare_with_source local_data src result_template source_name = Ret r ->
        f ∈ fields_to_check -> is_Some (fields r !! f))
  /\ (forall local_data vin,
        length vin ≠ 17%nat ->
        exists r, compare_vehicles local_data None vin = Ret r /\ fields r = ∅).
Proof.
  split_and!.
  - apply tally_returns.
  - intros e. apply tally_raises.
  - intros local_data src result_template source_name r f Hrun Hf.
    destruct (compare_with_source_entry _ _ _ _ _ f Hrun Hf)
      as (entry & engine & _ & -> & _). by eexists.
  - intros local_data vin Hlen. unfold compare_vehicles.
    rewrite (test_hard_decode_none vin Hlen). by eexists.
Qed.

(** Two results, the second for a VIN of sixteen characters without
    API data: no tallies. *)
Example tally_stops :
  exn_cls <$> (match tally [example_verdict;
                            verdict_of (compare_vehicles example_local None
                                          (u "1HGCM8263KA00435"))]
                       initial_tallies with
               | Raise e => Some e
               | Ret _ => None
               end) = Some KeyErrorExc.
Proof. vm_compute. reflexivity. Qed.
